(** * gpio_keys: debounce pipeline, enable/disable control and long-press remap

    A shallow embedding of [drivers/input/keyboard/gpio_keys.c].  The driver
    state (per-line runtime data, the file-scope remap variables and work
    items) is one record that every driver entry point transforms; calls into
    the kernel (input core, interrupt controller, timers, the AB8500 power-key
    emulator) update that record and are appended to a log of actions. *)

From Stdlib Require Import String DecimalString.
From stdpp Require Import base tactics option list gmap.
From Stdlib Require Import ZArith Lia Bool.

Local Open Scope Z_scope.

(** ** Constants of [linux/input.h] and [errno.h] *)

Definition EV_KEY : Z := 1.
Definition EV_ABS : Z := 3.
Definition EV_SW : Z := 5.
Definition KEY_CNT : Z := 768.
Definition SW_CNT : Z := 16.

Definition KEY_HOME : Z := 102.
Definition KEY_VOLUMEDOWN : Z := 114.
Definition KEY_VOLUMEUP : Z := 115.
Definition KEY_POWER : Z := 116.
Definition KEY_NEXTSONG : Z := 163.
Definition KEY_PLAYPAUSE : Z := 164.
Definition KEY_PREVIOUSSONG : Z := 165.

Definition ENOMEM : Z := 12.
Definition EINVAL : Z := 22.

(** C truth value of an integer. *)
Definition truthy (z : Z) : bool := negb (z =? 0).

(** [!!z] *)
Definition notnot (z : Z) : Z := if z =? 0 then 0 else 1.

(** ** Data *)

(** [struct gpio_keys_button] (platform data of one line). *)
Record gpio_keys_button := {
  code : Z;
  gpio : Z;
  active_low : Z;
  type : Z;
  wakeup : Z;
  debounce_interval : Z;
  can_disable : bool;
  value : Z
}.

(** [struct gpio_button_data].  [timer] holds the expiry (in jiffies) while
    the timer is pending, [work] tells whether the work item is queued. *)
Record gpio_button_data := {
  button : gpio_keys_button;
  timer : option Z;
  work : bool;
  timer_debounce : Z;
  disabled : bool;
  key_state : bool
}.

(** Module parameters and mode flags that the event path only reads. *)
Record module_params := {
  emulator_volup : bool;
  emulator_voldown : bool;
  volkey_press_skip_track : Z;
  homekey_press_play : Z;
  volkey_long_press_delay_ms : Z;
  homekey_long_press_delay_ms : Z;
  volkey_do_volume_key_press_delay_ms : Z;
  homekey_do_press_play_delay_ms : Z;
  volkey_skip_tracks_in_suspend_only : Z;
  homekey_press_play_in_suspend_only : Z;
  volkey_debug_level : Z;
  is_early_suspend : bool;
  is_suspend : Z
}.

(** The file-scope variables of the volume session. *)
Record volkey_vars := {
  volkey_skip_track_is_ongoing : bool;
  volkey_do_volume_key_press_is_ongoing : bool;
  volkey_skip_track_now : bool;
  volkey_remap_keys : bool;
  volkey_emulate_key_nextsong : bool
}.

(** The file-scope variables of the home session. *)
Record homekey_vars := {
  homekey_press_play_is_ongoing : bool;
  homekey_do_press_play_is_ongoing : bool;
  homekey_press_play_now : bool;
  homekey_is_remapped : bool
}.

(** The file-scope variables of the on-demand emulator. *)
Record emu_vars := {
  emu_working : bool;
  emu_keycode : Z;
  g_bVolUp : bool;
  g_bPower : bool;
  g_bHome : bool
}.

(** The file-scope work items.  A delayed work holds the expiry of its timer
    while it is pending; a plain work is queued or not. *)
Record works := {
  volkey_skip_track_work : option Z;
  homekey_press_play_work : option Z;
  volkey_do_volume_key_press_work : bool;
  homekey_do_press_play_work : bool;
  gpio_keys_emulator_work : bool
}.

(** Calls that leave the driver, as they appear in the log. *)
Inductive action :=
| GpioGetValue (gpio v : Z)
| InputEvent (type code value : Z)
| InputSync
| PonkeyEmulator (key press : Z)
| PonkeyRemapPowerKey (old_key new_key : Z)
| PonkeyUnmapAllKeys (keys : list Z)
| Mdelay (ms : Z)
| PrErr (msg : String.string)
| MutexLock
| MutexUnlock
| DisableIrq (irq : Z)
| EnableIrq (irq : Z)
| DelTimerSync (line : nat).

(** The driver together with the part of the kernel it talks to. *)
Record system := {
  ddata : list gpio_button_data;
  params : module_params;
  volkey : volkey_vars;
  homekey : homekey_vars;
  emu : emu_vars;
  wq : works;
  jiffies : Z;
  irq_depth : gmap Z nat;
  gpio_level : gmap Z Z;
  log : list action
}.

(** ** Field updates *)

Definition set_ddata (d : list gpio_button_data) (s : system) : system :=
  {| ddata := d; params := params s; volkey := volkey s; homekey := homekey s;
     emu := emu s; wq := wq s; jiffies := jiffies s; irq_depth := irq_depth s;
     gpio_level := gpio_level s; log := log s |}.

Definition set_params (p : module_params) (s : system) : system :=
  {| ddata := ddata s; params := p; volkey := volkey s; homekey := homekey s;
     emu := emu s; wq := wq s; jiffies := jiffies s; irq_depth := irq_depth s;
     gpio_level := gpio_level s; log := log s |}.

Definition set_volkey (v : volkey_vars) (s : system) : system :=
  {| ddata := ddata s; params := params s; volkey := v; homekey := homekey s;
     emu := emu s; wq := wq s; jiffies := jiffies s; irq_depth := irq_depth s;
     gpio_level := gpio_level s; log := log s |}.

Definition set_homekey (h : homekey_vars) (s : system) : system :=
  {| ddata := ddata s; params := params s; volkey := volkey s; homekey := h;
     emu := emu s; wq := wq s; jiffies := jiffies s; irq_depth := irq_depth s;
     gpio_level := gpio_level s; log := log s |}.

Definition set_emu (e : emu_vars) (s : system) : system :=
  {| ddata := ddata s; params := params s; volkey := volkey s; homekey := homekey s;
     emu := e; wq := wq s; jiffies := jiffies s; irq_depth := irq_depth s;
     gpio_level := gpio_level s; log := log s |}.

Definition set_wq (w : works) (s : system) : system :=
  {| ddata := ddata s; params := params s; volkey := volkey s; homekey := homekey s;
     emu := emu s; wq := w; jiffies := jiffies s; irq_depth := irq_depth s;
     gpio_level := gpio_level s; log := log s |}.

Definition set_jiffies (t : Z) (s : system) : system :=
  {| ddata := ddata s; params := params s; volkey := volkey s; homekey := homekey s;
     emu := emu s; wq := wq s; jiffies := t; irq_depth := irq_depth s;
     gpio_level := gpio_level s; log := log s |}.

Definition set_irq_depth (m : gmap Z nat) (s : system) : system :=
  {| ddata := ddata s; params := params s; volkey := volkey s; homekey := homekey s;
     emu := emu s; wq := wq s; jiffies := jiffies s; irq_depth := m;
     gpio_level := gpio_level s; log := log s |}.

Definition set_gpio_level (m : gmap Z Z) (s : system) : system :=
  {| ddata := ddata s; params := params s; volkey := volkey s; homekey := homekey s;
     emu := emu s; wq := wq s; jiffies := jiffies s; irq_depth := irq_depth s;
     gpio_level := m; log := log s |}.

(** Append one call to the log. *)
Definition emit (a : action) (s : system) : system :=
  {| ddata := ddata s; params := params s; volkey := volkey s; homekey := homekey s;
     emu := emu s; wq := wq s; jiffies := jiffies s; irq_depth := irq_depth s;
     gpio_level := gpio_level s; log := log s ++ [a] |}.

Definition set_button (b : gpio_keys_button) (d : gpio_button_data) : gpio_button_data :=
  {| button := b; timer := timer d; work := work d;
     timer_debounce := timer_debounce d; disabled := disabled d;
     key_state := key_state d |}.

Definition set_timer (t : option Z) (d : gpio_button_data) : gpio_button_data :=
  {| button := button d; timer := t; work := work d;
     timer_debounce := timer_debounce d; disabled := disabled d;
     key_state := key_state d |}.

Definition set_work (w : bool) (d : gpio_button_data) : gpio_button_data :=
  {| button := button d; timer := timer d; work := w;
     timer_debounce := timer_debounce d; disabled := disabled d;
     key_state := key_state d |}.

Definition set_disabled (x : bool) (d : gpio_button_data) : gpio_button_data :=
  {| button := button d; timer := timer d; work := work d;
     timer_debounce := timer_debounce d; disabled := x;
     key_state := key_state d |}.

Definition set_key_state (x : bool) (d : gpio_button_data) : gpio_button_data :=
  {| button := button d; timer := timer d; work := work d;
     timer_debounce := timer_debounce d; disabled := disabled d;
     key_state := x |}.

Definition set_wakeup (w : Z) (b : gpio_keys_button) : gpio_keys_button :=
  {| code := code b; gpio := gpio b; active_low := active_low b; type := type b;
     wakeup := w; debounce_interval := debounce_interval b;
     can_disable := can_disable b; value := value b |}.

Definition set_volkey_skip_track_is_ongoing (x : bool) (r : volkey_vars) : volkey_vars :=
  {| volkey_skip_track_is_ongoing := x;
     volkey_do_volume_key_press_is_ongoing := volkey_do_volume_key_press_is_ongoing r;
     volkey_skip_track_now := volkey_skip_track_now r;
     volkey_remap_keys := volkey_remap_keys r;
     volkey_emulate_key_nextsong := volkey_emulate_key_nextsong r |}.

Definition set_volkey_do_volume_key_press_is_ongoing (x : bool) (r : volkey_vars) : volkey_vars :=
  {| volkey_skip_track_is_ongoing := volkey_skip_track_is_ongoing r;
     volkey_do_volume_key_press_is_ongoing := x;
     volkey_skip_track_now := volkey_skip_track_now r;
     volkey_remap_keys := volkey_remap_keys r;
     volkey_emulate_key_nextsong := volkey_emulate_key_nextsong r |}.

Definition set_volkey_skip_track_now (x : bool) (r : volkey_vars) : volkey_vars :=
  {| volkey_skip_track_is_ongoing := volkey_skip_track_is_ongoing r;
     volkey_do_volume_key_press_is_ongoing := volkey_do_volume_key_press_is_ongoing r;
     volkey_skip_track_now := x; volkey_remap_keys := volkey_remap_keys r;
     volkey_emulate_key_nextsong := volkey_emulate_key_nextsong r |}.

Definition set_volkey_remap_keys (x : bool) (r : volkey_vars) : volkey_vars :=
  {| volkey_skip_track_is_ongoing := volkey_skip_track_is_ongoing r;
     volkey_do_volume_key_press_is_ongoing := volkey_do_volume_key_press_is_ongoing r;
     volkey_skip_track_now := volkey_skip_track_now r; volkey_remap_keys := x;
     volkey_emulate_key_nextsong := volkey_emulate_key_nextsong r |}.

Definition set_volkey_emulate_key_nextsong (x : bool) (r : volkey_vars) : volkey_vars :=
  {| volkey_skip_track_is_ongoing := volkey_skip_track_is_ongoing r;
     volkey_do_volume_key_press_is_ongoing := volkey_do_volume_key_press_is_ongoing r;
     volkey_skip_track_now := volkey_skip_track_now r;
     volkey_remap_keys := volkey_remap_keys r;
     volkey_emulate_key_nextsong := x |}.

Definition set_homekey_press_play_is_ongoing (x : bool) (r : homekey_vars) : homekey_vars :=
  {| homekey_press_play_is_ongoing := x;
     homekey_do_press_play_is_ongoing := homekey_do_press_play_is_ongoing r;
     homekey_press_play_now := homekey_press_play_now r;
     homekey_is_remapped := homekey_is_remapped r |}.

Definition set_homekey_do_press_play_is_ongoing (x : bool) (r : homekey_vars) : homekey_vars :=
  {| homekey_press_play_is_ongoing := homekey_press_play_is_ongoing r;
     homekey_do_press_play_is_ongoing := x;
     homekey_press_play_now := homekey_press_play_now r;
     homekey_is_remapped := homekey_is_remapped r |}.

Definition set_homekey_press_play_now (x : bool) (r : homekey_vars) : homekey_vars :=
  {| homekey_press_play_is_ongoing := homekey_press_play_is_ongoing r;
     homekey_do_press_play_is_ongoing := homekey_do_press_play_is_ongoing r;
     homekey_press_play_now := x;
     homekey_is_remapped := homekey_is_remapped r |}.

Definition set_homekey_is_remapped (x : bool) (r : homekey_vars) : homekey_vars :=
  {| homekey_press_play_is_ongoing := homekey_press_play_is_ongoing r;
     homekey_do_press_play_is_ongoing := homekey_do_press_play_is_ongoing r;
     homekey_press_play_now := homekey_press_play_now r;
     homekey_is_remapped := x |}.

Definition set_emu_working (x : bool) (r : emu_vars) : emu_vars :=
  {| emu_working := x; emu_keycode := emu_keycode r; g_bVolUp := g_bVolUp r;
     g_bPower := g_bPower r; g_bHome := g_bHome r |}.

Definition set_emu_keycode (x : Z) (r : emu_vars) : emu_vars :=
  {| emu_working := emu_working r; emu_keycode := x; g_bVolUp := g_bVolUp r;
     g_bPower := g_bPower r; g_bHome := g_bHome r |}.

Definition set_g_bVolUp (x : bool) (r : emu_vars) : emu_vars :=
  {| emu_working := emu_working r; emu_keycode := emu_keycode r;
     g_bVolUp := x; g_bPower := g_bPower r; g_bHome := g_bHome r |}.

Definition set_g_bPower (x : bool) (r : emu_vars) : emu_vars :=
  {| emu_working := emu_working r; emu_keycode := emu_keycode r;
     g_bVolUp := g_bVolUp r; g_bPower := x; g_bHome := g_bHome r |}.

Definition set_g_bHome (x : bool) (r : emu_vars) : emu_vars :=
  {| emu_working := emu_working r; emu_keycode := emu_keycode r;
     g_bVolUp := g_bVolUp r; g_bPower := g_bPower r; g_bHome := x |}.

Definition set_volkey_skip_track_work (x : option Z) (r : works) : works :=
  {| volkey_skip_track_work := x;
     homekey_press_play_work := homekey_press_play_work r;
     volkey_do_volume_key_press_work := volkey_do_volume_key_press_work r;
     homekey_do_press_play_work := homekey_do_press_play_work r;
     gpio_keys_emulator_work := gpio_keys_emulator_work r |}.

Definition set_homekey_press_play_work (x : option Z) (r : works) : works :=
  {| volkey_skip_track_work := volkey_skip_track_work r;
     homekey_press_play_work := x;
     volkey_do_volume_key_press_work := volkey_do_volume_key_press_work r;
     homekey_do_press_play_work := homekey_do_press_play_work r;
     gpio_keys_emulator_work := gpio_keys_emulator_work r |}.

Definition set_volkey_do_volume_key_press_work (x : bool) (r : works) : works :=
  {| volkey_skip_track_work := volkey_skip_track_work r;
     homekey_press_play_work := homekey_press_play_work r;
     volkey_do_volume_key_press_work := x;
     homekey_do_press_play_work := homekey_do_press_play_work r;
     gpio_keys_emulator_work := gpio_keys_emulator_work r |}.

Definition set_homekey_do_press_play_work (x : bool) (r : works) : works :=
  {| volkey_skip_track_work := volkey_skip_track_work r;
     homekey_press_play_work := homekey_press_play_work r;
     volkey_do_volume_key_press_work := volkey_do_volume_key_press_work r;
     homekey_do_press_play_work := x;
     gpio_keys_emulator_work := gpio_keys_emulator_work r |}.

Definition set_gpio_keys_emulator_work (x : bool) (r : works) : works :=
  {| volkey_skip_track_work := volkey_skip_track_work r;
     homekey_press_play_work := homekey_press_play_work r;
     volkey_do_volume_key_press_work := volkey_do_volume_key_press_work r;
     homekey_do_press_play_work := homekey_do_press_play_work r;
     gpio_keys_emulator_work := x |}.

(** ** Diagnostic messages

    The format strings of the driver's [pr_err] calls. *)

Definition msg_emu_keycode_not_set : String.string :=
  "%s: emu_keycode is not set".
Definition msg_emulator_work_running : String.string :=
  "%s: gpio_keys_emulator_work already running".
Definition msg_unknown_cmds : String.string :=
  "%s: unknown cmds".
Definition msg_homekey_pressed : String.string :=
  "[GPIO-KEYS] homekey is pressed".
Definition msg_homekey_released_short : String.string :=
  "[GPIO-KEYS] homekey is released, not pressing play".
Definition msg_homekey_released_long : String.string :=
  "[GPIO-KEYS] homekey is released, skipping track".
Definition msg_homekey_work_already_run : String.string :=
  "[GPIO-KEYS] homekey_press_play_work is already run".
Definition msg_vol_pressed : String.string :=
  "[GPIO-KEYS] vol.%s is pressed".
Definition msg_vol_released_short : String.string :=
  "[GPIO-KEYS] vol.%s is released, not skipping track".
Definition msg_vol_released_long : String.string :=
  "[GPIO-KEYS] vol.%s is released, skipping track".
Definition msg_volkey_work_already_run : String.string :=
  "[GPIO-KEYS] volkey_skip_track_work is already run".
Definition msg_emulate_press : String.string :=
  "[gpio-keys] Emulate %d Key PRESS".
Definition msg_emulate_release : String.string :=
  "[gpio-keys] Emulate %d Key RELEASE".
Definition msg_emulator_thread_called : String.string :=
  "[gpio-keys] Emulator thread called, timer = %d".
Definition msg_cannot_find_button : String.string :=
  "[gpio-keys] can't find button with keycode %d".
Definition msg_skipping_homekey_do_press_play_work : String.string :=
  "skipping homekey_do_press_play_work".
Definition msg_skipping_homekey_press_play_work : String.string :=
  "skipping homekey_press_play_work".
Definition msg_skipping_volkey_do_volume_key_press_work : String.string :=
  "skipping volkey_do_volume_key_press_work".
Definition msg_skipping_volkey_skip_track_work : String.string :=
  "skipping volkey_skip_track_work".

#[global] Opaque msg_emu_keycode_not_set
  msg_emulator_work_running
  msg_unknown_cmds
  msg_homekey_pressed
  msg_homekey_released_short
  msg_homekey_released_long
  msg_homekey_work_already_run
  msg_vol_pressed
  msg_vol_released_short
  msg_vol_released_long
  msg_volkey_work_already_run
  msg_emulate_press
  msg_emulate_release
  msg_emulator_thread_called
  msg_cannot_find_button
  msg_skipping_homekey_do_press_play_work
  msg_skipping_homekey_press_play_work
  msg_skipping_volkey_do_volume_key_press_work
  msg_skipping_volkey_skip_track_work.

(** ** Kernel services used by the driver

    Their behaviour is the kernel's: a work item is queued at most once, a
    timer has one expiry, [disable_irq] nests (the interrupt is masked while
    its depth is positive). *)

Definition update_line (i : nat) (f : gpio_button_data → gpio_button_data)
    (s : system) : system :=
  set_ddata (alter f i (ddata s)) s.

Definition gpio_get_value (g : Z) (s : system) : Z :=
  default 0 (gpio_level s !! g).

Definition irq_disable_depth (irq : Z) (s : system) : nat :=
  default 0%nat (irq_depth s !! irq).

Definition irq_masked (irq : Z) (s : system) : bool :=
  negb (Nat.eqb (irq_disable_depth irq s) 0).

Definition disable_irq (irq : Z) (s : system) : system :=
  emit (DisableIrq irq)
    (set_irq_depth (<[irq := S (irq_disable_depth irq s)]> (irq_depth s)) s).

Definition enable_irq (irq : Z) (s : system) : system :=
  emit (EnableIrq irq)
    (set_irq_depth (<[irq := Nat.pred (irq_disable_depth irq s)]> (irq_depth s)) s).

Definition mod_timer (i : nat) (expires : Z) (s : system) : system :=
  update_line i (set_timer (Some expires)) s.

Definition del_timer_sync (i : nat) (s : system) : system :=
  emit (DelTimerSync i) (update_line i (set_timer None) s).

(** [schedule_work(&bdata->work)] *)
Definition schedule_work (i : nat) (s : system) : system :=
  update_line i (set_work true) s.

(** [schedule_delayed_work]: no effect on a work that is already pending. *)
Definition schedule_delayed (w : option Z) (now delay : Z) : option Z :=
  match w with
  | Some e => Some e
  | None => Some (now + delay)
  end.

Definition input_event (ty c v : Z) (s : system) : system :=
  emit (InputEvent ty c v) s.

Definition input_sync (s : system) : system := emit InputSync s.

Definition pr_err (msg : String.string) (s : system) : system := emit (PrErr msg) s.

(** [if (c) pr_err(msg);]: the message reaches the log when [c] holds. *)
Definition pr_err_if (c : bool) (msg : String.string) (s : system) : system :=
  {| ddata := ddata s; params := params s; volkey := volkey s; homekey := homekey s;
     emu := emu s; wq := wq s; jiffies := jiffies s; irq_depth := irq_depth s;
     gpio_level := gpio_level s;
     log := log s ++ (if c then [PrErr msg] else []) |}.

(** A loop [for (i = 0; i < ddata->n_buttons; i++) body]. *)
Definition for_each_button (body : nat → system → system) (s : system) : system :=
  foldl (λ s i, body i s) s (seq 0 (length (ddata s))).

(** [test_bit(nr, bits)] and [__set_bit(nr, bits)] on a bitmap held as an
    integer. *)
Definition test_bit (nr bits : Z) : bool := Z.testbit bits nr.
Definition __set_bit (nr bits : Z) : Z := Z.lor bits (Z.shiftl 1 nr).

Section driver.

(** Board constants of [mach/board-sec-u8500.h] and the two conversions the
    kernel provides. *)
Variable VOL_UP_JANICE_R0_0 : Z.
Variable VOL_DOWN_JANICE_R0_0 : Z.
Variable HOME_KEY_JANICE_R0_0 : Z.
Variable HOME_KEY_CODINA_R0_5 : Z.
Variable gpio_to_irq : Z → Z.
Variable msecs_to_jiffies : Z → Z.

(** ** Enable/disable control *)

(** [get_n_events_by_type]; its [BUG_ON] confines callers to [EV_KEY] and
    [EV_SW]. *)
Definition get_n_events_by_type (ty : Z) : Z :=
  if ty =? EV_KEY then KEY_CNT else SW_CNT.

Definition gpio_keys_disable_button (i : nat) (s : system) : system :=
  match ddata s !! i with
  | None => s
  | Some bdata =>
      if negb (disabled bdata) then
        let s := disable_irq (gpio_to_irq (gpio (button bdata))) s in
        let s := if truthy (timer_debounce bdata) then del_timer_sync i s else s in
        update_line i (set_disabled true) s
      else s
  end.

Definition gpio_keys_enable_button (i : nat) (s : system) : system :=
  match ddata s !! i with
  | None => s
  | Some bdata =>
      if disabled bdata then
        let s := enable_irq (gpio_to_irq (gpio (button bdata))) s in
        update_line i (set_disabled false) s
      else s
  end.

(** The bitmap that [gpio_keys_attr_show_helper] builds and hands to
    [bitmap_scnlistprintf]. *)
Definition show_bits (ty : Z) (only_disabled : bool)
    (l : list gpio_button_data) : Z :=
  foldl (λ bits bdata,
           if negb (type (button bdata) =? ty) then bits
           else if only_disabled && negb (disabled bdata) then bits
           else __set_bit (code (button bdata)) bits) 0 l.

(** What [bitmap_scnlistprintf(buf, buflen, bits, nbits)] prints of a
    bitmap: its bits below [nbits]. *)
Definition bitmap_scnlistprintf (bits nbits : Z) : Z :=
  Z.land bits (Z.ones nbits).

(** [gpio_keys_attr_show_helper]: [inl] is the error of a failed allocation,
    [inr] the bitmap that is printed.  Only the first [n_events] bits of the
    bitmap built by the loop are printed: the bit of a code at or above
    [n_events] is set outside that range and does not show. *)
Definition gpio_keys_attr_show_helper (kcalloc_ok : bool) (ty : Z)
    (only_disabled : bool) (s : system) : Z + Z :=
  let n_events := get_n_events_by_type ty in
  if negb kcalloc_ok then inl (- ENOMEM)
  else inr (bitmap_scnlistprintf (show_bits ty only_disabled (ddata s))
              n_events).

(** The first loop of [gpio_keys_attr_store_helper]. *)
Fixpoint store_validate (ty bits : Z) (l : list gpio_button_data) : Z :=
  match l with
  | [] => 0
  | bdata :: l =>
      if negb (type (button bdata) =? ty) then store_validate ty bits l
      else if test_bit (code (button bdata)) bits
              && negb (can_disable (button bdata)) then - EINVAL
      else store_validate ty bits l
  end.

(** The body of its second loop. *)
Definition store_apply (ty bits : Z) (i : nat) (s : system) : system :=
  match ddata s !! i with
  | None => s
  | Some bdata =>
      if negb (type (button bdata) =? ty) then s
      else if test_bit (code (button bdata)) bits
           then gpio_keys_disable_button i s
           else gpio_keys_enable_button i s
  end.

(** [gpio_keys_attr_store_helper].  The text enters only through
    [bitmap_parselist]; [parse_error] and [bits] are what that call returns
    and leaves in the bitmap, [kcalloc_ok] whether the bitmap could be
    allocated.  The result is the returned error and the new state. *)
Definition gpio_keys_attr_store_helper (kcalloc_ok : bool)
    (parse_error bits : Z) (ty : Z) (s : system) : Z * system :=
  if negb kcalloc_ok then (- ENOMEM, s)
  else if truthy parse_error then (parse_error, s)
  else
    let error := store_validate ty bits (ddata s) in
    if truthy error then (error, s)
    else
      let s := emit MutexLock s in
      let s := for_each_button (store_apply ty bits) s in
      let s := emit MutexUnlock s in
      (0, s).

(** [ATTR_STORE_FN]: the two store entry points. *)
Definition gpio_keys_store (ty : Z) (kcalloc_ok : bool) (parse_error bits : Z)
    (count : Z) (s : system) : Z * system :=
  let r := gpio_keys_attr_store_helper kcalloc_ok parse_error bits ty s in
  if truthy (fst r) then r else (count, snd r).

Definition gpio_keys_store_disabled_keys := gpio_keys_store EV_KEY.
Definition gpio_keys_store_disabled_switches := gpio_keys_store EV_SW.

Definition gpio_keys_show_disabled_keys (kcalloc_ok : bool) (s : system) :=
  gpio_keys_attr_show_helper kcalloc_ok EV_KEY true s.
Definition gpio_keys_show_disabled_switches (kcalloc_ok : bool) (s : system) :=
  gpio_keys_attr_show_helper kcalloc_ok EV_SW true s.

(** [wakeup_enable]: the loop runs over every line, whatever its type. *)
Definition wakeup_enable (kcalloc_ok : bool) (parse_error bits : Z)
    (count : Z) (s : system) : Z * system :=
  if negb kcalloc_ok then (- ENOMEM, s)
  else if truthy parse_error then (count, s)
  else
    (count,
     for_each_button
       (λ i s,
          match ddata s !! i with
          | None => s
          | Some bdata =>
              if test_bit (code (button bdata)) bits
              then update_line i (λ d, set_button (set_wakeup 1 (button d)) d) s
              else update_line i (λ d, set_button (set_wakeup 0 (button d)) d) s
          end) s).

(** ** Long-press remap sessions and the emulation injector *)

Definition assign_volkey (f : volkey_vars → volkey_vars) (s : system) : system :=
  set_volkey (f (volkey s)) s.

Definition assign_homekey (f : homekey_vars → homekey_vars) (s : system) : system :=
  set_homekey (f (homekey s)) s.

Definition assign_emu (f : emu_vars → emu_vars) (s : system) : system :=
  set_emu (f (emu s)) s.

Definition assign_wq (f : works → works) (s : system) : system :=
  set_wq (f (wq s)) s.

Definition ab8500_ponkey_emulator (key press : Z) (s : system) : system :=
  emit (PonkeyEmulator key press) s.

Definition abb_ponkey_remap_power_key (old_key new_key : Z) (s : system) : system :=
  emit (PonkeyRemapPowerKey old_key new_key) s.

Definition mdelay (ms : Z) (s : system) : system := emit (Mdelay ms) s.

Definition volkey_reset_variables (s : system) : system :=
  set_volkey
    {| volkey_skip_track_is_ongoing := false;
       volkey_do_volume_key_press_is_ongoing := false;
       volkey_skip_track_now := false;
       volkey_remap_keys := false;
       volkey_emulate_key_nextsong := false |} s.

Definition homekey_reset_variables (s : system) : system :=
  set_homekey
    {| homekey_press_play_is_ongoing := false;
       homekey_do_press_play_is_ongoing := false;
       homekey_press_play_now := false;
       homekey_is_remapped := false |} s.

Definition volkey_skip_track_fn (s : system) : system :=
  let s := assign_volkey (set_volkey_skip_track_now true) s in
  assign_volkey (set_volkey_skip_track_is_ongoing false) s.

Definition homekey_press_play_fn (s : system) : system :=
  let s := assign_homekey (set_homekey_press_play_now true) s in
  assign_homekey (set_homekey_press_play_is_ongoing false) s.

Definition emulated_keys : list Z :=
  [KEY_NEXTSONG; KEY_PREVIOUSSONG; KEY_VOLUMEUP; KEY_VOLUMEDOWN;
   HOME_KEY_JANICE_R0_0; HOME_KEY_CODINA_R0_5; KEY_PLAYPAUSE].

Definition unmap_keys (s : system) : system :=
  emit (PonkeyUnmapAllKeys emulated_keys) s.

Definition volkey_do_volume_key_press_fn (s : system) : system :=
  let key :=
    if volkey_remap_keys (volkey s)
    then (if volkey_emulate_key_nextsong (volkey s)
          then KEY_NEXTSONG else KEY_PREVIOUSSONG)
    else (if volkey_emulate_key_nextsong (volkey s)
          then KEY_VOLUMEUP else KEY_VOLUMEDOWN) in
  let s := ab8500_ponkey_emulator key 1 s in
  let s := mdelay (volkey_do_volume_key_press_delay_ms (params s)) s in
  let s := ab8500_ponkey_emulator key 0 s in
  let s := unmap_keys s in
  assign_volkey (set_volkey_do_volume_key_press_is_ongoing false) s.

Definition homekey_do_press_play_fn (s : system) : system :=
  let key :=
    if homekey_is_remapped (homekey s) then KEY_PLAYPAUSE
    else HOME_KEY_CODINA_R0_5 in
  let s := ab8500_ponkey_emulator key 1 s in
  let s := mdelay (homekey_do_press_play_delay_ms (params s)) s in
  let s := ab8500_ponkey_emulator key 0 s in
  let s := unmap_keys s in
  assign_homekey (set_homekey_do_press_play_is_ongoing false) s.



(** ** Deferred evaluation: [gpio_keys_report_event] *)

(** How a block of the function ends: by [return 0], or by reaching its
    closing brace. *)
Inductive flow :=
| Return (s : system)
| Continue (s : system).

Definition flow_state (f : flow) : system :=
  match f with
  | Return s => s
  | Continue s => s
  end.

Definition dbg (s : system) : Z := volkey_debug_level (params s).

(** The condition of the third [else if] (lines 616-617). *)
Definition remap_gate (p : module_params) : bool :=
  (truthy (volkey_press_skip_track p) || truthy (homekey_press_play p))
  && negb (truthy (is_suspend p))
  && (is_early_suspend p
      || negb (truthy (volkey_skip_tracks_in_suspend_only p))
      || negb (truthy (homekey_press_play_in_suspend_only p))).

(** The condition of line 618. *)
Definition homekey_gate (p : module_params) : bool :=
  truthy (homekey_press_play p)
  || negb (truthy (homekey_press_play_in_suspend_only p)).

(** The condition of line 678. *)
Definition volkey_gate (p : module_params) : bool :=
  truthy (volkey_press_skip_track p)
  || negb (truthy (volkey_skip_tracks_in_suspend_only p)).

(** Lines 620-676: the body of [if (button->gpio == HOME_KEY_JANICE_R0_0)]. *)
Definition homekey_block (state : Z) (s : system) : flow :=
  let s :=
    if homekey_press_play_is_ongoing (homekey s) && (state =? 1) then
      let s := pr_err_if (0 <? dbg s)
                 msg_homekey_work_already_run s in
      let s := assign_wq (set_homekey_press_play_work None) s in
      let s := assign_homekey (set_homekey_press_play_is_ongoing false) s in
      assign_homekey (set_homekey_press_play_now false) s
    else s in
  if state =? 1 then
    let s := pr_err_if (0 <? dbg s) msg_homekey_pressed s in
    let s :=
      if negb (homekey_press_play_is_ongoing (homekey s)) then
        let s := assign_wq
                   (λ w, set_homekey_press_play_work
                           (schedule_delayed (homekey_press_play_work w) (jiffies s)
                              (homekey_long_press_delay_ms (params s))) w) s in
        let s := assign_homekey (set_homekey_press_play_now false) s in
        assign_homekey (set_homekey_press_play_is_ongoing true) s
      else pr_err_if (1 <? dbg s) msg_skipping_homekey_press_play_work s in
    Return s
  else if (state =? 0) && homekey_press_play_now (homekey s) then
    let s := pr_err_if (0 <? dbg s)
               msg_homekey_released_long s in
    let s :=
      if negb (homekey_do_press_play_is_ongoing (homekey s)) then
        let s := abb_ponkey_remap_power_key KEY_POWER KEY_PLAYPAUSE s in
        let s := assign_homekey (set_homekey_is_remapped true) s in
        let s := assign_wq (set_homekey_do_press_play_work true) s in
        let s := assign_homekey (set_homekey_do_press_play_is_ongoing true) s in
        assign_homekey (set_homekey_press_play_now false) s
      else pr_err_if (1 <? dbg s) msg_skipping_homekey_do_press_play_work s in
    Return s
  else if (state =? 0) && negb (homekey_press_play_now (homekey s)) then
    let s := pr_err_if (0 <? dbg s)
               msg_homekey_released_short s in
    let s :=
      if negb (homekey_do_press_play_is_ongoing (homekey s)) then
        let s := abb_ponkey_remap_power_key KEY_POWER HOME_KEY_CODINA_R0_5 s in
        let s := assign_homekey (set_homekey_is_remapped false) s in
        let s := assign_wq (set_homekey_do_press_play_work true) s in
        assign_homekey (set_homekey_do_press_play_is_ongoing true) s
      else pr_err_if (1 <? dbg s) msg_skipping_homekey_do_press_play_work s in
    Return s
  else Continue s.

(** Lines 680-746: the body of
    [if (button->gpio == VOL_UP_JANICE_R0_0 || button->gpio == VOL_DOWN_JANICE_R0_0)]. *)
Definition volkey_block (button_gpio state : Z) (s : system) : flow :=
  let s :=
    if volkey_skip_track_is_ongoing (volkey s) && (state =? 1) then
      let s := pr_err_if (0 <? dbg s)
                 msg_volkey_work_already_run s in
      let s := assign_wq (set_volkey_skip_track_work None) s in
      let s := assign_volkey (set_volkey_skip_track_is_ongoing false) s in
      assign_volkey (set_volkey_skip_track_now false) s
    else s in
  let s := assign_volkey
             (set_volkey_emulate_key_nextsong (button_gpio =? VOL_UP_JANICE_R0_0)) s in
  if state =? 1 then
    let s := pr_err_if (0 <? dbg s) msg_vol_pressed s in
    let s :=
      if negb (volkey_skip_track_is_ongoing (volkey s)) then
        let s := assign_wq
                   (λ w, set_volkey_skip_track_work
                           (schedule_delayed (volkey_skip_track_work w) (jiffies s)
                              (volkey_long_press_delay_ms (params s))) w) s in
        let s := assign_volkey (set_volkey_skip_track_now false) s in
        assign_volkey (set_volkey_skip_track_is_ongoing true) s
      else pr_err_if (1 <? dbg s) msg_skipping_volkey_skip_track_work s in
    Return s
  else if (state =? 0) && volkey_skip_track_now (volkey s) then
    let s := pr_err_if (0 <? dbg s)
               msg_vol_released_long s in
    let s :=
      if negb (volkey_do_volume_key_press_is_ongoing (volkey s)) then
        let s := assign_volkey (set_volkey_remap_keys true) s in
        let s := abb_ponkey_remap_power_key KEY_POWER
                   (if volkey_emulate_key_nextsong (volkey s)
                    then KEY_NEXTSONG else KEY_PREVIOUSSONG) s in
        let s := assign_wq (set_volkey_do_volume_key_press_work true) s in
        let s := assign_volkey (set_volkey_do_volume_key_press_is_ongoing true) s in
        assign_volkey (set_volkey_skip_track_now false) s
      else pr_err_if (1 <? dbg s) msg_skipping_volkey_do_volume_key_press_work s in
    Return s
  else if (state =? 0) && negb (volkey_skip_track_now (volkey s)) then
    let s := pr_err_if (0 <? dbg s)
               msg_vol_released_short s in
    let s :=
      if negb (volkey_do_volume_key_press_is_ongoing (volkey s)) then
        let s := assign_volkey (set_volkey_remap_keys false) s in
        let s := abb_ponkey_remap_power_key KEY_POWER
                   (if volkey_emulate_key_nextsong (volkey s)
                    then KEY_VOLUMEUP else KEY_VOLUMEDOWN) s in
        let s := assign_wq (set_volkey_do_volume_key_press_work true) s in
        assign_volkey (set_volkey_do_volume_key_press_is_ongoing true) s
      else pr_err_if (1 <? dbg s) msg_skipping_volkey_do_volume_key_press_work s in
    Return s
  else Continue s.

(** [(gpio_get_value_cansleep(button->gpio) ? 1 : 0) ^ button->active_low]
    for the electrical level [v]. *)
Definition logical_state (button : gpio_keys_button) (v : Z) : Z :=
  Z.lxor (if truthy v then 1 else 0) (active_low button).

(** Lines 752-760: the ordinary report at the end of the function. *)
Definition report_input (i : nat) (button : gpio_keys_button) (ty state : Z)
    (s : system) : system :=
  let s :=
    if ty =? EV_ABS then
      if truthy state then input_event ty (code button) (value button) s else s
    else
      let s := update_line i (set_key_state (truthy state)) s in
      input_event ty (code button) (notnot state) s in
  input_sync s.

(** [gpio_keys_report_event] for the line at index [i].  Every path returns
    0, so only the new state is kept. *)
Definition gpio_keys_report_event (i : nat) (s : system) : system :=
  match ddata s !! i with
  | None => s
  | Some bdata =>
      let button := button bdata in
      let ty := if type button =? 0 then EV_KEY else type button in
      let v := gpio_get_value (gpio button) s in
      let s := emit (GpioGetValue (gpio button) v) s in
      let state := logical_state button v in
      if emulator_volup (params s) then
        if gpio button =? VOL_UP_JANICE_R0_0
        then ab8500_ponkey_emulator KEY_POWER state s
        else report_input i button ty state s
      else if emulator_voldown (params s) then
        if gpio button =? VOL_DOWN_JANICE_R0_0
        then ab8500_ponkey_emulator KEY_POWER state s
        else report_input i button ty state s
      else if remap_gate (params s) then
        match (if homekey_gate (params s)
                  && (gpio button =? HOME_KEY_JANICE_R0_0)
               then homekey_block state s else Continue s) with
        | Return s => s
        | Continue s =>
            match (if volkey_gate (params s)
                      && ((gpio button =? VOL_UP_JANICE_R0_0)
                          || (gpio button =? VOL_DOWN_JANICE_R0_0))
                   then volkey_block (gpio button) state s else Continue s) with
            | Return s => s
            | Continue s => report_input i button ty state s
            end
        end
      else report_input i button ty state s
  end.

(** ** Debounce and deferral pipeline *)

Definition gpio_keys_work_func (i : nat) (s : system) : system :=
  gpio_keys_report_event i s.

Definition gpio_keys_timer (i : nat) (s : system) : system :=
  schedule_work i s.

(** [gpio_keys_isr] for the line at index [i]; the kernel calls it with that
    line's own interrupt, which is what its [BUG_ON] checks. *)
Definition gpio_keys_isr (i : nat) (s : system) : system :=
  match ddata s !! i with
  | None => s
  | Some bdata =>
      if truthy (timer_debounce bdata)
      then mod_timer i (jiffies s + msecs_to_jiffies (timer_debounce bdata)) s
      else schedule_work i s
  end.

(** ** On-demand injection *)

Definition gpio_keys_setstate (keycode : Z) (bState : bool) (s : system) : system :=
  if keycode =? KEY_VOLUMEUP then assign_emu (set_g_bVolUp bState) s
  else if keycode =? KEY_POWER then assign_emu (set_g_bPower bState) s
  else if keycode =? KEY_HOME then assign_emu (set_g_bHome bState) s
  else s.

(** The search loop of [gpio_keys_emulator], from index [i] on. *)
Fixpoint find_button (keycode : Z) (l : list gpio_button_data) (i : nat) : option nat :=
  match l with
  | [] => None
  | bdata :: l =>
      if code (button bdata) =? keycode then Some i
      else find_button keycode l (S i)
  end.

Definition gpio_keys_emulator (keycode : Z) (press : bool) (s : system) : Z * system :=
  match find_button keycode (ddata s) 0 with
  | None => (-1, s)
  | Some idx =>
      let s := gpio_keys_setstate keycode press s in
      let s := update_line idx (set_key_state press) s in
      let s := input_event EV_KEY keycode (if press then 1 else 0) s in
      let s := pr_err (if press then msg_emulate_press
                       else msg_emulate_release) s in
      let s := input_sync s in
      (0, s)
  end.

(** [gpio_keys_emulator_thread] up to and including its [mdelay]; the result
    tells whether the release half is due. *)
Definition gpio_keys_emulator_thread_press (s : system) : bool * system :=
  let s := pr_err msg_emulator_thread_called s in
  let s := assign_emu (set_emu_working true) s in
  let r := gpio_keys_emulator (emu_keycode (emu s)) true s in
  if fst r <? 0
  then (false, pr_err msg_cannot_find_button (snd r))
  else (true, mdelay 100 (snd r)).

(** The rest of [gpio_keys_emulator_thread]. *)
Definition gpio_keys_emulator_thread_release (found : bool) (s : system) : system :=
  let s := if found then snd (gpio_keys_emulator (emu_keycode (emu s)) false s) else s in
  assign_emu (set_emu_working false) s.

Definition gpio_keys_emulator_thread (s : system) : system :=
  let r := gpio_keys_emulator_thread_press s in
  gpio_keys_emulator_thread_release (fst r) (snd r).

(** What [gpio_keys_emulator_store] makes of the text written to it:
    [emu_keycode=] followed by what [sscanf] returned and left in [keycode],
    a text containing [press], or anything else. *)
Inductive emu_command :=
| EmuKeycode (ret keycode : Z)
| EmuPress
| EmuOther.

Definition gpio_keys_emulator_store (cmd : emu_command) (count : Z)
    (s : system) : Z * system :=
  match cmd with
  | EmuKeycode ret keycode =>
      if truthy ret then (count, assign_emu (set_emu_keycode keycode) s)
      else (count, pr_err msg_unknown_cmds s)
  | EmuPress =>
      if negb (emu_working (emu s)) && truthy (emu_keycode (emu s))
      then (count, assign_wq (set_gpio_keys_emulator_work true) s)
      else if emu_working (emu s)
      then (count, pr_err msg_emulator_work_running s)
      else (count, pr_err msg_emu_keycode_not_set s)
  | EmuOther => (count, pr_err msg_unknown_cmds s)
  end.

(** ** The kernel side: hardware edges, timers and the work queue *)

(** Expiry of line [i]'s debounce timer once time has reached [jiffies]. *)
Definition run_timer (i : nat) (s : system) : system :=
  match ddata s !! i with
  | None => s
  | Some bdata =>
      match timer bdata with
      | None => s
      | Some expires =>
          if expires <=? jiffies s
          then gpio_keys_timer i (update_line i (set_timer None) s)
          else s
      end
  end.

(** Expiry of the two long-press delayed works. *)
Definition run_volkey_skip_track_work (s : system) : system :=
  match volkey_skip_track_work (wq s) with
  | None => s
  | Some expires =>
      if expires <=? jiffies s
      then volkey_skip_track_fn (assign_wq (set_volkey_skip_track_work None) s)
      else s
  end.

Definition run_homekey_press_play_work (s : system) : system :=
  match homekey_press_play_work (wq s) with
  | None => s
  | Some expires =>
      if expires <=? jiffies s
      then homekey_press_play_fn (assign_wq (set_homekey_press_play_work None) s)
      else s
  end.

(** What can happen to the driver. *)
Inductive event :=
| Level (g v : Z)
| Irq (i : nat)
| Tick (t : Z)
| Work (i : nat)
| VolumeKeyPressWork
| HomePressPlayWork.

(** - [Level g v]: the electrical level of GPIO [g] becomes [v].
    - [Irq i]: the interrupt of line [i] is raised; its handler runs unless
      the interrupt is masked.
    - [Tick t]: time advances to [t]; expired timers run.
    - [Work i]: a worker takes line [i]'s work item, if it is queued.
    - [VolumeKeyPressWork], [HomePressPlayWork]: a worker takes the pulse
      work of that session, if it is queued. *)
Definition step (e : event) (s : system) : system :=
  match e with
  | Level g v => set_gpio_level (<[g := v]> (gpio_level s)) s
  | Irq i =>
      match ddata s !! i with
      | None => s
      | Some bdata =>
          if irq_masked (gpio_to_irq (gpio (button bdata))) s then s
          else gpio_keys_isr i s
      end
  | Tick t =>
      if t <? jiffies s then s
      else
        let s := set_jiffies t s in
        let s := for_each_button run_timer s in
        let s := run_volkey_skip_track_work s in
        run_homekey_press_play_work s
  | Work i =>
      match ddata s !! i with
      | None => s
      | Some bdata =>
          if work bdata
          then gpio_keys_work_func i (update_line i (set_work false) s)
          else s
      end
  | VolumeKeyPressWork =>
      if volkey_do_volume_key_press_work (wq s)
      then volkey_do_volume_key_press_fn
             (assign_wq (set_volkey_do_volume_key_press_work false) s)
      else s
  | HomePressPlayWork =>
      if homekey_do_press_play_work (wq s)
      then homekey_do_press_play_fn
             (assign_wq (set_homekey_do_press_play_work false) s)
      else s
  end.

Definition run (es : list event) (s : system) : system :=
  foldl (λ s e, step e s) s es.

(** ** What is observed in the log *)

(** Reads of the electrical level. *)
Definition evaluations (l : list action) : list action :=
  List.filter (λ a, match a with GpioGetValue _ _ => true | _ => false end) l.

(** Reports to the input core other than the closing [input_sync]. *)
Definition input_events (l : list action) : list action :=
  List.filter (λ a, match a with InputEvent _ _ _ => true | _ => false end) l.

(** ** Notions used to state the properties *)

(** The interrupt of a line. *)
Definition line_irq (bdata : gpio_button_data) : Z :=
  gpio_to_irq (gpio (button bdata)).

(** The state of a line agrees with the interrupt controller and its timer:
    the interrupt is disabled exactly once while the line is disabled, a
    disabled line has no pending timer, and only a line with a software
    debounce interval ever has one. *)
Definition line_consistent (s : system) (bdata : gpio_button_data) : Prop :=
  irq_disable_depth (line_irq bdata) s = (if disabled bdata then 1 else 0)%nat
  ∧ (disabled bdata = true → timer bdata = None)
  ∧ (timer_debounce bdata = 0 → timer bdata = None).

(** Every line is consistent and owns its interrupt. *)
Definition consistent (s : system) : Prop :=
  NoDup (line_irq <$> ddata s)
  ∧ ∀ i bdata, ddata s !! i = Some bdata → line_consistent s bdata.

(** Actions that mask or unmask a line. *)
Definition is_mask_action (a : action) : bool :=
  match a with
  | DisableIrq _ | EnableIrq _ | DelTimerSync _ => true
  | _ => false
  end.

(** The line is taken by the power-key emulation mode (lines 604-615). *)
Definition power_key_capture (p : module_params) (g : Z) : bool :=
  if emulator_volup p then g =? VOL_UP_JANICE_R0_0
  else if emulator_voldown p then g =? VOL_DOWN_JANICE_R0_0
  else false.

(** The gating conditions of the session that owns GPIO [g] (lines 616-619
    and 678-679). *)
Definition session_gate (p : module_params) (g : Z) : bool :=
  remap_gate p
  && ((homekey_gate p && (g =? HOME_KEY_JANICE_R0_0))
      || (volkey_gate p
          && ((g =? VOL_UP_JANICE_R0_0) || (g =? VOL_DOWN_JANICE_R0_0)))).

(** The codes the volume session emits for the sub-line on GPIO [g]. *)
Definition volkey_primary (g : Z) : Z :=
  if g =? VOL_UP_JANICE_R0_0 then KEY_VOLUMEUP else KEY_VOLUMEDOWN.

Definition volkey_alternate (g : Z) : Z :=
  if g =? VOL_UP_JANICE_R0_0 then KEY_NEXTSONG else KEY_PREVIOUSSONG.

(** Calls to the shared power-key transport. *)
Definition transport_calls (l : list action) : list action :=
  List.filter (λ a, match a with
                    | PonkeyEmulator _ _ | PonkeyRemapPowerKey _ _ => true
                    | _ => false
                    end) l.

(** A deferred evaluation of line [i] that finds its GPIO [g] at level [v]. *)
Definition evaluate (i : nat) (g v : Z) (s : system) : system :=
  gpio_keys_report_event i (step (Level g v) s).

(** What the expiry of its timer does to one line at time [now]. *)
Definition run_timer_line (now : Z) (bdata : gpio_button_data) : gpio_button_data :=
  match timer bdata with
  | None => bdata
  | Some expires =>
      if expires <=? now then set_work true (set_timer None bdata) else bdata
  end.

(** A burst of edges on line [i] (GPIO [g]): at each time [t] of the list the
    level becomes [v] and the interrupt is raised. *)
Definition burst (i : nat) (g : Z) (edges : list (Z * Z)) : list event :=
  concat (map (λ e, [Tick (fst e); Level g (snd e); Irq i]) edges).

(** Every edge of the list comes no earlier than the previous one (at time
    [prev]) and before the timer armed by the previous one runs out. *)
Fixpoint within_window (D prev : Z) (edges : list (Z * Z)) : Prop :=
  match edges with
  | [] => True
  | e :: edges => prev ≤ fst e ∧ fst e < prev + D ∧ within_window D (fst e) edges
  end.

(** Time of the last edge of a burst that starts at [t]. *)
Fixpoint last_edge_time (t : Z) (edges : list (Z * Z)) : Z :=
  match edges with
  | [] => t
  | e :: edges => last_edge_time (fst e) edges
  end.

(** Line [i] has its timer armed at time [t] for [D] jiffies, no evaluation
    queued and its interrupt unmasked. *)
Definition armed (i : nat) (bdata : gpio_button_data) (D t : Z)
    (s : system) : Prop :=
  jiffies s = t
  ∧ irq_masked (line_irq bdata) s = false
  ∧ ∃ b, ddata s !! i = Some b
         ∧ button b = button bdata
         ∧ timer_debounce b = timer_debounce bdata
         ∧ timer b = Some (t + D)
         ∧ work b = false.

(** ** A board to run the driver on *)

Definition example_button (c g ty : Z) (cd : bool) (v : Z) : gpio_keys_button :=
  {| code := c; gpio := g; active_low := 1; type := ty; wakeup := 0;
     debounce_interval := 30; can_disable := cd; value := v |}.

Definition example_line (b : gpio_keys_button) (d : Z) : gpio_button_data :=
  {| button := b; timer := None; work := false; timer_debounce := d;
     disabled := false; key_state := false |}.

(** Volume up and down on GPIO 67 and 92, home on 91, two switches (codes 5
    and 11, only the second can be disabled) and an absolute axis. *)
Definition example_volup : gpio_keys_button :=
  example_button KEY_VOLUMEUP 67 EV_KEY true 0.
Definition example_voldown : gpio_keys_button :=
  example_button KEY_VOLUMEDOWN 92 EV_KEY true 0.
Definition example_home : gpio_keys_button :=
  example_button KEY_HOME 91 EV_KEY false 0.
Definition example_abs : gpio_keys_button :=
  example_button 0 42 EV_ABS false 7.

Definition example_lines : list gpio_button_data :=
  [ example_line example_volup 30;
    example_line example_voldown 30;
    example_line example_home 0;
    example_line (example_button 5 40 EV_SW false 0) 30;
    example_line (example_button 11 41 EV_SW true 0) 30;
    example_line example_abs 30 ].

Definition example_params : module_params :=
  {| emulator_volup := false; emulator_voldown := false;
     volkey_press_skip_track := 1; homekey_press_play := 1;
     volkey_long_press_delay_ms := 300; homekey_long_press_delay_ms := 300;
     volkey_do_volume_key_press_delay_ms := 101;
     homekey_do_press_play_delay_ms := 101;
     volkey_skip_tracks_in_suspend_only := 1;
     homekey_press_play_in_suspend_only := 1;
     volkey_debug_level := 1; is_early_suspend := true; is_suspend := 0 |}.

(** The state right after probing: nothing pending, every level high (all
    lines are active low, so nothing is pressed). *)
Definition example_system : system :=
  {| ddata := example_lines;
     params := example_params;
     volkey := {| volkey_skip_track_is_ongoing := false;
                  volkey_do_volume_key_press_is_ongoing := false;
                  volkey_skip_track_now := false;
                  volkey_remap_keys := false;
                  volkey_emulate_key_nextsong := false |};
     homekey := {| homekey_press_play_is_ongoing := false;
                   homekey_do_press_play_is_ongoing := false;
                   homekey_press_play_now := false;
                   homekey_is_remapped := false |};
     emu := {| emu_working := false; emu_keycode := 0; g_bVolUp := false;
               g_bPower := false; g_bHome := false |};
     wq := {| volkey_skip_track_work := None; homekey_press_play_work := None;
              volkey_do_volume_key_press_work := false;
              homekey_do_press_play_work := false;
              gpio_keys_emulator_work := false |};
     jiffies := 1000;
     irq_depth := ∅;
     gpio_level := list_to_map [(67, 1); (92, 1); (91, 1); (40, 1); (41, 1); (42, 1)];
     log := [] |}.

(** The same with the remap features switched off and the power-key
    emulation mode on the volume-up line switched on. *)
Definition example_params_emulator : module_params :=
  {| emulator_volup := true; emulator_voldown := false;
     volkey_press_skip_track := 0; homekey_press_play := 0;
     volkey_long_press_delay_ms := 300; homekey_long_press_delay_ms := 300;
     volkey_do_volume_key_press_delay_ms := 101;
     homekey_do_press_play_delay_ms := 101;
     volkey_skip_tracks_in_suspend_only := 1;
     homekey_press_play_in_suspend_only := 1;
     volkey_debug_level := 1; is_early_suspend := false; is_suspend := 0 |}.

(** The bitmap of a list of codes. *)
Definition bitmap_of (codes : list Z) : Z :=
  foldr __set_bit 0 codes.

(** What [wakeup_enable] does to one line for the bitmap [bits]. *)
Definition wakeup_line (bits : Z) (d : gpio_button_data) : gpio_button_data :=
  set_button
    (set_wakeup (if test_bit (code (button d)) bits then 1 else 0) (button d)) d.

(** What the second loop of [gpio_keys_attr_store_helper] does to one line:
    lines of another class are skipped, named lines go through
    [gpio_keys_disable_button], the others through
    [gpio_keys_enable_button]. *)
Definition store_line (ty bits : Z) (d : gpio_button_data) : gpio_button_data :=
  if negb (type (button d) =? ty) then d
  else if test_bit (code (button d)) bits then
    if disabled d then d
    else set_disabled true
           (if truthy (timer_debounce d) then set_timer None d else d)
  else
    if disabled d then set_disabled false d else d.

(** The conversions on that board: interrupt numbers follow the GPIO numbers
    at an offset, and a jiffy lasts 10 ms. *)
Definition example_gpio_to_irq (g : Z) : Z := g + 256.
Definition example_msecs_to_jiffies (ms : Z) : Z := ms / 10.

(** [s'] differs from [s] at most in the remap variables, the file-scope
    work items and the log, and the log has gained neither a level read nor
    an input report. *)
Definition quiet (s s' : system) : Prop :=
  ddata s' = ddata s
  ∧ params s' = params s
  ∧ emu s' = emu s
  ∧ jiffies s' = jiffies s
  ∧ irq_depth s' = irq_depth s
  ∧ gpio_level s' = gpio_level s
  ∧ input_events (log s') = input_events (log s)
  ∧ evaluations (log s') = evaluations (log s).

(** The board with the remap features off, the power-key emulation mode on
    for the volume-up line, and volume up held down. *)
Definition example_system_emulator : system :=
  set_gpio_level (<[67 := 0]> (gpio_level example_system))
    (set_params example_params_emulator example_system).

(** Line [i], with button [button_i], is served by the volume session: the
    power-key emulation mode is off and the gates of lines 616-617 and 678
    are open. *)
Definition volkey_engaged (i : nat) (button_i : gpio_keys_button)
    (s : system) : Prop :=
  (∃ bdata, ddata s !! i = Some bdata ∧ button bdata = button_i)
  ∧ emulator_volup (params s) = false
  ∧ emulator_voldown (params s) = false
  ∧ remap_gate (params s) = true
  ∧ volkey_gate (params s) = true.

(** The same for the home session (gates of lines 616-618). *)
Definition homekey_engaged (i : nat) (button_i : gpio_keys_button)
    (s : system) : Prop :=
  (∃ bdata, ddata s !! i = Some bdata ∧ button bdata = button_i)
  ∧ emulator_volup (params s) = false
  ∧ emulator_voldown (params s) = false
  ∧ remap_gate (params s) = true
  ∧ homekey_gate (params s) = true.

(** A press-then-release gesture on line [i] seen by the driver: the
    evaluation that finds the line pressed (level [v1]) has led to
    [pressed]; time then advances to [t], the next evaluation finds the line
    released (level [v0]), and the worker runs the pulse work. *)
Definition volkey_release_after (i : nat) (g v0 t : Z) (pressed : system) : system :=
  step VolumeKeyPressWork (evaluate i g v0 (step (Tick t) pressed)).

Definition homekey_release_after (i : nat) (g v0 t : Z) (pressed : system) : system :=
  step HomePressPlayWork (evaluate i g v0 (step (Tick t) pressed)).

(** The board while the on-demand injector is in the middle of a pulse:
    [emu_keycode=115] and [press] have been written, and the worker has run
    [gpio_keys_emulator_thread] up to its delay. *)
Definition example_system_emu_working : system :=
  snd (gpio_keys_emulator_thread_press
         (assign_wq (set_gpio_keys_emulator_work false)
            (snd (gpio_keys_emulator_store EmuPress 5
                    (snd (gpio_keys_emulator_store (EmuKeycode 1 KEY_VOLUMEUP) 15
                            example_system)))))).

(** Line [i] of [s] has the platform data and the [key_state] of [bdata]. *)
Definition reported_as (bdata : gpio_button_data) (i : nat) (s : system) : Prop :=
  ∃ bdata', ddata s !! i = Some bdata'
            ∧ button bdata' = button bdata
            ∧ key_state bdata' = key_state bdata.

(** ** The remaining attributes *)

(** [ATTR_SHOW_FN(keys, EV_KEY, false)] and
    [ATTR_SHOW_FN(switches, EV_SW, false)]. *)
Definition gpio_keys_show_keys (kcalloc_ok : bool) (s : system) : Z + Z :=
  gpio_keys_attr_show_helper kcalloc_ok EV_KEY false s.
Definition gpio_keys_show_switches (kcalloc_ok : bool) (s : system) : Z + Z :=
  gpio_keys_attr_show_helper kcalloc_ok EV_SW false s.

(** The character ['\n'] as a text. *)
Definition newline : String.string :=
  String (Ascii.ascii_of_nat 10) EmptyString.

(** What [%d] prints: its argument converted to a 32-bit [int], in
    decimal. *)
Definition as_int (z : Z) : Z := (z + 2 ^ 31) mod 2 ^ 32 - 2 ^ 31.

Definition format_d (z : Z) : String.string :=
  NilZero.string_of_int (Z.to_int (as_int z)).

Definition strlen (buf : String.string) : Z := Z.of_nat (String.length buf).

(** One round of the loop of [keys_pressed_show]: the level of the line is
    read and, if the line is active, [sprintf(buf, "%s%d\n", buf, code)]
    appends its code to the text. *)
Definition keys_pressed_line (acc : String.string * system)
    (bdata : gpio_button_data) : String.string * system :=
  let v := gpio_get_value (gpio (button bdata)) (snd acc) in
  let s := emit (GpioGetValue (gpio (button bdata)) v) (snd acc) in
  if truthy (logical_state (button bdata) v)
  then (String.append (fst acc)
          (String.append (format_d (code (button bdata))) newline), s)
  else (fst acc, s).

(** [keys_pressed_show]; [buf] is what the buffer holds on entry.  The
    result is the returned length, the text and the new state. *)
Definition keys_pressed_show (buf : String.string) (s : system)
    : Z * String.string * system :=
  let r := foldl keys_pressed_line (buf, s) (ddata s) in
  (strlen (fst r), fst r, snd r).

(** [sec_key_pressed_show]: the returned length and the text. *)
Definition sec_key_pressed_show (s : system) : Z * String.string :=
  let keystate :=
    foldl (λ k bdata, Z.lor k (if key_state bdata then 1 else 0)) 0 (ddata s) in
  let buf := if truthy keystate then "PRESS"%string else "RELEASE"%string in
  (strlen buf, buf).

(** ** The power-key emulation mode *)

Definition set_emulator_volup (x : bool) (p : module_params) : module_params :=
  {| emulator_volup := x;
     emulator_voldown := emulator_voldown p;
     volkey_press_skip_track := volkey_press_skip_track p;
     homekey_press_play := homekey_press_play p;
     volkey_long_press_delay_ms := volkey_long_press_delay_ms p;
     homekey_long_press_delay_ms := homekey_long_press_delay_ms p;
     volkey_do_volume_key_press_delay_ms := volkey_do_volume_key_press_delay_ms p;
     homekey_do_press_play_delay_ms := homekey_do_press_play_delay_ms p;
     volkey_skip_tracks_in_suspend_only := volkey_skip_tracks_in_suspend_only p;
     homekey_press_play_in_suspend_only := homekey_press_play_in_suspend_only p;
     volkey_debug_level := volkey_debug_level p;
     is_early_suspend := is_early_suspend p;
     is_suspend := is_suspend p |}.

Definition set_emulator_voldown (x : bool) (p : module_params) : module_params :=
  {| emulator_volup := emulator_volup p;
     emulator_voldown := x;
     volkey_press_skip_track := volkey_press_skip_track p;
     homekey_press_play := homekey_press_play p;
     volkey_long_press_delay_ms := volkey_long_press_delay_ms p;
     homekey_long_press_delay_ms := homekey_long_press_delay_ms p;
     volkey_do_volume_key_press_delay_ms := volkey_do_volume_key_press_delay_ms p;
     homekey_do_press_play_delay_ms := homekey_do_press_play_delay_ms p;
     volkey_skip_tracks_in_suspend_only := volkey_skip_tracks_in_suspend_only p;
     homekey_press_play_in_suspend_only := homekey_press_play_in_suspend_only p;
     volkey_debug_level := volkey_debug_level p;
     is_early_suspend := is_early_suspend p;
     is_suspend := is_suspend p |}.

Definition msg_ponkey_unknown_cmds : String.string :=
  "gpio_keys: unknown cmds".

(** [gpio_keys_ponkey_emulator_show]: the returned length and the text. *)
Definition gpio_keys_ponkey_emulator_show (s : system) : Z * String.string :=
  let buf :=
    String.append "Vol.UP: "
      (String.append (if emulator_volup (params s) then "1" else "0") newline) in
  let buf :=
    String.append buf
      (String.append "Vol.DOWN: "
         (String.append (if emulator_voldown (params s) then "1" else "0")
            newline)) in
  (strlen buf, buf).

(** What [gpio_keys_ponkey_emulator_store] makes of the text written to it:
    [volup=] or [voldown=] followed by what [sscanf] returned and left in
    [user], or anything else. *)
Inductive ponkey_command :=
| PonkeyVolup (ret user : Z)
| PonkeyVoldown (ret user : Z)
| PonkeyOther.

(** [gpio_keys_ponkey_emulator_store].  The assignment of the [int] to the
    [bool] flag keeps whether it is nonzero.  The [pr_info] lines are not
    kept in the log. *)
Definition gpio_keys_ponkey_emulator_store (cmd : ponkey_command) (count : Z)
    (s : system) : Z * system :=
  match cmd with
  | PonkeyVolup ret user =>
      if truthy ret
      then (count, set_params (set_emulator_volup (truthy user) (params s)) s)
      else (count, pr_err msg_ponkey_unknown_cmds s)
  | PonkeyVoldown ret user =>
      if truthy ret
      then (count, set_params (set_emulator_voldown (truthy user) (params s)) s)
      else (count, pr_err msg_ponkey_unknown_cmds s)
  | PonkeyOther => (count, pr_err msg_ponkey_unknown_cmds s)
  end.

(** ** On-demand injection: the rest of the interface *)

(** [gpio_keys_emulator_show]: the returned length and the text. *)
Definition gpio_keys_emulator_show (s : system) : Z * String.string :=
  let buf :=
    String.append "emu_keycode="
      (String.append (format_d (emu_keycode (emu s))) newline) in
  (strlen buf, buf).

(** A worker takes [gpio_keys_emulator_work], if it is queued. *)
Definition run_gpio_keys_emulator_work (s : system) : system :=
  if gpio_keys_emulator_work (wq s)
  then gpio_keys_emulator_thread
         (assign_wq (set_gpio_keys_emulator_work false) s)
  else s.

(** ** Notions used to state further properties *)

(** Reads of the level of GPIO [g]. *)
Definition reads_of (g : Z) (l : list action) : list action :=
  List.filter (λ a, match a with GpioGetValue g' _ => g' =? g | _ => false end) l.

(** The line is active at the current level of its GPIO. *)
Definition line_active (s : system) (bdata : gpio_button_data) : bool :=
  truthy (logical_state (button bdata)
            (gpio_get_value (gpio (button bdata)) s)).

(** The text [keys_pressed_show] appends for a list of lines. *)
Fixpoint pressed_text (lines : list gpio_button_data) : String.string :=
  match lines with
  | [] => EmptyString
  | bdata :: lines =>
      String.append (String.append (format_d (code (button bdata))) newline)
        (pressed_text lines)
  end.

(** The in-flight flags of the two sessions say what their work items say:
    a pulse flag is set exactly while the pulse work is queued, a long-press
    flag exactly while the long-press work is pending. *)
Definition delayed_work_pending (w : option Z) : bool :=
  match w with
  | Some _ => true
  | None => false
  end.

Definition flags_mirror_works (s : system) : Prop :=
  volkey_do_volume_key_press_is_ongoing (volkey s)
  = volkey_do_volume_key_press_work (wq s)
  ∧ homekey_do_press_play_is_ongoing (homekey s)
    = homekey_do_press_play_work (wq s)
  ∧ volkey_skip_track_is_ongoing (volkey s)
    = delayed_work_pending (volkey_skip_track_work (wq s))
  ∧ homekey_press_play_is_ongoing (homekey s)
    = delayed_work_pending (homekey_press_play_work (wq s)).

(** Some line of class [ty] has code [c] (and is disabled, if only disabled
    lines count). *)
Definition listed (ty : Z) (only_disabled : bool) (c : Z)
    (lines : list gpio_button_data) : Prop :=
  ∃ bdata, bdata ∈ lines
           ∧ type (button bdata) = ty
           ∧ code (button bdata) = c
           ∧ (only_disabled = true → disabled bdata = true).

(** Line [i] is the line [bdata], disabled, with no evaluation queued and
    the [key_state] of [bdata]. *)
Definition disabled_idle (bdata : gpio_button_data) (i : nat) (s : system)
    : Prop :=
  ∃ b, ddata s !! i = Some b
       ∧ button b = button bdata
       ∧ disabled b = true
       ∧ work b = false
       ∧ timer b = None
       ∧ key_state b = key_state bdata.

(** Line [i] is the line [bdata], which has no software debounce interval,
    with its interrupt unmasked and no timer pending; [queued] tells whether
    its evaluation is queued. *)
Definition immediate_line (bdata : gpio_button_data) (i : nat)
    (queued : bool) (s : system) : Prop :=
  irq_masked (line_irq bdata) s = false
  ∧ ∃ b, ddata s !! i = Some b
         ∧ button b = button bdata
         ∧ timer_debounce b = 0
         ∧ timer b = None
         ∧ (queued = true → work b = true).

(** ** Setting up and tearing down the device; power management

    The driver bound to its platform device: the state of the event paths
    above, the fields of [struct gpio_keys_drvdata] that setup and power
    management use, and the calls they make into the kernel. *)

(** The attribute groups of the driver. *)
Inductive sysfs_group :=
| gpio_keys_attr_group
| sec_key_attr_group
| gpio_keys_interface_group.

(** Calls of setup, teardown and power management; a call that can fail
    carries what it returned. *)
Inductive platform_call :=
| Kzalloc (ok : bool)
| Kfree
| InputAllocateDevice (ok : bool)
| InputFreeDevice
| InputRegisterDevice (result : Z)
| InputUnregisterDevice
| InputSetDrvdata
| InputSetCapability (type code : Z)
| SetBitEvRep
| MutexInit
| PlatformSetDrvdata (set : bool)
| PmRuntimeEnable
| PmRuntimeDisable
| PmRuntimeGetSync
| PmRuntimePut
| GpioRequest (gpio result : Z)
| GpioFree (gpio : Z)
| GpioDirectionInput (gpio result : Z)
| GpioSetDebounce (gpio usecs result : Z)
| RequestAnyContextIrq (irq : Z) (shared : bool) (line : nat) (result : Z)
| FreeIrq (irq : Z) (line : nat)
| CancelWorkSync (line : nat)
| SysfsCreateGroup (group : sysfs_group) (result : Z)
| SysfsRemoveGroup (group : sysfs_group)
| DeviceCreate (ok : bool)
| DeviceInitWakeup (val : Z)
| KobjectCreateAndAdd (ok : bool)
| KobjectPut
| RegisterEarlySuspend
| EnableIrqWake (irq : Z)
| DisableIrqWake (irq : Z)
| PdataEnable
| PdataDisable
| DevErr (msg : String.string).

(** The part of [struct gpio_keys_platform_data] the driver reads;
    [pdata_enable] and [pdata_disable] tell whether the two callbacks are
    set. *)
Record gpio_keys_platform_data := {
  buttons : list gpio_keys_button;
  rep : Z;
  pdata_enable : bool;
  pdata_disable : bool
}.

(** The bound device.  [published] tells whether [p_gpio_keys], [p_pdata]
    and [p_ddata] have been set. *)
Record device := {
  sys : system;
  enabled : bool;
  enable_after_suspend : bool;
  drv_enable : bool;
  drv_disable : bool;
  published : bool;
  calls : list platform_call
}.

(** What the fallible kernel calls of one probe return; those made once per
    button are indexed by the button. *)
Record kernel_results := {
  kzalloc_ok : bool;
  input_allocate_device_ok : bool;
  gpio_request_result : nat → Z;
  gpio_direction_input_result : nat → Z;
  gpio_set_debounce_result : nat → Z;
  request_any_context_irq_result : nat → Z;
  sysfs_create_group_result : sysfs_group → Z;
  device_create_ok : bool;
  input_register_device_result : Z;
  kobject_create_and_add_ok : bool
}.

Definition call (cs : list platform_call) (d : device) : device :=
  {| sys := sys d; enabled := enabled d;
     enable_after_suspend := enable_after_suspend d;
     drv_enable := drv_enable d; drv_disable := drv_disable d;
     published := published d; calls := calls d ++ cs |}.

Definition on_sys (f : system → system) (d : device) : device :=
  {| sys := f (sys d); enabled := enabled d;
     enable_after_suspend := enable_after_suspend d;
     drv_enable := drv_enable d; drv_disable := drv_disable d;
     published := published d; calls := calls d |}.

Definition set_enabled (x : bool) (d : device) : device :=
  {| sys := sys d; enabled := x;
     enable_after_suspend := enable_after_suspend d;
     drv_enable := drv_enable d; drv_disable := drv_disable d;
     published := published d; calls := calls d |}.

Definition set_enable_after_suspend (x : bool) (d : device) : device :=
  {| sys := sys d; enabled := enabled d; enable_after_suspend := x;
     drv_enable := drv_enable d; drv_disable := drv_disable d;
     published := published d; calls := calls d |}.

Definition set_published (x : bool) (d : device) : device :=
  {| sys := sys d; enabled := enabled d;
     enable_after_suspend := enable_after_suspend d;
     drv_enable := drv_enable d; drv_disable := drv_disable d;
     published := x; calls := calls d |}.

Definition set_timer_debounce (x : Z) (d : gpio_button_data) : gpio_button_data :=
  {| button := button d; timer := timer d; work := work d;
     timer_debounce := x; disabled := disabled d; key_state := key_state d |}.

Definition msg_failed_request_gpio : String.string :=
  "failed to request GPIO %d, error %d".
Definition msg_failed_configure_direction : String.string :=
  "failed to configure direction for GPIO %d, error %d".
Definition msg_unable_get_irq : String.string :=
  "Unable to get irq number for GPIO %d, error %d".
Definition msg_unable_claim_irq : String.string :=
  "Unable to claim irq %d; error %d".
Definition msg_failed_allocate_state : String.string :=
  "failed to allocate state".
Definition msg_unable_export_keys : String.string :=
  "Unable to export keys/switches, error: %d".
Definition msg_failed_create_sec_key : String.string :=
  "Failed to create sec_key device".
Definition msg_unable_export_sec_key : String.string :=
  "Unable to export sec_key device, error: %d".
Definition msg_unable_register_input : String.string :=
  "Unable to register input device, error: %d".

#[global] Opaque msg_failed_request_gpio msg_failed_configure_direction
  msg_unable_get_irq msg_unable_claim_irq msg_failed_allocate_state
  msg_unable_export_keys msg_failed_create_sec_key msg_unable_export_sec_key
  msg_unable_register_input.

(** [gpio_keys_setup_key] for the button at index [i].  [bdata] is the
    line being set up; the result is the returned error, the line and the
    calls made.  [setup_timer] and [INIT_WORK] leave the timer idle and the
    work not queued. *)
Definition gpio_keys_setup_key (K : kernel_results) (i : nat)
    (button : gpio_keys_button) (bdata : gpio_button_data)
    : Z * gpio_button_data * list platform_call :=
  let bdata := set_work false (set_timer None bdata) in
  let error := gpio_request_result K i in
  let cs := [GpioRequest (gpio button) error] in
  if error <? 0 then (error, bdata, cs ++ [DevErr msg_failed_request_gpio])
  else
    let error := gpio_direction_input_result K i in
    let cs := cs ++ [GpioDirectionInput (gpio button) error] in
    if error <? 0
    then (error, bdata,
          cs ++ [DevErr msg_failed_configure_direction; GpioFree (gpio button)])
    else
      let r :=
        if truthy (debounce_interval button) then
          let error := gpio_set_debounce_result K i in
          (if error <? 0
           then set_timer_debounce (debounce_interval button) bdata
           else bdata,
           cs ++ [GpioSetDebounce (gpio button)
                    (debounce_interval button * 1000) error])
        else (bdata, cs) in
      let bdata := fst r in
      let cs := snd r in
      let irq := gpio_to_irq (gpio button) in
      if irq <? 0
      then (irq, bdata,
            cs ++ [DevErr msg_unable_get_irq; GpioFree (gpio button)])
      else
        let error := request_any_context_irq_result K i in
        let cs := cs ++ [RequestAnyContextIrq irq (negb (can_disable button))
                           i error] in
        if error <? 0
        then (error, bdata,
              cs ++ [DevErr msg_unable_claim_irq; GpioFree (gpio button)])
        else (0, bdata, cs).

(** A line as [kzalloc] leaves it, with its [button] set. *)
Definition new_line (button : gpio_keys_button) : gpio_button_data :=
  {| button := button; timer := None; work := false; timer_debounce := 0;
     disabled := false; key_state := false |}.

(** The first loop of [gpio_keys_probe], from button [i] on: [lines] are
    the lines set up so far, [wakeup] the local variable of that name.  The
    loop stops at the first button whose setup fails. *)
Fixpoint probe_buttons (K : kernel_results) (i : nat)
    (bs : list gpio_keys_button) (lines : list gpio_button_data)
    (wakeup_seen : Z) (cs : list platform_call)
    : Z * list gpio_button_data * Z * list platform_call :=
  match bs with
  | [] => (0, lines, wakeup_seen, cs)
  | button :: bs =>
      let r := gpio_keys_setup_key K i button (new_line button) in
      let error := fst (fst r) in
      let cs := cs ++ snd r in
      if truthy error then (error, lines, wakeup_seen, cs)
      else
        probe_buttons K (S i) bs (lines ++ [snd (fst r)])
          (if truthy (wakeup button) then 1 else wakeup_seen)
          (cs ++ [InputSetCapability
                    (if type button =? 0 then EV_KEY else type button)
                    (code button)])
  end.

(** [cancel_work_sync(&ddata->data[i].work)] *)
Definition cancel_work_sync (i : nat) (d : device) : device :=
  call [CancelWorkSync i] (on_sys (update_line i (set_work false)) d).

(** What the unwinding loop of [gpio_keys_probe] and the loop of
    [gpio_keys_remove] do for line [i]. *)
Definition release_line (i : nat) (d : device) : device :=
  match ddata (sys d) !! i with
  | None => d
  | Some bdata =>
      let d := call [FreeIrq (gpio_to_irq (gpio (button bdata))) i] d in
      let d := if truthy (timer_debounce bdata)
               then on_sys (del_timer_sync i) d else d in
      let d := cancel_work_sync i d in
      call [GpioFree (gpio (button bdata))] d
  end.

(** [while (--i >= 0)] of label [fail2], entered with [i = n]. *)
Definition unwind_lines (n : nat) (d : device) : device :=
  foldl (λ d j, release_line j d) d (reverse (seq 0 n)).

(** Labels [fail2] and [fail1] of [gpio_keys_probe]; [n] is the value of
    [i] on entry. *)
Definition probe_fail1 (error : Z) (d : device) : Z * device :=
  (error, on_sys (set_ddata []) (call [InputFreeDevice; Kfree] d)).

Definition probe_fail2 (n : nat) (error : Z) (d : device) : Z * device :=
  probe_fail1 error (call [PlatformSetDrvdata false] (unwind_lines n d)).

Definition probe_fail3 (n : nat) (error : Z) (d : device) : Z * device :=
  probe_fail2 n error
    (call [SysfsRemoveGroup gpio_keys_attr_group;
           SysfsRemoveGroup sec_key_attr_group] d).

(** [gpio_keys_probe] on the platform data [pdata], entered in state [s]
    (which holds the file-scope variables; the lines of the device are built
    here). *)
Definition gpio_keys_probe (K : kernel_results)
    (pdata : gpio_keys_platform_data) (s : system) : Z * device :=
  let d := {| sys := set_ddata [] s; enabled := false;
              enable_after_suspend := false;
              drv_enable := false; drv_disable := false; published := false;
              calls := [Kzalloc (kzalloc_ok K);
                        InputAllocateDevice (input_allocate_device_ok K)] |} in
  if negb (kzalloc_ok K) || negb (input_allocate_device_ok K)
  then probe_fail1 (- ENOMEM) (call [DevErr msg_failed_allocate_state] d)
  else
    let d := {| sys := sys d; enabled := false;
                enable_after_suspend := enable_after_suspend d;
                drv_enable := pdata_enable pdata;
                drv_disable := pdata_disable pdata;
                published := published d;
                calls := calls d ++ [MutexInit; PlatformSetDrvdata true;
                                     InputSetDrvdata; PmRuntimeEnable] |} in
    let d := if truthy (rep pdata) then call [SetBitEvRep] d else d in
    let r := probe_buttons K 0 (buttons pdata) [] 0 (calls d) in
    let error := fst (fst (fst r)) in
    let lines := snd (fst (fst r)) in
    let wakeup_seen := snd (fst r) in
    let d := on_sys (set_ddata lines)
               {| sys := sys d; enabled := enabled d;
                  enable_after_suspend := enable_after_suspend d;
                  drv_enable := drv_enable d; drv_disable := drv_disable d;
                  published := published d; calls := snd r |} in
    if truthy error then probe_fail2 (length lines) error d
    else
      let n := length (buttons pdata) in
      let error := sysfs_create_group_result K gpio_keys_attr_group in
      let d := call [SysfsCreateGroup gpio_keys_attr_group error] d in
      if truthy error
      then probe_fail2 n error (call [DevErr msg_unable_export_keys] d)
      else
        let d := call [DeviceCreate (device_create_ok K)] d in
        let d := if device_create_ok K then d
                 else call [DevErr msg_failed_create_sec_key] d in
        let error := sysfs_create_group_result K sec_key_attr_group in
        let d := call [SysfsCreateGroup sec_key_attr_group error] d in
        if truthy error
        then probe_fail2 n error (call [DevErr msg_unable_export_sec_key] d)
        else
          let error := input_register_device_result K in
          let d := call [InputRegisterDevice error] d in
          if truthy error
          then probe_fail3 n error (call [DevErr msg_unable_register_input] d)
          else
            let d := on_sys (for_each_button gpio_keys_report_event) d in
            let d := on_sys input_sync d in
            let d := call [DeviceInitWakeup wakeup_seen] d in
            let d := call [KobjectCreateAndAdd (kobject_create_and_add_ok K)] d in
            if negb (kobject_create_and_add_ok K) then (- ENOMEM, d)
            else
              let ret := sysfs_create_group_result K gpio_keys_interface_group in
              let d := call [SysfsCreateGroup gpio_keys_interface_group ret] d in
              let d := if truthy ret then call [KobjectPut] d else d in
              let d := set_published true d in
              let d := call [RegisterEarlySuspend] d in
              (0, d).

(** [gpio_keys_remove] *)
Definition gpio_keys_remove (d : device) : Z * device :=
  let d := call [PmRuntimeDisable; SysfsRemoveGroup gpio_keys_attr_group;
                 DeviceInitWakeup 0] d in
  let d := foldl (λ d j, release_line j d) d
             (seq 0 (length (ddata (sys d)))) in
  (0, call [InputUnregisterDevice] d).

(** [gpio_keys_open]; [enable_result] is what the [enable] callback
    returns. *)
Definition gpio_keys_open (enable_result : Z) (d : device) : Z * device :=
  let d := call [PmRuntimeGetSync] d in
  let d := set_enabled true d in
  if drv_enable d then (enable_result, call [PdataEnable] d) else (0, d).

(** [gpio_keys_close] *)
Definition gpio_keys_close (d : device) : device :=
  let d := if drv_disable d then call [PdataDisable] d else d in
  let d := set_enabled false d in
  call [PmRuntimePut] d.

(** [gpio_keys_suspend]; [may_wakeup] is what [device_may_wakeup]
    returns. *)
Definition gpio_keys_suspend (may_wakeup : bool) (d : device) : Z * device :=
  if may_wakeup then
    (0, foldl (λ d bdata,
                 if truthy (wakeup (button bdata))
                 then call [EnableIrqWake (gpio_to_irq (gpio (button bdata)))] d
                 else d) d (ddata (sys d)))
  else
    let d := set_enable_after_suspend (enabled d) d in
    (0, if enabled d && drv_disable d then call [PdataDisable] d else d).

(** One round of the loop of [gpio_keys_resume]. *)
Definition resume_line (may_wakeup : bool) (i : nat) (d : device) : device :=
  match ddata (sys d) !! i with
  | None => d
  | Some bdata =>
      let d := if truthy (wakeup (button bdata)) && may_wakeup
               then call [DisableIrqWake (gpio_to_irq (gpio (button bdata)))] d
               else d in
      on_sys (gpio_keys_report_event i) d
  end.

(** [gpio_keys_resume] *)
Definition gpio_keys_resume (may_wakeup : bool) (d : device) : Z * device :=
  let d := foldl (λ d j, resume_line may_wakeup j d) d
             (seq 0 (length (ddata (sys d)))) in
  let d := if negb may_wakeup && enable_after_suspend d && drv_enable d
           then call [PdataEnable] d else d in
  (0, on_sys input_sync d).

(** *** Resources held according to a list of calls *)

Definition sum_calls (f : platform_call → Z) (cs : list platform_call) : Z :=
  foldr (λ c n, f c + n) 0 cs.

(** GPIO [g]: +1 for a request that succeeded, -1 for a [gpio_free]. *)
Definition gpio_delta (g : Z) (c : platform_call) : Z :=
  match c with
  | GpioRequest g' result => if (g' =? g) && (0 <=? result) then 1 else 0
  | GpioFree g' => if g' =? g then -1 else 0
  | _ => 0
  end.

(** Interrupt [irq] of line [i]: +1 for a request that succeeded, -1 for a
    [free_irq]. *)
Definition irq_delta (irq : Z) (i : nat) (c : platform_call) : Z :=
  match c with
  | RequestAnyContextIrq irq' _ i' result =>
      if (irq' =? irq) && Nat.eqb i' i && (0 <=? result) then 1 else 0
  | FreeIrq irq' i' => if (irq' =? irq) && Nat.eqb i' i then -1 else 0
  | _ => 0
  end.

(** Wake-up enables of interrupt [irq]. *)
Definition wake_delta (irq : Z) (c : platform_call) : Z :=
  match c with
  | EnableIrqWake irq' => if irq' =? irq then 1 else 0
  | DisableIrqWake irq' => if irq' =? irq then -1 else 0
  | _ => 0
  end.

Definition gpios_held (g : Z) (cs : list platform_call) : Z :=
  sum_calls (gpio_delta g) cs.

Definition irqs_held (irq : Z) (i : nat) (cs : list platform_call) : Z :=
  sum_calls (irq_delta irq i) cs.

Definition wakes_enabled (irq : Z) (cs : list platform_call) : Z :=
  sum_calls (wake_delta irq) cs.

(** How many of the buttons sit on GPIO [g]. *)
Definition buttons_on (g : Z) (bs : list gpio_keys_button) : Z :=
  Z.of_nat (length (List.filter (λ b, gpio b =? g) bs)).

(** The line that setup makes of a button: the software debounce interval
    is the button's when the GPIO controller refused to debounce, 0
    otherwise. *)
Definition line_of_button (K : kernel_results) (i : nat)
    (button : gpio_keys_button) : gpio_button_data :=
  set_timer_debounce
    (if truthy (debounce_interval button)
        && (gpio_set_debounce_result K i <? 0)
     then debounce_interval button else 0)
    (new_line button).

(** Every fallible call of setting up button [i] succeeds. *)
Definition setup_succeeds (K : kernel_results) (i : nat)
    (button : gpio_keys_button) : bool :=
  (0 <=? gpio_request_result K i)
  && (0 <=? gpio_direction_input_result K i)
  && (0 <=? gpio_to_irq (gpio button))
  && (0 <=? request_any_context_irq_result K i).

(** 1 if button [j] of the list sits on the GPIO of interrupt [irq]. *)
Definition holds_irq (irq : Z) (j : nat) (bs : list gpio_keys_button) : Z :=
  match bs !! j with
  | Some b => if gpio_to_irq (gpio b) =? irq then 1 else 0
  | None => 0
  end.

(** Setup succeeds for every button of the list, the first being button
    [i]. *)
Fixpoint all_setups_succeed (K : kernel_results) (i : nat)
    (bs : list gpio_keys_button) : bool :=
  match bs with
  | [] => true
  | b :: bs => setup_succeeds K i b && all_setups_succeed K (S i) bs
  end.

(** The lines setup makes of a list of buttons, the first being button
    [i]. *)
Fixpoint lines_of_buttons (K : kernel_results) (i : nat)
    (bs : list gpio_keys_button) : list gpio_button_data :=
  match bs with
  | [] => []
  | b :: bs => line_of_button K i b :: lines_of_buttons K (S i) bs
  end.

(** Every fallible call of [gpio_keys_probe] up to and including the
    registration of the input device succeeds. *)
Definition probe_registers (K : kernel_results)
    (pdata : gpio_keys_platform_data) : bool :=
  kzalloc_ok K
  && input_allocate_device_ok K
  && all_setups_succeed K 0 (buttons pdata)
  && (sysfs_create_group_result K gpio_keys_attr_group =? 0)
  && (sysfs_create_group_result K sec_key_attr_group =? 0)
  && (input_register_device_result K =? 0).

(** One read of the level of each line of the list, in order, at the levels
    of [s]. *)
Definition reads_of_lines (s : system) (lines : list gpio_button_data)
    : list action :=
  map (λ bdata, GpioGetValue (gpio (button bdata))
                  (gpio_get_value (gpio (button bdata)) s)) lines.

(** Calls that neither acquire nor release a GPIO or an interrupt. *)
Definition neutral_call (c : platform_call) : bool :=
  match c with
  | GpioRequest _ _ | GpioFree _ | RequestAnyContextIrq _ _ _ _ | FreeIrq _ _ =>
      false
  | _ => true
  end.


(** The interrupts of the lines that are marked as wake-up sources, in the
    order of the lines. *)
Definition wakeup_irqs (lines : list gpio_button_data) : list Z :=
  map (λ bdata, gpio_to_irq (gpio (button bdata)))
    (List.filter (λ bdata, truthy (wakeup (button bdata))) lines).

(** The calls that release the lines of the buttons [bs], the first of them
    being line [i]. *)
Fixpoint release_calls (i : nat) (bs : list gpio_keys_button)
    : list platform_call :=
  match bs with
  | [] => []
  | b :: bs =>
      FreeIrq (gpio_to_irq (gpio b)) i :: CancelWorkSync i :: GpioFree (gpio b)
      :: release_calls (S i) bs
  end.

(** *** The example board as a platform device *)

Definition example_pdata : gpio_keys_platform_data :=
  {| buttons := button <$> example_lines; rep := 0;
     pdata_enable := true; pdata_disable := true |}.

(** A kernel in which every call succeeds, except that the GPIO controller
    debounces only the line of the home key (button 2) itself. *)
Definition example_kernel : kernel_results :=
  {| kzalloc_ok := true; input_allocate_device_ok := true;
     gpio_request_result := λ _, 0;
     gpio_direction_input_result := λ _, 0;
     gpio_set_debounce_result := λ i, if Nat.eqb i 2 then 0 else - EINVAL;
     request_any_context_irq_result := λ _, 0;
     sysfs_create_group_result := λ _, 0;
     device_create_ok := true;
     input_register_device_result := 0;
     kobject_create_and_add_ok := true |}.


(** *** Boards that configure a line differently *)

(** Two keys whose [type] is left 0, which the driver reports as [EV_KEY]:
    code 30 on GPIO 50, which may not be disabled, and code 31 on GPIO 51,
    which may.  Both are held down (the lines are active low). *)
Definition example_untyped_lines : list gpio_button_data :=
  [ example_line (example_button 30 50 0 false 0) 30;
    example_line (example_button 31 51 0 true 0) 30 ].

Definition example_system_untyped : system :=
  set_gpio_level (<[50 := 0]> (<[51 := 0]> (gpio_level example_system)))
    (set_ddata example_untyped_lines example_system).

(** The example board with another code, 200, on the volume-up line. *)
Definition example_system_recoded : system :=
  set_ddata (example_line (example_button 200 67 EV_KEY true 0) 30
             :: tail example_lines) example_system.

(** ** Basic facts about the state record *)

Lemma set_ddata_id (s : system) : set_ddata (ddata s) s = s.
Proof. by destruct s. Qed.

Lemma alter_lookup_None {A} (f : A → A) (l : list A) (i : nat) :
  l !! i = None → alter f i l = l.
Proof.
  intros H. apply list_eq. intros j. rewrite list_lookup_alter.
  case_decide; subst; [by rewrite H|done].
Qed.

Lemma alter_lookup_id {A} (f : A → A) (l : list A) (i : nat) :
  (∀ x, l !! i = Some x → f x = x) → alter f i l = l.
Proof.
  intros H. apply list_eq. intros j. rewrite list_lookup_alter.
  case_decide; subst; [|done].
  destruct (l !! j) as [x|] eqn:E; [|done]. simpl. by rewrite H.
Qed.

Lemma update_line_None (i : nat) f (s : system) :
  ddata s !! i = None → update_line i f s = s.
Proof.
  intros H. unfold update_line.
  rewrite alter_lookup_None by done. apply set_ddata_id.
Qed.

Lemma set_ddata_set_ddata (d d' : list gpio_button_data) (s : system) :
  set_ddata d (set_ddata d' s) = set_ddata d s.
Proof. done. Qed.

(** ** Loops over the lines *)

Lemma for_each_button_ext (body body' : nat → system → system) (s : system) :
  (∀ j s, body j s = body' j s) →
  for_each_button body s = for_each_button body' s.
Proof.
  intros H. unfold for_each_button.
  generalize (seq 0 (length (ddata s))). intros l. revert s.
  induction l as [|a l IH]; intros s; simpl; [done|]. by rewrite H, IH.
Qed.

Lemma foldl_update_line (F : system → gpio_button_data → gpio_button_data)
    (l : list nat) (s : system) :
  (∀ d s, F (set_ddata d s) = F s) →
  NoDup l →
  ∃ d, foldl (λ s j, update_line j (F s) s) s l = set_ddata d s
       ∧ ∀ j, d !! j = if decide (j ∈ l) then F s <$> ddata s !! j
                       else ddata s !! j.
Proof.
  intros HF. revert s. induction l as [|a l IH]; intros s Hl; simpl.
  - exists (ddata s). by rewrite set_ddata_id.
  - apply NoDup_cons in Hl as [Ha Hl].
    destruct (IH (update_line a (F s) s) Hl) as (d & Hd & Hlook).
    exists d. split.
    + rewrite Hd. apply set_ddata_set_ddata.
    + intros j. rewrite Hlook.
      assert (ddata (update_line a (F s) s) = alter (F s) a (ddata s)) as -> by done.
      assert (F (update_line a (F s) s) = F s) as -> by apply HF.
      rewrite list_lookup_alter.
      destruct (decide (j ∈ l)) as [Hjl|Hjl], (decide (a = j)) as [->|Hne];
        try done.
      * rewrite decide_True; [done|]. rewrite elem_of_cons. by right.
      * rewrite decide_True; [done|]. rewrite elem_of_cons. by left.
      * rewrite decide_False; [done|]. rewrite elem_of_cons. by intros [->|?].
Qed.

Lemma for_each_update_line (F : system → gpio_button_data → gpio_button_data)
    (s : system) :
  (∀ d s, F (set_ddata d s) = F s) →
  for_each_button (λ j s, update_line j (F s) s) s
  = set_ddata (F s <$> ddata s) s.
Proof.
  intros HF. unfold for_each_button.
  destruct (foldl_update_line F (seq 0 (length (ddata s))) s HF) as (d & -> & Hd).
  { apply NoDup_seq. }
  f_equal. apply list_eq. intros j. rewrite Hd, list_lookup_fmap.
  destruct (decide (j ∈ seq 0 (length (ddata s)))) as [|Hn]; [done|].
  rewrite elem_of_seq in Hn.
  rewrite (proj2 (lookup_ge_None (ddata s) j)) by lia. done.
Qed.

(** ** Enable/disable control *)

Lemma disable_button_lookup (i : nat) (s : system) (bdata : gpio_button_data) :
  ddata s !! i = Some bdata →
  ∃ bdata', ddata (gpio_keys_disable_button i s) !! i = Some bdata'
            ∧ disabled bdata' = true ∧ button bdata' = button bdata
            ∧ timer_debounce bdata' = timer_debounce bdata.
Proof.
  intros H. unfold gpio_keys_disable_button. rewrite H.
  destruct (disabled bdata) eqn:Hd; simpl; [by eauto|].
  destruct (truthy (timer_debounce bdata)); cbn;
    rewrite ?list_lookup_alter_eq, H; simpl; eauto.
Qed.

Lemma enable_button_lookup (i : nat) (s : system) (bdata : gpio_button_data) :
  ddata s !! i = Some bdata →
  ∃ bdata', ddata (gpio_keys_enable_button i s) !! i = Some bdata'
            ∧ disabled bdata' = false ∧ button bdata' = button bdata
            ∧ timer_debounce bdata' = timer_debounce bdata
            ∧ timer bdata' = timer bdata.
Proof.
  intros H. unfold gpio_keys_enable_button. rewrite H.
  destruct (disabled bdata) eqn:Hd; simpl; [|by eauto 10].
  cbn. rewrite list_lookup_alter_eq, H. simpl. eauto 10.
Qed.

(** C5.  Disabling a line that is already disabled, and enabling a line that
    is already enabled, returns the very same state: the line's [disabled]
    flag, the disable depth of every interrupt, the pending timers and the
    log are untouched, and so is the bitmap that [disabled_keys] and
    [disabled_switches] report.  In particular a second disable (enable)
    right after the first changes nothing. *)
Theorem disable_enable_idempotent (i : nat) (s : system) (bdata : gpio_button_data) :
  ddata s !! i = Some bdata →
  (disabled bdata = true → gpio_keys_disable_button i s = s)
  ∧ (disabled bdata = false → gpio_keys_enable_button i s = s)
  ∧ gpio_keys_disable_button i (gpio_keys_disable_button i s)
    = gpio_keys_disable_button i s
  ∧ gpio_keys_enable_button i (gpio_keys_enable_button i s)
    = gpio_keys_enable_button i s
  ∧ (∀ ok ty, disabled bdata = true →
       gpio_keys_attr_show_helper ok ty true (gpio_keys_disable_button i s)
       = gpio_keys_attr_show_helper ok ty true s)
  ∧ (∀ ok ty, disabled bdata = false →
       gpio_keys_attr_show_helper ok ty true (gpio_keys_enable_button i s)
       = gpio_keys_attr_show_helper ok ty true s).
Proof.
  intros H.
  assert (Hd : disabled bdata = true → gpio_keys_disable_button i s = s).
  { intros Hx. unfold gpio_keys_disable_button. by rewrite H, Hx. }
  assert (He : disabled bdata = false → gpio_keys_enable_button i s = s).
  { intros Hx. unfold gpio_keys_enable_button. by rewrite H, Hx. }
  repeat split; try done.
  - destruct (disable_button_lookup i s bdata H) as (b' & Hl & Hb & _).
    remember (gpio_keys_disable_button i s) as s1.
    unfold gpio_keys_disable_button at 1. by rewrite Hl, Hb.
  - destruct (enable_button_lookup i s bdata H) as (b' & Hl & Hb & _).
    remember (gpio_keys_enable_button i s) as s1.
    unfold gpio_keys_enable_button at 1. by rewrite Hl, Hb.
  - intros ok ty Hdis. by rewrite Hd.
  - intros ok ty Hdis. by rewrite He.
Qed.

Lemma store_validate_rejects (ty bits : Z) (l : list gpio_button_data)
    (i : nat) (bdata : gpio_button_data) :
  l !! i = Some bdata →
  type (button bdata) = ty →
  test_bit (code (button bdata)) bits = true →
  can_disable (button bdata) = false →
  store_validate ty bits l = - EINVAL.
Proof.
  revert i. induction l as [|b l IH]; intros i Hl Hty Hbit Hcd; [done|].
  destruct i as [|i]; simpl in *.
  - injection Hl as ->. by rewrite Hty, Z.eqb_refl, Hbit, Hcd.
  - destruct (negb (type (button b) =? ty)); [by eapply IH|].
    destruct (test_bit (code (button b)) bits && negb (can_disable (button b)));
      [done|by eapply IH].
Qed.

Lemma truthy_neg_EINVAL : truthy (- EINVAL) = true.
Proof. reflexivity. Qed.

(** Validation of a write, for a line whose [type] field is the class
    written.  A write to [disabled_keys] or [disabled_switches] (event class
    [ty]) whose bitmap names the code of a line with [type] equal to [ty]
    and [can_disable] unset fails as a whole: the helper and the store entry
    point return a nonzero error ([-EINVAL] when the bitmap was allocated
    and parsed) and the state they return is the state they were given, so
    no [disabled] flag, interrupt depth or pending timer has changed.  A key
    whose [type] is left 0 is not such a line: the loop compares the field
    as it is. *)
Theorem store_rejects_non_disableable (kcalloc_ok : bool)
    (parse_error bits ty count : Z) (s : system) (i : nat)
    (bdata : gpio_button_data) :
  ddata s !! i = Some bdata →
  type (button bdata) = ty →
  test_bit (code (button bdata)) bits = true →
  can_disable (button bdata) = false →
  ∃ error, error ≠ 0
    ∧ gpio_keys_attr_store_helper kcalloc_ok parse_error bits ty s = (error, s)
    ∧ gpio_keys_store ty kcalloc_ok parse_error bits count s = (error, s)
    ∧ (kcalloc_ok = true → parse_error = 0 → error = - EINVAL).
Proof.
  intros Hl Hty Hbit Hcd.
  pose proof (store_validate_rejects ty bits (ddata s) i bdata Hl Hty Hbit Hcd) as Hv.
  unfold gpio_keys_store, gpio_keys_attr_store_helper.
  destruct kcalloc_ok; simpl.
  - destruct (truthy parse_error) eqn:Hp; simpl.
    + exists parse_error. rewrite Hp. repeat split; try done.
      * intros ->. discriminate Hp.
      * intros _ ->. discriminate Hp.
    + rewrite Hv, truthy_neg_EINVAL. simpl. exists (- EINVAL). by repeat split.
  - exists (- ENOMEM). by repeat split.
Qed.

(** ** Wake-up control *)

Lemma wakeup_body (bits : Z) (j : nat) (s : system) :
  match ddata s !! j with
  | None => s
  | Some bdata =>
      if test_bit (code (button bdata)) bits
      then update_line j (λ d, set_button (set_wakeup 1 (button d)) d) s
      else update_line j (λ d, set_button (set_wakeup 0 (button d)) d) s
  end = update_line j (wakeup_line bits) s.
Proof.
  destruct (ddata s !! j) as [bdata|] eqn:H.
  - unfold update_line.
    destruct (test_bit (code (button bdata)) bits) eqn:Hb; f_equal;
      apply list_alter_ext; try done; intros x Hx;
      assert (x = bdata) as -> by congruence; unfold wakeup_line; by rewrite Hb.
  - by rewrite update_line_None.
Qed.

Lemma wakeup_line_ext (bits bits' : Z) (l : list gpio_button_data) :
  (∀ i b, l !! i = Some b →
     test_bit (code (button b)) bits' = test_bit (code (button b)) bits) →
  wakeup_line bits' <$> l = wakeup_line bits <$> l.
Proof.
  intros H. apply list_eq. intros i. rewrite !list_lookup_fmap.
  destruct (l !! i) as [b|] eqn:E; [|done]. simpl.
  unfold wakeup_line. by rewrite (H i b E).
Qed.

(** C9 (amended).  When the bitmap could be allocated, a write to
    [wakeup_keys] returns the byte count, also on malformed input.  After a
    successful parse every configured line, of whatever class, has [wakeup]
    set to 1 if its code is in the bitmap and to 0 otherwise, and nothing
    else changes; bits that are the code of no configured line have no
    effect.  On malformed input the state is unchanged.  When the bitmap
    cannot be allocated the write returns [-ENOMEM] and changes nothing. *)
Theorem wakeup_enable_sets_named (parse_error bits count : Z) (s : system) :
  fst (wakeup_enable true parse_error bits count s) = count
  ∧ (parse_error = 0 →
       snd (wakeup_enable true parse_error bits count s)
       = set_ddata (wakeup_line bits <$> ddata s) s)
  ∧ (parse_error ≠ 0 →
       snd (wakeup_enable true parse_error bits count s) = s)
  ∧ (∀ bits',
       (∀ i b, ddata s !! i = Some b →
          test_bit (code (button b)) bits' = test_bit (code (button b)) bits) →
       wakeup_enable true parse_error bits' count s
       = wakeup_enable true parse_error bits count s)
  ∧ wakeup_enable false parse_error bits count s = (- ENOMEM, s).
Proof.
  assert (Hloop : ∀ b,
    for_each_button
      (λ i s,
         match ddata s !! i with
         | None => s
         | Some bdata =>
             if test_bit (code (button bdata)) b
             then update_line i (λ d, set_button (set_wakeup 1 (button d)) d) s
             else update_line i (λ d, set_button (set_wakeup 0 (button d)) d) s
         end) s = set_ddata (wakeup_line b <$> ddata s) s).
  { intros b.
    rewrite (for_each_button_ext _ (λ j s, update_line j (wakeup_line b) s))
      by apply wakeup_body.
    by apply (for_each_update_line (λ _, wakeup_line b)). }
  unfold wakeup_enable. simpl.
  destruct (truthy parse_error) eqn:Hp; simpl.
  - split; [done|]. split; [intros ->; discriminate Hp|].
    split; [done|]. split; [|done]. by intros bits' _.
  - split; [done|]. split; [intros _; apply Hloop|].
    split.
    { intros Hne. unfold truthy in Hp. apply negb_false_iff, Z.eqb_eq in Hp. done. }
    split; [|done]. intros bits' Hsame. f_equal. rewrite !Hloop.
    f_equal. by apply wakeup_line_ext.
Qed.

(** ** The interrupt controller *)

Lemma irq_depth_disable_eq (q : Z) (s : system) :
  irq_disable_depth q (disable_irq q s) = S (irq_disable_depth q s).
Proof.
  unfold irq_disable_depth at 1, disable_irq. simpl.
  by rewrite lookup_insert_eq.
Qed.

Lemma irq_depth_disable_ne (q q0 : Z) (s : system) :
  q ≠ q0 → irq_disable_depth q (disable_irq q0 s) = irq_disable_depth q s.
Proof.
  intros H. unfold irq_disable_depth, disable_irq. simpl.
  by rewrite lookup_insert_ne.
Qed.

Lemma irq_depth_enable_eq (q : Z) (s : system) :
  irq_disable_depth q (enable_irq q s) = Nat.pred (irq_disable_depth q s).
Proof.
  unfold irq_disable_depth at 1, enable_irq. simpl.
  by rewrite lookup_insert_eq.
Qed.

Lemma irq_depth_enable_ne (q q0 : Z) (s : system) :
  q ≠ q0 → irq_disable_depth q (enable_irq q0 s) = irq_disable_depth q s.
Proof.
  intros H. unfold irq_disable_depth, enable_irq. simpl.
  by rewrite lookup_insert_ne.
Qed.

Lemma irq_depth_frame (q : Z) (s s' : system) :
  irq_depth s' = irq_depth s → irq_disable_depth q s' = irq_disable_depth q s.
Proof. unfold irq_disable_depth. by intros ->. Qed.

Lemma alter_insert {A} (f : A → A) (l : list A) (i : nat) (x : A) :
  l !! i = Some x → alter f i l = <[i := f x]> l.
Proof.
  intros H. apply list_eq. intros j.
  rewrite list_lookup_alter, list_lookup_insert.
  case_decide as Hd; subst.
  - rewrite H. simpl. rewrite decide_True; [done|].
    split; [done|]. by apply lookup_lt_Some in H.
  - rewrite decide_False; [done|]. by intros [? _].
Qed.

Lemma line_irq_ne (s : system) (i j : nat) (bi bj : gpio_button_data) :
  NoDup (line_irq <$> ddata s) →
  ddata s !! i = Some bi → ddata s !! j = Some bj → i ≠ j →
  line_irq bj ≠ line_irq bi.
Proof.
  intros Hnd Hi Hj Hne Heq. apply Hne.
  eapply (NoDup_lookup _ i j (line_irq bi) Hnd).
  - by rewrite list_lookup_fmap, Hi.
  - rewrite list_lookup_fmap, Hj. simpl. by rewrite Heq.
Qed.

(** Replacing one line, with the same button, by a consistent one keeps the
    whole state consistent if no other interrupt is touched. *)
Lemma consistent_update (s s' : system) (i : nat) (b b' : gpio_button_data) :
  consistent s →
  ddata s !! i = Some b →
  ddata s' = <[i := b']> (ddata s) →
  button b' = button b →
  (∀ q, q ≠ line_irq b → irq_disable_depth q s' = irq_disable_depth q s) →
  line_consistent s' b' →
  consistent s'.
Proof.
  intros [Hnd Hc] Hi Hd Hb Hq Hc'.
  assert (Hirqs : line_irq <$> ddata s' = line_irq <$> ddata s).
  { rewrite Hd, list_fmap_insert. apply list_insert_id.
    rewrite list_lookup_fmap, Hi. simpl. unfold line_irq. by rewrite Hb. }
  split; [by rewrite Hirqs|].
  intros j bj Hj. rewrite Hd in Hj.
  destruct (decide (i = j)) as [->|Hne].
  - rewrite list_lookup_insert_eq in Hj by (by eapply lookup_lt_Some).
    by injection Hj as <-.
  - rewrite list_lookup_insert_ne in Hj by done.
    destruct (Hc j bj Hj) as (H1 & H2 & H3).
    repeat split; try done.
    rewrite Hq; [done|]. by eapply line_irq_ne.
Qed.

Lemma is_mask_action_app (l1 l2 : list action) :
  forallb is_mask_action (l1 ++ l2)
  = forallb is_mask_action l1 && forallb is_mask_action l2.
Proof. apply forallb_app. Qed.

(** One round of the second loop of [gpio_keys_attr_store_helper]. *)
Lemma store_apply_step (ty bits : Z) (i : nat) (s : system) :
  consistent s →
  consistent (store_apply ty bits i s)
  ∧ ddata (store_apply ty bits i s) = alter (store_line ty bits) i (ddata s)
  ∧ ∃ acts, log (store_apply ty bits i s) = log s ++ acts
            ∧ forallb is_mask_action acts = true.
Proof.
  intros Hc. unfold store_apply.
  destruct (ddata s !! i) as [b|] eqn:Hi.
  2:{ rewrite alter_lookup_None by done. split; [done|]. split; [done|].
      exists []. by rewrite app_nil_r. }
  rewrite (alter_insert _ _ _ b Hi). unfold store_line.
  pose proof (proj2 Hc i b Hi) as (Hdepth & Hdt & Htd).
  assert (Hnop : consistent s ∧ ddata s = <[i := b]> (ddata s)
                 ∧ ∃ acts, log s = log s ++ acts
                           ∧ forallb is_mask_action acts = true).
  { split; [done|]. split; [by rewrite list_insert_id|].
    exists []. by rewrite app_nil_r. }
  destruct (negb (type (button b) =? ty)); [done|].
  destruct (test_bit (code (button b)) bits).
  - unfold gpio_keys_disable_button. rewrite Hi.
    destruct (disabled b) eqn:Hdis; simpl; [done|].
    destruct (truthy (timer_debounce b)) eqn:Htr.
    + split; [|split].
      * eapply (consistent_update s _ i b); [done|done| | | |].
        -- cbn. rewrite list_alter_alter_eq. by rewrite (alter_insert _ _ _ b Hi).
        -- done.
        -- intros q Hq. cbn.
           rewrite <- (irq_depth_disable_ne q (line_irq b) s Hq). by apply irq_depth_frame.
        -- split; [|by split].
           transitivity (irq_disable_depth (line_irq b) (disable_irq (line_irq b) s));
             [by apply irq_depth_frame|].
           by rewrite irq_depth_disable_eq, Hdepth.
      * cbn. rewrite list_alter_alter_eq. by rewrite (alter_insert _ _ _ b Hi).
      * exists [DisableIrq (gpio_to_irq (gpio (button b))); DelTimerSync i].
        split; [|done]. cbn. by rewrite <- app_assoc.
    + split; [|split].
      * eapply (consistent_update s _ i b); [done|done| | | |].
        -- cbn. by apply alter_insert.
        -- done.
        -- intros q Hq. cbn.
           rewrite <- (irq_depth_disable_ne q (line_irq b) s Hq). by apply irq_depth_frame.
        -- unfold truthy in Htr. apply negb_false_iff, Z.eqb_eq in Htr.
           split; [|split; simpl; auto].
           transitivity (irq_disable_depth (line_irq b) (disable_irq (line_irq b) s));
             [by apply irq_depth_frame|].
           by rewrite irq_depth_disable_eq, Hdepth.
      * cbn. by apply alter_insert.
      * exists [DisableIrq (gpio_to_irq (gpio (button b)))]. done.
  - unfold gpio_keys_enable_button. rewrite Hi.
    destruct (disabled b) eqn:Hdis; simpl; [|done].
    split; [|split].
    + eapply (consistent_update s _ i b); [done|done| | | |].
      * cbn. by apply alter_insert.
      * done.
      * intros q Hq. cbn.
        rewrite <- (irq_depth_enable_ne q (line_irq b) s Hq). by apply irq_depth_frame.
      * split; [|split; simpl; auto; done].
        transitivity (irq_disable_depth (line_irq b) (enable_irq (line_irq b) s));
          [by apply irq_depth_frame|].
        by rewrite irq_depth_enable_eq, Hdepth.
    + cbn. by apply alter_insert.
    + exists [EnableIrq (gpio_to_irq (gpio (button b)))]. done.
Qed.

Lemma foldl_button_inv (I : system → Prop) (body : nat → system → system)
    (f : gpio_button_data → gpio_button_data) (l : list nat) (s : system) :
  (∀ j s, I s → I (body j s) ∧ ddata (body j s) = alter f j (ddata s)) →
  NoDup l → I s →
  I (foldl (λ s j, body j s) s l)
  ∧ ∀ j, ddata (foldl (λ s j, body j s) s l) !! j
         = if decide (j ∈ l) then f <$> ddata s !! j else ddata s !! j.
Proof.
  intros Hbody. revert s. induction l as [|a l IH]; intros s Hl HI; simpl.
  - done.
  - apply NoDup_cons in Hl as [Ha Hl].
    destruct (Hbody a s HI) as [HI' Hd].
    destruct (IH (body a s) Hl HI') as [HI'' Hlook].
    split; [done|]. intros j. rewrite Hlook, Hd, list_lookup_alter.
    destruct (decide (j ∈ l)) as [Hjl|Hjl], (decide (a = j)) as [->|Hne];
      try done.
    + rewrite decide_True; [done|]. rewrite elem_of_cons. by right.
    + rewrite decide_True; [done|]. rewrite elem_of_cons. by left.
    + rewrite decide_False; [done|]. rewrite elem_of_cons. by intros [->|?].
Qed.

Lemma for_each_button_inv (I : system → Prop) (body : nat → system → system)
    (f : gpio_button_data → gpio_button_data) (s : system) :
  (∀ j s, I s → I (body j s) ∧ ddata (body j s) = alter f j (ddata s)) →
  I s →
  I (for_each_button body s) ∧ ddata (for_each_button body s) = f <$> ddata s.
Proof.
  intros Hbody HI. unfold for_each_button.
  destruct (foldl_button_inv I body f (seq 0 (length (ddata s))) s Hbody)
    as [HI' Hd]; [apply NoDup_seq|done|].
  split; [done|]. apply list_eq. intros j. rewrite Hd, list_lookup_fmap.
  destruct (decide (j ∈ seq 0 (length (ddata s)))) as [|Hn]; [done|].
  rewrite elem_of_seq in Hn.
  rewrite (proj2 (lookup_ge_None (ddata s) j)) by lia. done.
Qed.

Lemma consistent_frame (s s' : system) :
  ddata s' = ddata s → irq_depth s' = irq_depth s →
  consistent s → consistent s'.
Proof.
  intros Hd Hq [Hnd Hc]. split; [by rewrite Hd|].
  intros i b Hi. rewrite Hd in Hi. destruct (Hc i b Hi) as (H1 & H2 & H3).
  repeat split; try done. by rewrite (irq_depth_frame _ s s').
Qed.

Lemma store_helper_success (kcalloc_ok : bool) (parse_error bits ty : Z)
    (s s' : system) :
  gpio_keys_attr_store_helper kcalloc_ok parse_error bits ty s = (0, s') →
  kcalloc_ok = true ∧ parse_error = 0 ∧ store_validate ty bits (ddata s) = 0
  ∧ s' = emit MutexUnlock
           (for_each_button (store_apply ty bits) (emit MutexLock s)).
Proof.
  unfold gpio_keys_attr_store_helper.
  destruct kcalloc_ok; simpl; [|intros [=]].
  destruct (truthy parse_error) eqn:Hp.
  { intros [= -> _]. discriminate Hp. }
  destruct (truthy (store_validate ty bits (ddata s))) eqn:Hv.
  { intros [= Hz _]. rewrite Hz in Hv. discriminate Hv. }
  intros [= <-]. unfold truthy in *.
  apply negb_false_iff, Z.eqb_eq in Hp, Hv. done.
Qed.

Lemma store_line_spec (ty bits : Z) (b : gpio_button_data) :
  button (store_line ty bits b) = button b
  ∧ (type (button b) = ty → test_bit (code (button b)) bits = true →
     disabled (store_line ty bits b) = true)
  ∧ (type (button b) = ty → test_bit (code (button b)) bits = false →
     disabled (store_line ty bits b) = false)
  ∧ (type (button b) ≠ ty → store_line ty bits b = b).
Proof.
  unfold store_line.
  destruct (Z.eqb_spec (type (button b)) ty) as [He|Hne]; simpl;
    [|by repeat split].
  destruct (test_bit (code (button b)) bits), (disabled b) eqn:Hdis; simpl;
    repeat split; try done; intros; try congruence;
    by destruct (truthy (timer_debounce b)).
Qed.

(** Application of a write, for the lines whose [type] field is the class
    written.  A successful write to [disabled_keys] or [disabled_switches]
    (event class [ty]) takes [disable_lock] once, releases it at the end, and
    between the two does nothing but mask and unmask lines.  In a state where
    every line owns its interrupt and agrees with the interrupt controller,
    afterwards every line with [type] equal to [ty] whose code is in the
    bitmap is disabled, its interrupt is masked and it has no pending
    debounce timer; every other line with that [type] is enabled with its
    interrupt unmasked; all other lines, a key whose [type] is left 0 among
    them, are as before. *)
Theorem store_applies_bitmap (kcalloc_ok : bool) (parse_error bits ty : Z)
    (s s' : system) :
  consistent s →
  gpio_keys_attr_store_helper kcalloc_ok parse_error bits ty s = (0, s') →
  (∃ acts, log s' = log s ++ [MutexLock] ++ acts ++ [MutexUnlock]
           ∧ forallb is_mask_action acts = true)
  ∧ consistent s'
  ∧ ∀ i bdata, ddata s !! i = Some bdata →
      ∃ bdata', ddata s' !! i = Some bdata'
        ∧ button bdata' = button bdata
        ∧ (type (button bdata) = ty →
           test_bit (code (button bdata)) bits = true →
           disabled bdata' = true
           ∧ irq_masked (line_irq bdata) s' = true
           ∧ timer bdata' = None)
        ∧ (type (button bdata) = ty →
           test_bit (code (button bdata)) bits = false →
           disabled bdata' = false
           ∧ irq_masked (line_irq bdata) s' = false)
        ∧ (type (button bdata) ≠ ty → bdata' = bdata).
Proof.
  intros Hc Hok.
  apply store_helper_success in Hok as (_ & _ & _ & ->).
  set (I := λ s1, consistent s1
                  ∧ ∃ acts, log s1 = log s ++ [MutexLock] ++ acts
                            ∧ forallb is_mask_action acts = true).
  destruct (for_each_button_inv I (store_apply ty bits) (store_line ty bits)
              (emit MutexLock s)) as [[Hc1 (acts & Hlog & Hacts)] Hd].
  { intros j s1 [Hc1 (acts & Hlog & Hacts)].
    destruct (store_apply_step ty bits j s1 Hc1) as (Hc2 & Hd & acts' & Hlog' & Hacts').
    split; [|done]. split; [done|]. exists (acts ++ acts'). split.
    - rewrite Hlog', Hlog. by rewrite <- !app_assoc.
    - by rewrite is_mask_action_app, Hacts, Hacts'. }
  { split; [by apply (consistent_frame s)|]. exists []. done. }
  remember (for_each_button (store_apply ty bits) (emit MutexLock s)) as s1 eqn:Es1.
  clear Es1.
  assert (Hc2 : consistent (emit MutexUnlock s1)) by by apply (consistent_frame s1).
  split; [|split; [done|]].
  - exists acts. split; [|done]. cbn. rewrite Hlog. by rewrite <- !app_assoc.
  - intros i b Hi. exists (store_line ty bits b).
    assert (Hi' : ddata (emit MutexUnlock s1) !! i = Some (store_line ty bits b)).
    { cbn. rewrite Hd. cbn. by rewrite list_lookup_fmap, Hi. }
    destruct (proj2 Hc2 i _ Hi') as (Hdepth & Hdt & Htd).
    destruct (store_line_spec ty bits b) as (Hb & Hon & Hoff & Hother).
    assert (Hq : line_irq (store_line ty bits b) = line_irq b).
    { unfold line_irq. by rewrite Hb. }
    rewrite Hq in Hdepth. unfold irq_masked. rewrite Hdepth.
    split; [done|]. split; [done|]. split; [|split; [|done]].
    + intros Hty Hbit. specialize (Hon Hty Hbit). rewrite Hon. auto.
    + intros Hty Hbit. specialize (Hoff Hty Hbit). by rewrite Hoff.
Qed.

(** ** Deferred evaluation *)

Lemma input_events_app (l1 l2 : list action) :
  input_events (l1 ++ l2) = input_events l1 ++ input_events l2.
Proof. apply List.filter_app. Qed.

Lemma evaluations_app (l1 l2 : list action) :
  evaluations (l1 ++ l2) = evaluations l1 ++ evaluations l2.
Proof. apply List.filter_app. Qed.

Lemma transport_calls_app (l1 l2 : list action) :
  transport_calls (l1 ++ l2) = transport_calls l1 ++ transport_calls l2.
Proof. apply List.filter_app. Qed.

Lemma input_events_pr_err (c : bool) (m : String.string) :
  input_events (if c then [PrErr m] else []) = [].
Proof. by destruct c. Qed.

Lemma evaluations_pr_err (c : bool) (m : String.string) :
  evaluations (if c then [PrErr m] else []) = [].
Proof. by destruct c. Qed.

Lemma transport_calls_pr_err (c : bool) (m : String.string) :
  transport_calls (if c then [PrErr m] else []) = [].
Proof. by destruct c. Qed.

(** Reduce projections of explicit states, and nothing else. *)
Ltac reduce_state :=
  cbv beta iota zeta delta
    [ddata params volkey homekey emu wq jiffies irq_depth gpio_level log
      set_ddata set_params set_volkey set_homekey set_emu set_wq set_jiffies
      set_irq_depth set_gpio_level emit pr_err pr_err_if dbg
      volkey_skip_track_is_ongoing volkey_do_volume_key_press_is_ongoing
      volkey_skip_track_now volkey_remap_keys volkey_emulate_key_nextsong
      set_volkey_skip_track_is_ongoing set_volkey_do_volume_key_press_is_ongoing
      set_volkey_skip_track_now set_volkey_remap_keys
      set_volkey_emulate_key_nextsong
      homekey_press_play_is_ongoing homekey_do_press_play_is_ongoing
      homekey_press_play_now homekey_is_remapped
      set_homekey_press_play_is_ongoing set_homekey_do_press_play_is_ongoing
      set_homekey_press_play_now set_homekey_is_remapped
      emu_working emu_keycode g_bVolUp g_bPower g_bHome
      set_emu_working set_emu_keycode set_g_bVolUp set_g_bPower set_g_bHome
      volkey_skip_track_work homekey_press_play_work
      volkey_do_volume_key_press_work homekey_do_press_play_work
      gpio_keys_emulator_work
      set_volkey_skip_track_work set_homekey_press_play_work
      set_volkey_do_volume_key_press_work set_homekey_do_press_play_work
      set_gpio_keys_emulator_work
      assign_volkey assign_homekey assign_emu assign_wq
      abb_ponkey_remap_power_key ab8500_ponkey_emulator mdelay unmap_keys
      input_event input_sync update_line flow_state andb orb negb].

Ltac reduce_state_in H :=
  cbv beta iota zeta delta
    [ddata params volkey homekey emu wq jiffies irq_depth gpio_level log
      set_ddata set_params set_volkey set_homekey set_emu set_wq set_jiffies
      set_irq_depth set_gpio_level emit pr_err pr_err_if dbg
      volkey_skip_track_is_ongoing volkey_do_volume_key_press_is_ongoing
      volkey_skip_track_now volkey_remap_keys volkey_emulate_key_nextsong
      set_volkey_skip_track_is_ongoing set_volkey_do_volume_key_press_is_ongoing
      set_volkey_skip_track_now set_volkey_remap_keys
      set_volkey_emulate_key_nextsong
      homekey_press_play_is_ongoing homekey_do_press_play_is_ongoing
      homekey_press_play_now homekey_is_remapped
      set_homekey_press_play_is_ongoing set_homekey_do_press_play_is_ongoing
      set_homekey_press_play_now set_homekey_is_remapped
      emu_working emu_keycode g_bVolUp g_bPower g_bHome
      set_emu_working set_emu_keycode set_g_bVolUp set_g_bPower set_g_bHome
      volkey_skip_track_work homekey_press_play_work
      volkey_do_volume_key_press_work homekey_do_press_play_work
      gpio_keys_emulator_work
      set_volkey_skip_track_work set_homekey_press_play_work
      set_volkey_do_volume_key_press_work set_homekey_do_press_play_work
      set_gpio_keys_emulator_work
      assign_volkey assign_homekey assign_emu assign_wq
      abb_ponkey_remap_power_key ab8500_ponkey_emulator mdelay unmap_keys
      input_event input_sync update_line flow_state andb orb negb] in H.

Ltac log_simpl :=
  reduce_state;
  rewrite ?input_events_app, ?evaluations_app, ?transport_calls_app,
    ?input_events_pr_err, ?evaluations_pr_err, ?transport_calls_pr_err;
  cbn; rewrite ?app_nil_r.

(** Use the disequalities of the context to decide tests in [H]. *)
Ltac decide_eqb_in H :=
  repeat match goal with
         | Hne : ?x ≠ ?y |- _ => rewrite (proj2 (Z.eqb_neq x y) Hne) in H
         end.

(** Evaluate a remap block once, after its tests have been decided. *)
Ltac eval_block :=
  match goal with
  | |- context [volkey_block ?a ?b ?c] =>
      let r := fresh "r" in
      let Hr := fresh "Hr" in
      let up := fresh "up" in
      remember (volkey_block a b c) as r eqn:Hr;
      unfold volkey_block in Hr; decide_eqb_in Hr;
      set (up := a =? VOL_UP_JANICE_R0_0) in Hr;
      cbv beta iota zeta delta [Z.eqb Pos.eqb] in Hr;
      reduce_state_in Hr; subst up; subst r
  | |- context [homekey_block ?b ?c] =>
      let r := fresh "r" in
      let Hr := fresh "Hr" in
      remember (homekey_block b c) as r eqn:Hr;
      unfold homekey_block in Hr; decide_eqb_in Hr;
      cbv beta iota zeta delta [Z.eqb Pos.eqb] in Hr;
      reduce_state_in Hr; subst r
  end.

Ltac destruct_system s :=
  let d := fresh "d" in let p := fresh "p" in let v := fresh "v" in
  let h := fresh "h" in let e := fresh "e" in let w := fresh "w" in
  let j := fresh "j" in let q := fresh "q" in let gl := fresh "gl" in
  let l := fresh "l" in
  destruct s as [d p v h e w j q gl l].

(** What the volume block does, path by path. *)
Lemma volkey_block_spec (g state : Z) (s : system) :
  (* untouched parts *)
  (ddata (flow_state (volkey_block g state s)) = ddata s
   ∧ params (flow_state (volkey_block g state s)) = params s
   ∧ homekey (flow_state (volkey_block g state s)) = homekey s
   ∧ emu (flow_state (volkey_block g state s)) = emu s
   ∧ jiffies (flow_state (volkey_block g state s)) = jiffies s
   ∧ irq_depth (flow_state (volkey_block g state s)) = irq_depth s
   ∧ gpio_level (flow_state (volkey_block g state s)) = gpio_level s
   ∧ homekey_press_play_work (wq (flow_state (volkey_block g state s)))
     = homekey_press_play_work (wq s)
   ∧ homekey_do_press_play_work (wq (flow_state (volkey_block g state s)))
     = homekey_do_press_play_work (wq s)
   ∧ gpio_keys_emulator_work (wq (flow_state (volkey_block g state s)))
     = gpio_keys_emulator_work (wq s)
   ∧ input_events (log (flow_state (volkey_block g state s)))
     = input_events (log s)
   ∧ evaluations (log (flow_state (volkey_block g state s)))
     = evaluations (log s))
  (* the selector *)
  ∧ volkey_emulate_key_nextsong (volkey (flow_state (volkey_block g state s)))
    = (g =? VOL_UP_JANICE_R0_0)
  (* a pulse is in flight *)
  ∧ (volkey_do_volume_key_press_is_ongoing (volkey s) = true →
     transport_calls (log (flow_state (volkey_block g state s)))
     = transport_calls (log s)
     ∧ volkey_do_volume_key_press_work (wq (flow_state (volkey_block g state s)))
       = volkey_do_volume_key_press_work (wq s)
     ∧ volkey_do_volume_key_press_is_ongoing
         (volkey (flow_state (volkey_block g state s))) = true)
  (* press *)
  ∧ (state = 1 →
     volkey_block g state s = Return (flow_state (volkey_block g state s))
     ∧ volkey_skip_track_is_ongoing
         (volkey (flow_state (volkey_block g state s))) = true
     ∧ volkey_skip_track_now (volkey (flow_state (volkey_block g state s))) = false
     ∧ volkey_skip_track_work (wq (flow_state (volkey_block g state s)))
       = (if volkey_skip_track_is_ongoing (volkey s)
          then Some (jiffies s + volkey_long_press_delay_ms (params s))
          else schedule_delayed (volkey_skip_track_work (wq s)) (jiffies s)
                 (volkey_long_press_delay_ms (params s)))
     ∧ volkey_do_volume_key_press_is_ongoing
         (volkey (flow_state (volkey_block g state s)))
       = volkey_do_volume_key_press_is_ongoing (volkey s)
     ∧ volkey_remap_keys (volkey (flow_state (volkey_block g state s)))
       = volkey_remap_keys (volkey s)
     ∧ volkey_do_volume_key_press_work (wq (flow_state (volkey_block g state s)))
       = volkey_do_volume_key_press_work (wq s)
     ∧ transport_calls (log (flow_state (volkey_block g state s)))
       = transport_calls (log s))
  (* release with no pulse in flight *)
  ∧ (state = 0 →
     volkey_do_volume_key_press_is_ongoing (volkey s) = false →
     volkey_block g state s = Return (flow_state (volkey_block g state s))
     ∧ volkey_remap_keys (volkey (flow_state (volkey_block g state s)))
       = volkey_skip_track_now (volkey s)
     ∧ volkey_do_volume_key_press_is_ongoing
         (volkey (flow_state (volkey_block g state s))) = true
     ∧ volkey_do_volume_key_press_work (wq (flow_state (volkey_block g state s)))
       = true
     ∧ volkey_skip_track_now (volkey (flow_state (volkey_block g state s))) = false
     ∧ volkey_skip_track_is_ongoing (volkey (flow_state (volkey_block g state s)))
       = volkey_skip_track_is_ongoing (volkey s)
     ∧ volkey_skip_track_work (wq (flow_state (volkey_block g state s)))
       = volkey_skip_track_work (wq s)
     ∧ transport_calls (log (flow_state (volkey_block g state s)))
       = transport_calls (log s)
         ++ [PonkeyRemapPowerKey KEY_POWER
               (if volkey_skip_track_now (volkey s)
                then volkey_alternate g else volkey_primary g)])
  (* release, whatever is in flight *)
  ∧ (state = 0 →
     volkey_block g state s = Return (flow_state (volkey_block g state s)))
  (* neither *)
  ∧ (state ≠ 1 → state ≠ 0 →
     volkey_block g state s = Continue (flow_state (volkey_block g state s))
     ∧ transport_calls (log (flow_state (volkey_block g state s)))
       = transport_calls (log s)
     ∧ wq (flow_state (volkey_block g state s)) = wq s).
Proof.
  destruct_system s. destruct v as [v1 v2 v3 v4 v5].
  unfold volkey_primary, volkey_alternate.
  destruct (Z.eqb_spec state 1) as [->|H1];
    [|destruct (Z.eqb_spec state 0) as [->|H0]];
    destruct v1, v2, v3; eval_block; destruct (g =? VOL_UP_JANICE_R0_0);
    log_simpl; repeat split; try done; intros; try done; by destruct w.
Qed.

(** What the home block does, path by path. *)
Lemma homekey_block_spec (state : Z) (s : system) :
  (* untouched parts *)
  (ddata (flow_state (homekey_block state s)) = ddata s
   ∧ params (flow_state (homekey_block state s)) = params s
   ∧ volkey (flow_state (homekey_block state s)) = volkey s
   ∧ emu (flow_state (homekey_block state s)) = emu s
   ∧ jiffies (flow_state (homekey_block state s)) = jiffies s
   ∧ irq_depth (flow_state (homekey_block state s)) = irq_depth s
   ∧ gpio_level (flow_state (homekey_block state s)) = gpio_level s
   ∧ volkey_skip_track_work (wq (flow_state (homekey_block state s)))
     = volkey_skip_track_work (wq s)
   ∧ volkey_do_volume_key_press_work (wq (flow_state (homekey_block state s)))
     = volkey_do_volume_key_press_work (wq s)
   ∧ gpio_keys_emulator_work (wq (flow_state (homekey_block state s)))
     = gpio_keys_emulator_work (wq s)
   ∧ input_events (log (flow_state (homekey_block state s)))
     = input_events (log s)
   ∧ evaluations (log (flow_state (homekey_block state s)))
     = evaluations (log s))
  (* a pulse is in flight *)
  ∧ (homekey_do_press_play_is_ongoing (homekey s) = true →
     transport_calls (log (flow_state (homekey_block state s)))
     = transport_calls (log s)
     ∧ homekey_do_press_play_work (wq (flow_state (homekey_block state s)))
       = homekey_do_press_play_work (wq s)
     ∧ homekey_do_press_play_is_ongoing
         (homekey (flow_state (homekey_block state s))) = true)
  (* press *)
  ∧ (state = 1 →
     homekey_block state s = Return (flow_state (homekey_block state s))
     ∧ homekey_press_play_is_ongoing
         (homekey (flow_state (homekey_block state s))) = true
     ∧ homekey_press_play_now (homekey (flow_state (homekey_block state s))) = false
     ∧ homekey_press_play_work (wq (flow_state (homekey_block state s)))
       = (if homekey_press_play_is_ongoing (homekey s)
          then Some (jiffies s + homekey_long_press_delay_ms (params s))
          else schedule_delayed (homekey_press_play_work (wq s)) (jiffies s)
                 (homekey_long_press_delay_ms (params s)))
     ∧ homekey_do_press_play_is_ongoing
         (homekey (flow_state (homekey_block state s)))
       = homekey_do_press_play_is_ongoing (homekey s)
     ∧ homekey_is_remapped (homekey (flow_state (homekey_block state s)))
       = homekey_is_remapped (homekey s)
     ∧ homekey_do_press_play_work (wq (flow_state (homekey_block state s)))
       = homekey_do_press_play_work (wq s)
     ∧ transport_calls (log (flow_state (homekey_block state s)))
       = transport_calls (log s))
  (* release with no pulse in flight *)
  ∧ (state = 0 →
     homekey_do_press_play_is_ongoing (homekey s) = false →
     homekey_is_remapped (homekey (flow_state (homekey_block state s)))
     = homekey_press_play_now (homekey s)
     ∧ homekey_do_press_play_is_ongoing
         (homekey (flow_state (homekey_block state s))) = true
     ∧ homekey_do_press_play_work (wq (flow_state (homekey_block state s)))
       = true
     ∧ homekey_press_play_now (homekey (flow_state (homekey_block state s))) = false
     ∧ homekey_press_play_is_ongoing (homekey (flow_state (homekey_block state s)))
       = homekey_press_play_is_ongoing (homekey s)
     ∧ homekey_press_play_work (wq (flow_state (homekey_block state s)))
       = homekey_press_play_work (wq s)
     ∧ transport_calls (log (flow_state (homekey_block state s)))
       = transport_calls (log s)
         ++ [PonkeyRemapPowerKey KEY_POWER
               (if homekey_press_play_now (homekey s)
                then KEY_PLAYPAUSE else HOME_KEY_CODINA_R0_5)])
  (* release, whatever is in flight *)
  ∧ (state = 0 →
     homekey_block state s = Return (flow_state (homekey_block state s)))
  (* neither *)
  ∧ (state ≠ 1 → state ≠ 0 → homekey_block state s = Continue s).
Proof.
  destruct_system s. destruct h as [h1 h2 h3 h4].
  destruct (Z.eqb_spec state 1) as [->|H1];
    [|destruct (Z.eqb_spec state 0) as [->|H0]];
    destruct h1, h2, h3; eval_block;
    log_simpl; repeat split; try done; intros; try done; by destruct w.
Qed.

Lemma quiet_refl (s : system) : quiet s s.
Proof. by repeat split. Qed.

Lemma quiet_trans (s1 s2 s3 : system) : quiet s1 s2 → quiet s2 s3 → quiet s1 s3.
Proof.
  unfold quiet. intros (?&?&?&?&?&?&?&?) (?&?&?&?&?&?&?&?).
  repeat split; congruence.
Qed.

Lemma homekey_block_quiet (state : Z) (s : system) :
  quiet s (flow_state (homekey_block state s)).
Proof.
  destruct (homekey_block_spec state s) as ((?&?&?&?&?&?&?&?&?&?&?&?) & _).
  by repeat split.
Qed.

Lemma volkey_block_quiet (g state : Z) (s : system) :
  quiet s (flow_state (volkey_block g state s)).
Proof.
  destruct (volkey_block_spec g state s) as ((?&?&?&?&?&?&?&?&?&?&?&?) & _).
  by repeat split.
Qed.

(** The three ways [gpio_keys_report_event] can end: in the power-key
    emulation mode, inside a remap block, or with the ordinary report. *)
Lemma report_event_cases (i : nat) (s : system) (bdata : gpio_button_data) :
  ddata s !! i = Some bdata →
  let b := button bdata in
  let v := gpio_get_value (gpio b) s in
  let s1 := emit (GpioGetValue (gpio b) v) s in
  gpio_keys_report_event i s
  = ab8500_ponkey_emulator KEY_POWER (logical_state b v) s1
  ∨ (∃ s2, quiet s1 s2 ∧ gpio_keys_report_event i s = s2)
  ∨ (∃ s2, quiet s1 s2
           ∧ gpio_keys_report_event i s
             = report_input i b (if type b =? 0 then EV_KEY else type b)
                 (logical_state b v) s2).
Proof.
  intros Hi b v s1. unfold gpio_keys_report_event. rewrite Hi.
  fold b v s1. cbv zeta.
  assert (Hord : ∀ s2, quiet s1 s2 →
    ∀ x, x = report_input i b (if type b =? 0 then EV_KEY else type b)
               (logical_state b v) s2 →
    x = ab8500_ponkey_emulator KEY_POWER (logical_state b v) s1
    ∨ (∃ s2, quiet s1 s2 ∧ x = s2)
    ∨ (∃ s2, quiet s1 s2
             ∧ x = report_input i b (if type b =? 0 then EV_KEY else type b)
                     (logical_state b v) s2)).
  { intros s2 Hq x ->. right. right. by exists s2. }
  destruct (emulator_volup (params s1)).
  { destruct (gpio b =? VOL_UP_JANICE_R0_0); [by left|].
    by apply (Hord s1 (quiet_refl s1)). }
  destruct (emulator_voldown (params s1)).
  { destruct (gpio b =? VOL_DOWN_JANICE_R0_0); [by left|].
    by apply (Hord s1 (quiet_refl s1)). }
  destruct (remap_gate (params s1)); [|by apply (Hord s1 (quiet_refl s1))].
  assert (Hvol : ∀ s2, quiet s1 s2 →
    ∀ x,
    x = match (if volkey_gate (params s2)
                  && ((gpio b =? VOL_UP_JANICE_R0_0)
                      || (gpio b =? VOL_DOWN_JANICE_R0_0))
               then volkey_block (gpio b) (logical_state b v) s2
               else Continue s2) with
        | Return s => s
        | Continue s =>
            report_input i b (if type b =? 0 then EV_KEY else type b)
              (logical_state b v) s
        end →
    x = ab8500_ponkey_emulator KEY_POWER (logical_state b v) s1
    ∨ (∃ s2, quiet s1 s2 ∧ x = s2)
    ∨ (∃ s2, quiet s1 s2
             ∧ x = report_input i b (if type b =? 0 then EV_KEY else type b)
                     (logical_state b v) s2)).
  { intros s2 Hq x ->.
    destruct (volkey_gate (params s2)
              && ((gpio b =? VOL_UP_JANICE_R0_0)
                  || (gpio b =? VOL_DOWN_JANICE_R0_0)));
      [|by apply (Hord s2)].
    pose proof (volkey_block_quiet (gpio b) (logical_state b v) s2) as Hq2.
    destruct (volkey_block (gpio b) (logical_state b v) s2) as [s3|s3];
      simpl in Hq2.
    - right. left. exists s3. split; [by eapply quiet_trans|done].
    - apply (Hord s3); [by eapply quiet_trans|done]. }
  destruct (homekey_gate (params s1) && (gpio b =? HOME_KEY_JANICE_R0_0));
    [|by apply (Hvol s1 (quiet_refl s1))].
  pose proof (homekey_block_quiet (logical_state b v) s1) as Hq2.
  destruct (homekey_block (logical_state b v) s1) as [s3|s3]; simpl in Hq2.
  - right. left. by exists s3.
  - by apply (Hvol s3).
Qed.

(** Outside the power-key emulation mode and with the gate of its session
    closed, a line takes the ordinary path. *)
Lemma report_event_ordinary (i : nat) (s : system) (bdata : gpio_button_data) :
  ddata s !! i = Some bdata →
  power_key_capture (params s) (gpio (button bdata)) = false →
  session_gate (params s) (gpio (button bdata)) = false →
  gpio_keys_report_event i s
  = report_input i (button bdata)
      (if type (button bdata) =? 0 then EV_KEY else type (button bdata))
      (logical_state (button bdata) (gpio_get_value (gpio (button bdata)) s))
      (emit (GpioGetValue (gpio (button bdata))
               (gpio_get_value (gpio (button bdata)) s)) s).
Proof.
  intros Hi Hcap Hgate. unfold gpio_keys_report_event. rewrite Hi. cbv zeta.
  unfold power_key_capture, session_gate in *.
  change (params (emit (GpioGetValue (gpio (button bdata))
                          (gpio_get_value (gpio (button bdata)) s)) s))
    with (params s).
  destruct (emulator_volup (params s)); [by rewrite Hcap|].
  destruct (emulator_voldown (params s)); [by rewrite Hcap|].
  destruct (remap_gate (params s)); [|done]. simpl in Hgate.
  apply orb_false_iff in Hgate as [Hh Hv]. rewrite Hh. cbv beta iota.
  cbn [params emit]. by rewrite Hv.
Qed.

Lemma report_input_log (i : nat) (b : gpio_keys_button) (ty state : Z)
    (s : system) :
  log (report_input i b ty state s)
  = log s
    ++ (if ty =? EV_ABS
        then (if truthy state then [InputEvent ty (code b) (value b)] else [])
        else [InputEvent ty (code b) (notnot state)])
    ++ [InputSync].
Proof.
  unfold report_input.
  destruct (ty =? EV_ABS); [destruct (truthy state)|]; cbn;
    by rewrite <- ?app_assoc, ?app_nil_r.
Qed.

Lemma report_input_ddata (i : nat) (b : gpio_keys_button) (ty state : Z)
    (s : system) :
  ddata (report_input i b ty state s)
  = if ty =? EV_ABS then ddata s
    else alter (set_key_state (truthy state)) i (ddata s).
Proof.
  unfold report_input. by destruct (ty =? EV_ABS); [destruct (truthy state)|].
Qed.

Lemma report_input_frame (i : nat) (b : gpio_keys_button) (ty state : Z)
    (s : system) :
  params (report_input i b ty state s) = params s
  ∧ volkey (report_input i b ty state s) = volkey s
  ∧ homekey (report_input i b ty state s) = homekey s
  ∧ emu (report_input i b ty state s) = emu s
  ∧ wq (report_input i b ty state s) = wq s
  ∧ jiffies (report_input i b ty state s) = jiffies s
  ∧ irq_depth (report_input i b ty state s) = irq_depth s
  ∧ gpio_level (report_input i b ty state s) = gpio_level s.
Proof.
  unfold report_input. by destruct (ty =? EV_ABS); [destruct (truthy state)|].
Qed.

Lemma truthy_false (z : Z) : truthy z = false ↔ z = 0.
Proof. unfold truthy. rewrite negb_false_iff. apply Z.eqb_eq. Qed.

Lemma truthy_true (z : Z) : truthy z = true ↔ z ≠ 0.
Proof. unfold truthy. rewrite negb_true_iff. apply Z.eqb_neq. Qed.

(** Deferred evaluation of a line of type [EV_ABS] returns the per-line data
    as it was and sends at most one report to the input core, the line's
    code with its configured [value], and only when the evaluated state is
    nonzero. *)
Lemma report_event_abs (i : nat) (s : system) (bdata : gpio_button_data) :
  ddata s !! i = Some bdata →
  type (button bdata) = EV_ABS →
  let b := button bdata in
  let state := logical_state b (gpio_get_value (gpio b) s) in
  let s' := gpio_keys_report_event i s in
  ddata s' = ddata s
  ∧ (input_events (log s') = input_events (log s)
     ∨ (state ≠ 0
        ∧ input_events (log s')
          = input_events (log s) ++ [InputEvent EV_ABS (code b) (value b)]))
  ∧ (state = 0 → input_events (log s') = input_events (log s))
  ∧ (power_key_capture (params s) (gpio b) = false →
     session_gate (params s) (gpio b) = false →
     state ≠ 0 →
     input_events (log s')
     = input_events (log s) ++ [InputEvent EV_ABS (code b) (value b)]).
Proof.
  intros Hi Hty b state s'.
  assert (Hin : ∀ s2,
    quiet (emit (GpioGetValue (gpio b) (gpio_get_value (gpio b) s)) s) s2 →
    ddata s2 = ddata s ∧ input_events (log s2) = input_events (log s)).
  { intros s2 (Hd & _ & _ & _ & _ & _ & Hie & _). split; [done|].
    rewrite Hie. cbn. rewrite input_events_app. cbn. by rewrite app_nil_r. }
  assert (Hrep : ∀ s2,
    quiet (emit (GpioGetValue (gpio b) (gpio_get_value (gpio b) s)) s) s2 →
    ddata (report_input i b EV_ABS state s2) = ddata s
    ∧ input_events (log (report_input i b EV_ABS state s2))
      = input_events (log s)
        ++ (if truthy state then [InputEvent EV_ABS (code b) (value b)] else [])).
  { intros s2 Hq. destruct (Hin s2 Hq) as [Hd Hie].
    rewrite report_input_ddata, report_input_log. simpl. split; [done|].
    rewrite !input_events_app, Hie. destruct (truthy state); cbn;
      by rewrite ?app_nil_r. }
  assert (H12 : ddata s' = ddata s
    ∧ (input_events (log s') = input_events (log s)
       ∨ (state ≠ 0
          ∧ input_events (log s')
            = input_events (log s) ++ [InputEvent EV_ABS (code b) (value b)]))).
  { destruct (report_event_cases i s bdata Hi) as [He|[(s2 & Hq & He)|(s2 & Hq & He)]];
      fold b in He; unfold s'; rewrite He.
    - split; [done|]. left. cbn. rewrite !input_events_app. cbn.
      by rewrite !app_nil_r.
    - destruct (Hin s2 Hq). auto.
    - change (type b) with (type (button bdata)). rewrite Hty.
      change (EV_ABS =? 0) with false. cbv iota.
      destruct (Hrep s2 Hq) as [Hd Hie]. fold state. split; [done|].
      rewrite Hie. destruct (truthy state) eqn:Ht.
      + right. by apply truthy_true in Ht.
      + left. by rewrite app_nil_r. }
  destruct H12 as [H1 H2]. split; [done|]. split; [done|]. split.
  - intros Hz. destruct H2 as [|[Hnz _]]; done.
  - intros Hcap Hgate Hnz. unfold s'.
    rewrite (report_event_ordinary i s bdata Hi Hcap Hgate). fold b state.
    change (type b) with (type (button bdata)). rewrite Hty.
    change (EV_ABS =? 0) with false. cbv iota.
    destruct (Hrep _ (quiet_refl _)) as [_ Hie]. rewrite Hie.
    apply truthy_true in Hnz. by rewrite Hnz.
Qed.

(** C7 (amended).  When the gate of the line's session is closed and the
    power-key emulation mode does not take the line, deferred evaluation
    takes the ordinary path: it reads the level, reports the line's own code
    to the input core (for [EV_ABS] the configured value, and only when
    active) and closes with [input_sync]; no work item or delayed work is
    touched, the remap variables keep their values and the power-key
    transport is not called. *)
Theorem report_event_bypass (i : nat) (s : system) (bdata : gpio_button_data) :
  ddata s !! i = Some bdata →
  power_key_capture (params s) (gpio (button bdata)) = false →
  session_gate (params s) (gpio (button bdata)) = false →
  let b := button bdata in
  let v := gpio_get_value (gpio b) s in
  let state := logical_state b v in
  let ty := if type b =? 0 then EV_KEY else type b in
  let s' := gpio_keys_report_event i s in
  log s' = log s ++ [GpioGetValue (gpio b) v]
           ++ (if ty =? EV_ABS
               then (if truthy state
                     then [InputEvent ty (code b) (value b)] else [])
               else [InputEvent ty (code b) (notnot state)])
           ++ [InputSync]
  ∧ wq s' = wq s
  ∧ volkey s' = volkey s
  ∧ homekey s' = homekey s
  ∧ transport_calls (log s') = transport_calls (log s).
Proof.
  intros Hi Hcap Hgate b v state ty s'. unfold s'.
  rewrite (report_event_ordinary i s bdata Hi Hcap Hgate). fold b v state ty.
  destruct (report_input_frame i b ty state (emit (GpioGetValue (gpio b) v) s))
    as (_ & Hv & Hh & _ & Hw & _).
  rewrite report_input_log, Hw, Hv, Hh. cbn [log emit].
  split; [by rewrite <- app_assoc|]. repeat split.
  rewrite !transport_calls_app.
  destruct (ty =? EV_ABS); [destruct (truthy state)|]; cbn; by rewrite !app_nil_r.
Qed.

(** A volume line whose session is engaged goes through the volume block. *)
Lemma report_event_volkey (i : nat) (s : system) (bdata : gpio_button_data) :
  ddata s !! i = Some bdata →
  emulator_volup (params s) = false →
  emulator_voldown (params s) = false →
  remap_gate (params s) = true →
  volkey_gate (params s) = true →
  gpio (button bdata) = VOL_UP_JANICE_R0_0
  ∨ gpio (button bdata) = VOL_DOWN_JANICE_R0_0 →
  gpio (button bdata) ≠ HOME_KEY_JANICE_R0_0 →
  gpio_keys_report_event i s
  = match volkey_block (gpio (button bdata))
            (logical_state (button bdata)
               (gpio_get_value (gpio (button bdata)) s))
            (emit (GpioGetValue (gpio (button bdata))
                     (gpio_get_value (gpio (button bdata)) s)) s) with
    | Return s' => s'
    | Continue s' =>
        report_input i (button bdata)
          (if type (button bdata) =? 0 then EV_KEY else type (button bdata))
          (logical_state (button bdata)
             (gpio_get_value (gpio (button bdata)) s))
          s'
    end.
Proof.
  intros Hi Hup Hdown Hgate Hvol Hg Hhome.
  unfold gpio_keys_report_event. rewrite Hi. cbv zeta. cbn [params emit].
  rewrite Hup, Hdown, Hgate.
  apply Z.eqb_neq in Hhome. rewrite Hhome, andb_false_r.
  cbv beta iota. cbn [params emit]. rewrite Hvol.
  assert ((gpio (button bdata) =? VOL_UP_JANICE_R0_0)
          || (gpio (button bdata) =? VOL_DOWN_JANICE_R0_0) = true) as ->.
  { destruct Hg as [->| ->]; rewrite Z.eqb_refl; by rewrite ?orb_true_r. }
  done.
Qed.

(** The same seen from outside: apart from the per-line data and the input
    reports of a state that is neither 0 nor 1, the result is what the
    volume block returns. *)
Lemma report_event_volkey_view (i : nat) (s : system) (bdata : gpio_button_data) :
  ddata s !! i = Some bdata →
  emulator_volup (params s) = false →
  emulator_voldown (params s) = false →
  remap_gate (params s) = true →
  volkey_gate (params s) = true →
  gpio (button bdata) = VOL_UP_JANICE_R0_0
  ∨ gpio (button bdata) = VOL_DOWN_JANICE_R0_0 →
  gpio (button bdata) ≠ HOME_KEY_JANICE_R0_0 →
  let b := button bdata in
  let v := gpio_get_value (gpio b) s in
  let s2 := flow_state (volkey_block (gpio b) (logical_state b v)
                          (emit (GpioGetValue (gpio b) v) s)) in
  let s' := gpio_keys_report_event i s in
  volkey s' = volkey s2
  ∧ wq s' = wq s2
  ∧ homekey s' = homekey s2
  ∧ params s' = params s2
  ∧ jiffies s' = jiffies s2
  ∧ transport_calls (log s') = transport_calls (log s2)
  ∧ (logical_state b v = 0 ∨ logical_state b v = 1 → s' = s2).
Proof.
  intros Hi Hup Hdown Hgate Hvol Hg Hhome b v s2 s'. unfold s'.
  rewrite (report_event_volkey i s bdata Hi Hup Hdown Hgate Hvol Hg Hhome).
  fold b v.
  destruct (volkey_block_spec (gpio b) (logical_state b v)
              (emit (GpioGetValue (gpio b) v) s))
    as (_ & _ & _ & Hpress & _ & Hrel & _).
  unfold s2. clear s2.
  destruct (volkey_block (gpio b) (logical_state b v)
              (emit (GpioGetValue (gpio b) v) s)) as [s3|s3] eqn:Hblock;
    cbn [flow_state].
  - by repeat split.
  - destruct (report_input_frame i b (if type b =? 0 then EV_KEY else type b)
                (logical_state b v) s3) as (Hp & Hv & Hh & _ & Hw & Hj & _).
    repeat split; try done.
    + rewrite report_input_log, !transport_calls_app.
      destruct (_ =? EV_ABS); [destruct (truthy _)|]; cbn; by rewrite !app_nil_r.
    + intros [H0|H1].
      * specialize (Hrel H0). discriminate Hrel.
      * destruct (Hpress H1) as [Hret _]. discriminate Hret.
Qed.

Lemma volkey_do_volume_key_press_fn_log (s : system) :
  log (volkey_do_volume_key_press_fn s)
  = log s
    ++ [PonkeyEmulator
          (if volkey_remap_keys (volkey s)
           then (if volkey_emulate_key_nextsong (volkey s)
                 then KEY_NEXTSONG else KEY_PREVIOUSSONG)
           else (if volkey_emulate_key_nextsong (volkey s)
                 then KEY_VOLUMEUP else KEY_VOLUMEDOWN)) 1;
        Mdelay (volkey_do_volume_key_press_delay_ms (params s));
        PonkeyEmulator
          (if volkey_remap_keys (volkey s)
           then (if volkey_emulate_key_nextsong (volkey s)
                 then KEY_NEXTSONG else KEY_PREVIOUSSONG)
           else (if volkey_emulate_key_nextsong (volkey s)
                 then KEY_VOLUMEUP else KEY_VOLUMEDOWN)) 0;
        PonkeyUnmapAllKeys emulated_keys].
Proof.
  unfold volkey_do_volume_key_press_fn. cbn. by rewrite <- !app_assoc.
Qed.

(** C8.  Every evaluation of a volume sub-line whose session is engaged,
    for a press as for a release, sets the selector to "that line is the
    volume-up line"; the pulse work reads the selector when it runs.  So the
    pulse that follows carries the up-direction code (volume up or next
    track) exactly when the sub-line evaluated last is the volume-up line,
    whatever the other sub-line is doing. *)
Theorem volkey_selector_follows_last_edge (i : nat) (s : system)
    (bdata : gpio_button_data) :
  ddata s !! i = Some bdata →
  emulator_volup (params s) = false →
  emulator_voldown (params s) = false →
  remap_gate (params s) = true →
  volkey_gate (params s) = true →
  gpio (button bdata) = VOL_UP_JANICE_R0_0
  ∨ gpio (button bdata) = VOL_DOWN_JANICE_R0_0 →
  gpio (button bdata) ≠ HOME_KEY_JANICE_R0_0 →
  let g := gpio (button bdata) in
  let s1 := gpio_keys_report_event i s in
  let key := if volkey_remap_keys (volkey s1)
             then volkey_alternate g else volkey_primary g in
  volkey_emulate_key_nextsong (volkey s1) = (g =? VOL_UP_JANICE_R0_0)
  ∧ log (volkey_do_volume_key_press_fn s1)
    = log s1 ++ [PonkeyEmulator key 1;
                 Mdelay (volkey_do_volume_key_press_delay_ms (params s));
                 PonkeyEmulator key 0;
                 PonkeyUnmapAllKeys emulated_keys].
Proof.
  intros Hi Hup Hdown Hgate Hvol Hg Hhome g s1 key.
  destruct (report_event_volkey_view i s bdata Hi Hup Hdown Hgate Hvol Hg Hhome)
    as (Hv & _ & _ & Hp & _).
  destruct (volkey_block_spec g
              (logical_state (button bdata) (gpio_get_value g s))
              (emit (GpioGetValue g (gpio_get_value g s)) s))
    as ((_ & Hp2 & _) & Hsel & _).
  fold g in Hv, Hp. fold s1 in Hv, Hp.
  assert (Hs : volkey_emulate_key_nextsong (volkey s1) = (g =? VOL_UP_JANICE_R0_0)).
  { by rewrite Hv, Hsel. }
  split; [done|].
  rewrite volkey_do_volume_key_press_fn_log, Hs, Hp, Hp2.
  unfold key, volkey_alternate, volkey_primary. done.
Qed.

(** The home line with its session engaged, seen from outside. *)
Lemma report_event_homekey_view (i : nat) (s : system) (bdata : gpio_button_data) :
  ddata s !! i = Some bdata →
  emulator_volup (params s) = false →
  emulator_voldown (params s) = false →
  remap_gate (params s) = true →
  homekey_gate (params s) = true →
  gpio (button bdata) = HOME_KEY_JANICE_R0_0 →
  let b := button bdata in
  let v := gpio_get_value (gpio b) s in
  let s2 := flow_state (homekey_block (logical_state b v)
                          (emit (GpioGetValue (gpio b) v) s)) in
  let s' := gpio_keys_report_event i s in
  volkey_do_volume_key_press_work (wq s') = volkey_do_volume_key_press_work (wq s2)
  ∧ homekey_do_press_play_work (wq s') = homekey_do_press_play_work (wq s2)
  ∧ homekey_press_play_work (wq s') = homekey_press_play_work (wq s2)
  ∧ homekey s' = homekey s2
  ∧ params s' = params s2
  ∧ jiffies s' = jiffies s2
  ∧ transport_calls (log s') = transport_calls (log s2)
  ∧ (logical_state b v = 0 ∨ logical_state b v = 1 → s' = s2).
Proof.
  intros Hi Hup Hdown Hgate Hhk Hg b v s2 s'. unfold s', s2. clear s' s2.
  unfold gpio_keys_report_event. rewrite Hi. cbv zeta. fold b v.
  cbn [params emit]. rewrite Hup, Hdown, Hgate, Hhk.
  fold b in Hg.
  replace (gpio b =? HOME_KEY_JANICE_R0_0) with true
    by (symmetry; by apply Z.eqb_eq).
  cbn [andb].
  set (s1 := emit (GpioGetValue (gpio b) v) s).
  set (state := logical_state b v).
  destruct (homekey_block_spec state s1)
    as (_ & _ & Hpress & _ & Hrel & Hneither).
  destruct (decide (state = 1)) as [H1|H1].
  { destruct (Hpress H1) as [-> _]. by repeat split. }
  destruct (decide (state = 0)) as [H0|H0].
  { rewrite (Hrel H0). by repeat split. }
  rewrite (Hneither H1 H0). cbn [flow_state].
  destruct (volkey_block_spec (gpio b) state s1)
    as ((_ & Hp & Hh & _ & Hj & _ & _ & Hw1 & Hw2 & _) & _ & _ & _ & _ & _ & Hvn).
  destruct (Hvn H1 H0) as (Hc & Ht & Hw).
  destruct (volkey_gate (params s1)
            && ((gpio b =? VOL_UP_JANICE_R0_0)
                || (gpio b =? VOL_DOWN_JANICE_R0_0))).
  - rewrite Hc.
    destruct (report_input_frame i b (if type b =? 0 then EV_KEY else type b)
                state (flow_state (volkey_block (gpio b) state s1)))
      as (Hp' & _ & Hh' & _ & Hw' & Hj' & _).
    rewrite Hw', Hh', Hp', Hj', Hw, Hh, Hp, Hj.
    repeat split; try done; [|intros [?|?]; done].
    rewrite report_input_log, !transport_calls_app, Ht.
    destruct (_ =? EV_ABS); [destruct (truthy _)|]; cbn; by rewrite !app_nil_r.
  - destruct (report_input_frame i b (if type b =? 0 then EV_KEY else type b)
                state s1) as (Hp' & _ & Hh' & _ & Hw' & Hj' & _).
    rewrite Hw', Hh', Hp', Hj'.
    repeat split; try done; [|intros [?|?]; done].
    rewrite report_input_log, !transport_calls_app.
    destruct (_ =? EV_ABS); [destruct (truthy _)|]; cbn; by rewrite !app_nil_r.
Qed.

(** C3 (amended).  Each injection path admits one pulse of its own at a
    time.  While [volkey_do_volume_key_press_is_ongoing] is set, an
    evaluation of a volume sub-line calls the power-key transport not at all
    and queues nothing; the same holds for the home line while
    [homekey_do_press_play_is_ongoing] is set; and while [emu_working] is
    set a [press] written to the on-demand injector only logs a message.
    The three flags are separate: none of them blocks another path. *)
Theorem emulation_single_flight_per_path :
  (∀ (i : nat) (s : system) (bdata : gpio_button_data),
     ddata s !! i = Some bdata →
     emulator_volup (params s) = false →
     emulator_voldown (params s) = false →
     remap_gate (params s) = true →
     volkey_gate (params s) = true →
     gpio (button bdata) = VOL_UP_JANICE_R0_0
     ∨ gpio (button bdata) = VOL_DOWN_JANICE_R0_0 →
     gpio (button bdata) ≠ HOME_KEY_JANICE_R0_0 →
     volkey_do_volume_key_press_is_ongoing (volkey s) = true →
     transport_calls (log (gpio_keys_report_event i s)) = transport_calls (log s)
     ∧ volkey_do_volume_key_press_work (wq (gpio_keys_report_event i s))
       = volkey_do_volume_key_press_work (wq s)
     ∧ homekey_do_press_play_work (wq (gpio_keys_report_event i s))
       = homekey_do_press_play_work (wq s)
     ∧ volkey_do_volume_key_press_is_ongoing
         (volkey (gpio_keys_report_event i s)) = true)
  ∧ (∀ (i : nat) (s : system) (bdata : gpio_button_data),
       ddata s !! i = Some bdata →
       emulator_volup (params s) = false →
       emulator_voldown (params s) = false →
       remap_gate (params s) = true →
       homekey_gate (params s) = true →
       gpio (button bdata) = HOME_KEY_JANICE_R0_0 →
       homekey_do_press_play_is_ongoing (homekey s) = true →
       transport_calls (log (gpio_keys_report_event i s)) = transport_calls (log s)
       ∧ homekey_do_press_play_work (wq (gpio_keys_report_event i s))
         = homekey_do_press_play_work (wq s)
       ∧ volkey_do_volume_key_press_work (wq (gpio_keys_report_event i s))
         = volkey_do_volume_key_press_work (wq s)
       ∧ homekey_do_press_play_is_ongoing
           (homekey (gpio_keys_report_event i s)) = true)
  ∧ (∀ (count : Z) (s : system),
       emu_working (emu s) = true →
       gpio_keys_emulator_store EmuPress count s
       = (count, pr_err msg_emulator_work_running s)).
Proof.
  split; [|split].
  - intros i s bdata Hi Hup Hdown Hgate Hvol Hg Hhome Hbusy.
    destruct (report_event_volkey_view i s bdata Hi Hup Hdown Hgate Hvol Hg Hhome)
      as (Hv & Hw & _ & _ & _ & Ht & _).
    destruct (volkey_block_spec (gpio (button bdata))
                (logical_state (button bdata)
                   (gpio_get_value (gpio (button bdata)) s))
                (emit (GpioGetValue (gpio (button bdata))
                         (gpio_get_value (gpio (button bdata)) s)) s))
      as ((_ & _ & _ & _ & _ & _ & _ & _ & Hhw & _) & _ & Hb & _).
    destruct (Hb Hbusy) as (Ht' & Hw' & Hf').
    rewrite Ht, Hw, Hv, Ht', Hw', Hhw, Hf'. repeat split.
    cbn. rewrite transport_calls_app. cbn. by rewrite app_nil_r.
  - intros i s bdata Hi Hup Hdown Hgate Hhk Hg Hbusy.
    destruct (report_event_homekey_view i s bdata Hi Hup Hdown Hgate Hhk Hg)
      as (Hvw & Hhw & _ & Hh & _ & _ & Ht & _).
    destruct (homekey_block_spec
                (logical_state (button bdata)
                   (gpio_get_value (gpio (button bdata)) s))
                (emit (GpioGetValue (gpio (button bdata))
                         (gpio_get_value (gpio (button bdata)) s)) s))
      as ((_ & _ & _ & _ & _ & _ & _ & _ & Hvw' & _) & Hb & _).
    destruct (Hb Hbusy) as (Ht' & Hw' & Hf').
    rewrite Ht, Hhw, Hvw, Hh, Ht', Hw', Hvw', Hf'. repeat split.
    cbn. rewrite transport_calls_app. cbn. by rewrite app_nil_r.
  - intros count s Hw. unfold gpio_keys_emulator_store. by rewrite Hw.
Qed.

(** ** Time *)

Lemma run_timer_update (j : nat) (s : system) :
  run_timer j s = update_line j (run_timer_line (jiffies s)) s.
Proof.
  unfold run_timer, update_line.
  destruct (ddata s !! j) as [b|] eqn:Hj.
  - destruct (timer b) as [e|] eqn:Ht.
    + destruct (e <=? jiffies s) eqn:He.
      * unfold gpio_keys_timer, schedule_work, update_line.
        rewrite set_ddata_set_ddata. cbn [ddata set_ddata].
        rewrite list_alter_alter_eq. f_equal. apply list_alter_ext; [|done].
        intros x Hx. assert (x = b) as -> by congruence.
        unfold run_timer_line. by rewrite Ht, He.
      * rewrite alter_lookup_id; [by rewrite set_ddata_id|].
        intros x Hx. assert (x = b) as -> by congruence.
        unfold run_timer_line. by rewrite Ht, He.
    + rewrite alter_lookup_id; [by rewrite set_ddata_id|].
      intros x Hx. assert (x = b) as -> by congruence.
      unfold run_timer_line. by rewrite Ht.
  - rewrite alter_lookup_None by done. by rewrite set_ddata_id.
Qed.

Lemma for_each_run_timer (s : system) :
  for_each_button run_timer s
  = set_ddata (run_timer_line (jiffies s) <$> ddata s) s.
Proof.
  rewrite (for_each_button_ext _
             (λ j s, update_line j (run_timer_line (jiffies s)) s))
    by apply run_timer_update.
  by apply (for_each_update_line (λ s, run_timer_line (jiffies s))).
Qed.

(** A tick in the past does nothing; otherwise the debounce timers that
    have run out queue their work and the long-press works that have run out
    run. *)
Lemma step_Tick (t : Z) (s : system) :
  step (Tick t) s
  = if t <? jiffies s then s
    else run_homekey_press_play_work
           (run_volkey_skip_track_work
              (set_ddata (run_timer_line t <$> ddata s) (set_jiffies t s))).
Proof.
  unfold step. destruct (t <? jiffies s); [done|].
  cbv zeta. by rewrite for_each_run_timer.
Qed.

Lemma run_timer_line_button (t : Z) (b : gpio_button_data) :
  button (run_timer_line t b) = button b
  ∧ timer_debounce (run_timer_line t b) = timer_debounce b
  ∧ disabled (run_timer_line t b) = disabled b.
Proof.
  unfold run_timer_line. destruct (timer b) as [e|]; [|done].
  by destruct (e <=? t).
Qed.

(** What a tick leaves alone. *)
Lemma step_Tick_frame (t : Z) (s : system) :
  params (step (Tick t) s) = params s
  ∧ log (step (Tick t) s) = log s
  ∧ emu (step (Tick t) s) = emu s
  ∧ irq_depth (step (Tick t) s) = irq_depth s
  ∧ gpio_level (step (Tick t) s) = gpio_level s
  ∧ volkey_do_volume_key_press_work (wq (step (Tick t) s))
    = volkey_do_volume_key_press_work (wq s)
  ∧ homekey_do_press_play_work (wq (step (Tick t) s))
    = homekey_do_press_play_work (wq s)
  ∧ volkey_do_volume_key_press_is_ongoing (volkey (step (Tick t) s))
    = volkey_do_volume_key_press_is_ongoing (volkey s)
  ∧ homekey_do_press_play_is_ongoing (homekey (step (Tick t) s))
    = homekey_do_press_play_is_ongoing (homekey s)
  ∧ volkey_emulate_key_nextsong (volkey (step (Tick t) s))
    = volkey_emulate_key_nextsong (volkey s)
  ∧ volkey_remap_keys (volkey (step (Tick t) s)) = volkey_remap_keys (volkey s)
  ∧ homekey_is_remapped (homekey (step (Tick t) s))
    = homekey_is_remapped (homekey s)
  ∧ (∀ i b, ddata s !! i = Some b →
       ∃ b', ddata (step (Tick t) s) !! i = Some b' ∧ button b' = button b).
Proof.
  rewrite step_Tick. destruct (t <? jiffies s); [by repeat split; eauto|].
  unfold run_homekey_press_play_work, run_volkey_skip_track_work,
    volkey_skip_track_fn, homekey_press_play_fn.
  destruct_system s. destruct w as [[e1|] [e2|] w3 w4 w5]; reduce_state;
    try destruct (e1 <=? t); reduce_state;
    try destruct (e2 <=? t); reduce_state;
    repeat split; try done;
    intros i b Hi; exists (run_timer_line t b);
    (split; [by rewrite list_lookup_fmap, Hi|apply run_timer_line_button]).
Qed.

(** The volume long-press work across a tick: it runs if it has run out,
    and is left pending otherwise. *)
Lemma step_Tick_volkey (t e : Z) (s : system) :
  volkey_skip_track_work (wq s) = Some e →
  (t < e →
   volkey (step (Tick t) s) = volkey s
   ∧ volkey_skip_track_work (wq (step (Tick t) s)) = Some e)
  ∧ (e ≤ t → jiffies s ≤ t →
     volkey_skip_track_now (volkey (step (Tick t) s)) = true
     ∧ volkey_skip_track_is_ongoing (volkey (step (Tick t) s)) = false
     ∧ volkey_skip_track_work (wq (step (Tick t) s)) = None).
Proof.
  intros Hw. rewrite step_Tick.
  unfold run_homekey_press_play_work, run_volkey_skip_track_work,
    volkey_skip_track_fn, homekey_press_play_fn.
  destruct_system s. destruct w as [w1 [e2|] w3 w4 w5], v as [v1 v2 v3 v4 v5].
  all: cbn in Hw; subst w1; reduce_state.
  all: split;
    [ intros Hlt; destruct (t <? j); [done|];
      rewrite (proj2 (Z.leb_gt e t)) by lia; reduce_state;
      try destruct (e2 <=? t); by reduce_state
    | intros Hle Hj; rewrite (proj2 (Z.ltb_ge t j)) by lia;
      rewrite (proj2 (Z.leb_le e t)) by lia; reduce_state;
      try destruct (e2 <=? t); by reduce_state ].
Qed.

Lemma step_Tick_homekey (t e : Z) (s : system) :
  homekey_press_play_work (wq s) = Some e →
  (t < e →
   homekey (step (Tick t) s) = homekey s
   ∧ homekey_press_play_work (wq (step (Tick t) s)) = Some e)
  ∧ (e ≤ t → jiffies s ≤ t →
     homekey_press_play_now (homekey (step (Tick t) s)) = true
     ∧ homekey_press_play_is_ongoing (homekey (step (Tick t) s)) = false
     ∧ homekey_press_play_work (wq (step (Tick t) s)) = None).
Proof.
  intros Hw. rewrite step_Tick.
  unfold run_homekey_press_play_work, run_volkey_skip_track_work,
    volkey_skip_track_fn, homekey_press_play_fn.
  destruct_system s. destruct w as [[e1|] w2 w3 w4 w5], h as [h1 h2 h3 h4].
  all: cbn in Hw; subst w2; reduce_state.
  all: split;
    [ intros Hlt; destruct (t <? j); [done|];
      try destruct (e1 <=? t); reduce_state;
      rewrite (proj2 (Z.leb_gt e t)) by lia; by reduce_state
    | intros Hle Hj; rewrite (proj2 (Z.ltb_ge t j)) by lia;
      try destruct (e1 <=? t); reduce_state;
      rewrite (proj2 (Z.leb_le e t)) by lia; by reduce_state ].
Qed.

(** ** Gestures on the volume rocker *)

Lemma step_Level (g v : Z) (s : system) :
  ddata (step (Level g v) s) = ddata s
  ∧ params (step (Level g v) s) = params s
  ∧ volkey (step (Level g v) s) = volkey s
  ∧ homekey (step (Level g v) s) = homekey s
  ∧ wq (step (Level g v) s) = wq s
  ∧ jiffies (step (Level g v) s) = jiffies s
  ∧ log (step (Level g v) s) = log s
  ∧ gpio_get_value g (step (Level g v) s) = v.
Proof.
  repeat split. unfold gpio_get_value. cbn. by rewrite lookup_insert_eq.
Qed.

Section volume_line.

(** A volume sub-line whose session is engaged. *)
Variable i : nat.
Variable button_i : gpio_keys_button.
Hypothesis Hvol_line :
  gpio button_i = VOL_UP_JANICE_R0_0 ∨ gpio button_i = VOL_DOWN_JANICE_R0_0.
Hypothesis Hnot_home : gpio button_i ≠ HOME_KEY_JANICE_R0_0.

Lemma volkey_engaged_frame (s s' : system) :
  params s' = params s →
  (∀ b, ddata s !! i = Some b →
     ∃ b', ddata s' !! i = Some b' ∧ button b' = button b) →
  volkey_engaged i button_i s → volkey_engaged i button_i s'.
Proof.
  intros Hp Hd ((b & Hb & Hbi) & H). split; [|by rewrite Hp].
  destruct (Hd b Hb) as (b' & Hb' & Hbb). exists b'. split; [done|congruence].
Qed.

(** An evaluation that finds the line pressed. *)
Lemma evaluate_volkey_press (v : Z) (s : system) :
  volkey_engaged i button_i s →
  logical_state button_i v = 1 →
  ddata (evaluate i (gpio button_i) v s) = ddata s
  ∧ params (evaluate i (gpio button_i) v s) = params s
  ∧ jiffies (evaluate i (gpio button_i) v s) = jiffies s
  ∧ volkey_skip_track_is_ongoing (volkey (evaluate i (gpio button_i) v s)) = true
  ∧ volkey_skip_track_now (volkey (evaluate i (gpio button_i) v s)) = false
  ∧ volkey_skip_track_work (wq (evaluate i (gpio button_i) v s))
    = (if volkey_skip_track_is_ongoing (volkey s)
       then Some (jiffies s + volkey_long_press_delay_ms (params s))
       else schedule_delayed (volkey_skip_track_work (wq s)) (jiffies s)
              (volkey_long_press_delay_ms (params s)))
  ∧ volkey_do_volume_key_press_is_ongoing (volkey (evaluate i (gpio button_i) v s))
    = volkey_do_volume_key_press_is_ongoing (volkey s)
  ∧ volkey_do_volume_key_press_work (wq (evaluate i (gpio button_i) v s))
    = volkey_do_volume_key_press_work (wq s)
  ∧ transport_calls (log (evaluate i (gpio button_i) v s))
    = transport_calls (log s).
Proof.
  intros ((b & Hb & Hbi) & Hup & Hdown & Hgate & Hvg) Hst. unfold evaluate.
  destruct (step_Level (gpio button_i) v s)
    as (Hd & Hp & Hv & Hh & Hw & Hj & Hl & Hval).
  remember (step (Level (gpio button_i) v) s) as sl eqn:Esl. clear Esl.
  rewrite <- Hd in Hb. rewrite <- Hp in Hup, Hdown, Hgate, Hvg.
  subst button_i.
  destruct (report_event_volkey_view i sl b Hb Hup Hdown Hgate Hvg Hvol_line
              Hnot_home) as (_ & _ & _ & _ & _ & _ & Heq).
  rewrite Hval in Heq. rewrite Heq by auto.
  destruct (volkey_block_spec (gpio (button b)) (logical_state (button b) v)
              (emit (GpioGetValue (gpio (button b)) v) sl))
    as ((Fd & Fp & _ & _ & Fj & _) & _ & _ & Hpress & _).
  destruct (Hpress Hst) as (_ & P1 & P2 & P3 & P4 & P5 & P6 & P7).
  rewrite Fd, Fp, Fj, P1, P2, P3, P4, P6, P7.
  cbn [ddata params jiffies volkey wq log emit].
  rewrite Hd, Hp, Hj, Hv, Hw, Hl. repeat split.
  rewrite transport_calls_app. cbn. by rewrite app_nil_r.
Qed.

(** An evaluation that finds the line released while no pulse is in
    flight. *)
Lemma evaluate_volkey_release (v : Z) (s : system) :
  volkey_engaged i button_i s →
  logical_state button_i v = 0 →
  volkey_do_volume_key_press_is_ongoing (volkey s) = false →
  params (evaluate i (gpio button_i) v s) = params s
  ∧ volkey_remap_keys (volkey (evaluate i (gpio button_i) v s))
    = volkey_skip_track_now (volkey s)
  ∧ volkey_emulate_key_nextsong (volkey (evaluate i (gpio button_i) v s))
    = (gpio button_i =? VOL_UP_JANICE_R0_0)
  ∧ volkey_do_volume_key_press_work (wq (evaluate i (gpio button_i) v s)) = true
  ∧ transport_calls (log (evaluate i (gpio button_i) v s))
    = transport_calls (log s)
      ++ [PonkeyRemapPowerKey KEY_POWER
            (if volkey_skip_track_now (volkey s)
             then volkey_alternate (gpio button_i)
             else volkey_primary (gpio button_i))].
Proof.
  intros ((b & Hb & Hbi) & Hup & Hdown & Hgate & Hvg) Hst Hidle.
  unfold evaluate.
  destruct (step_Level (gpio button_i) v s)
    as (Hd & Hp & Hv & Hh & Hw & Hj & Hl & Hval).
  remember (step (Level (gpio button_i) v) s) as sl eqn:Esl. clear Esl.
  rewrite <- Hd in Hb. rewrite <- Hp in Hup, Hdown, Hgate, Hvg.
  subst button_i.
  destruct (report_event_volkey_view i sl b Hb Hup Hdown Hgate Hvg Hvol_line
              Hnot_home) as (_ & _ & _ & _ & _ & _ & Heq).
  rewrite Hval in Heq. rewrite Heq by auto.
  destruct (volkey_block_spec (gpio (button b)) (logical_state (button b) v)
              (emit (GpioGetValue (gpio (button b)) v) sl))
    as ((_ & Fp & _) & Hsel & _ & _ & Hrel & _).
  cbn [volkey emit] in Hrel. rewrite Hv in Hrel.
  destruct (Hrel Hst Hidle) as (_ & R1 & _ & R3 & _ & _ & _ & R7).
  rewrite Fp, R1, Hsel, R3, R7. cbn [params log emit]. rewrite Hp, Hl.
  repeat split. rewrite transport_calls_app. cbn. by rewrite app_nil_r.
Qed.

(** The worker runs the queued pulse. *)
Lemma step_VolumeKeyPressWork (s : system) :
  volkey_do_volume_key_press_work (wq s) = true →
  transport_calls (log (step VolumeKeyPressWork s))
  = transport_calls (log s)
    ++ [PonkeyEmulator
          (if volkey_remap_keys (volkey s)
           then (if volkey_emulate_key_nextsong (volkey s)
                 then KEY_NEXTSONG else KEY_PREVIOUSSONG)
           else (if volkey_emulate_key_nextsong (volkey s)
                 then KEY_VOLUMEUP else KEY_VOLUMEDOWN)) 1;
        PonkeyEmulator
          (if volkey_remap_keys (volkey s)
           then (if volkey_emulate_key_nextsong (volkey s)
                 then KEY_NEXTSONG else KEY_PREVIOUSSONG)
           else (if volkey_emulate_key_nextsong (volkey s)
                 then KEY_VOLUMEUP else KEY_VOLUMEDOWN)) 0]
  ∧ volkey_do_volume_key_press_is_ongoing (volkey (step VolumeKeyPressWork s))
    = false
  ∧ volkey_do_volume_key_press_work (wq (step VolumeKeyPressWork s)) = false.
Proof.
  intros Hq. unfold step. rewrite Hq.
  rewrite volkey_do_volume_key_press_fn_log. cbn [log volkey params assign_wq set_wq].
  rewrite transport_calls_app. by cbn.
Qed.

(** Volume session.  After the evaluation that finds a volume sub-line
    pressed the long-press work is pending with some expiry [e] (the current
    time plus [volkey_long_press_delay_ms] whenever it was armed anew).  If
    no pulse is in flight and the release is evaluated before the work has
    run, the power-key transport sees one remap to the primary code and one
    press and release of it, and nothing else; if the work has run by then,
    it sees the same for the alternate code. *)
Lemma volkey_gesture (v1 v0 : Z) (s : system) :
  volkey_engaged i button_i s →
  volkey_do_volume_key_press_is_ongoing (volkey s) = false →
  logical_state button_i v1 = 1 →
  logical_state button_i v0 = 0 →
  let g := gpio button_i in
  let pressed := evaluate i g v1 s in
  ∃ e, volkey_skip_track_work (wq pressed) = Some e
    ∧ (volkey_skip_track_is_ongoing (volkey s) = true
       ∨ volkey_skip_track_work (wq s) = None →
       e = jiffies s + volkey_long_press_delay_ms (params s))
    ∧ (∀ t, t < e →
         transport_calls (log (volkey_release_after i g v0 t pressed))
         = transport_calls (log s)
           ++ [PonkeyRemapPowerKey KEY_POWER (volkey_primary g);
               PonkeyEmulator (volkey_primary g) 1;
               PonkeyEmulator (volkey_primary g) 0])
    ∧ (∀ t, e ≤ t → jiffies s ≤ t →
         transport_calls (log (volkey_release_after i g v0 t pressed))
         = transport_calls (log s)
           ++ [PonkeyRemapPowerKey KEY_POWER (volkey_alternate g);
               PonkeyEmulator (volkey_alternate g) 1;
               PonkeyEmulator (volkey_alternate g) 0]).
Proof.
  intros Heng Hidle Hv1 Hv0 g pressed.
  destruct (evaluate_volkey_press v1 s Heng Hv1)
    as (Pd & Pp & Pj & Pon & Pnow & Pw & Pdo & Pq & Pt).
  fold g pressed in Pd, Pp, Pj, Pon, Pnow, Pw, Pdo, Pq, Pt.
  assert (He : ∃ e, volkey_skip_track_work (wq pressed) = Some e
    ∧ (volkey_skip_track_is_ongoing (volkey s) = true
       ∨ volkey_skip_track_work (wq s) = None →
       e = jiffies s + volkey_long_press_delay_ms (params s))).
  { rewrite Pw. destruct (volkey_skip_track_is_ongoing (volkey s)).
    - eexists. split; [done|]. done.
    - destruct (volkey_skip_track_work (wq s)) as [e0|]; simpl.
      + exists e0. split; [done|]. by intros [?|?].
      + eexists. split; [done|]. done. }
  destruct He as (e & Hwe & Hfresh). exists e. split; [done|]. split; [done|].
  assert (Heng1 : volkey_engaged i button_i pressed).
  { apply (volkey_engaged_frame s); [done| |done].
    intros b Hb. exists b. by rewrite Pd. }
  assert (Hafter : ∀ t,
    volkey_engaged i button_i (step (Tick t) pressed)
    ∧ volkey_do_volume_key_press_is_ongoing (volkey (step (Tick t) pressed)) = false
    ∧ transport_calls (log (step (Tick t) pressed)) = transport_calls (log s)).
  { intros t.
    destruct (step_Tick_frame t pressed)
      as (Tp & Tl & _ & _ & _ & _ & _ & Tdo & _ & _ & _ & _ & Td).
    split.
    { apply (volkey_engaged_frame pressed); [done| |done].
      intros b Hb. by apply Td. }
    split; [by rewrite Tdo, Pdo|by rewrite Tl]. }
  assert (Hpulse : ∀ t now,
    volkey_skip_track_now (volkey (step (Tick t) pressed)) = now →
    transport_calls (log (volkey_release_after i g v0 t pressed))
    = transport_calls (log s)
      ++ [PonkeyRemapPowerKey KEY_POWER
            (if now then volkey_alternate g else volkey_primary g);
          PonkeyEmulator (if now then volkey_alternate g else volkey_primary g) 1;
          PonkeyEmulator (if now then volkey_alternate g else volkey_primary g) 0]).
  { intros t now Hnow. destruct (Hafter t) as (Heng2 & Hidle2 & Ht2).
    destruct (evaluate_volkey_release v0 _ Heng2 Hv0 Hidle2)
      as (_ & Rk & Rsel & Rq & Rt).
    fold g in Rk, Rsel, Rq, Rt. unfold volkey_release_after.
    destruct (step_VolumeKeyPressWork _ Rq) as (Wt & _).
    rewrite Wt, Rt, Rk, Rsel, Ht2, Hnow, <- app_assoc.
    unfold volkey_alternate, volkey_primary.
    by destruct now, (g =? VOL_UP_JANICE_R0_0). }
  split.
  - intros t Hlt. apply (Hpulse t false).
    destruct (step_Tick_volkey t e pressed Hwe) as [Hshort _].
    destruct (Hshort Hlt) as [-> _]. done.
  - intros t Hle Hj. apply (Hpulse t true).
    destruct (step_Tick_volkey t e pressed Hwe) as [_ Hlong].
    apply Hlong; [done|]. by rewrite Pj.
Qed.

End volume_line.

(** ** Gestures on the home key *)

Lemma homekey_do_press_play_fn_log (s : system) :
  log (homekey_do_press_play_fn s)
  = log s
    ++ [PonkeyEmulator
          (if homekey_is_remapped (homekey s)
           then KEY_PLAYPAUSE else HOME_KEY_CODINA_R0_5) 1;
        Mdelay (homekey_do_press_play_delay_ms (params s));
        PonkeyEmulator
          (if homekey_is_remapped (homekey s)
           then KEY_PLAYPAUSE else HOME_KEY_CODINA_R0_5) 0;
        PonkeyUnmapAllKeys emulated_keys].
Proof.
  unfold homekey_do_press_play_fn. cbn. by rewrite <- !app_assoc.
Qed.

Section home_line.

(** The home line with its session engaged. *)
Variable i : nat.
Variable button_i : gpio_keys_button.
Hypothesis Hhome_line : gpio button_i = HOME_KEY_JANICE_R0_0.

Lemma homekey_engaged_frame (s s' : system) :
  params s' = params s →
  (∀ b, ddata s !! i = Some b →
     ∃ b', ddata s' !! i = Some b' ∧ button b' = button b) →
  homekey_engaged i button_i s → homekey_engaged i button_i s'.
Proof.
  intros Hp Hd ((b & Hb & Hbi) & H). split; [|by rewrite Hp].
  destruct (Hd b Hb) as (b' & Hb' & Hbb). exists b'. split; [done|congruence].
Qed.

Lemma evaluate_homekey_press (v : Z) (s : system) :
  homekey_engaged i button_i s →
  logical_state button_i v = 1 →
  ddata (evaluate i (gpio button_i) v s) = ddata s
  ∧ params (evaluate i (gpio button_i) v s) = params s
  ∧ jiffies (evaluate i (gpio button_i) v s) = jiffies s
  ∧ homekey_press_play_now (homekey (evaluate i (gpio button_i) v s)) = false
  ∧ homekey_press_play_work (wq (evaluate i (gpio button_i) v s))
    = (if homekey_press_play_is_ongoing (homekey s)
       then Some (jiffies s + homekey_long_press_delay_ms (params s))
       else schedule_delayed (homekey_press_play_work (wq s)) (jiffies s)
              (homekey_long_press_delay_ms (params s)))
  ∧ homekey_do_press_play_is_ongoing (homekey (evaluate i (gpio button_i) v s))
    = homekey_do_press_play_is_ongoing (homekey s)
  ∧ transport_calls (log (evaluate i (gpio button_i) v s))
    = transport_calls (log s).
Proof.
  intros ((b & Hb & Hbi) & Hup & Hdown & Hgate & Hhg) Hst. unfold evaluate.
  destruct (step_Level (gpio button_i) v s)
    as (Hd & Hp & Hv & Hh & Hw & Hj & Hl & Hval).
  remember (step (Level (gpio button_i) v) s) as sl eqn:Esl. clear Esl.
  rewrite <- Hd in Hb. rewrite <- Hp in Hup, Hdown, Hgate, Hhg.
  subst button_i.
  destruct (report_event_homekey_view i sl b Hb Hup Hdown Hgate Hhg Hhome_line)
    as (_ & _ & _ & _ & _ & _ & _ & Heq).
  rewrite Hval in Heq. rewrite Heq by auto.
  destruct (homekey_block_spec (logical_state (button b) v)
              (emit (GpioGetValue (gpio (button b)) v) sl))
    as ((Fd & Fp & _ & _ & Fj & _) & _ & Hpress & _).
  destruct (Hpress Hst) as (_ & P1 & P2 & P3 & P4 & P5 & P6 & P7).
  rewrite Fd, Fp, Fj, P2, P3, P4, P7.
  cbn [ddata params jiffies homekey wq log emit].
  rewrite Hd, Hp, Hj, Hh, Hw, Hl. repeat split.
  rewrite transport_calls_app. cbn. by rewrite app_nil_r.
Qed.

Lemma evaluate_homekey_release (v : Z) (s : system) :
  homekey_engaged i button_i s →
  logical_state button_i v = 0 →
  homekey_do_press_play_is_ongoing (homekey s) = false →
  homekey_is_remapped (homekey (evaluate i (gpio button_i) v s))
  = homekey_press_play_now (homekey s)
  ∧ homekey_do_press_play_work (wq (evaluate i (gpio button_i) v s)) = true
  ∧ transport_calls (log (evaluate i (gpio button_i) v s))
    = transport_calls (log s)
      ++ [PonkeyRemapPowerKey KEY_POWER
            (if homekey_press_play_now (homekey s)
             then KEY_PLAYPAUSE else HOME_KEY_CODINA_R0_5)].
Proof.
  intros ((b & Hb & Hbi) & Hup & Hdown & Hgate & Hhg) Hst Hidle.
  unfold evaluate.
  destruct (step_Level (gpio button_i) v s)
    as (Hd & Hp & Hv & Hh & Hw & Hj & Hl & Hval).
  remember (step (Level (gpio button_i) v) s) as sl eqn:Esl. clear Esl.
  rewrite <- Hd in Hb. rewrite <- Hp in Hup, Hdown, Hgate, Hhg.
  subst button_i.
  destruct (report_event_homekey_view i sl b Hb Hup Hdown Hgate Hhg Hhome_line)
    as (_ & _ & _ & _ & _ & _ & _ & Heq).
  rewrite Hval in Heq. rewrite Heq by auto.
  destruct (homekey_block_spec (logical_state (button b) v)
              (emit (GpioGetValue (gpio (button b)) v) sl))
    as (_ & _ & _ & Hrel & _).
  cbn [homekey emit] in Hrel. rewrite Hh in Hrel.
  destruct (Hrel Hst Hidle) as (R1 & _ & R3 & _ & _ & _ & R7).
  rewrite R1, R3, R7. cbn [log emit]. rewrite Hl.
  repeat split. rewrite transport_calls_app. cbn. by rewrite app_nil_r.
Qed.

Lemma step_HomePressPlayWork (s : system) :
  homekey_do_press_play_work (wq s) = true →
  transport_calls (log (step HomePressPlayWork s))
  = transport_calls (log s)
    ++ [PonkeyEmulator
          (if homekey_is_remapped (homekey s)
           then KEY_PLAYPAUSE else HOME_KEY_CODINA_R0_5) 1;
        PonkeyEmulator
          (if homekey_is_remapped (homekey s)
           then KEY_PLAYPAUSE else HOME_KEY_CODINA_R0_5) 0].
Proof.
  intros Hq. unfold step. rewrite Hq.
  rewrite homekey_do_press_play_fn_log. cbn [log homekey params assign_wq set_wq].
  rewrite transport_calls_app. by cbn.
Qed.

(** Home session: the same with [HOME_KEY_CODINA_R0_5] as the code of a
    short press and [KEY_PLAYPAUSE] as the code of a long one. *)
Lemma homekey_gesture (v1 v0 : Z) (s : system) :
  homekey_engaged i button_i s →
  homekey_do_press_play_is_ongoing (homekey s) = false →
  logical_state button_i v1 = 1 →
  logical_state button_i v0 = 0 →
  let g := gpio button_i in
  let pressed := evaluate i g v1 s in
  ∃ e, homekey_press_play_work (wq pressed) = Some e
    ∧ (homekey_press_play_is_ongoing (homekey s) = true
       ∨ homekey_press_play_work (wq s) = None →
       e = jiffies s + homekey_long_press_delay_ms (params s))
    ∧ (∀ t, t < e →
         transport_calls (log (homekey_release_after i g v0 t pressed))
         = transport_calls (log s)
           ++ [PonkeyRemapPowerKey KEY_POWER HOME_KEY_CODINA_R0_5;
               PonkeyEmulator HOME_KEY_CODINA_R0_5 1;
               PonkeyEmulator HOME_KEY_CODINA_R0_5 0])
    ∧ (∀ t, e ≤ t → jiffies s ≤ t →
         transport_calls (log (homekey_release_after i g v0 t pressed))
         = transport_calls (log s)
           ++ [PonkeyRemapPowerKey KEY_POWER KEY_PLAYPAUSE;
               PonkeyEmulator KEY_PLAYPAUSE 1;
               PonkeyEmulator KEY_PLAYPAUSE 0]).
Proof.
  intros Heng Hidle Hv1 Hv0 g pressed.
  destruct (evaluate_homekey_press v1 s Heng Hv1)
    as (Pd & Pp & Pj & Pnow & Pw & Pdo & Pt).
  fold g pressed in Pd, Pp, Pj, Pnow, Pw, Pdo, Pt.
  assert (He : ∃ e, homekey_press_play_work (wq pressed) = Some e
    ∧ (homekey_press_play_is_ongoing (homekey s) = true
       ∨ homekey_press_play_work (wq s) = None →
       e = jiffies s + homekey_long_press_delay_ms (params s))).
  { rewrite Pw. destruct (homekey_press_play_is_ongoing (homekey s)).
    - eexists. split; [done|]. done.
    - destruct (homekey_press_play_work (wq s)) as [e0|]; simpl.
      + exists e0. split; [done|]. by intros [?|?].
      + eexists. split; [done|]. done. }
  destruct He as (e & Hwe & Hfresh). exists e. split; [done|]. split; [done|].
  assert (Heng1 : homekey_engaged i button_i pressed).
  { apply (homekey_engaged_frame s); [done| |done].
    intros b Hb. exists b. by rewrite Pd. }
  assert (Hafter : ∀ t,
    homekey_engaged i button_i (step (Tick t) pressed)
    ∧ homekey_do_press_play_is_ongoing (homekey (step (Tick t) pressed)) = false
    ∧ transport_calls (log (step (Tick t) pressed)) = transport_calls (log s)).
  { intros t.
    destruct (step_Tick_frame t pressed)
      as (Tp & Tl & _ & _ & _ & _ & _ & _ & Tdo & _ & _ & _ & Td).
    split.
    { apply (homekey_engaged_frame pressed); [done| |done].
      intros b Hb. by apply Td. }
    split; [by rewrite Tdo, Pdo|by rewrite Tl]. }
  assert (Hpulse : ∀ t now,
    homekey_press_play_now (homekey (step (Tick t) pressed)) = now →
    transport_calls (log (homekey_release_after i g v0 t pressed))
    = transport_calls (log s)
      ++ [PonkeyRemapPowerKey KEY_POWER
            (if now then KEY_PLAYPAUSE else HOME_KEY_CODINA_R0_5);
          PonkeyEmulator (if now then KEY_PLAYPAUSE else HOME_KEY_CODINA_R0_5) 1;
          PonkeyEmulator (if now then KEY_PLAYPAUSE else HOME_KEY_CODINA_R0_5) 0]).
  { intros t now Hnow. destruct (Hafter t) as (Heng2 & Hidle2 & Ht2).
    destruct (evaluate_homekey_release v0 _ Heng2 Hv0 Hidle2) as (Rk & Rq & Rt).
    fold g in Rk, Rq, Rt. unfold homekey_release_after.
    rewrite (step_HomePressPlayWork _ Rq).
    by rewrite Rt, Rk, Ht2, Hnow, <- app_assoc. }
  split.
  - intros t Hlt. apply (Hpulse t false).
    destruct (step_Tick_homekey t e pressed Hwe) as [Hshort _].
    destruct (Hshort Hlt) as [-> _]. done.
  - intros t Hle Hj. apply (Hpulse t true).
    destruct (step_Tick_homekey t e pressed Hwe) as [_ Hlong].
    apply Hlong; [done|]. by rewrite Pj.
Qed.

End home_line.

(** C2.  A press-then-release gesture on a line of a remap session, with no
    pulse of that session in flight.  After the evaluation that finds the
    line pressed the long-press work is pending with some expiry [e] (the
    current time plus the long-press delay whenever it was armed anew).  If
    the release is evaluated before that work has run, the power-key
    transport sees one remap to the primary code and one press and release
    of that code, and no other call; if the work has run by then, it sees
    the same for the alternate code.  The codes are those of the session,
    not the [code] the line is configured with: for a volume sub-line
    [volkey_primary] and [volkey_alternate], chosen by its GPIO; for the
    home line [HOME_KEY_CODINA_R0_5] and [KEY_PLAYPAUSE]. *)
Theorem long_press_gesture (i : nat) (button_i : gpio_keys_button)
    (v1 v0 : Z) (s : system) :
  logical_state button_i v1 = 1 →
  logical_state button_i v0 = 0 →
  let g := gpio button_i in
  let pressed := evaluate i g v1 s in
  (g = VOL_UP_JANICE_R0_0 ∨ g = VOL_DOWN_JANICE_R0_0 →
   g ≠ HOME_KEY_JANICE_R0_0 →
   volkey_engaged i button_i s →
   volkey_do_volume_key_press_is_ongoing (volkey s) = false →
   ∃ e, volkey_skip_track_work (wq pressed) = Some e
     ∧ (volkey_skip_track_is_ongoing (volkey s) = true
        ∨ volkey_skip_track_work (wq s) = None →
        e = jiffies s + volkey_long_press_delay_ms (params s))
     ∧ (∀ t, t < e →
          transport_calls (log (volkey_release_after i g v0 t pressed))
          = transport_calls (log s)
            ++ [PonkeyRemapPowerKey KEY_POWER (volkey_primary g);
                PonkeyEmulator (volkey_primary g) 1;
                PonkeyEmulator (volkey_primary g) 0])
     ∧ (∀ t, e ≤ t → jiffies s ≤ t →
          transport_calls (log (volkey_release_after i g v0 t pressed))
          = transport_calls (log s)
            ++ [PonkeyRemapPowerKey KEY_POWER (volkey_alternate g);
                PonkeyEmulator (volkey_alternate g) 1;
                PonkeyEmulator (volkey_alternate g) 0]))
  ∧ (g = HOME_KEY_JANICE_R0_0 →
     homekey_engaged i button_i s →
     homekey_do_press_play_is_ongoing (homekey s) = false →
     ∃ e, homekey_press_play_work (wq pressed) = Some e
       ∧ (homekey_press_play_is_ongoing (homekey s) = true
          ∨ homekey_press_play_work (wq s) = None →
          e = jiffies s + homekey_long_press_delay_ms (params s))
       ∧ (∀ t, t < e →
            transport_calls (log (homekey_release_after i g v0 t pressed))
            = transport_calls (log s)
              ++ [PonkeyRemapPowerKey KEY_POWER HOME_KEY_CODINA_R0_5;
                  PonkeyEmulator HOME_KEY_CODINA_R0_5 1;
                  PonkeyEmulator HOME_KEY_CODINA_R0_5 0])
       ∧ (∀ t, e ≤ t → jiffies s ≤ t →
            transport_calls (log (homekey_release_after i g v0 t pressed))
            = transport_calls (log s)
              ++ [PonkeyRemapPowerKey KEY_POWER KEY_PLAYPAUSE;
                  PonkeyEmulator KEY_PLAYPAUSE 1;
                  PonkeyEmulator KEY_PLAYPAUSE 0])).
Proof.
  intros Hv1 Hv0 g pressed. split.
  - intros Hg Hnh Heng Hidle.
    exact (volkey_gesture i button_i Hg Hnh v1 v0 s Heng Hidle Hv1 Hv0).
  - intros Hg Heng Hidle.
    exact (homekey_gesture i button_i Hg v1 v0 s Heng Hidle Hv1 Hv0).
Qed.

(** ** Debounce *)

(** Every deferred evaluation reads the level once, and touches at most the
    [key_state] of its own line. *)
Lemma report_event_general (i : nat) (s : system) (bdata : gpio_button_data) :
  ddata s !! i = Some bdata →
  evaluations (log (gpio_keys_report_event i s))
  = evaluations (log s)
    ++ [GpioGetValue (gpio (button bdata))
          (gpio_get_value (gpio (button bdata)) s)]
  ∧ (ddata (gpio_keys_report_event i s) = ddata s
     ∨ (type (button bdata) ≠ EV_ABS
        ∧ ∃ ks, ddata (gpio_keys_report_event i s)
                = alter (set_key_state ks) i (ddata s))).
Proof.
  intros Hi.
  assert (He : ∀ s2,
    quiet (emit (GpioGetValue (gpio (button bdata))
                   (gpio_get_value (gpio (button bdata)) s)) s) s2 →
    evaluations (log s2)
    = evaluations (log s)
      ++ [GpioGetValue (gpio (button bdata))
            (gpio_get_value (gpio (button bdata)) s)]
    ∧ ddata s2 = ddata s).
  { intros s2 (Hd & _ & _ & _ & _ & _ & _ & Hev). rewrite Hev, Hd.
    cbn [log ddata emit]. by rewrite evaluations_app. }
  destruct (report_event_cases i s bdata Hi)
    as [->|[(s2 & Hq & ->)|(s2 & Hq & ->)]].
  - split; [|by left]. unfold ab8500_ponkey_emulator. cbn [log emit].
    rewrite !evaluations_app. cbn. by rewrite app_nil_r.
  - destruct (He s2 Hq). split; [done|by left].
  - destruct (He s2 Hq) as [Hev Hd].
    rewrite report_input_log, report_input_ddata, !evaluations_app, Hev, Hd.
    split.
    + destruct (_ =? EV_ABS); [destruct (truthy _)|]; cbn; by rewrite !app_nil_r.
    + match goal with
      | |- context [?ty =? EV_ABS] => destruct (ty =? EV_ABS) eqn:Hty
      end; [by left|right]. split; [|eauto].
      intros Habs. rewrite Habs in Hty. discriminate Hty.
Qed.

Lemma step_Tick_lines (t : Z) (s : system) :
  jiffies s ≤ t →
  ddata (step (Tick t) s) = run_timer_line t <$> ddata s
  ∧ jiffies (step (Tick t) s) = t.
Proof.
  intros Hj. rewrite step_Tick. rewrite (proj2 (Z.ltb_ge t (jiffies s))) by lia.
  unfold run_homekey_press_play_work, run_volkey_skip_track_work,
    volkey_skip_track_fn, homekey_press_play_fn.
  destruct_system s. destruct w as [[e1|] [e2|] w3 w4 w5]; reduce_state;
    try destruct (e1 <=? t); reduce_state;
    try destruct (e2 <=? t); by reduce_state.
Qed.

Lemma irq_masked_frame (q : Z) (s s' : system) :
  irq_depth s' = irq_depth s → irq_masked q s' = irq_masked q s.
Proof. intros H. unfold irq_masked. by rewrite (irq_depth_frame q s s'). Qed.

Section burst.

Variable i : nat.
Variable bdata : gpio_button_data.
Hypothesis Hdebounce : timer_debounce bdata ≠ 0.

Let D : Z := msecs_to_jiffies (timer_debounce bdata).
Let g : Z := gpio (button bdata).

(** The interrupt handler on a line with a software debounce interval. *)
Lemma isr_rearms (s : system) (b : gpio_button_data) :
  ddata s !! i = Some b →
  timer_debounce b = timer_debounce bdata →
  gpio_keys_isr i s
  = update_line i (set_timer (Some (jiffies s + D))) s.
Proof.
  intros Hb Htd. unfold gpio_keys_isr, mod_timer. rewrite Hb, Htd.
  by rewrite (proj2 (truthy_true _) Hdebounce).
Qed.

(** One edge: time advances within the window, the level changes and the
    interrupt re-arms the timer. *)
Lemma edge_rearms (t t' v : Z) (s : system) :
  (armed i bdata D t s
   ∧ t ≤ t' ∧ t' < t + D)
  ∨ (jiffies s ≤ t'
     ∧ irq_masked (line_irq bdata) s = false
     ∧ ∃ b, ddata s !! i = Some b ∧ button b = button bdata
            ∧ timer_debounce b = timer_debounce bdata
            ∧ timer b = None ∧ work b = false) →
  armed i bdata D t' (run [Tick t'; Level g v; Irq i] s)
  ∧ log (run [Tick t'; Level g v; Irq i] s) = log s
  ∧ params (run [Tick t'; Level g v; Irq i] s) = params s.
Proof.
  intros Hpre.
  assert (H : jiffies s ≤ t'
    ∧ irq_masked (line_irq bdata) s = false
    ∧ ∃ b, ddata s !! i = Some b ∧ button b = button bdata
           ∧ timer_debounce b = timer_debounce bdata
           ∧ work b = false ∧ run_timer_line t' b = b).
  { destruct Hpre as [((Hj & Hm & b & Hb & Hbb & Htd & Ht & Hw) & Hle & Hlt)
                     |(Hj & Hm & b & Hb & Hbb & Htd & Ht & Hw)].
    - split; [lia|]. split; [done|]. exists b. repeat split; try done.
      unfold run_timer_line. rewrite Ht.
      by rewrite (proj2 (Z.leb_gt (t + D) t')) by lia.
    - split; [done|]. split; [done|]. exists b. repeat split; try done.
      unfold run_timer_line. by rewrite Ht. }
  clear Hpre. destruct H as (Hj & Hm & b & Hb & Hbb & Htd & Hw & Hrun).
  unfold run. cbn [foldl].
  destruct (step_Tick_lines t' s Hj) as (Td & Tj).
  destruct (step_Tick_frame t' s) as (Tp & Tl & _ & Tq & _).
  remember (step (Tick t') s) as s1 eqn:E1. clear E1.
  destruct (step_Level g v s1) as (Ld & Lp & _ & _ & _ & Lj & Ll & _).
  assert (Lq : irq_depth (step (Level g v) s1) = irq_depth s1) by done.
  remember (step (Level g v) s1) as s2 eqn:E2. clear E2.
  assert (Hb2 : ddata s2 !! i = Some b).
  { rewrite Ld, Td, list_lookup_fmap, Hb. cbn. by rewrite Hrun. }
  assert (Hm2 : irq_masked (gpio_to_irq (gpio (button b))) s2 = false).
  { rewrite Hbb. fold (line_irq bdata).
    rewrite (irq_masked_frame _ s s2); [done|congruence]. }
  unfold step. rewrite Hb2, Hm2, (isr_rearms s2 b Hb2 Htd).
  cbn [log params update_line set_ddata]. rewrite Ll, Tl, Lp, Tp.
  split; [|done]. split; [cbn; congruence|].
  split. { rewrite <- Hm. apply irq_masked_frame. cbn. congruence. }
  exists (set_timer (Some (jiffies s2 + D)) b).
  cbn [ddata set_ddata update_line].
  rewrite list_lookup_alter_eq, Hb2. cbn. repeat split; try done.
  do 2 f_equal. congruence.
Qed.

Lemma burst_rearms (edges : list (Z * Z)) (t : Z) (s : system) :
  armed i bdata D t s →
  within_window D t edges →
  armed i bdata D (last_edge_time t edges) (run (burst i g edges) s)
  ∧ log (run (burst i g edges) s) = log s
  ∧ params (run (burst i g edges) s) = params s.
Proof.
  revert t s. induction edges as [|[t' v] edges IH]; intros t s Ha Hw.
  - done.
  - destruct Hw as (Hle & Hlt & Hw). cbn [fst] in *.
    destruct (edge_rearms t t' v s) as (Ha1 & Hl1 & Hp1); [by left|].
    destruct (IH t' _ Ha1 Hw) as (Ha2 & Hl2 & Hp2).
    change (burst i g ((t', v) :: edges))
      with ([Tick t'; Level g v; Irq i] ++ burst i g edges).
    unfold run in *. rewrite foldl_app.
    cbn [last_edge_time fst]. split; [done|]. split; congruence.
Qed.

(** The timer runs out and the worker evaluates the line. *)
Lemma armed_fires (t v t_fire : Z) (s : system) :
  armed i bdata D t s →
  t + D ≤ t_fire → t ≤ t_fire →
  evaluations (log (run [Level g v; Tick t_fire; Work i] s))
  = evaluations (log s) ++ [GpioGetValue g v]
  ∧ (∃ b', ddata (run [Level g v; Tick t_fire; Work i] s) !! i = Some b'
           ∧ timer b' = None ∧ work b' = false)
  ∧ ∃ s0 b0, ddata s0 !! i = Some b0 ∧ button b0 = button bdata
             ∧ params s0 = params s ∧ log s0 = log s
             ∧ gpio_get_value g s0 = v
             ∧ run [Level g v; Tick t_fire; Work i] s
               = gpio_keys_report_event i s0.
Proof.
  intros (Hj & Hm & b & Hb & Hbb & Htd & Ht & Hw) Hfire Hle.
  unfold run. cbn [foldl].
  destruct (step_Level g v s) as (Ld & Lp & _ & _ & _ & Lj & Ll & Lv).
  remember (step (Level g v) s) as s1 eqn:E1.
  assert (Hj1 : jiffies s1 ≤ t_fire) by lia.
  destruct (step_Tick_lines t_fire s1 Hj1) as (Td & Tj).
  destruct (step_Tick_frame t_fire s1) as (Tp & Tl & _ & _ & Tg & _).
  remember (step (Tick t_fire) s1) as s2 eqn:E2. clear E2.
  assert (Hb2 : ddata s2 !! i = Some (set_work true (set_timer None b))).
  { rewrite Td, Ld, list_lookup_fmap, Hb. cbn. unfold run_timer_line.
    rewrite Ht. by rewrite (proj2 (Z.leb_le (t + D) t_fire)) by lia. }
  set (s3 := update_line i (set_work false) s2).
  assert (Hstep : step (Work i) s2 = gpio_keys_report_event i s3).
  { unfold step. by rewrite Hb2. }
  rewrite !Hstep.
  assert (Hb3 : ddata s3 !! i = Some (set_work false (set_timer None b))).
  { unfold s3. cbn. by rewrite list_lookup_alter_eq, Hb2. }
  assert (Hv3 : gpio_get_value g s3 = v).
  { rewrite <- Lv. unfold gpio_get_value. cbn [gpio_level s3 update_line set_ddata].
    by rewrite Tg. }
  destruct (report_event_general i s3 _ Hb3) as (Hev & Hd).
  cbn [button set_work set_timer] in Hev. rewrite Hbb in Hev. fold g in Hev.
  rewrite Hv3 in Hev.
  split; [|split].
  - rewrite Hev. cbn [log s3 update_line set_ddata]. by rewrite Tl, Ll.
  - destruct Hd as [Hd|(_ & ks & Hd)]; rewrite Hd.
    + eexists. split; [exact Hb3|done].
    + rewrite list_lookup_alter_eq, Hb3. eexists. split; [done|done].
  - exists s3, (set_work false (set_timer None b)).
    repeat split; try done.
    + cbn. congruence.
    + cbn. congruence.
Qed.

End burst.

Lemma run_app (es1 es2 : list event) (s : system) :
  run (es1 ++ es2) s = run es2 (run es1 s).
Proof. unfold run. apply foldl_app. Qed.

(** C6.  On a line with a nonzero software debounce interval the interrupt
    handler sets the line's one timer to expire that interval after the
    current time, whatever was pending, and queues nothing; on a line with
    none it queues the line's work at once.  So for a burst of edges on a
    quiet, unmasked line, each edge arriving before the timer armed by the
    previous one runs out, the timer expires once, after the last edge, and
    the line is evaluated exactly once; that evaluation reads the level
    present when it runs ([v], set after the last edge), and on the ordinary
    path what it reports is that level, as 0 or 1, xor [active_low]: for a
    key or switch the value reported is whether the xor is nonzero, so an
    active-low line ([active_low] 1) is reported pressed exactly at level 0
    and an active-high line ([active_low] 0) exactly at a nonzero level. *)
Theorem debounce_collapses_burst (i : nat) (s : system)
    (bdata : gpio_button_data) (t1 v1 : Z) (rest : list (Z * Z))
    (v t_fire : Z) :
  ddata s !! i = Some bdata →
  let b := button bdata in
  let g := gpio b in
  let D := msecs_to_jiffies (timer_debounce bdata) in
  (timer_debounce bdata ≠ 0 →
   gpio_keys_isr i s = update_line i (set_timer (Some (jiffies s + D))) s)
  ∧ (timer_debounce bdata = 0 →
     gpio_keys_isr i s = update_line i (set_work true) s)
  ∧ (timer_debounce bdata ≠ 0 →
     irq_masked (line_irq bdata) s = false →
     timer bdata = None →
     work bdata = false →
     jiffies s ≤ t1 →
     within_window D t1 rest →
     last_edge_time t1 rest + D ≤ t_fire →
     last_edge_time t1 rest ≤ t_fire →
     let s' := run (burst i g ((t1, v1) :: rest)
                    ++ [Level g v; Tick t_fire; Work i]) s in
     evaluations (log s') = evaluations (log s) ++ [GpioGetValue g v]
     ∧ (∃ b', ddata s' !! i = Some b' ∧ timer b' = None ∧ work b' = false)
     ∧ (power_key_capture (params s) g = false →
        session_gate (params s) g = false →
        let ty := if type b =? 0 then EV_KEY else type b in
        let state := Z.lxor (if v =? 0 then 0 else 1) (active_low b) in
        input_events (log s')
        = input_events (log s)
          ++ (if ty =? EV_ABS
              then (if state =? 0 then []
                    else [InputEvent ty (code b) (value b)])
              else [InputEvent ty (code b) (if state =? 0 then 0 else 1)])
        ∧ (ty ≠ EV_ABS → active_low b = 1 →
           input_events (log s')
           = input_events (log s)
             ++ [InputEvent ty (code b) (if v =? 0 then 1 else 0)])
        ∧ (ty ≠ EV_ABS → active_low b = 0 →
           input_events (log s')
           = input_events (log s)
             ++ [InputEvent ty (code b) (if v =? 0 then 0 else 1)]))).
Proof.
  intros Hi b g D. subst b g D. split; [|split].
  - intros Hd. by apply (isr_rearms i bdata Hd s bdata).
  - intros Hd. unfold gpio_keys_isr, schedule_work. rewrite Hi, Hd. done.
  - intros Hd Hm Ht Hw Hj Hwin Hfire Hle s'. subst s'.
    destruct (edge_rearms i bdata Hd (jiffies s) t1 v1 s) as (Ha1 & Hl1 & Hp1).
    { right. split; [done|]. split; [done|]. exists bdata. by repeat split. }
    destruct (burst_rearms i bdata Hd rest t1 _ Ha1 Hwin) as (Ha2 & Hl2 & Hp2).
    destruct (armed_fires i bdata (last_edge_time t1 rest) v t_fire _ Ha2 Hfire Hle)
      as (Hev & Hline & s0 & b0 & Hb0 & Hbb0 & Hp0 & Hl0 & Hv0 & Hrun).
    change (burst i (gpio (button bdata)) ((t1, v1) :: rest))
      with ([Tick t1; Level (gpio (button bdata)) v1; Irq i]
            ++ burst i (gpio (button bdata)) rest).
    rewrite !run_app. split; [|split].
    + rewrite Hev. by rewrite Hl2, Hl1.
    + done.
    + intros Hcap Hgate ty state. subst ty state. rewrite Hrun.
      assert (Hps : params s0 = params s) by congruence.
      rewrite (report_event_ordinary i s0 b0 Hb0)
        by (by rewrite Hps, Hbb0).
      rewrite report_input_log. cbn [log emit].
      rewrite Hbb0, Hv0, Hl0, Hl2, Hl1. rewrite !input_events_app.
      unfold logical_state, truthy, notnot.
      generalize (if type (button bdata) =? 0 then EV_KEY
                  else type (button bdata)).
      intros ty.
      split; [|split].
      * destruct (ty =? EV_ABS), (v =? 0); cbn [negb];
          destruct (Z.lxor _ (active_low (button bdata)) =? 0);
          cbn; by rewrite ?app_nil_r.
      * intros Hty ->. apply Z.eqb_neq in Hty. rewrite Hty.
        destruct (v =? 0); cbn; by rewrite ?app_nil_r.
      * intros Hty ->. apply Z.eqb_neq in Hty. rewrite Hty.
        destruct (v =? 0); cbn; by rewrite ?app_nil_r.
Qed.

(** ** The consistency of lines and interrupt controller is an invariant *)

Lemma consistent_alter (f : gpio_button_data → gpio_button_data) (i : nat)
    (s s' : system) :
  ddata s' = alter f i (ddata s) →
  irq_depth s' = irq_depth s →
  (∀ b, ddata s !! i = Some b → line_consistent s b →
     button (f b) = button b ∧ line_consistent s (f b)) →
  consistent s → consistent s'.
Proof.
  intros Hd Hq Hf Hc.
  destruct (ddata s !! i) as [b|] eqn:Hi.
  - destruct (Hf b eq_refl (proj2 Hc i b Hi)) as [Hb Hl].
    apply (consistent_update s s' i b (f b)); try done.
    + rewrite Hd. by apply alter_insert.
    + intros q _. by apply irq_depth_frame.
    + destruct Hl as (H1 & H2 & H3). repeat split; try done.
      by rewrite (irq_depth_frame _ s s').
  - apply (consistent_frame s); [|done|done].
    rewrite Hd. by apply alter_lookup_None.
Qed.

Lemma report_event_irq_depth (i : nat) (s : system) :
  irq_depth (gpio_keys_report_event i s) = irq_depth s.
Proof.
  destruct (ddata s !! i) as [bdata|] eqn:Hi.
  - destruct (report_event_cases i s bdata Hi)
      as [->|[(s2 & Hq & ->)|(s2 & Hq & ->)]]; [done| |].
    + by destruct Hq as (_ & _ & _ & _ & -> & _).
    + destruct (report_input_frame i (button bdata)
                  (if type (button bdata) =? 0 then EV_KEY
                   else type (button bdata))
                  (logical_state (button bdata)
                     (gpio_get_value (gpio (button bdata)) s)) s2)
        as (_ & _ & _ & _ & _ & _ & -> & _).
      by destruct Hq as (_ & _ & _ & _ & -> & _).
  - unfold gpio_keys_report_event. by rewrite Hi.
Qed.

Lemma report_event_consistent (i : nat) (s : system) :
  consistent s → consistent (gpio_keys_report_event i s).
Proof.
  intros Hc. destruct (ddata s !! i) as [bdata|] eqn:Hi.
  - destruct (report_event_general i s bdata Hi) as (_ & [Hd|(_ & ks & Hd)]).
    + apply (consistent_frame s); [done|apply report_event_irq_depth|done].
    + apply (consistent_alter (set_key_state ks) i s);
        [done|apply report_event_irq_depth| |done].
      intros b _ Hl. done.
  - unfold gpio_keys_report_event. by rewrite Hi.
Qed.

(** No event of the model breaks it. *)
Lemma step_consistent (e : event) (s : system) :
  consistent s → consistent (step e s).
Proof.
  intros Hc. destruct e as [g v|i|t|i| |].
  - by apply (consistent_frame s).
  - unfold step. destruct (ddata s !! i) as [b|] eqn:Hi; [|done].
    destruct (irq_masked (gpio_to_irq (gpio (button b))) s) eqn:Hm; [done|].
    unfold gpio_keys_isr, mod_timer, schedule_work. rewrite Hi.
    destruct (truthy (timer_debounce b)) eqn:Htd.
    + apply (consistent_alter
               (set_timer (Some (jiffies s + msecs_to_jiffies (timer_debounce b))))
               i s); try done.
      intros b' Hb' (H1 & H2 & H3). assert (b' = b) as -> by congruence.
      split; [done|]. split; [done|]. cbn. split.
      * intros Hdis. rewrite Hdis in H1.
        unfold irq_masked in Hm. fold (line_irq b) in Hm. by rewrite H1 in Hm.
      * intros Hz. apply truthy_true in Htd. done.
    + apply (consistent_alter (set_work true) i s); try done.
  - rewrite step_Tick. destruct (t <? jiffies s) eqn:Ht; [done|].
    apply Z.ltb_ge in Ht.
    destruct (step_Tick_lines t s Ht) as (Hd & _).
    destruct (step_Tick_frame t s) as (_ & _ & _ & Hq & _).
    rewrite step_Tick in Hd, Hq.
    rewrite (proj2 (Z.ltb_ge t (jiffies s)) Ht) in Hd, Hq.
    destruct Hc as [Hnd Hl]. split.
    + rewrite Hd, <- list_fmap_compose.
      erewrite list_fmap_ext; [exact Hnd|].
      intros j b _. unfold line_irq. cbn.
      by destruct (run_timer_line_button t b) as (-> & _).
    + intros j b'. rewrite Hd, list_lookup_fmap.
      destruct (ddata s !! j) as [b|] eqn:Hj; [|done].
      intros [= <-]. destruct (Hl j b Hj) as (H1 & H2 & H3).
      destruct (run_timer_line_button t b) as (Hb & Htd & Hdis).
      unfold line_consistent, line_irq. rewrite Hb, Hdis, Htd.
      split; [by rewrite (irq_depth_frame _ s)|].
      unfold run_timer_line. destruct (timer b) as [e|] eqn:He; [|done].
      destruct (e <=? t); [done|]. by rewrite He.
  - unfold step. destruct (ddata s !! i) as [b|] eqn:Hi; [|done].
    destruct (work b); [|done]. unfold gpio_keys_work_func.
    apply report_event_consistent.
    by apply (consistent_alter (set_work false) i s).
  - unfold step. destruct (volkey_do_volume_key_press_work (wq s)); [|done].
    by apply (consistent_frame s).
  - unfold step. destruct (homekey_do_press_play_work (wq s)); [|done].
    by apply (consistent_frame s).
Qed.

Lemma run_consistent (es : list event) (s : system) :
  consistent s → consistent (run es s).
Proof.
  revert s. induction es as [|e es IH]; intros s Hc; [done|].
  apply IH. by apply step_consistent.
Qed.

(** ** Lines of type [EV_ABS] *)

Lemma reported_as_frame (bdata : gpio_button_data) (i : nat) (s s' : system) :
  ddata s' = ddata s → reported_as bdata i s → reported_as bdata i s'.
Proof. intros Hd (b' & Hi & H). exists b'. by rewrite Hd. Qed.

Lemma reported_as_alter (f : gpio_button_data → gpio_button_data)
    (bdata : gpio_button_data) (i j : nat) (s s' : system) :
  (i = j → ∀ b, ddata s !! i = Some b →
     button (f b) = button b ∧ key_state (f b) = key_state b) →
  ddata s' = alter f j (ddata s) →
  reported_as bdata i s → reported_as bdata i s'.
Proof.
  intros Hf Hd (b' & Hi & Hb & Hk). unfold reported_as.
  rewrite Hd, list_lookup_alter. case_decide as Hij.
  - subst j. rewrite Hi. simpl. exists (f b').
    destruct (Hf eq_refl b' Hi) as [-> ->]. done.
  - by exists b'.
Qed.

Lemma reported_as_fmap (f : gpio_button_data → gpio_button_data)
    (bdata : gpio_button_data) (i : nat) (s s' : system) :
  (∀ b, button (f b) = button b ∧ key_state (f b) = key_state b) →
  ddata s' = f <$> ddata s →
  reported_as bdata i s → reported_as bdata i s'.
Proof.
  intros Hf Hd (b' & Hi & Hb & Hk). exists (f b').
  rewrite Hd, list_lookup_fmap, Hi. destruct (Hf b') as [-> ->]. done.
Qed.

(** No hardware edge, timer or work item changes the [key_state] of a line
    of type [EV_ABS]. *)
Lemma step_reported_as (bdata : gpio_button_data) (i : nat) (e : event)
    (s : system) :
  type (button bdata) = EV_ABS →
  reported_as bdata i s → reported_as bdata i (step e s).
Proof.
  intros Hty Hr. destruct e as [g v|j|t|j| |].
  - by apply (reported_as_frame bdata i s).
  - unfold step. destruct (ddata s !! j) as [b|] eqn:Hj; [|done].
    destruct (irq_masked (gpio_to_irq (gpio (button b))) s); [done|].
    unfold gpio_keys_isr, mod_timer, schedule_work. rewrite Hj.
    destruct (truthy (timer_debounce b)).
    + by apply (reported_as_alter
                  (set_timer (Some (jiffies s + msecs_to_jiffies (timer_debounce b))))
                  bdata i j s).
    + by apply (reported_as_alter (set_work true) bdata i j s).
  - rewrite step_Tick. destruct (t <? jiffies s) eqn:Ht; [done|].
    apply Z.ltb_ge in Ht. destruct (step_Tick_lines t s Ht) as (Hd & _).
    rewrite step_Tick, (proj2 (Z.ltb_ge t (jiffies s)) Ht) in Hd.
    apply (reported_as_fmap (run_timer_line t) bdata i s); [|done|done].
    intros b. unfold run_timer_line. destruct (timer b) as [x|]; [|done].
    by destruct (x <=? t).
  - unfold step. destruct (ddata s !! j) as [b|] eqn:Hj; [|done].
    destruct (work b); [|done]. unfold gpio_keys_work_func.
    set (s1 := update_line j (set_work false) s).
    assert (Hr1 : reported_as bdata i s1).
    { by apply (reported_as_alter (set_work false) bdata i j s). }
    assert (Hj1 : ddata s1 !! j = Some (set_work false b)).
    { unfold s1. cbn. by rewrite list_lookup_alter_eq, Hj. }
    destruct (report_event_general j s1 _ Hj1) as (_ & [Hd|(Hne & ks & Hd)]).
    + by apply (reported_as_frame bdata i s1).
    + apply (reported_as_alter (set_key_state ks) bdata i j s1); [|done|done].
      intros -> b' Hb'. destruct Hr1 as (b1 & Hb1 & Hbb & _).
      rewrite Hj1 in Hb1. injection Hb1 as <-. cbn in Hbb, Hne. congruence.
  - unfold step. destruct (volkey_do_volume_key_press_work (wq s)); [|done].
    by apply (reported_as_frame bdata i s).
  - unfold step. destruct (homekey_do_press_play_work (wq s)); [|done].
    by apply (reported_as_frame bdata i s).
Qed.

Lemma run_reported_as (bdata : gpio_button_data) (i : nat) (es : list event)
    (s : system) :
  type (button bdata) = EV_ABS →
  reported_as bdata i s → reported_as bdata i (run es s).
Proof.
  intros Hty. revert s. induction es as [|e es IH]; intros s Hr; [done|].
  apply IH. by apply step_reported_as.
Qed.

(** C10.  Deferred evaluation of a line of type [EV_ABS] never writes a
    line's [key_state] (the per-line data is returned as it was) and sends
    at most one report to the input core, namely the line's code with its
    configured [value], and only when the evaluated state is nonzero; a
    line found inactive yields no report (the closing [input_sync] apart).
    On the ordinary path an active line does yield that report.  Over any
    sequence of edges, timer expiries and work items, of this line or of
    others, the line's [key_state] stays what it was. *)
Theorem abs_line_report (i : nat) (s : system) (bdata : gpio_button_data) :
  ddata s !! i = Some bdata →
  type (button bdata) = EV_ABS →
  let b := button bdata in
  let state := logical_state b (gpio_get_value (gpio b) s) in
  let s' := gpio_keys_report_event i s in
  ddata s' = ddata s
  ∧ (input_events (log s') = input_events (log s)
     ∨ (state ≠ 0
        ∧ input_events (log s')
          = input_events (log s) ++ [InputEvent EV_ABS (code b) (value b)]))
  ∧ (state = 0 → input_events (log s') = input_events (log s))
  ∧ (power_key_capture (params s) (gpio b) = false →
     session_gate (params s) (gpio b) = false →
     state ≠ 0 →
     input_events (log s')
     = input_events (log s) ++ [InputEvent EV_ABS (code b) (value b)])
  ∧ (∀ es, ∃ bdata', ddata (run es s) !! i = Some bdata'
                     ∧ button bdata' = button bdata
                     ∧ key_state bdata' = key_state bdata).
Proof.
  intros Hi Hty b state s'.
  destruct (report_event_abs i s bdata Hi Hty) as (H1 & H2 & H3 & H4).
  split; [done|]. split; [done|]. split; [done|]. split; [done|].
  intros es. apply (run_reported_as bdata i es s Hty). by exists bdata.
Qed.

(** * Further properties of the driver *)

(** ** Reading the enable/disable attributes *)

Lemma set_bit_testbit (k bits c : Z) :
  0 ≤ c → Z.testbit (__set_bit k bits) c = Z.testbit bits c || (c =? k).
Proof.
  intros Hc. unfold __set_bit. rewrite Z.lor_spec, Z.shiftl_spec by done.
  f_equal. destruct (Z.eqb_spec c k) as [->|Hne].
  - by rewrite Z.sub_diag.
  - destruct (Z.lt_trichotomy (c - k) 0) as [H|[H|H]]; [|lia|].
    + by apply Z.testbit_neg_r.
    + apply Z.bits_above_log2; [lia|]. by cbn.
Qed.

Lemma set_bit_nonneg (k bits : Z) : 0 ≤ bits → 0 ≤ __set_bit k bits.
Proof.
  intros H. unfold __set_bit. apply Z.lor_nonneg. split; [done|].
  apply Z.shiftl_nonneg. lia.
Qed.

Lemma listed_cons (ty : Z) (od : bool) (c : Z) (b : gpio_button_data)
    (l : list gpio_button_data) :
  listed ty od c (b :: l)
  ↔ (type (button b) = ty ∧ code (button b) = c
     ∧ (od = true → disabled b = true))
    ∨ listed ty od c l.
Proof.
  unfold listed. split.
  - intros (x & Hx & H). apply elem_of_cons in Hx as [->|Hx]; [by left|].
    right. by exists x.
  - intros [H|(x & Hx & H)].
    + exists b. split; [apply elem_of_cons; by left|done].
    + exists x. split; [apply elem_of_cons; by right|done].
Qed.

Lemma show_bits_fold (ty : Z) (od : bool) (l : list gpio_button_data)
    (acc c : Z) :
  0 ≤ c →
  Z.testbit
    (foldl (λ bits bdata,
              if negb (type (button bdata) =? ty) then bits
              else if od && negb (disabled bdata) then bits
              else __set_bit (code (button bdata)) bits) acc l) c = true
  ↔ Z.testbit acc c = true ∨ listed ty od c l.
Proof.
  intros Hc. revert acc. induction l as [|b l IH]; intros acc; simpl.
  - split; [by left|]. intros [H|(x & Hx & _)]; [done|].
    by apply elem_of_nil in Hx.
  - rewrite IH, listed_cons.
    destruct (Z.eqb_spec (type (button b)) ty) as [Hty|Hty]; simpl.
    + destruct od, (disabled b) eqn:Hd; simpl;
        rewrite ?set_bit_testbit, ?orb_true_iff, ?Z.eqb_eq by done;
        naive_solver.
    + naive_solver.
Qed.

Lemma show_bits_fold_nonneg (ty : Z) (od : bool) (l : list gpio_button_data)
    (acc : Z) :
  0 ≤ acc →
  0 ≤ foldl (λ bits bdata,
               if negb (type (button bdata) =? ty) then bits
               else if od && negb (disabled bdata) then bits
               else __set_bit (code (button bdata)) bits) acc l.
Proof.
  revert acc. induction l as [|b l IH]; intros acc H; simpl; [done|].
  apply IH. destruct (negb _); [done|]. destruct (od && _); [done|].
  by apply set_bit_nonneg.
Qed.

Lemma show_bits_nonneg (ty : Z) (od : bool) (l : list gpio_button_data) :
  0 ≤ show_bits ty od l.
Proof. by apply show_bits_fold_nonneg. Qed.

Lemma show_bits_testbit (ty : Z) (od : bool) (l : list gpio_button_data)
    (c : Z) :
  0 ≤ c → Z.testbit (show_bits ty od l) c = true ↔ listed ty od c l.
Proof.
  intros Hc. unfold show_bits. rewrite show_bits_fold by done.
  rewrite Z.bits_0. naive_solver.
Qed.

Lemma n_events_nonneg (ty : Z) : 0 ≤ get_n_events_by_type ty.
Proof. unfold get_n_events_by_type. by destruct (ty =? EV_KEY). Qed.

Lemma printed_testbit (bits n c : Z) :
  0 ≤ n → 0 ≤ c →
  Z.testbit (bitmap_scnlistprintf bits n) c = Z.testbit bits c && (c <? n).
Proof.
  intros Hn Hc. unfold bitmap_scnlistprintf.
  by rewrite Z.land_spec, Z.testbit_ones_nonneg.
Qed.

Lemma printed_bound (bits n : Z) :
  0 ≤ n → 0 ≤ bitmap_scnlistprintf bits n < 2 ^ n.
Proof.
  intros Hn. unfold bitmap_scnlistprintf. rewrite Z.land_ones by done.
  apply Z.mod_pos_bound. by apply Z.pow_pos_nonneg.
Qed.

Lemma printed_listed (ty : Z) (od : bool) (l : list gpio_button_data) (c : Z) :
  0 ≤ c →
  Z.testbit (bitmap_scnlistprintf (show_bits ty od l)
               (get_n_events_by_type ty)) c = true
  ↔ c < get_n_events_by_type ty ∧ listed ty od c l.
Proof.
  intros Hc. rewrite printed_testbit by (done || apply n_events_nonneg).
  rewrite andb_true_iff, Z.ltb_lt, show_bits_testbit by done. tauto.
Qed.

(** X1.  Reading [keys], [switches], [disabled_keys] or [disabled_switches]
    (class [ty], [EV_KEY] or [EV_SW]) fails with [-ENOMEM] when the bitmap
    cannot be allocated.  Otherwise the bitmap that is printed has bit [c]
    set exactly when [c] is below the number of codes of the class
    ([KEY_CNT] or [SW_CNT]) and some configured line of the class has code
    [c] (and is disabled, for the two [disabled_] attributes): a line whose
    code is not below that number does not show, and neither does a line of
    another class, so a line whose type is left 0 shows in none of the
    four. *)
Theorem show_helper_lists_lines (ty : Z) (only_disabled : bool) (s : system) :
  ty = EV_KEY ∨ ty = EV_SW →
  gpio_keys_attr_show_helper false ty only_disabled s = inl (- ENOMEM)
  ∧ get_n_events_by_type ty = (if ty =? EV_KEY then KEY_CNT else SW_CNT)
  ∧ ∃ bits, gpio_keys_attr_show_helper true ty only_disabled s = inr bits
      ∧ 0 ≤ bits < 2 ^ get_n_events_by_type ty
      ∧ ∀ c, 0 ≤ c →
          Z.testbit bits c = true
          ↔ c < get_n_events_by_type ty
            ∧ listed ty only_disabled c (ddata s).
Proof.
  intros _. split; [done|]. split; [done|].
  exists (bitmap_scnlistprintf (show_bits ty only_disabled (ddata s))
            (get_n_events_by_type ty)).
  split; [done|]. split; [apply printed_bound, n_events_nonneg|].
  intros c Hc. by apply printed_listed.
Qed.

(** X2.  What [keys] and [switches] print (class [ty], [EV_KEY] or [EV_SW])
    holds the code of every configured line of the class whose code is
    below the number of codes of the class, also of the lines that cannot
    be disabled; it holds no code at or above that number; and what
    [disabled_keys] and [disabled_switches] print is always among it. *)
Theorem show_keys_lists_all (ty : Z) (s : system) :
  ty = EV_KEY ∨ ty = EV_SW →
  ∃ all dis,
    gpio_keys_attr_show_helper true ty false s = inr all
    ∧ gpio_keys_attr_show_helper true ty true s = inr dis
    ∧ (∀ i bdata, ddata s !! i = Some bdata → type (button bdata) = ty →
         0 ≤ code (button bdata) < get_n_events_by_type ty →
         Z.testbit all (code (button bdata)) = true)
    ∧ (∀ c, get_n_events_by_type ty ≤ c → Z.testbit all c = false)
    ∧ Z.land dis all = dis.
Proof.
  intros _. eexists _, _. split; [done|]. split; [done|].
  split; [|split].
  - intros i b Hi Hty [Hc Hn]. apply printed_listed; [done|].
    split; [done|]. exists b. split; [by eapply list_elem_of_lookup_2|done].
  - intros c Hc. pose proof (n_events_nonneg ty) as Hn.
    rewrite printed_testbit by lia.
    rewrite (proj2 (Z.ltb_ge c (get_n_events_by_type ty))) by done.
    apply andb_false_r.
  - apply Z.bits_inj'. intros c Hc. rewrite Z.land_spec.
    destruct (Z.testbit (bitmap_scnlistprintf (show_bits ty true (ddata s))
                           (get_n_events_by_type ty)) c) eqn:Hd; [|done].
    simpl.
    apply printed_listed in Hd as (Hn & b & Hb & Hty & Hcode & _); [|done].
    apply printed_listed; [done|]. split; [done|]. by exists b.
Qed.

(** ** Writing, then reading, the disabled set *)

Lemma store_apply_ddata (ty bits : Z) (i : nat) (s : system) :
  ddata (store_apply ty bits i s) = alter (store_line ty bits) i (ddata s).
Proof.
  unfold store_apply. destruct (ddata s !! i) as [b|] eqn:Hi;
    [|by rewrite alter_lookup_None].
  rewrite (alter_insert _ _ _ b Hi). unfold store_line.
  destruct (negb (type (button b) =? ty)); [by rewrite list_insert_id|].
  destruct (test_bit (code (button b)) bits).
  - unfold gpio_keys_disable_button. rewrite Hi.
    destruct (disabled b) eqn:Hd; simpl; [by rewrite list_insert_id|].
    destruct (truthy (timer_debounce b)); cbn.
    + rewrite list_alter_alter_eq. by rewrite (alter_insert _ _ _ b Hi).
    + by rewrite (alter_insert _ _ _ b Hi).
  - unfold gpio_keys_enable_button. rewrite Hi.
    destruct (disabled b) eqn:Hd; simpl; [|by rewrite list_insert_id].
    by rewrite (alter_insert _ _ _ b Hi).
Qed.

Lemma store_helper_lines (kcalloc_ok : bool) (parse_error bits ty : Z)
    (s s' : system) :
  gpio_keys_attr_store_helper kcalloc_ok parse_error bits ty s = (0, s') →
  ddata s' = store_line ty bits <$> ddata s.
Proof.
  intros Hok. apply store_helper_success in Hok as (_ & _ & _ & ->).
  destruct (for_each_button_inv (λ _, True) (store_apply ty bits)
              (store_line ty bits) (emit MutexLock s)) as [_ Hd]; [|done|done].
  intros j s1 _. split; [done|]. apply store_apply_ddata.
Qed.

Lemma show_bits_fmap (ty : Z) (od : bool)
    (f : gpio_button_data → gpio_button_data) (l : list gpio_button_data) :
  (∀ b, b ∈ l → type (button b) = ty ∨ type (button (f b)) = ty →
     button (f b) = button b ∧ (od = true → disabled (f b) = disabled b)) →
  show_bits ty od (f <$> l) = show_bits ty od l.
Proof.
  unfold show_bits. generalize 0. induction l as [|b l IH]; intros acc H;
    simpl; [done|].
  rewrite IH by (intros x Hx; apply H, elem_of_cons; by right).
  f_equal. specialize (H b (list_elem_of_here b l)).
  destruct (Z.eqb_spec (type (button (f b))) ty) as [Ht|Ht],
           (Z.eqb_spec (type (button b)) ty) as [Ht'|Ht']; simpl.
  - destruct H as [Hb Hd]; [by left|]. rewrite Hb.
    destruct od; simpl; [|done]. by rewrite Hd.
  - destruct H as [Hb Hd]; [by right|]. by rewrite Hb in Ht.
  - destruct H as [Hb Hd]; [by left|]. by rewrite Hb in Ht.
  - done.
Qed.

(** X3.  After a successful write of a bitmap to [disabled_keys] or
    [disabled_switches] (class [ty], [EV_KEY] or [EV_SW]), reading the same
    attribute prints exactly the codes of the bitmap that are below the
    number of codes of the class and belong to a configured line of the
    class; [keys] or [switches] of the class and the attributes of the
    other class read as before. *)
Theorem store_then_show (kcalloc_ok : bool) (parse_error bits ty : Z)
    (s s' : system) :
  ty = EV_KEY ∨ ty = EV_SW →
  gpio_keys_attr_store_helper kcalloc_ok parse_error bits ty s = (0, s') →
  (∃ shown, gpio_keys_attr_show_helper true ty true s' = inr shown
     ∧ ∀ c, 0 ≤ c →
         Z.testbit shown c = true
         ↔ c < get_n_events_by_type ty
           ∧ test_bit c bits = true ∧ listed ty false c (ddata s))
  ∧ gpio_keys_attr_show_helper true ty false s'
    = gpio_keys_attr_show_helper true ty false s
  ∧ (∀ ty' only_disabled, ty' ≠ ty →
       gpio_keys_attr_show_helper true ty' only_disabled s'
       = gpio_keys_attr_show_helper true ty' only_disabled s).
Proof.
  intros _ Hok. pose proof (store_helper_lines _ _ _ _ _ _ Hok) as Hd.
  split; [|split].
  - eexists. split; [done|]. intros c Hc.
    rewrite printed_listed, Hd by done.
    assert (H : listed ty true c (store_line ty bits <$> ddata s)
                ↔ test_bit c bits = true ∧ listed ty false c (ddata s));
      [|tauto].
    unfold listed. split.
    + intros (b' & Hb' & Hty & Hcode & Hdis).
      apply list_elem_of_fmap in Hb' as (b & -> & Hb).
      destruct (store_line_spec ty bits b) as (Hbb & Hon & Hoff & _).
      rewrite Hbb in Hty, Hcode. specialize (Hdis eq_refl). subst c.
      destruct (test_bit (code (button b)) bits) eqn:Hbit.
      * split; [done|]. by exists b.
      * rewrite (Hoff Hty eq_refl) in Hdis. done.
    + intros (Hbit & b & Hb & Hty & Hcode & _).
      exists (store_line ty bits b).
      destruct (store_line_spec ty bits b) as (Hbb & Hon & _).
      split; [apply list_elem_of_fmap; by exists b|]. rewrite Hbb.
      split; [done|]. split; [done|]. intros _. apply Hon; [done|].
      by rewrite Hcode.
  - unfold gpio_keys_attr_show_helper. cbn [negb]. do 2 f_equal. rewrite Hd.
    apply show_bits_fmap. intros b _ _.
    destruct (store_line_spec ty bits b) as (Hbb & _). done.
  - intros ty' od Hne. unfold gpio_keys_attr_show_helper. cbn [negb].
    do 2 f_equal. rewrite Hd. apply show_bits_fmap. intros b _ Hty.
    destruct (store_line_spec ty bits b) as (Hbb & _ & _ & Hother).
    rewrite Hbb in Hty. rewrite Hother; [done|]. destruct Hty; congruence.
Qed.

Lemma store_validate_zero (ty bits : Z) (l : list gpio_button_data) :
  store_validate ty bits l = 0
  ↔ ∀ b, b ∈ l → type (button b) = ty →
      test_bit (code (button b)) bits = true → can_disable (button b) = true.
Proof.
  induction l as [|b l IH]; simpl.
  - split; [|done]. intros _ x Hx. by apply elem_of_nil in Hx.
  - destruct (Z.eqb_spec (type (button b)) ty) as [Hty|Hty]; simpl.
    + destruct (test_bit (code (button b)) bits) eqn:Hbit,
               (can_disable (button b)) eqn:Hcd; simpl.
      * rewrite IH. split.
        -- intros H x Hx. apply elem_of_cons in Hx as [->|Hx]; [done|].
           by apply H.
        -- intros H x Hx. apply H, elem_of_cons. by right.
      * split; [done|]. intros H.
        specialize (H b (list_elem_of_here b l) Hty Hbit). congruence.
      * rewrite IH. split.
        -- intros H x Hx. apply elem_of_cons in Hx as [->|Hx]; [congruence|].
           by apply H.
        -- intros H x Hx. apply H, elem_of_cons. by right.
      * rewrite IH. split.
        -- intros H x Hx. apply elem_of_cons in Hx as [->|Hx]; [congruence|].
           by apply H.
        -- intros H x Hx. apply H, elem_of_cons. by right.
    + rewrite IH. split.
      * intros H x Hx. apply elem_of_cons in Hx as [->|Hx]; [done|].
        by apply H.
      * intros H x Hx. apply H, elem_of_cons. by right.
Qed.

Lemma store_validate_values (ty bits : Z) (l : list gpio_button_data) :
  store_validate ty bits l = 0 ∨ store_validate ty bits l = - EINVAL.
Proof.
  induction l as [|b l IH]; simpl; [by left|].
  destruct (negb _); [done|]. destruct (_ && _); [by right|done].
Qed.

(** X4.  A write to [disabled_keys] or [disabled_switches] whose bitmap was
    allocated and parsed is refused only for naming a line of the class that
    cannot be disabled: if every named line of the class can be disabled the
    write succeeds and returns the byte count, otherwise it returns
    [-EINVAL].  Codes of the bitmap that belong to no line of the class are
    no obstacle. *)
Theorem store_accepts_iff (ty bits count : Z) (s : system) :
  ((∀ bdata, bdata ∈ ddata s → type (button bdata) = ty →
      test_bit (code (button bdata)) bits = true →
      can_disable (button bdata) = true)
   ↔ fst (gpio_keys_attr_store_helper true 0 bits ty s) = 0)
  ∧ (fst (gpio_keys_attr_store_helper true 0 bits ty s) = 0 →
     fst (gpio_keys_store ty true 0 bits count s) = count)
  ∧ (fst (gpio_keys_attr_store_helper true 0 bits ty s) ≠ 0 →
     gpio_keys_store ty true 0 bits count s = (- EINVAL, s)).
Proof.
  unfold gpio_keys_store, gpio_keys_attr_store_helper. simpl.
  rewrite <- store_validate_zero.
  destruct (store_validate_values ty bits (ddata s)) as [->| ->]; simpl;
    by repeat split.
Qed.

(** ** [keys_pressed] and [sec_key_pressed] *)

Lemma string_append_cons (x : Ascii.ascii) (a b : String.string) :
  String.append (String x a) b = String x (String.append a b).
Proof. reflexivity. Qed.

Lemma string_append_assoc (a b c : String.string) :
  String.append (String.append a b) c = String.append a (String.append b c).
Proof.
  induction a as [|x a IH]; [reflexivity|].
  by rewrite !string_append_cons, IH.
Qed.

Lemma string_append_nil_r (a : String.string) :
  String.append a EmptyString = a.
Proof.
  induction a as [|x a IH]; [reflexivity|].
  by rewrite string_append_cons, IH.
Qed.

(** The state [s] with [l] appended to its log. *)
Lemma emit_log (a : action) (s : system) (l : list action) :
  emit a {| ddata := ddata s; params := params s; volkey := volkey s;
            homekey := homekey s; emu := emu s; wq := wq s;
            jiffies := jiffies s; irq_depth := irq_depth s;
            gpio_level := gpio_level s; log := log s ++ l |}
  = {| ddata := ddata s; params := params s; volkey := volkey s;
       homekey := homekey s; emu := emu s; wq := wq s;
       jiffies := jiffies s; irq_depth := irq_depth s;
       gpio_level := gpio_level s; log := log s ++ (l ++ [a]) |}.
Proof. unfold emit. cbn. by rewrite app_assoc. Qed.

Lemma keys_pressed_fold (s : system) (lines : list gpio_button_data)
    (buf : String.string) (l : list action) :
  foldl keys_pressed_line
    (buf, {| ddata := ddata s; params := params s; volkey := volkey s;
             homekey := homekey s; emu := emu s; wq := wq s;
             jiffies := jiffies s; irq_depth := irq_depth s;
             gpio_level := gpio_level s; log := log s ++ l |}) lines
  = (String.append buf (pressed_text (List.filter (line_active s) lines)),
     {| ddata := ddata s; params := params s; volkey := volkey s;
        homekey := homekey s; emu := emu s; wq := wq s;
        jiffies := jiffies s; irq_depth := irq_depth s;
        gpio_level := gpio_level s;
        log := log s
               ++ (l ++ map (λ bdata,
                               GpioGetValue (gpio (button bdata))
                                 (gpio_get_value (gpio (button bdata)) s))
                          lines) |}).
Proof.
  revert buf l. induction lines as [|b lines IH]; intros buf l; simpl.
  - by rewrite string_append_nil_r, app_nil_r.
  - unfold keys_pressed_line at 2. cbn [fst snd].
    change (gpio_get_value (gpio (button b))
              {| ddata := ddata s; params := params s; volkey := volkey s;
                 homekey := homekey s; emu := emu s; wq := wq s;
                 jiffies := jiffies s; irq_depth := irq_depth s;
                 gpio_level := gpio_level s; log := log s ++ l |})
      with (gpio_get_value (gpio (button b)) s).
    rewrite emit_log. fold (line_active s b).
    destruct (line_active s b); rewrite IH; simpl;
      rewrite <- ?app_assoc; simpl; by rewrite ?string_append_assoc.
Qed.

(** X5.  [keys_pressed] reads the level of every line once, in the order of
    the configuration, and appends to what the buffer holds the code of each
    line that is active at that level (level xor [active_low] nonzero), one
    per text line and in that order; it returns the length of the whole
    text, and changes nothing in the driver.  With no line active the buffer
    is returned as it was. *)
Theorem keys_pressed_show_lists_active (buf : String.string) (s : system) :
  let text :=
    String.append buf (pressed_text (List.filter (line_active s) (ddata s))) in
  keys_pressed_show buf s
  = (strlen text, text,
     {| ddata := ddata s; params := params s; volkey := volkey s;
        homekey := homekey s; emu := emu s; wq := wq s;
        jiffies := jiffies s; irq_depth := irq_depth s;
        gpio_level := gpio_level s;
        log := log s
               ++ map (λ bdata,
                         GpioGetValue (gpio (button bdata))
                           (gpio_get_value (gpio (button bdata)) s))
                    (ddata s) |})
  ∧ ((∀ bdata, bdata ∈ ddata s → line_active s bdata = false) →
     snd (fst (keys_pressed_show buf s)) = buf).
Proof.
  intros text.
  assert (Heq : foldl keys_pressed_line (buf, s) (ddata s)
    = (text,
       {| ddata := ddata s; params := params s; volkey := volkey s;
          homekey := homekey s; emu := emu s; wq := wq s;
          jiffies := jiffies s; irq_depth := irq_depth s;
          gpio_level := gpio_level s;
          log := log s
                 ++ map (λ bdata,
                           GpioGetValue (gpio (button bdata))
                             (gpio_get_value (gpio (button bdata)) s))
                      (ddata s) |})).
  { assert (Hs : s = {| ddata := ddata s; params := params s;
                        volkey := volkey s; homekey := homekey s;
                        emu := emu s; wq := wq s; jiffies := jiffies s;
                        irq_depth := irq_depth s; gpio_level := gpio_level s;
                        log := log s ++ [] |}).
    { destruct s. cbn. by rewrite app_nil_r. }
    rewrite Hs at 1. by rewrite keys_pressed_fold. }
  unfold keys_pressed_show. rewrite Heq. cbn [fst snd].
  split; [done|]. intros Hnone. unfold text.
  assert (Hf : List.filter (line_active s) (ddata s) = []).
  { clear Heq text. induction (ddata s) as [|b l IH]; [done|]. simpl.
    rewrite (Hnone b) by apply list_elem_of_here.
    apply IH. intros x Hx. apply Hnone, elem_of_cons. by right. }
  rewrite Hf. apply string_append_nil_r.
Qed.

Lemma key_state_fold (l : list gpio_button_data) (acc : Z) :
  acc = 0 ∨ acc = 1 →
  foldl (λ k bdata, Z.lor k (if key_state bdata then 1 else 0)) acc l
  = if existsb key_state l then 1 else acc.
Proof.
  revert acc. induction l as [|b l IH]; intros acc Hacc; simpl; [done|].
  destruct (key_state b); simpl.
  - assert (Z.lor acc 1 = 1) as -> by (by destruct Hacc as [-> | ->]).
    rewrite IH by (by right). by destruct (existsb key_state l).
  - rewrite Z.lor_0_r. by apply IH.
Qed.

(** X6.  [sec_key_pressed] reads [PRESS] exactly when the [key_state] of
    some line is set, and [RELEASE] otherwise, and returns the length of
    that word.  After an evaluation on the ordinary path that finds a line,
    not of type [EV_ABS], active it reads [PRESS]. *)
Theorem sec_key_pressed_show_spec (s : system) :
  sec_key_pressed_show s
  = (if existsb key_state (ddata s) then (5, "PRESS"%string)
     else (7, "RELEASE"%string))
  ∧ (snd (sec_key_pressed_show s) = "PRESS"%string
     ↔ ∃ i bdata, ddata s !! i = Some bdata ∧ key_state bdata = true)
  ∧ (∀ i bdata,
       ddata s !! i = Some bdata →
       power_key_capture (params s) (gpio (button bdata)) = false →
       session_gate (params s) (gpio (button bdata)) = false →
       type (button bdata) ≠ EV_ABS →
       logical_state (button bdata) (gpio_get_value (gpio (button bdata)) s)
       ≠ 0 →
       sec_key_pressed_show (gpio_keys_report_event i s)
       = (5, "PRESS"%string)).
Proof.
  assert (Hspec : ∀ s0, sec_key_pressed_show s0
    = (if existsb key_state (ddata s0) then (5, "PRESS"%string)
       else (7, "RELEASE"%string))).
  { intros s0. unfold sec_key_pressed_show.
    rewrite key_state_fold by (by left).
    by destruct (existsb key_state (ddata s0)). }
  split; [apply Hspec|]. split.
  - rewrite Hspec. destruct (existsb key_state (ddata s)) eqn:He; simpl.
    + split; [|done]. intros _. apply existsb_exists in He as (b & Hb & Hk).
      apply list_elem_of_In in Hb.
      apply list_elem_of_lookup_1 in Hb as (i & Hi). by exists i, b.
    + split; [done|]. intros (i & b & Hi & Hk).
      assert (existsb key_state (ddata s) = true); [|congruence].
      apply existsb_exists. exists b. split; [|done].
      apply list_elem_of_In. by eapply list_elem_of_lookup_2.
  - intros i b Hi Hcap Hgate Habs Hst. rewrite Hspec.
    rewrite (report_event_ordinary i s b Hi Hcap Hgate), report_input_ddata.
    assert (Hty : ((if type (button b) =? 0 then EV_KEY else type (button b))
                   =? EV_ABS) = false).
    { destruct (Z.eqb_spec (type (button b)) 0); [done|]. by apply Z.eqb_neq. }
    rewrite Hty. cbn [ddata emit].
    apply truthy_true in Hst. rewrite Hst.
    assert (He : existsb key_state (alter (set_key_state true) i (ddata s))
                 = true); [|by rewrite He].
    apply existsb_exists. exists (set_key_state true b). split; [|done].
    apply list_elem_of_In. apply (list_elem_of_lookup_2 _ i).
    by rewrite list_lookup_alter_eq, Hi.
Qed.

(** ** On-demand injection *)

Lemma find_button_first (k : Z) (l : list gpio_button_data) (i0 j : nat)
    (b : gpio_button_data) :
  l !! j = Some b →
  code (button b) = k →
  (∀ j' b', (j' < j)%nat → l !! j' = Some b' → code (button b') ≠ k) →
  find_button k l i0 = Some (i0 + j)%nat.
Proof.
  revert i0 j. induction l as [|x l IH]; intros i0 j Hj Hk Hfirst; [done|].
  destruct j as [|j]; simpl in *.
  - injection Hj as ->. rewrite Hk, Z.eqb_refl. f_equal. lia.
  - rewrite (proj2 (Z.eqb_neq _ _) (Hfirst 0%nat x ltac:(lia) eq_refl)).
    rewrite (IH (S i0) j Hj Hk).
    + f_equal. lia.
    + intros j' b' Hlt Hb'. apply (Hfirst (S j') b'); [lia|done].
Qed.

Lemma find_button_none (k : Z) (l : list gpio_button_data) (i0 : nat) :
  (∀ b, b ∈ l → code (button b) ≠ k) → find_button k l i0 = None.
Proof.
  revert i0. induction l as [|x l IH]; intros i0 H; [done|]. simpl.
  rewrite (proj2 (Z.eqb_neq _ _) (H x (list_elem_of_here x l))).
  apply IH. intros b Hb. apply H, elem_of_cons. by right.
Qed.

Lemma find_button_alter (k : Z) (f : gpio_button_data → gpio_button_data)
    (i : nat) (l : list gpio_button_data) (i0 : nat) :
  (∀ b, button (f b) = button b) →
  find_button k (alter f i l) i0 = find_button k l i0.
Proof.
  intros Hf. revert i i0. induction l as [|x l IH]; intros i i0; [done|].
  destruct i as [|i].
  - simpl. by rewrite Hf.
  - change (alter f (S i) (x :: l)) with (x :: alter f i l).
    cbn [find_button]. by rewrite IH.
Qed.

Lemma setstate_ddata (k : Z) (st : bool) (s : system) :
  ddata (gpio_keys_setstate k st s) = ddata s
  ∧ log (gpio_keys_setstate k st s) = log s
  ∧ params (gpio_keys_setstate k st s) = params s
  ∧ volkey (gpio_keys_setstate k st s) = volkey s
  ∧ homekey (gpio_keys_setstate k st s) = homekey s
  ∧ wq (gpio_keys_setstate k st s) = wq s
  ∧ emu_keycode (emu (gpio_keys_setstate k st s)) = emu_keycode (emu s)
  ∧ emu_working (emu (gpio_keys_setstate k st s)) = emu_working (emu s).
Proof.
  unfold gpio_keys_setstate.
  by destruct (k =? KEY_VOLUMEUP), (k =? KEY_POWER), (k =? KEY_HOME).
Qed.

Lemma setstate_twice (k : Z) (st st' : bool) (s s' : system) :
  emu_keycode (emu s') = emu_keycode (emu s) →
  g_bVolUp (emu s') = g_bVolUp (emu (gpio_keys_setstate k st s)) →
  g_bPower (emu s') = g_bPower (emu (gpio_keys_setstate k st s)) →
  g_bHome (emu s') = g_bHome (emu (gpio_keys_setstate k st s)) →
  set_emu_working false (emu (gpio_keys_setstate k st' s'))
  = set_emu_working false (emu (gpio_keys_setstate k st' s)).
Proof.
  unfold gpio_keys_setstate. intros Hk.
  destruct (k =? KEY_VOLUMEUP), (k =? KEY_POWER), (k =? KEY_HOME);
    cbn; intros H1 H2 H3; unfold set_emu_working; cbn;
    rewrite ?Hk, ?H1, ?H2, ?H3; done.
Qed.

Lemma emulator_found (k : Z) (press : bool) (s : system) (idx : nat) :
  find_button k (ddata s) 0 = Some idx →
  gpio_keys_emulator k press s
  = (0, input_sync
          (pr_err (if press then msg_emulate_press else msg_emulate_release)
             (input_event EV_KEY k (if press then 1 else 0)
                (update_line idx (set_key_state press)
                   (gpio_keys_setstate k press s))))).
Proof.
  intros H. unfold gpio_keys_emulator.
  destruct (setstate_ddata k press s) as (Hd & _). by rewrite H.
Qed.

Lemma emulator_thread_found (s : system) (idx : nat)
    (bdata : gpio_button_data) :
  let k := emu_keycode (emu s) in
  ddata s !! idx = Some bdata →
  code (button bdata) = k →
  (∀ j b', (j < idx)%nat → ddata s !! j = Some b' → code (button b') ≠ k) →
  log (gpio_keys_emulator_thread s)
  = log s ++ [PrErr msg_emulator_thread_called;
              InputEvent EV_KEY k 1; PrErr msg_emulate_press; InputSync;
              Mdelay 100;
              InputEvent EV_KEY k 0; PrErr msg_emulate_release; InputSync]
  ∧ ddata (gpio_keys_emulator_thread s)
    = alter (set_key_state false) idx (ddata s)
  ∧ emu (gpio_keys_emulator_thread s)
    = set_emu_working false (emu (gpio_keys_setstate k false s))
  ∧ wq (gpio_keys_emulator_thread s) = wq s
  ∧ volkey (gpio_keys_emulator_thread s) = volkey s
  ∧ homekey (gpio_keys_emulator_thread s) = homekey s.
Proof.
  intros k.
  intros Hidx Hk Hfirst.
  pose proof (find_button_first k (ddata s) 0 idx bdata Hidx Hk Hfirst) as Hf.
  simpl in Hf.
  unfold gpio_keys_emulator_thread, gpio_keys_emulator_thread_press.
  set (s1 := assign_emu (set_emu_working true)
               (pr_err msg_emulator_thread_called s)).
  assert (Hk1 : emu_keycode (emu s1) = k) by done.
  rewrite Hk1, (emulator_found k true s1 idx Hf). cbn [fst snd].
  change (0 <? 0) with false. cbv iota. cbn [fst snd].
  unfold gpio_keys_emulator_thread_release.
  destruct (setstate_ddata k true s1)
    as (Hd1 & Hl1 & Hp1 & Hv1 & Hh1 & Hw1 & Hc1 & _).
  set (s2 := mdelay 100 _).
  assert (Hd2 : ddata s2 = alter (set_key_state true) idx (ddata s)).
  { unfold s2. cbn. by rewrite Hd1. }
  assert (Hk2 : emu_keycode (emu s2) = k).
  { unfold s2. cbn. by rewrite Hc1. }
  assert (Hf2 : find_button k (ddata s2) 0 = Some idx).
  { rewrite Hd2, find_button_alter by done. done. }
  rewrite Hk2, (emulator_found k false s2 idx Hf2). cbn [fst snd].
  destruct (setstate_ddata k false s2)
    as (Hd3 & Hl3 & Hp3 & Hv3 & Hh3 & Hw3 & _).
  repeat split.
  + cbn. rewrite Hl3. unfold s2. cbn. rewrite Hl1. unfold s1. cbn.
    by rewrite <- !app_assoc.
  + cbn. rewrite Hd3, Hd2, list_alter_alter_eq. done.
  + cbn. unfold assign_emu. cbn.
    apply (setstate_twice k true false).
    * by rewrite Hk2.
    * unfold s2. cbn. unfold gpio_keys_setstate.
      by destruct (k =? KEY_VOLUMEUP), (k =? KEY_POWER), (k =? KEY_HOME).
    * unfold s2. cbn. unfold gpio_keys_setstate.
      by destruct (k =? KEY_VOLUMEUP), (k =? KEY_POWER), (k =? KEY_HOME).
    * unfold s2. cbn. unfold gpio_keys_setstate.
      by destruct (k =? KEY_VOLUMEUP), (k =? KEY_POWER), (k =? KEY_HOME).
  + cbn. rewrite Hw3. unfold s2. cbn. by rewrite Hw1.
  + cbn. rewrite Hv3. unfold s2. cbn. by rewrite Hv1.
  + cbn. rewrite Hh3. unfold s2. cbn. by rewrite Hh1.
Qed.

Lemma emulator_thread_not_found (s : system) :
  let k := emu_keycode (emu s) in
  (∀ bdata, bdata ∈ ddata s → code (button bdata) ≠ k) →
  log (gpio_keys_emulator_thread s)
  = log s ++ [PrErr msg_emulator_thread_called; PrErr msg_cannot_find_button]
  ∧ ddata (gpio_keys_emulator_thread s) = ddata s
  ∧ emu (gpio_keys_emulator_thread s) = set_emu_working false (emu s)
  ∧ wq (gpio_keys_emulator_thread s) = wq s.
Proof.
  intros k.
  intros Hnone.
  pose proof (find_button_none k (ddata s) 0 Hnone) as Hf.
  unfold gpio_keys_emulator_thread, gpio_keys_emulator_thread_press,
    gpio_keys_emulator_thread_release, gpio_keys_emulator.
  cbn [ddata assign_emu set_emu pr_err emit emu emu_keycode set_emu_working].
  fold k. rewrite Hf. cbn. by rewrite <- !app_assoc.
Qed.

Lemma find_button_Some (k : Z) (l : list gpio_button_data) (i0 idx : nat) :
  find_button k l i0 = Some idx →
  ∃ j b, idx = (i0 + j)%nat ∧ l !! j = Some b ∧ code (button b) = k
         ∧ ∀ j' b', (j' < j)%nat → l !! j' = Some b' → code (button b') ≠ k.
Proof.
  revert i0. induction l as [|x l IH]; intros i0 H; [done|]. simpl in H.
  destruct (Z.eqb_spec (code (button x)) k) as [Hk|Hk].
  - injection H as <-. exists 0%nat, x. split; [lia|]. split; [done|].
    split; [done|]. intros j' b' Hlt. lia.
  - destruct (IH (S i0) H) as (j & b & -> & Hj & Hb & Hfirst).
    exists (S j), b. split; [lia|]. split; [done|]. split; [done|].
    intros j' b' Hlt Hj'. destruct j' as [|j'].
    + simpl in Hj'. by injection Hj' as <-.
    + apply (Hfirst j' b'); [lia|done].
Qed.

Lemma find_button_None (k : Z) (l : list gpio_button_data) (i0 : nat) :
  find_button k l i0 = None → ∀ b, b ∈ l → code (button b) ≠ k.
Proof.
  revert i0. induction l as [|x l IH]; intros i0 H b Hb.
  - by apply elem_of_nil in Hb.
  - simpl in H. destruct (Z.eqb_spec (code (button x)) k) as [Hk|Hk]; [done|].
    apply elem_of_cons in Hb as [->|Hb]; [done|]. by apply (IH (S i0)).
Qed.


(** The two ways a run of [gpio_keys_emulator_thread] can go. *)
Lemma emulator_thread_cases (s : system) :
  let k := emu_keycode (emu s) in
  (∃ idx bdata,
     ddata s !! idx = Some bdata ∧ code (button bdata) = k
     ∧ log (gpio_keys_emulator_thread s)
       = log s ++ [PrErr msg_emulator_thread_called;
                   InputEvent EV_KEY k 1; PrErr msg_emulate_press; InputSync;
                   Mdelay 100;
                   InputEvent EV_KEY k 0; PrErr msg_emulate_release; InputSync]
     ∧ emu_working (emu (gpio_keys_emulator_thread s)) = false
     ∧ gpio_keys_emulator_work (wq (gpio_keys_emulator_thread s))
       = gpio_keys_emulator_work (wq s))
  ∨ ((∀ bdata, bdata ∈ ddata s → code (button bdata) ≠ k)
     ∧ log (gpio_keys_emulator_thread s)
       = log s ++ [PrErr msg_emulator_thread_called;
                   PrErr msg_cannot_find_button]
     ∧ emu_working (emu (gpio_keys_emulator_thread s)) = false
     ∧ gpio_keys_emulator_work (wq (gpio_keys_emulator_thread s))
       = gpio_keys_emulator_work (wq s)).
Proof.
  intros k.
  destruct (find_button k (ddata s) 0) as [idx|] eqn:Hf.
  - left. apply find_button_Some in Hf as (j & b & -> & Hj & Hk & Hfirst).
    destruct (emulator_thread_found s j b Hj Hk Hfirst)
      as (Hlog & _ & Hemu & Hwq & _).
    exists j, b. fold k in Hlog, Hemu. rewrite Hlog, Hemu, Hwq. done.
  - right. pose proof (find_button_None _ _ _ Hf) as Hn.
    destruct (emulator_thread_not_found s Hn) as (Hlog & _ & Hemu & Hwq).
    fold k in Hlog. rewrite Hlog, Hemu, Hwq. done.
Qed.

(** X8.  The on-demand injector from its attribute to the input core.
    Writing [emu_keycode=k] (with [k] parsed) and then [press], while no
    injection is running, queues the injector's work when [k] is nonzero;
    when the worker takes it the input core receives one press and one
    release of [k], provided a line carries that code, and the work and
    [emu_working] end clear.  With [k] zero the [press] is refused with a
    message and nothing is queued.  Every write returns its byte count, and
    reading the attribute gives back the code that was written. *)
Theorem emulator_interface_pulse (ret k count count' : Z) (s : system) :
  ret ≠ 0 →
  emu_working (emu s) = false →
  let s1 := snd (gpio_keys_emulator_store (EmuKeycode ret k) count s) in
  let s2 := snd (gpio_keys_emulator_store EmuPress count' s1) in
  fst (gpio_keys_emulator_store (EmuKeycode ret k) count s) = count
  ∧ fst (gpio_keys_emulator_store EmuPress count' s1) = count'
  ∧ snd (gpio_keys_emulator_show s1)
    = String.append "emu_keycode=" (String.append (format_d k) newline)
  ∧ (k ≠ 0 →
     gpio_keys_emulator_work (wq s2) = true
     ∧ log s2 = log s
     ∧ gpio_keys_emulator_work (wq (run_gpio_keys_emulator_work s2)) = false
     ∧ emu_working (emu (run_gpio_keys_emulator_work s2)) = false
     ∧ ((∃ bdata, bdata ∈ ddata s ∧ code (button bdata) = k) →
        input_events (log (run_gpio_keys_emulator_work s2))
        = input_events (log s)
          ++ [InputEvent EV_KEY k 1; InputEvent EV_KEY k 0])
     ∧ ((∀ bdata, bdata ∈ ddata s → code (button bdata) ≠ k) →
        input_events (log (run_gpio_keys_emulator_work s2))
        = input_events (log s)))
  ∧ (k = 0 →
     s2 = pr_err msg_emu_keycode_not_set s1
     ∧ gpio_keys_emulator_work (wq s2) = gpio_keys_emulator_work (wq s)
     ∧ input_events (log s2) = input_events (log s)).
Proof.
  intros Hret Hidle s1 s2.
  assert (Hs1 : s1 = assign_emu (set_emu_keycode k) s).
  { unfold s1, gpio_keys_emulator_store.
    by rewrite (proj2 (truthy_true ret) Hret). }
  clearbody s1. subst s1.
  set (s1 := assign_emu (set_emu_keycode k) s) in *.
  assert (Hw1 : emu_working (emu s1) = false) by done.
  assert (Hk1 : emu_keycode (emu s1) = k) by done.
  split; [unfold gpio_keys_emulator_store; by destruct (truthy ret)|].
  split.
  { unfold gpio_keys_emulator_store.
    by destruct (negb _ && _), (emu_working (emu s1)). }
  split.
  { unfold gpio_keys_emulator_show. cbn [snd]. by rewrite Hk1. }
  split.
  - intros Hk.
    assert (Hs2 : s2 = assign_wq (set_gpio_keys_emulator_work true) s1).
    { unfold s2, gpio_keys_emulator_store.
      by rewrite Hw1, Hk1, (proj2 (truthy_true k) Hk). }
    clearbody s2. subst s2.
    set (s3 := assign_wq (set_gpio_keys_emulator_work false)
                 (assign_wq (set_gpio_keys_emulator_work true) s1)).
    assert (Hrun : run_gpio_keys_emulator_work
                     (assign_wq (set_gpio_keys_emulator_work true) s1)
                   = gpio_keys_emulator_thread s3) by done.
    assert (Hk3 : emu_keycode (emu s3) = k) by done.
    assert (Hd3 : ddata s3 = ddata s) by done.
    assert (Hl3 : log s3 = log s) by done.
    rewrite Hrun. split; [done|]. split; [done|].
    destruct (emulator_thread_cases s3)
      as [(idx & b & Hidx & Hcode & Hlog & Hemu & Hwq)
         |(Hnone & Hlog & Hemu & Hwq)].
    + rewrite Hlog, Hemu, Hwq, Hk3, Hl3.
      split; [done|]. split; [done|]. split.
      * intros _. rewrite !input_events_app. cbn. done.
      * intros Hno. exfalso. apply (Hno b); [|by rewrite Hcode, Hk3].
        rewrite <- Hd3. by eapply list_elem_of_lookup_2.
    + rewrite Hlog, Hemu, Hwq, Hl3.
      split; [done|]. split; [done|]. split.
      * intros (b & Hb & Hcode). exfalso. apply (Hnone b); [by rewrite Hd3|].
        by rewrite Hk3.
      * intros _. rewrite !input_events_app. cbn. by rewrite app_nil_r.
  - intros Hz.
    assert (Hs2 : s2 = pr_err msg_emu_keycode_not_set s1).
    { unfold s2, gpio_keys_emulator_store. by rewrite Hw1, Hk1, Hz. }
    split; [done|]. rewrite Hs2. split; [done|].
    cbn. rewrite input_events_app. cbn. by rewrite app_nil_r.
Qed.

(** ** The power-key emulation mode *)

Lemma report_event_captured (i : nat) (s : system) (bdata : gpio_button_data) :
  ddata s !! i = Some bdata →
  power_key_capture (params s) (gpio (button bdata)) = true →
  gpio_keys_report_event i s
  = ab8500_ponkey_emulator KEY_POWER
      (logical_state (button bdata) (gpio_get_value (gpio (button bdata)) s))
      (emit (GpioGetValue (gpio (button bdata))
               (gpio_get_value (gpio (button bdata)) s)) s).
Proof.
  intros Hi Hcap. unfold gpio_keys_report_event. rewrite Hi. cbv zeta.
  unfold power_key_capture in Hcap. cbn [params emit].
  destruct (emulator_volup (params s)); [by rewrite Hcap|].
  destruct (emulator_voldown (params s)); [by rewrite Hcap|done].
Qed.

Lemma report_event_mode_ordinary (i : nat) (s : system)
    (bdata : gpio_button_data) :
  ddata s !! i = Some bdata →
  emulator_volup (params s) || emulator_voldown (params s) = true →
  power_key_capture (params s) (gpio (button bdata)) = false →
  gpio_keys_report_event i s
  = report_input i (button bdata)
      (if type (button bdata) =? 0 then EV_KEY else type (button bdata))
      (logical_state (button bdata) (gpio_get_value (gpio (button bdata)) s))
      (emit (GpioGetValue (gpio (button bdata))
               (gpio_get_value (gpio (button bdata)) s)) s).
Proof.
  intros Hi Hmode Hcap. unfold gpio_keys_report_event. rewrite Hi. cbv zeta.
  unfold power_key_capture in Hcap. cbn [params emit].
  destruct (emulator_volup (params s)); [by rewrite Hcap|].
  destruct (emulator_voldown (params s)); [by rewrite Hcap|done].
Qed.

(** X9.  The power-key emulation mode.  While [emulator_volup] is set, an
    evaluation of the line on the volume-up GPIO reads the level and hands
    the logical state to the power-key emulator as [KEY_POWER]; nothing is
    reported to the input core and no line, work item or remap variable
    changes.  While the mode is on ([emulator_volup] or [emulator_voldown]
    set) every line it does not take is reported on the ordinary path,
    whatever the remap features and their gates say: the remap sessions are
    off.  [emulator_volup] has precedence: while it is set the volume-down
    line is not taken, even with [emulator_voldown] set. *)
Theorem ponkey_mode_takes_line (i : nat) (s : system)
    (bdata : gpio_button_data) :
  ddata s !! i = Some bdata →
  let b := button bdata in
  let v := gpio_get_value (gpio b) s in
  let state := logical_state b v in
  let ty := if type b =? 0 then EV_KEY else type b in
  (power_key_capture (params s) (gpio b) = true →
   log (gpio_keys_report_event i s)
   = log s ++ [GpioGetValue (gpio b) v; PonkeyEmulator KEY_POWER state]
   ∧ ddata (gpio_keys_report_event i s) = ddata s
   ∧ wq (gpio_keys_report_event i s) = wq s
   ∧ volkey (gpio_keys_report_event i s) = volkey s
   ∧ homekey (gpio_keys_report_event i s) = homekey s)
  ∧ (emulator_volup (params s) || emulator_voldown (params s) = true →
     power_key_capture (params s) (gpio b) = false →
     log (gpio_keys_report_event i s)
     = log s ++ [GpioGetValue (gpio b) v]
         ++ (if ty =? EV_ABS
             then (if truthy state
                   then [InputEvent ty (code b) (value b)] else [])
             else [InputEvent ty (code b) (notnot state)])
         ++ [InputSync]
     ∧ wq (gpio_keys_report_event i s) = wq s
     ∧ volkey (gpio_keys_report_event i s) = volkey s
     ∧ homekey (gpio_keys_report_event i s) = homekey s)
  ∧ (emulator_volup (params s) = true →
     power_key_capture (params s) (gpio b) = (gpio b =? VOL_UP_JANICE_R0_0))
  ∧ (emulator_volup (params s) = false →
     emulator_voldown (params s) = true →
     power_key_capture (params s) (gpio b) = (gpio b =? VOL_DOWN_JANICE_R0_0)).
Proof.
  intros Hi b v state ty. split; [|split; [|split]].
  - intros Hcap. rewrite (report_event_captured i s bdata Hi Hcap).
    fold b v state. cbn. by rewrite <- app_assoc.
  - intros Hmode Hcap.
    rewrite (report_event_mode_ordinary i s bdata Hi Hmode Hcap).
    fold b v state ty.
    destruct (report_input_frame i b ty state (emit (GpioGetValue (gpio b) v) s))
      as (_ & Hv & Hh & _ & Hw & _).
    rewrite report_input_log, Hw, Hv, Hh. cbn [log emit].
    split; [by rewrite <- app_assoc|done].
  - intros Hup. unfold power_key_capture. by rewrite Hup.
  - intros Hup Hdown. unfold power_key_capture. by rewrite Hup, Hdown.
Qed.

(** X10.  The [ponkey_emu] attribute.  A write of [volup=] or [voldown=]
    whose number was parsed sets the flag of that line to whether the number
    is nonzero, leaves the other flag and everything else as it was, and
    reading the attribute then shows the flag as 1 or 0; a write whose
    number was not parsed, or any other text, changes no flag and logs a
    message.  Every write returns its byte count. *)
Theorem ponkey_emulator_store_show (cmd : ponkey_command) (count : Z)
    (s : system) :
  let s' := snd (gpio_keys_ponkey_emulator_store cmd count s) in
  let up := match cmd with
            | PonkeyVolup ret user =>
                if ret =? 0 then emulator_volup (params s) else negb (user =? 0)
            | _ => emulator_volup (params s)
            end in
  let down := match cmd with
              | PonkeyVoldown ret user =>
                  if ret =? 0 then emulator_voldown (params s)
                  else negb (user =? 0)
              | _ => emulator_voldown (params s)
              end in
  fst (gpio_keys_ponkey_emulator_store cmd count s) = count
  ∧ emulator_volup (params s') = up
  ∧ emulator_voldown (params s') = down
  ∧ snd (gpio_keys_ponkey_emulator_show s')
    = String.append "Vol.UP: "
        (String.append (if up then "1" else "0")
           (String.append newline
              (String.append "Vol.DOWN: "
                 (String.append (if down then "1" else "0") newline))))
  ∧ ddata s' = ddata s ∧ wq s' = wq s ∧ volkey s' = volkey s
  ∧ homekey s' = homekey s ∧ emu s' = emu s
  ∧ remap_gate (params s') = remap_gate (params s)
  ∧ input_events (log s') = input_events (log s).
Proof.
  intros s' up down.
  assert (Hshow : ∀ s0, snd (gpio_keys_ponkey_emulator_show s0)
    = String.append "Vol.UP: "
        (String.append (if emulator_volup (params s0) then "1" else "0")
           (String.append newline
              (String.append "Vol.DOWN: "
                 (String.append
                    (if emulator_voldown (params s0) then "1" else "0")
                    newline))))).
  { intros s0. unfold gpio_keys_ponkey_emulator_show. cbn [snd].
    by rewrite !string_append_assoc. }
  rewrite Hshow. unfold s', up, down, gpio_keys_ponkey_emulator_store, truthy.
  destruct cmd as [ret user|ret user|]; try destruct (ret =? 0); cbn;
    rewrite ?input_events_app; cbn; rewrite ?app_nil_r; by repeat split.
Qed.

(** ** A disabled line *)

Lemma reads_of_app (g : Z) (l1 l2 : list action) :
  reads_of g (l1 ++ l2) = reads_of g l1 ++ reads_of g l2.
Proof. apply List.filter_app. Qed.

Lemma reads_of_evaluations (g : Z) (l : list action) :
  reads_of g (evaluations l) = reads_of g l.
Proof.
  induction l as [|a l IH]; [done|]. destruct a; simpl; try done.
  destruct (_ =? g); simpl; by rewrite IH.
Qed.

Lemma disabled_idle_frame (bdata : gpio_button_data) (i : nat) (s s' : system) :
  ddata s' = ddata s → disabled_idle bdata i s → disabled_idle bdata i s'.
Proof. intros Hd (b & Hi & H). exists b. by rewrite Hd. Qed.

Lemma disabled_idle_alter (f : gpio_button_data → gpio_button_data)
    (bdata : gpio_button_data) (i j : nat) (s s' : system) :
  i ≠ j → ddata s' = alter f j (ddata s) →
  disabled_idle bdata i s → disabled_idle bdata i s'.
Proof.
  intros Hne Hd (b & Hi & H). exists b.
  rewrite Hd, list_lookup_alter_ne by done. done.
Qed.

(** No event wakes a disabled line that has no evaluation queued: the line
    stays as it is and its level is not read. *)
Lemma step_disabled_idle (bdata : gpio_button_data) (i : nat) (e : event)
    (s : system) :
  consistent s → disabled_idle bdata i s →
  disabled_idle bdata i (step e s)
  ∧ reads_of (gpio (button bdata)) (log (step e s))
    = reads_of (gpio (button bdata)) (log s).
Proof.
  intros Hc Hidle. pose proof Hidle as (b & Hi & Hbb & Hdis & Hw & Ht & Hk).
  destruct (proj2 Hc i b Hi) as (Hdepth & _).
  destruct e as [g v|j|t|j| |].
  - split; [by apply (disabled_idle_frame bdata i s)|done].
  - unfold step. destruct (ddata s !! j) as [bj|] eqn:Hj; [|done].
    destruct (irq_masked (gpio_to_irq (gpio (button bj))) s) eqn:Hm; [done|].
    assert (Hne : i ≠ j).
    { intros ->. rewrite Hi in Hj. injection Hj as <-.
      unfold irq_masked in Hm. fold (line_irq b) in Hm.
      by rewrite Hdepth, Hdis in Hm. }
    unfold gpio_keys_isr, mod_timer, schedule_work. rewrite Hj.
    destruct (truthy (timer_debounce bj)).
    + split; [|done].
      by apply (disabled_idle_alter
                  (set_timer (Some (jiffies s + msecs_to_jiffies (timer_debounce bj))))
                  bdata i j s).
    + split; [|done].
      by apply (disabled_idle_alter (set_work true) bdata i j s).
  - destruct (step_Tick_frame t s) as (_ & Hl & _).
    split; [|by rewrite Hl].
    rewrite step_Tick. destruct (t <? jiffies s) eqn:Hlt; [done|].
    apply Z.ltb_ge in Hlt. destruct (step_Tick_lines t s Hlt) as (Hd & _).
    rewrite step_Tick, (proj2 (Z.ltb_ge t (jiffies s)) Hlt) in Hd.
    exists b. rewrite Hd, list_lookup_fmap, Hi. cbn.
    unfold run_timer_line. by rewrite Ht.
  - unfold step. destruct (ddata s !! j) as [bj|] eqn:Hj; [|done].
    destruct (work bj) eqn:Hwj; [|done].
    assert (Hne : i ≠ j).
    { intros ->. rewrite Hi in Hj. injection Hj as <-. congruence. }
    unfold gpio_keys_work_func.
    set (s1 := update_line j (set_work false) s).
    assert (Hidle1 : disabled_idle bdata i s1).
    { by apply (disabled_idle_alter (set_work false) bdata i j s). }
    assert (Hj1 : ddata s1 !! j = Some (set_work false bj)).
    { unfold s1. cbn. by rewrite list_lookup_alter_eq, Hj. }
    destruct (report_event_general j s1 _ Hj1) as (Hev & Hd).
    split.
    + destruct Hd as [Hd|(_ & ks & Hd)].
      * by apply (disabled_idle_frame bdata i s1).
      * by apply (disabled_idle_alter (set_key_state ks) bdata i j s1).
    + rewrite <- reads_of_evaluations, Hev, reads_of_app, reads_of_evaluations.
      cbn [button set_work]. simpl.
      assert (Hg : gpio (button bj) ≠ gpio (button bdata)).
      { intros Hg. apply (line_irq_ne s i j b bj (proj1 Hc) Hi Hj Hne).
        unfold line_irq. by rewrite Hg, Hbb. }
      rewrite (proj2 (Z.eqb_neq _ _) Hg). by rewrite app_nil_r.
  - unfold step. destruct (volkey_do_volume_key_press_work (wq s)); [|done].
    split; [by apply (disabled_idle_frame bdata i s)|].
    rewrite volkey_do_volume_key_press_fn_log, reads_of_app. cbn.
    by rewrite app_nil_r.
  - unfold step. destruct (homekey_do_press_play_work (wq s)); [|done].
    split; [by apply (disabled_idle_frame bdata i s)|].
    rewrite homekey_do_press_play_fn_log, reads_of_app. cbn.
    by rewrite app_nil_r.
Qed.

(** X11.  A disabled line is silent.  Once a line is disabled and no
    evaluation of it is queued, no sequence of level changes, interrupts,
    timer expiries and work items, on this line or on others, leads to a
    read of its level or to a change of its [key_state]: the line stays
    disabled, with no timer pending and no work queued. *)
Theorem disabled_line_is_silent (i : nat) (s : system)
    (bdata : gpio_button_data) (es : list event) :
  consistent s →
  ddata s !! i = Some bdata →
  disabled bdata = true →
  work bdata = false →
  reads_of (gpio (button bdata)) (log (run es s))
  = reads_of (gpio (button bdata)) (log s)
  ∧ ∃ b, ddata (run es s) !! i = Some b
         ∧ button b = button bdata
         ∧ disabled b = true
         ∧ work b = false
         ∧ timer b = None
         ∧ key_state b = key_state bdata.
Proof.
  intros Hc Hi Hdis Hw.
  assert (Hidle : disabled_idle bdata i s).
  { exists bdata. destruct (proj2 Hc i bdata Hi) as (_ & Ht & _).
    repeat split; try done. by apply Ht. }
  clear Hi Hdis Hw. revert s Hc Hidle.
  induction es as [|e es IH]; intros s Hc Hidle; [done|].
  destruct (step_disabled_idle bdata i e s Hc Hidle) as [Hidle' Hr].
  destruct (IH (step e s) (step_consistent e s Hc) Hidle') as [Hr' Hb].
  split; [|done]. cbn. unfold run in Hr'. by rewrite Hr', Hr.
Qed.

(** X12.  Disabling a line does not cancel an evaluation that is already
    queued: the work item stays queued on the disabled line, and when the
    worker takes it the line is still evaluated, once, and its level is
    read. *)
Theorem queued_work_survives_disable (i : nat) (s : system)
    (bdata : gpio_button_data) :
  ddata s !! i = Some bdata →
  work bdata = true →
  let g := gpio (button bdata) in
  let s1 := gpio_keys_disable_button i s in
  (∃ b, ddata s1 !! i = Some b ∧ disabled b = true ∧ work b = true)
  ∧ evaluations (log (step (Work i) s1))
    = evaluations (log s) ++ [GpioGetValue g (gpio_get_value g s)]
  ∧ ∃ b, ddata (step (Work i) s1) !! i = Some b
         ∧ disabled b = true ∧ work b = false.
Proof.
  intros Hi Hw g s1.
  assert (H1 : ∃ b, ddata s1 !! i = Some b ∧ button b = button bdata
                    ∧ disabled b = true ∧ work b = true
                    ∧ evaluations (log s1) = evaluations (log s)
                    ∧ gpio_level s1 = gpio_level s).
  { unfold s1, gpio_keys_disable_button. rewrite Hi.
    destruct (disabled bdata) eqn:Hdis; simpl.
    - exists bdata. by repeat split.
    - destruct (truthy (timer_debounce bdata)) eqn:Htd; cbn.
      + rewrite list_alter_alter_eq, list_lookup_alter_eq, Hi. cbn.
        eexists. repeat split; try done.
        rewrite !evaluations_app. cbn. by rewrite !app_nil_r.
      + rewrite list_lookup_alter_eq, Hi. cbn.
        eexists. repeat split; try done.
        rewrite !evaluations_app. cbn. by rewrite !app_nil_r. }
  destruct H1 as (b & Hb & Hbb & Hdis & Hwb & Hev & Hlev). clearbody s1.
  split; [by exists b|].
  unfold step. rewrite Hb, Hwb. unfold gpio_keys_work_func.
  set (s2 := update_line i (set_work false) s1).
  assert (Hb2 : ddata s2 !! i = Some (set_work false b)).
  { unfold s2. cbn. by rewrite list_lookup_alter_eq, Hb. }
  destruct (report_event_general i s2 _ Hb2) as (Hev2 & Hd).
  split.
  - rewrite Hev2. cbn [button set_work log s2 update_line set_ddata].
    rewrite Hev, Hbb. fold g. do 3 f_equal.
    unfold gpio_get_value. cbn. by rewrite Hlev.
  - destruct Hd as [Hd|(_ & ks & Hd)]; rewrite Hd.
    + by exists (set_work false b).
    + rewrite list_lookup_alter_eq, Hb2. cbn. by eexists.
Qed.

(** ** Invariants of the event pipeline *)

(** X13.  However level changes, interrupts, timer expiries and work items
    follow one another, the lines stay in agreement with the interrupt
    controller and with their timers: the interrupt of a line is masked
    exactly while the line is disabled, and a debounce timer is pending only
    on an enabled line that has a software debounce interval. *)
Theorem events_keep_lines_consistent (es : list event) (s : system) :
  consistent s →
  consistent (run es s)
  ∧ ∀ i bdata, ddata (run es s) !! i = Some bdata →
      irq_masked (line_irq bdata) (run es s) = disabled bdata
      ∧ (timer bdata ≠ None →
         disabled bdata = false ∧ timer_debounce bdata ≠ 0).
Proof.
  intros Hc. pose proof (run_consistent es s Hc) as Hc'.
  split; [done|]. intros i b Hi.
  destruct (proj2 Hc' i b Hi) as (Hdepth & Hdis & Htd).
  split.
  - unfold irq_masked. rewrite Hdepth. by destruct (disabled b).
  - intros Ht. split.
    + destruct (disabled b); [|done]. by specialize (Hdis eq_refl).
    + intros Hz. by specialize (Htd Hz).
Qed.

Lemma flags_mirror_frame (s s' : system) :
  volkey s' = volkey s → homekey s' = homekey s → wq s' = wq s →
  flags_mirror_works s → flags_mirror_works s'.
Proof. unfold flags_mirror_works. by intros -> -> ->. Qed.

Lemma volkey_block_mirror (g state : Z) (s : system) :
  flags_mirror_works s →
  flags_mirror_works (flow_state (volkey_block g state s)).
Proof.
  destruct_system s. destruct v as [v1 v2 v3 v4 v5].
  destruct w as [w1 w2 w3 w4 w5]. unfold flags_mirror_works. cbn.
  intros (H1 & H2 & H3 & H4).
  destruct (Z.eqb_spec state 1) as [->|Hs1];
    [|destruct (Z.eqb_spec state 0) as [->|Hs0]];
    destruct v1, v2, v3; eval_block; reduce_state;
    destruct w1; cbn in *; by repeat split.
Qed.

Lemma homekey_block_mirror (state : Z) (s : system) :
  flags_mirror_works s →
  flags_mirror_works (flow_state (homekey_block state s)).
Proof.
  destruct_system s. destruct h as [h1 h2 h3 h4].
  destruct w as [w1 w2 w3 w4 w5]. unfold flags_mirror_works. cbn.
  intros (H1 & H2 & H3 & H4).
  destruct (Z.eqb_spec state 1) as [->|Hs1];
    [|destruct (Z.eqb_spec state 0) as [->|Hs0]];
    destruct h1, h2, h3; eval_block; reduce_state;
    destruct w2; cbn in *; by repeat split.
Qed.

Lemma report_input_mirror (i : nat) (b : gpio_keys_button) (ty state : Z)
    (s : system) :
  flags_mirror_works s → flags_mirror_works (report_input i b ty state s).
Proof.
  destruct (report_input_frame i b ty state s) as (_ & Hv & Hh & _ & Hw & _).
  by apply flags_mirror_frame.
Qed.

Lemma report_event_mirror (i : nat) (s : system) :
  flags_mirror_works s → flags_mirror_works (gpio_keys_report_event i s).
Proof.
  intros Hm. unfold gpio_keys_report_event.
  destruct (ddata s !! i) as [bdata|]; [|done]. cbv zeta.
  set (b := button bdata). set (v := gpio_get_value (gpio b) s).
  set (s1 := emit (GpioGetValue (gpio b) v) s).
  assert (Hm1 : flags_mirror_works s1) by done. clearbody s1.
  destruct (emulator_volup (params s1)).
  { destruct (gpio b =? VOL_UP_JANICE_R0_0); [done|].
    by apply report_input_mirror. }
  destruct (emulator_voldown (params s1)).
  { destruct (gpio b =? VOL_DOWN_JANICE_R0_0); [done|].
    by apply report_input_mirror. }
  destruct (remap_gate (params s1)); [|by apply report_input_mirror].
  assert (Hvol : ∀ s2, flags_mirror_works s2 →
    flags_mirror_works
      match (if volkey_gate (params s2)
                && ((gpio b =? VOL_UP_JANICE_R0_0)
                    || (gpio b =? VOL_DOWN_JANICE_R0_0))
             then volkey_block (gpio b) (logical_state b v) s2
             else Continue s2) with
      | Return s => s
      | Continue s =>
          report_input i b (if type b =? 0 then EV_KEY else type b)
            (logical_state b v) s
      end).
  { intros s2 Hm2.
    destruct (volkey_gate (params s2)
              && ((gpio b =? VOL_UP_JANICE_R0_0)
                  || (gpio b =? VOL_DOWN_JANICE_R0_0)));
      [|by apply report_input_mirror].
    pose proof (volkey_block_mirror (gpio b) (logical_state b v) s2 Hm2) as H.
    destruct (volkey_block (gpio b) (logical_state b v) s2) as [s3|s3];
      simpl in H; [done|by apply report_input_mirror]. }
  destruct (homekey_gate (params s1) && (gpio b =? HOME_KEY_JANICE_R0_0));
    [|by apply Hvol].
  pose proof (homekey_block_mirror (logical_state b v) s1 Hm1) as H.
  destruct (homekey_block (logical_state b v) s1) as [s3|s3]; simpl in H;
    [done|by apply Hvol].
Qed.

Lemma step_mirror (e : event) (s : system) :
  flags_mirror_works s → flags_mirror_works (step e s).
Proof.
  intros Hm. destruct e as [g v|j|t|j| |].
  - done.
  - unfold step. destruct (ddata s !! j) as [bj|]; [|done].
    destruct (irq_masked _ s); [done|].
    unfold gpio_keys_isr. destruct (ddata s !! j) as [bj'|]; [|done].
    by destruct (truthy (timer_debounce bj')).
  - rewrite step_Tick. destruct (t <? jiffies s); [done|].
    unfold run_homekey_press_play_work, run_volkey_skip_track_work,
      volkey_skip_track_fn, homekey_press_play_fn.
    revert Hm. unfold flags_mirror_works.
    destruct_system s. destruct v as [v1 v2 v3 v4 v5].
    destruct h as [h1 h2 h3 h4].
    destruct w as [[e1|] [e2|] w3 w4 w5]; reduce_state;
      try destruct (e1 <=? t); reduce_state;
      try destruct (e2 <=? t); reduce_state; cbn;
      intros (H1 & H2 & H3 & H4); by repeat split.
  - unfold step. destruct (ddata s !! j) as [bj|]; [|done].
    destruct (work bj); [|done]. by apply report_event_mirror.
  - unfold step. destruct (volkey_do_volume_key_press_work (wq s)) eqn:Hw;
      [|done].
    revert Hm Hw. unfold flags_mirror_works, volkey_do_volume_key_press_fn.
    destruct_system s. destruct v as [v1 v2 v3 v4 v5].
    destruct w as [w1 w2 w3 w4 w5]. cbn.
    intros (H1 & H2 & H3 & H4) _. by repeat split.
  - unfold step. destruct (homekey_do_press_play_work (wq s)) eqn:Hw;
      [|done].
    revert Hm Hw. unfold flags_mirror_works, homekey_do_press_play_fn.
    destruct_system s. destruct h as [h1 h2 h3 h4].
    destruct w as [w1 w2 w3 w4 w5]. cbn.
    intros (H1 & H2 & H3 & H4) _. by repeat split.
Qed.

(** X14.  The in-flight flags of the remap sessions never drift from the
    work items they stand for.  Starting from a state where they agree (as
    when nothing is in flight), after any sequence of events the pulse flag
    of a session is set exactly while its pulse work is queued, and its
    long-press flag exactly while its long-press work is pending. *)
Theorem flags_mirror_works_invariant (es : list event) (s : system) :
  flags_mirror_works s → flags_mirror_works (run es s).
Proof.
  revert s. induction es as [|e es IH]; intros s Hm; [done|].
  apply IH. by apply step_mirror.
Qed.

(** ** A line without software debounce *)

Lemma immediate_edge (bdata : gpio_button_data) (i : nat) (t v : Z)
    (q : bool) (s : system) :
  immediate_line bdata i q s →
  immediate_line bdata i true
    (run [Tick t; Level (gpio (button bdata)) v; Irq i] s)
  ∧ log (run [Tick t; Level (gpio (button bdata)) v; Irq i] s) = log s.
Proof.
  intros (Hm & b & Hb & Hbb & Htd & Ht & _).
  unfold run. cbn [foldl].
  destruct (step_Tick_frame t s) as (_ & Tl & _ & Tq & _).
  assert (Tb : ddata (step (Tick t) s) !! i = Some b).
  { rewrite step_Tick. destruct (t <? jiffies s) eqn:Hlt; [done|].
    apply Z.ltb_ge in Hlt. destruct (step_Tick_lines t s Hlt) as (Hd & _).
    rewrite step_Tick, (proj2 (Z.ltb_ge t (jiffies s)) Hlt) in Hd.
    rewrite Hd, list_lookup_fmap, Hb. cbn. unfold run_timer_line.
    by rewrite Ht. }
  remember (step (Tick t) s) as s1 eqn:E1. clear E1.
  set (s2 := step (Level (gpio (button bdata)) v) s1).
  assert (Hb2 : ddata s2 !! i = Some b) by done.
  assert (Hl2 : log s2 = log s) by done.
  assert (Hm2 : irq_masked (gpio_to_irq (gpio (button b))) s2 = false).
  { rewrite Hbb. fold (line_irq bdata). rewrite <- Hm.
    apply irq_masked_frame. cbn. congruence. }
  clearbody s2. unfold step, gpio_keys_isr, schedule_work.
  rewrite Hb2, Hm2, Htd. cbn [truthy Z.eqb negb log update_line set_ddata].
  split; [|done]. split.
  - rewrite <- Hm2, Hbb. by apply irq_masked_frame.
  - exists (set_work true b). cbn [ddata set_ddata update_line].
    rewrite list_lookup_alter_eq, Hb2. by repeat split.
Qed.

Lemma immediate_burst (bdata : gpio_button_data) (i : nat)
    (edges : list (Z * Z)) (q : bool) (s : system) :
  immediate_line bdata i q s →
  immediate_line bdata i (q || bool_decide (edges ≠ []))
    (run (burst i (gpio (button bdata)) edges) s)
  ∧ log (run (burst i (gpio (button bdata)) edges) s) = log s.
Proof.
  revert q s. induction edges as [|[t v] edges IH]; intros q s Hq.
  - by rewrite orb_false_r.
  - destruct (immediate_edge bdata i t v q s Hq) as [H1 Hl1].
    destruct (IH true _ H1) as [H2 Hl2].
    change (burst i (gpio (button bdata)) ((t, v) :: edges))
      with ([Tick t; Level (gpio (button bdata)) v; Irq i]
            ++ burst i (gpio (button bdata)) edges).
    rewrite run_app. rewrite orb_true_r. split; [done|congruence].
Qed.

(** X15.  On a line without a software debounce interval (and with its
    interrupt unmasked) every edge queues the line's evaluation from the
    interrupt handler, and a work item is queued at most once: however many
    edges arrive before the worker runs, the line is then evaluated exactly
    once, and that evaluation reads the level present when it runs. *)
Theorem immediate_line_coalesces (i : nat) (s : system)
    (bdata : gpio_button_data) (t1 v1 : Z) (rest : list (Z * Z)) (v : Z) :
  ddata s !! i = Some bdata →
  timer_debounce bdata = 0 →
  timer bdata = None →
  irq_masked (line_irq bdata) s = false →
  let g := gpio (button bdata) in
  let s' := run (burst i g ((t1, v1) :: rest) ++ [Level g v; Work i]) s in
  evaluations (log s') = evaluations (log s) ++ [GpioGetValue g v]
  ∧ ∃ b, ddata s' !! i = Some b ∧ work b = false ∧ timer b = None.
Proof.
  intros Hi Htd Ht Hm g s'.
  assert (H0 : immediate_line bdata i false s).
  { split; [done|]. exists bdata. by repeat split. }
  destruct (immediate_burst bdata i ((t1, v1) :: rest) false s H0)
    as [(_ & b & Hb & Hbb & Htdb & Htb & Hwb) Hl].
  specialize (Hwb eq_refl).
  unfold s'. rewrite run_app. fold g in Hb, Hl.
  remember (run (burst i g ((t1, v1) :: rest)) s) as s1 eqn:E1. clear E1.
  unfold run. cbn [foldl].
  destruct (step_Level g v s1) as (Ld & _ & _ & _ & _ & _ & Ll & Lv).
  remember (step (Level g v) s1) as s2 eqn:E2. clear E2.
  assert (Hb2 : ddata s2 !! i = Some b) by (by rewrite Ld).
  unfold step. rewrite Hb2, Hwb. unfold gpio_keys_work_func.
  set (s3 := update_line i (set_work false) s2).
  assert (Hb3 : ddata s3 !! i = Some (set_work false b)).
  { unfold s3. cbn. by rewrite list_lookup_alter_eq, Hb2. }
  destruct (report_event_general i s3 _ Hb3) as (Hev & Hd).
  split.
  - rewrite Hev. cbn [button set_work log s3 update_line set_ddata].
    rewrite Ll, Hl, Hbb. fold g. do 3 f_equal.
    rewrite <- Lv. done.
  - destruct Hd as [Hd|(_ & ks & Hd)]; rewrite Hd.
    + by exists (set_work false b).
    + rewrite list_lookup_alter_eq, Hb3. cbn. by eexists.
Qed.

(** ** The early-suspend hooks and the gate of the remap sessions *)


(** ** Setting up one button *)

Lemma sum_calls_app (f : platform_call → Z) (l1 l2 : list platform_call) :
  sum_calls f (l1 ++ l2) = sum_calls f l1 + sum_calls f l2.
Proof.
  unfold sum_calls. induction l1 as [|c l1 IH]; simpl; [done|].
  rewrite IH. lia.
Qed.

Lemma gpios_held_app (g : Z) (l1 l2 : list platform_call) :
  gpios_held g (l1 ++ l2) = gpios_held g l1 + gpios_held g l2.
Proof. apply sum_calls_app. Qed.

Lemma irqs_held_app (q : Z) (i : nat) (l1 l2 : list platform_call) :
  irqs_held q i (l1 ++ l2) = irqs_held q i l1 + irqs_held q i l2.
Proof. apply sum_calls_app. Qed.

Lemma wakes_enabled_app (q : Z) (l1 l2 : list platform_call) :
  wakes_enabled q (l1 ++ l2) = wakes_enabled q l1 + wakes_enabled q l2.
Proof. apply sum_calls_app. Qed.

Lemma gpios_held_cons (g : Z) (c : platform_call) (l : list platform_call) :
  gpios_held g (c :: l) = gpio_delta g c + gpios_held g l.
Proof. done. Qed.

Lemma irqs_held_cons (q : Z) (i : nat) (c : platform_call)
    (l : list platform_call) :
  irqs_held q i (c :: l) = irq_delta q i c + irqs_held q i l.
Proof. done. Qed.

Lemma gpios_held_nil (g : Z) : gpios_held g [] = 0.
Proof. done. Qed.

Lemma irqs_held_nil (q : Z) (i : nat) : irqs_held q i [] = 0.
Proof. done. Qed.

(** The outcome of [gpio_keys_setup_key], case by case. *)
Lemma setup_key_spec (K : kernel_results) (i : nat)
    (button : gpio_keys_button) :
  let r := gpio_keys_setup_key K i button (new_line button) in
  (setup_succeeds K i button = true
   ∧ fst (fst r) = 0
   ∧ snd (fst r) = line_of_button K i button
   ∧ (∀ g, gpios_held g (snd r) = if gpio button =? g then 1 else 0)
   ∧ (∀ q j, irqs_held q j (snd r)
             = if (gpio_to_irq (gpio button) =? q) && Nat.eqb i j
               then 1 else 0)
   ∧ RequestAnyContextIrq (gpio_to_irq (gpio button))
       (negb (can_disable button)) i (request_any_context_irq_result K i)
     ∈ snd r)
  ∨ (setup_succeeds K i button = false
     ∧ fst (fst r) < 0
     ∧ (∀ g, gpios_held g (snd r) = 0)
     ∧ (∀ q j, irqs_held q j (snd r) = 0)).
Proof.
  intros r. unfold r, gpio_keys_setup_key, setup_succeeds, line_of_button.
  destruct (Z.ltb_spec (gpio_request_result K i) 0) as [H1|H1].
  { right. rewrite (proj2 (Z.leb_gt _ _) H1). cbn [fst snd andb].
    split; [done|]. split; [done|]. split.
    - intros g. unfold gpios_held, sum_calls. cbn.
      rewrite (proj2 (Z.leb_gt _ _) H1), andb_false_r. done.
    - intros q j. done. }
  rewrite (proj2 (Z.leb_le _ _) H1). cbn [andb].
  destruct (Z.ltb_spec (gpio_direction_input_result K i) 0) as [H2|H2].
  { right. rewrite (proj2 (Z.leb_gt _ _) H2). cbn [fst snd andb].
    split; [done|]. split; [done|]. split.
    - intros g. unfold gpios_held, sum_calls. cbn.
      rewrite (proj2 (Z.leb_le _ _) H1), andb_true_r.
      destruct (gpio button =? g); done.
    - intros q j. done. }
  rewrite (proj2 (Z.leb_le _ _) H2). cbn [andb].
  set (r0 := if truthy (debounce_interval button) then _ else _).
  assert (Hr0 : fst r0 = set_timer_debounce
                           (if truthy (debounce_interval button)
                               && (gpio_set_debounce_result K i <? 0)
                            then debounce_interval button else 0)
                           (new_line button)
                ∧ (∀ g, gpios_held g (snd r0) = if gpio button =? g then 1 else 0)
                ∧ (∀ q j, irqs_held q j (snd r0) = 0)).
  { unfold r0. destruct (truthy (debounce_interval button)); cbn [fst snd andb].
    - split; [by destruct (_ <? 0)|]. split.
      + intros g. unfold gpios_held, sum_calls. cbn.
        rewrite (proj2 (Z.leb_le _ _) H1), andb_true_r.
        destruct (gpio button =? g); done.
      + done.
    - split; [done|]. split.
      + intros g. unfold gpios_held, sum_calls. cbn.
        rewrite (proj2 (Z.leb_le _ _) H1), andb_true_r.
        destruct (gpio button =? g); done.
      + done. }
  destruct Hr0 as (Hline & Hg & Hq). clearbody r0.
  destruct (Z.ltb_spec (gpio_to_irq (gpio button)) 0) as [H3|H3].
  { right. rewrite (proj2 (Z.leb_gt _ _) H3). cbn [fst snd andb].
    split; [done|]. split; [done|]. split.
    - intros g. rewrite gpios_held_app, Hg. unfold gpios_held, sum_calls. cbn.
      destruct (gpio button =? g); done.
    - intros q j. rewrite irqs_held_app, Hq. done. }
  rewrite (proj2 (Z.leb_le _ _) H3). cbn [andb].
  destruct (Z.ltb_spec (request_any_context_irq_result K i) 0) as [H4|H4].
  { right. rewrite (proj2 (Z.leb_gt _ _) H4). cbn [fst snd].
    split; [done|]. split; [done|]. split.
    - intros g. rewrite !gpios_held_app, Hg. unfold gpios_held, sum_calls. cbn.
      destruct (gpio button =? g); done.
    - intros q j. rewrite !irqs_held_app, Hq. unfold irqs_held, sum_calls. cbn.
      rewrite (proj2 (Z.leb_gt _ _) H4), andb_false_r. done. }
  left. rewrite (proj2 (Z.leb_le _ _) H4). cbn [fst snd].
  split; [done|]. split; [done|]. split; [done|]. split; [|split].
  - intros g. rewrite gpios_held_app, Hg. unfold gpios_held, sum_calls. cbn. lia.
  - intros q j. rewrite irqs_held_app, Hq. unfold irqs_held, sum_calls. cbn.
    rewrite (proj2 (Z.leb_le _ _) H4), andb_true_r. lia.
  - apply elem_of_app. right. apply list_elem_of_here.
Qed.

(** X17.  [gpio_keys_setup_key] acquires the GPIO and the interrupt of a
    button together or not at all.  It returns 0 exactly when the GPIO
    request, the switch to input, the interrupt lookup and the interrupt
    request all succeed; the line then holds its GPIO and its interrupt
    once, and the interrupt was requested as shared exactly when the button
    cannot be disabled.  Otherwise it returns the negative error of the
    call that failed and holds nothing: a GPIO that had been requested has
    been freed again.  A refusal of [gpio_set_debounce] is no error: the
    line then debounces in software, with the button's interval. *)
Theorem setup_key_all_or_nothing (K : kernel_results) (i : nat)
    (button : gpio_keys_button) :
  let r := gpio_keys_setup_key K i button (new_line button) in
  let error := fst (fst r) in
  (error = 0 ↔ setup_succeeds K i button = true)
  ∧ (error = 0 →
     (∀ g, gpios_held g (snd r) = if gpio button =? g then 1 else 0)
     ∧ (∀ q j, irqs_held q j (snd r)
               = if (gpio_to_irq (gpio button) =? q) && Nat.eqb i j
                 then 1 else 0)
     ∧ RequestAnyContextIrq (gpio_to_irq (gpio button))
         (negb (can_disable button)) i (request_any_context_irq_result K i)
       ∈ snd r
     ∧ timer_debounce (snd (fst r))
       = if truthy (debounce_interval button)
            && (gpio_set_debounce_result K i <? 0)
         then debounce_interval button else 0)
  ∧ (error ≠ 0 →
     error < 0
     ∧ (∀ g, gpios_held g (snd r) = 0)
     ∧ (∀ q j, irqs_held q j (snd r) = 0)).
Proof.
  intros r error. unfold error, r.
  destruct (setup_key_spec K i button)
    as [(Hok & He & Hl & Hg & Hq & Hin)|(Hno & He & Hg & Hq)].
  - rewrite He, Hok. split; [done|]. split; [|done]. intros _.
    split; [done|]. split; [done|]. split; [done|]. by rewrite Hl.
  - rewrite Hno. split; [split; [lia|done]|]. split; [lia|]. done.
Qed.

(** ** Probing and removing the device *)

Lemma buttons_on_app (g : Z) (l1 l2 : list gpio_keys_button) :
  buttons_on g (l1 ++ l2) = buttons_on g l1 + buttons_on g l2.
Proof.
  unfold buttons_on. rewrite List.filter_app, length_app. lia.
Qed.

Lemma holds_irq_snoc (q : Z) (j : nat) (l : list gpio_keys_button)
    (b : gpio_keys_button) :
  holds_irq q j (l ++ [b])
  = holds_irq q j l
    + (if (gpio_to_irq (gpio b) =? q) && Nat.eqb (length l) j then 1 else 0).
Proof.
  unfold holds_irq. destruct (Nat.eqb_spec (length l) j) as [<-|Hne].
  - rewrite lookup_app_r by lia. rewrite Nat.sub_diag. simpl.
    rewrite (proj2 (lookup_ge_None l (length l))) by lia.
    rewrite andb_true_r. lia.
  - rewrite andb_false_r, Z.add_0_r.
    destruct (decide (j < length l)%nat) as [Hlt|Hge].
    + by rewrite lookup_app_l.
    + rewrite lookup_app_r by lia.
      rewrite (proj2 (lookup_ge_None l j)) by lia.
      destruct (j - length l)%nat as [|k] eqn:E; [lia|]. done.
Qed.

(** The first loop of [gpio_keys_probe]. *)
Lemma probe_buttons_spec (K : kernel_results) (bs : list gpio_keys_button)
    (lines : list gpio_button_data) (w : Z) (cs : list platform_call) :
  let r := probe_buttons K (length lines) bs lines w cs in
  let lines' := snd (fst (fst r)) in
  (∀ g, gpios_held g (snd r)
        = gpios_held g cs + buttons_on g (button <$> lines')
          - buttons_on g (button <$> lines))
  ∧ (∀ q j, irqs_held q j (snd r)
            = irqs_held q j cs + holds_irq q j (button <$> lines')
              - holds_irq q j (button <$> lines))
  ∧ (all_setups_succeed K (length lines) bs = true
     ∧ fst (fst (fst r)) = 0
     ∧ lines' = lines ++ lines_of_buttons K (length lines) bs
     ∧ snd (fst r) = (if existsb (λ b, truthy (wakeup b)) bs then 1 else w)
     ∨ all_setups_succeed K (length lines) bs = false
       ∧ fst (fst (fst r)) < 0).
Proof.
  revert lines w cs. induction bs as [|b bs IH]; intros lines w cs; simpl.
  - split; [intros g; lia|]. split; [intros q j; lia|]. left.
    by rewrite app_nil_r.
  - destruct (setup_key_spec K (length lines) b)
      as [(Hok & He & Hl & Hg & Hq & _)|(Hno & He & Hg & Hq)].
    + rewrite He, Hok, Hl. cbn [truthy Z.eqb negb andb].
      specialize (IH (lines ++ [line_of_button K (length lines) b])
                    (if truthy (wakeup b) then 1 else w)
                    ((cs ++ (gpio_keys_setup_key K (length lines) b (new_line b)).2)
                     ++ [InputSetCapability
                           (if type b =? 0 then EV_KEY else type b) (code b)])).
      rewrite length_app in IH. cbn [length] in IH.
      replace (length lines + 1)%nat with (S (length lines)) in IH by lia.
      destruct IH as (IHg & IHq & IHr).
      split; [|split].
      * intros g. rewrite IHg, !gpios_held_app, Hg.
        rewrite fmap_app, buttons_on_app.
        rewrite gpios_held_cons, gpios_held_nil. cbn [gpio_delta].
        assert (Hone : buttons_on g (button <$> [line_of_button K (length lines) b])
                       = if gpio b =? g then 1 else 0).
        { unfold buttons_on. cbn. by destruct (gpio b =? g). }
        rewrite Hone. lia.
      * intros q j. rewrite IHq, !irqs_held_app, Hq.
        rewrite fmap_app.
        change (button <$> [line_of_button K (length lines) b]) with [b].
        rewrite (holds_irq_snoc q j (button <$> lines) b), length_fmap.
        rewrite irqs_held_cons, irqs_held_nil. cbn [irq_delta]. lia.
      * destruct IHr as [(Hall & Hz & Hlines & Hw)|(Hall & Hneg)].
        -- left. split; [done|]. split; [done|]. split.
           ++ rewrite Hlines, <- app_assoc. done.
           ++ rewrite Hw. by destruct (truthy (wakeup b)), (existsb _ bs).
        -- right. by split.
    + assert (Ht : truthy (gpio_keys_setup_key K (length lines) b (new_line b)).1.1
                   = true).
      { apply truthy_true. lia. }
      rewrite Ht, Hno. cbn [fst snd andb].
      split; [|split].
      * intros g. rewrite gpios_held_app, Hg. lia.
      * intros q j. rewrite irqs_held_app, Hq. lia.
      * right. by split.
Qed.

Lemma release_line_spec (j : nat) (d : device) (bdata : gpio_button_data) :
  ddata (sys d) !! j = Some bdata →
  calls (release_line j d)
  = calls d ++ [FreeIrq (gpio_to_irq (gpio (button bdata))) j;
                CancelWorkSync j; GpioFree (gpio (button bdata))]
  ∧ button <$> ddata (sys (release_line j d)) = button <$> ddata (sys d)
  ∧ enabled (release_line j d) = enabled d
  ∧ enable_after_suspend (release_line j d) = enable_after_suspend d
  ∧ drv_enable (release_line j d) = drv_enable d
  ∧ drv_disable (release_line j d) = drv_disable d
  ∧ published (release_line j d) = published d
  ∧ evaluations (log (sys (release_line j d))) = evaluations (log (sys d))
  ∧ input_events (log (sys (release_line j d))) = input_events (log (sys d))
  ∧ (∃ b, ddata (sys (release_line j d)) !! j = Some b
          ∧ work b = false
          ∧ (timer_debounce bdata ≠ 0 → timer b = None))
  ∧ (∀ k, k ≠ j →
       ddata (sys (release_line j d)) !! k = ddata (sys d) !! k).
Proof.
  intros Hj. unfold release_line. rewrite Hj.
  assert (Hfmap : ∀ (f : gpio_button_data → gpio_button_data)
                    (l : list gpio_button_data),
            (∀ b, button (f b) = button b) →
            button <$> alter f j l = button <$> l).
  { intros f l Hf. apply list_eq. intros k.
    rewrite !list_lookup_fmap, list_lookup_alter.
    case_decide; [|done]. subst. destruct (l !! k); [|done]. simpl.
    by rewrite Hf. }
  destruct (truthy (timer_debounce bdata)) eqn:Htd; cbn.
  - rewrite <- !app_assoc. split; [done|].
    split; [by rewrite !Hfmap|]. repeat split; try done.
    + rewrite evaluations_app. cbn. by rewrite app_nil_r.
    + rewrite input_events_app. cbn. by rewrite app_nil_r.
    + rewrite list_alter_alter_eq, list_lookup_alter_eq, Hj. cbn.
      eexists. by repeat split.
    + intros k Hk. by rewrite !list_lookup_alter_ne.
  - rewrite <- !app_assoc. split; [done|].
    split; [by rewrite !Hfmap|]. repeat split; try done.
    + rewrite list_lookup_alter_eq, Hj. cbn. eexists. repeat split; try done.
      intros Hne. apply truthy_false in Htd. done.
    + intros k Hk. by rewrite !list_lookup_alter_ne.
Qed.

Lemma buttons_on_take_S (g : Z) (l : list gpio_keys_button) (n : nat)
    (b : gpio_keys_button) :
  l !! n = Some b →
  buttons_on g (take (S n) l)
  = buttons_on g (take n l) + (if gpio b =? g then 1 else 0).
Proof.
  intros H. rewrite (take_S_r l n b H), buttons_on_app.
  unfold buttons_on at 2. cbn. by destruct (gpio b =? g).
Qed.

(** Releasing the first [n] lines, in either order. *)
Lemma release_lines_spec (js : nat → list nat) (n : nat) (d : device) :
  (∀ m d0, foldl (λ d j, release_line j d) d0 (js (S m))
           = foldl (λ d j, release_line j d) (release_line m d0) (js m)
           ∨ foldl (λ d j, release_line j d) d0 (js (S m))
             = release_line m (foldl (λ d j, release_line j d) d0 (js m))) →
  js 0%nat = [] →
  (n ≤ length (ddata (sys d)))%nat →
  let d' := foldl (λ d j, release_line j d) d (js n) in
  (∀ g, gpios_held g (calls d')
        = gpios_held g (calls d)
          - buttons_on g (take n (button <$> ddata (sys d))))
  ∧ (∀ q j, irqs_held q j (calls d')
            = irqs_held q j (calls d)
              - holds_irq q j (take n (button <$> ddata (sys d))))
  ∧ button <$> ddata (sys d') = button <$> ddata (sys d)
  ∧ enabled d' = enabled d
  ∧ published d' = published d
  ∧ evaluations (log (sys d')) = evaluations (log (sys d))
  ∧ input_events (log (sys d')) = input_events (log (sys d)).
Proof.
  intros Hjs H0. revert d. induction n as [|n IH]; intros d Hn d'.
  - unfold d'. rewrite H0. cbn [foldl]. rewrite take_0.
    split; [intros g; unfold buttons_on; cbn; lia|].
    split; [intros q j; unfold holds_irq; rewrite lookup_nil; lia|done].
  - assert (Hlook : ∃ b, ddata (sys d) !! n = Some b).
    { apply lookup_lt_is_Some. lia. }
    destruct Hlook as (b & Hb).
    assert (Hbb : (button <$> ddata (sys d)) !! n = Some (button b)).
    { by rewrite list_lookup_fmap, Hb. }
    assert (Hdelta : ∀ (d1 : device) (b1 : gpio_button_data),
      ddata (sys d1) !! n = Some b1 → button b1 = button b →
      (∀ g, gpios_held g (calls (release_line n d1))
            = gpios_held g (calls d1) - (if gpio (button b) =? g then 1 else 0))
      ∧ (∀ q j, irqs_held q j (calls (release_line n d1))
                = irqs_held q j (calls d1)
                  - (if (gpio_to_irq (gpio (button b)) =? q) && Nat.eqb n j
                     then 1 else 0))).
    { intros d1 b1 Hb1 Hbb1.
      destruct (release_line_spec n d1 b1 Hb1) as (Hc & _).
      rewrite Hc, Hbb1. split.
      - intros g. rewrite gpios_held_app, !gpios_held_cons, gpios_held_nil.
        cbn [gpio_delta]. destruct (gpio (button b) =? g); lia.
      - intros q j. rewrite irqs_held_app, !irqs_held_cons, irqs_held_nil.
        cbn [irq_delta]. destruct (_ && _); lia. }
    assert (Htake : ∀ q j,
      holds_irq q j (take (S n) (button <$> ddata (sys d)))
      = holds_irq q j (take n (button <$> ddata (sys d)))
        + (if (gpio_to_irq (gpio (button b)) =? q) && Nat.eqb n j
           then 1 else 0)).
    { intros q j. rewrite (take_S_r _ n _ Hbb), holds_irq_snoc.
      rewrite length_take, length_fmap.
      replace (n `min` length (ddata (sys d)))%nat with n by lia. done. }
    unfold d'. destruct (Hjs n d) as [-> | ->].
    + destruct (release_line_spec n d b Hb)
        as (_ & Hbt & He & _ & _ & _ & Hp & Hev & Hie & _).
      destruct (Hdelta d b Hb eq_refl) as [Hg Hq].
      destruct (IH (release_line n d)) as (IHg & IHq & IHb & IHe & IHp & IHev & IHie).
      { apply (f_equal length) in Hbt. rewrite !length_fmap in Hbt. lia. }
      split; [|split; [|split; [|split; [|split; [|split]]]]].
      * intros g. rewrite IHg, Hg, Hbt, (buttons_on_take_S g _ n _ Hbb). lia.
      * intros q j. rewrite IHq, Hq, Hbt, Htake. lia.
      * congruence.
      * congruence.
      * congruence.
      * congruence.
      * congruence.
    + destruct (IH d) as (IHg & IHq & IHb & IHe & IHp & IHev & IHie); [lia|].
      set (d1 := foldl (λ d j, release_line j d) d (js n)) in *.
      assert (Hb1 : ∃ b1, ddata (sys d1) !! n = Some b1 ∧ button b1 = button b).
      { assert (H : (button <$> ddata (sys d1)) !! n = Some (button b))
          by (by rewrite IHb).
        rewrite list_lookup_fmap in H.
        destruct (ddata (sys d1) !! n) as [b1|]; [|done].
        exists b1. split; [done|]. by injection H. }
      destruct Hb1 as (b1 & Hb1 & Hbb1).
      destruct (release_line_spec n d1 b1 Hb1)
        as (_ & Hbt & He & _ & _ & _ & Hp & Hev & Hie & _).
      destruct (Hdelta d1 b1 Hb1 Hbb1) as [Hg Hq].
      split; [|split; [|split; [|split; [|split; [|split]]]]].
      * intros g. rewrite Hg, IHg, (buttons_on_take_S g _ n _ Hbb). lia.
      * intros q j. rewrite Hq, IHq, Htake. lia.
      * congruence.
      * congruence.
      * congruence.
      * congruence.
      * congruence.
Qed.

Lemma unwind_lines_spec (n : nat) (d : device) :
  (n ≤ length (ddata (sys d)))%nat →
  (∀ g, gpios_held g (calls (unwind_lines n d))
        = gpios_held g (calls d)
          - buttons_on g (take n (button <$> ddata (sys d))))
  ∧ (∀ q j, irqs_held q j (calls (unwind_lines n d))
            = irqs_held q j (calls d)
              - holds_irq q j (take n (button <$> ddata (sys d))))
  ∧ button <$> ddata (sys (unwind_lines n d)) = button <$> ddata (sys d)
  ∧ enabled (unwind_lines n d) = enabled d
  ∧ published (unwind_lines n d) = published d
  ∧ evaluations (log (sys (unwind_lines n d))) = evaluations (log (sys d))
  ∧ input_events (log (sys (unwind_lines n d))) = input_events (log (sys d)).
Proof.
  intros Hn.
  apply (release_lines_spec (λ m, reverse (seq 0 m)) n d); [|done|done].
  intros m d0. left. rewrite seq_S, reverse_app. done.
Qed.

Lemma remove_lines_spec (n : nat) (d : device) :
  (n ≤ length (ddata (sys d)))%nat →
  let d' := foldl (λ d j, release_line j d) d (seq 0 n) in
  (∀ g, gpios_held g (calls d')
        = gpios_held g (calls d)
          - buttons_on g (take n (button <$> ddata (sys d))))
  ∧ (∀ q j, irqs_held q j (calls d')
            = irqs_held q j (calls d)
              - holds_irq q j (take n (button <$> ddata (sys d))))
  ∧ button <$> ddata (sys d') = button <$> ddata (sys d)
  ∧ enabled d' = enabled d
  ∧ published d' = published d
  ∧ evaluations (log (sys d')) = evaluations (log (sys d))
  ∧ input_events (log (sys d')) = input_events (log (sys d)).
Proof.
  intros Hn.
  apply (release_lines_spec (λ m, seq 0 m) n d); [|done|done].
  intros m d0. right. rewrite seq_S, foldl_app. done.
Qed.

Lemma lines_of_buttons_buttons (K : kernel_results) (i : nat)
    (bs : list gpio_keys_button) :
  button <$> lines_of_buttons K i bs = bs.
Proof.
  revert i. induction bs as [|b bs IH]; intros i; [done|].
  cbn. by rewrite IH.
Qed.

Lemma lines_of_buttons_length (K : kernel_results) (i : nat)
    (bs : list gpio_keys_button) :
  length (lines_of_buttons K i bs) = length bs.
Proof.
  rewrite <- (lines_of_buttons_buttons K i bs) at 2. by rewrite length_fmap.
Qed.

Lemma holds_irq_nil (q : Z) (j : nat) : holds_irq q j [] = 0.
Proof. unfold holds_irq. by rewrite lookup_nil. Qed.

(** The exits of [gpio_keys_probe] through [fail2] and [fail3]. *)
Lemma probe_fail2_spec (error : Z) (d : device) :
  let r := probe_fail2 (length (ddata (sys d))) error d in
  fst r = error
  ∧ (∀ g, gpios_held g (calls (snd r))
          = gpios_held g (calls d)
            - buttons_on g (button <$> ddata (sys d)))
  ∧ (∀ q j, irqs_held q j (calls (snd r))
            = irqs_held q j (calls d)
              - holds_irq q j (button <$> ddata (sys d)))
  ∧ ddata (sys (snd r)) = []
  ∧ published (snd r) = published d
  ∧ evaluations (log (sys (snd r))) = evaluations (log (sys d))
  ∧ input_events (log (sys (snd r))) = input_events (log (sys d))
  ∧ ∃ cs, calls (snd r) = cs ++ [InputFreeDevice; Kfree].
Proof.
  intros r. unfold r, probe_fail2, probe_fail1. cbn [fst snd].
  destruct (unwind_lines_spec (length (ddata (sys d))) d)
    as (Hg & Hq & Hb & He & Hp & Hev & Hie); [done|].
  assert (Htake : take (length (ddata (sys d))) (button <$> ddata (sys d))
                  = button <$> ddata (sys d)).
  { apply take_ge. by rewrite length_fmap. }
  rewrite Htake in Hg, Hq.
  split; [done|]. split; [|split].
  - intros g. cbn [calls on_sys call].
    rewrite !gpios_held_app, Hg.
    rewrite !gpios_held_cons, gpios_held_nil. cbn [gpio_delta]. lia.
  - intros q j. cbn [calls on_sys call].
    rewrite !irqs_held_app, Hq.
    rewrite !irqs_held_cons, irqs_held_nil. cbn [irq_delta]. lia.
  - cbn. repeat split; try done. by eexists.
Qed.

Lemma probe_fail3_spec (error : Z) (d : device) :
  let r := probe_fail3 (length (ddata (sys d))) error d in
  fst r = error
  ∧ (∀ g, gpios_held g (calls (snd r))
          = gpios_held g (calls d)
            - buttons_on g (button <$> ddata (sys d)))
  ∧ (∀ q j, irqs_held q j (calls (snd r))
            = irqs_held q j (calls d)
              - holds_irq q j (button <$> ddata (sys d)))
  ∧ ddata (sys (snd r)) = []
  ∧ published (snd r) = published d
  ∧ evaluations (log (sys (snd r))) = evaluations (log (sys d))
  ∧ input_events (log (sys (snd r))) = input_events (log (sys d))
  ∧ ∃ cs, calls (snd r) = cs ++ [InputFreeDevice; Kfree].
Proof.
  intros r. unfold r, probe_fail3.
  set (d1 := call [SysfsRemoveGroup gpio_keys_attr_group;
                   SysfsRemoveGroup sec_key_attr_group] d).
  destruct (probe_fail2_spec error d1)
    as (He & Hg & Hq & Hd & Hp & Hev & Hie & Hcs).
  change (ddata (sys d1)) with (ddata (sys d)) in *.
  split; [done|]. split; [|split].
  - intros g. rewrite Hg. unfold d1. cbn [calls call].
    rewrite gpios_held_app, !gpios_held_cons, gpios_held_nil.
    cbn [gpio_delta]. lia.
  - intros q j. rewrite Hq. unfold d1. cbn [calls call].
    rewrite irqs_held_app, !irqs_held_cons, irqs_held_nil.
    cbn [irq_delta]. lia.
  - done.
Qed.

Lemma probe_fail2_balanced (s : system) (error : Z) (d : device) (n : nat) :
  n = length (ddata (sys d)) → error ≠ 0 →
  (∀ g, gpios_held g (calls d) = buttons_on g (button <$> ddata (sys d))) →
  (∀ q j, irqs_held q j (calls d)
          = holds_irq q j (button <$> ddata (sys d))) →
  published d = false →
  evaluations (log (sys d)) = evaluations (log s) →
  input_events (log (sys d)) = input_events (log s) →
  let r := probe_fail2 n error d in
  fst r ≠ 0
  ∧ (∀ g, gpios_held g (calls (snd r)) = 0)
  ∧ (∀ q j, irqs_held q j (calls (snd r)) = 0)
  ∧ ddata (sys (snd r)) = []
  ∧ published (snd r) = false
  ∧ evaluations (log (sys (snd r))) = evaluations (log s)
  ∧ input_events (log (sys (snd r))) = input_events (log s)
  ∧ ∃ cs, calls (snd r) = cs ++ [InputFreeDevice; Kfree].
Proof.
  intros -> Herr Hg Hq Hp Hev Hie r.
  destruct (probe_fail2_spec error d)
    as (He & Hg' & Hq' & Hd & Hp' & Hev' & Hie' & Hcs).
  fold r in He, Hg', Hq', Hd, Hp', Hev', Hie', Hcs.
  split; [by rewrite He|]. split; [intros g; rewrite Hg', Hg; lia|].
  split; [intros q j; rewrite Hq', Hq; lia|]. split; [done|].
  split; [congruence|]. split; [congruence|]. split; [congruence|done].
Qed.

Lemma probe_fail3_balanced (s : system) (error : Z) (d : device) (n : nat) :
  n = length (ddata (sys d)) → error ≠ 0 →
  (∀ g, gpios_held g (calls d) = buttons_on g (button <$> ddata (sys d))) →
  (∀ q j, irqs_held q j (calls d)
          = holds_irq q j (button <$> ddata (sys d))) →
  published d = false →
  evaluations (log (sys d)) = evaluations (log s) →
  input_events (log (sys d)) = input_events (log s) →
  let r := probe_fail3 n error d in
  fst r ≠ 0
  ∧ (∀ g, gpios_held g (calls (snd r)) = 0)
  ∧ (∀ q j, irqs_held q j (calls (snd r)) = 0)
  ∧ ddata (sys (snd r)) = []
  ∧ published (snd r) = false
  ∧ evaluations (log (sys (snd r))) = evaluations (log s)
  ∧ input_events (log (sys (snd r))) = input_events (log s)
  ∧ ∃ cs, calls (snd r) = cs ++ [InputFreeDevice; Kfree].
Proof.
  intros -> Herr Hg Hq Hp Hev Hie r.
  destruct (probe_fail3_spec error d)
    as (He & Hg' & Hq' & Hd & Hp' & Hev' & Hie' & Hcs).
  fold r in He, Hg', Hq', Hd, Hp', Hev', Hie', Hcs.
  split; [by rewrite He|]. split; [intros g; rewrite Hg', Hg; lia|].
  split; [intros q j; rewrite Hq', Hq; lia|]. split; [done|].
  split; [congruence|]. split; [congruence|]. split; [congruence|done].
Qed.

Lemma neutral_calls_held (cs : list platform_call) :
  forallb neutral_call cs = true →
  (∀ g, gpios_held g cs = 0) ∧ (∀ q j, irqs_held q j cs = 0).
Proof.
  induction cs as [|c cs IH]; [done|]. cbn [forallb].
  intros [Hc Hcs]%andb_true_iff. destruct (IH Hcs) as [Hg Hq]. split.
  - intros g. rewrite gpios_held_cons, Hg. by destruct c.
  - intros q j. rewrite irqs_held_cons, Hq. by destruct c.
Qed.

Lemma call_neutral (cs : list platform_call) (d : device) :
  forallb neutral_call cs = true →
  (∀ g, gpios_held g (calls (call cs d)) = gpios_held g (calls d))
  ∧ (∀ q j, irqs_held q j (calls (call cs d)) = irqs_held q j (calls d)).
Proof.
  intros H. destruct (neutral_calls_held cs H) as [Hg Hq]. split.
  - intros g. cbn [calls call]. rewrite gpios_held_app, Hg. lia.
  - intros q j. cbn [calls call]. rewrite irqs_held_app, Hq. lia.
Qed.

(** What [gpio_keys_probe] comes to. *)
Lemma probe_spec (K : kernel_results) (pdata : gpio_keys_platform_data)
    (s : system) :
  let r := gpio_keys_probe K pdata s in
  (probe_registers K pdata = false →
   fst r ≠ 0
   ∧ (∀ g, gpios_held g (calls (snd r)) = 0)
   ∧ (∀ q j, irqs_held q j (calls (snd r)) = 0)
   ∧ ddata (sys (snd r)) = []
   ∧ published (snd r) = false
   ∧ evaluations (log (sys (snd r))) = evaluations (log s)
   ∧ input_events (log (sys (snd r))) = input_events (log s)
   ∧ ∃ cs, calls (snd r) = cs ++ [InputFreeDevice; Kfree])
  ∧ (probe_registers K pdata = true →
     sys (snd r)
     = input_sync
         (for_each_button gpio_keys_report_event
            (set_ddata (lines_of_buttons K 0 (buttons pdata)) s))
     ∧ (∀ g, gpios_held g (calls (snd r)) = buttons_on g (buttons pdata))
     ∧ (∀ q j, irqs_held q j (calls (snd r))
               = holds_irq q j (buttons pdata))
     ∧ fst r = (if kobject_create_and_add_ok K then 0 else - ENOMEM)
     ∧ published (snd r) = kobject_create_and_add_ok K
     ∧ enabled (snd r) = false
     ∧ drv_enable (snd r) = pdata_enable pdata
     ∧ drv_disable (snd r) = pdata_disable pdata
     ∧ DeviceInitWakeup
         (if existsb (λ b, truthy (wakeup b)) (buttons pdata) then 1 else 0)
       ∈ calls (snd r)).
Proof.
  intros r. unfold r, gpio_keys_probe, probe_registers.
  destruct (kzalloc_ok K) eqn:Hkz; cycle 1.
  { cbn [negb orb andb]. split; [|done]. intros _.
    unfold probe_fail1. cbn. repeat split; try done. by eexists [_; _; _]. }
  destruct (input_allocate_device_ok K) eqn:Hin; cycle 1.
  { cbn [negb orb andb]. split; [|done]. intros _.
    unfold probe_fail1. cbn. repeat split; try done. by eexists [_; _; _]. }
  cbn [negb orb andb]. cbv zeta.
  cbn [sys calls enabled enable_after_suspend drv_enable drv_disable published].
  set (d0 := if truthy (rep pdata) then _ else _).
  assert (Hd0 : sys d0 = set_ddata [] s ∧ enabled d0 = false
                ∧ drv_enable d0 = pdata_enable pdata
                ∧ drv_disable d0 = pdata_disable pdata
                ∧ published d0 = false
                ∧ enable_after_suspend d0 = false
                ∧ (∀ g, gpios_held g (calls d0) = 0)
                ∧ (∀ q j, irqs_held q j (calls d0) = 0)).
  { unfold d0. destruct (truthy (rep pdata)); by repeat split. }
  destruct Hd0 as (Hs0 & He0 & Hde0 & Hdd0 & Hp0 & Hea0 & Hg0 & Hq0).
  clearbody d0.
  pose proof (probe_buttons_spec K (buttons pdata) [] 0 (calls d0)) as Hloop.
  cbn [length] in Hloop. cbv zeta in Hloop.
  set (rb := probe_buttons K 0 (buttons pdata) [] 0 (calls d0)) in *.
  destruct Hloop as (Hg & Hq & Hcase).
  change (button <$> []) with (@nil gpio_keys_button) in Hg, Hq.
  assert (Hg' : ∀ g, gpios_held g (snd rb)
                     = buttons_on g (button <$> snd (fst (fst rb)))).
  { intros g. rewrite Hg, Hg0. unfold buttons_on at 2. cbn. lia. }
  assert (Hq' : ∀ q j, irqs_held q j (snd rb)
                       = holds_irq q j (button <$> snd (fst (fst rb)))).
  { intros q j. rewrite Hq, Hq0, holds_irq_nil. lia. }
  clear Hg Hq.
  set (d1 := on_sys (set_ddata (snd (fst (fst rb)))) _).
  assert (H1 : sys d1 = set_ddata (snd (fst (fst rb))) s
               ∧ calls d1 = snd rb ∧ published d1 = false
               ∧ enabled d1 = false ∧ drv_enable d1 = pdata_enable pdata
               ∧ drv_disable d1 = pdata_disable pdata).
  { unfold d1. cbn. rewrite Hs0, Hp0, He0, Hde0, Hdd0.
    by rewrite set_ddata_set_ddata. }
  destruct H1 as (Hs1 & Hc1 & Hp1 & He1 & Hde1 & Hdd1). clearbody d1.
  assert (Hld : ∀ cs, forallb neutral_call cs = true →
    let d := call cs d1 in
    (∀ g, gpios_held g (calls d) = buttons_on g (button <$> ddata (sys d)))
    ∧ (∀ q j, irqs_held q j (calls d)
              = holds_irq q j (button <$> ddata (sys d)))
    ∧ published d = false
    ∧ evaluations (log (sys d)) = evaluations (log s)
    ∧ input_events (log (sys d)) = input_events (log s)
    ∧ length (ddata (sys d)) = length (snd (fst (fst rb)))).
  { intros cs Hcs d. destruct (call_neutral cs d1 Hcs) as [Hg Hq].
    unfold d. cbn [sys call published]. rewrite Hs1. cbn [ddata log set_ddata].
    split; [intros g; by rewrite Hg, Hc1, Hg'|].
    split; [intros q j; by rewrite Hq, Hc1, Hq'|]. done. }
  destruct Hcase as [(Hall & Herr & Hlines & Hw)|(Hall & Herr)]; cycle 1.
  { rewrite Hall. cbn [andb]. rewrite (proj2 (truthy_true _)) by lia.
    split; [|done]. intros _.
    destruct (Hld [] eq_refl) as (Hg & Hq & Hp & Hev & Hie & Hlen).
    assert (Hd : call [] d1 = d1).
    { destruct d1. unfold call. cbn. by rewrite app_nil_r. }
    rewrite Hd in *.
    apply (probe_fail2_balanced s); try done. lia. }
  rewrite Hall, Herr. cbn [andb]. change (truthy 0) with false. cbv iota.
  cbn [app] in Hlines.
  assert (Hn : length (buttons pdata) = length (snd (fst (fst rb)))).
  { by rewrite Hlines, lines_of_buttons_length. }
  destruct (Z.eqb_spec (sysfs_create_group_result K gpio_keys_attr_group) 0)
    as [Ha|Ha]; cycle 1.
  { rewrite (proj2 (truthy_true _) Ha). cbn [andb]. split; [|done]. intros _.
    destruct (Hld [SysfsCreateGroup gpio_keys_attr_group
                     (sysfs_create_group_result K gpio_keys_attr_group);
                   DevErr msg_unable_export_keys] eq_refl)
      as (Hg & Hq & Hp & Hev & Hie & Hlen).
    match goal with
    | |- context [probe_fail2 _ _ ?d] =>
        assert (Hd : d = call [SysfsCreateGroup gpio_keys_attr_group
                                 (sysfs_create_group_result K gpio_keys_attr_group);
                               DevErr msg_unable_export_keys] d1)
          by (unfold call; cbn; by rewrite <- app_assoc)
    end.
    rewrite Hd. apply (probe_fail2_balanced s); try done. lia. }
  rewrite Ha. change (truthy 0) with false. cbv iota. cbn [andb].
  set (d2 := if device_create_ok K then _ else _).
  assert (H2 : ∃ cs, forallb neutral_call cs = true ∧ d2 = call cs d1).
  { unfold d2. destruct (device_create_ok K).
    - exists [SysfsCreateGroup gpio_keys_attr_group 0; DeviceCreate true].
      split; [done|]. unfold call. cbn. by rewrite <- app_assoc.
    - exists [SysfsCreateGroup gpio_keys_attr_group 0; DeviceCreate false;
              DevErr msg_failed_create_sec_key].
      split; [done|]. unfold call. cbn. by rewrite <- !app_assoc. }
  destruct H2 as (cs2 & Hcs2 & Hd2). clearbody d2. subst d2.
  destruct (Z.eqb_spec (sysfs_create_group_result K sec_key_attr_group) 0)
    as [Hb|Hb]; cycle 1.
  { rewrite (proj2 (truthy_true _) Hb). cbn [andb]. split; [|done]. intros _.
    destruct (Hld (cs2 ++ [SysfsCreateGroup sec_key_attr_group
                             (sysfs_create_group_result K sec_key_attr_group);
                           DevErr msg_unable_export_sec_key]))
      as (Hg & Hq & Hp & Hev & Hie & Hlen).
    { by rewrite forallb_app, Hcs2. }
    match goal with
    | |- context [probe_fail2 _ _ ?d] =>
        assert (Hd : d = call (cs2 ++ [SysfsCreateGroup sec_key_attr_group
                                 (sysfs_create_group_result K sec_key_attr_group);
                               DevErr msg_unable_export_sec_key]) d1)
          by (unfold call; cbn; by rewrite <- !app_assoc)
    end.
    rewrite Hd. apply (probe_fail2_balanced s); try done. lia. }
  rewrite Hb. change (truthy 0) with false. cbv iota. cbn [andb].
  destruct (Z.eqb_spec (input_register_device_result K) 0) as [Hr|Hr]; cycle 1.
  { rewrite (proj2 (truthy_true _) Hr). split; [|done]. intros _.
    destruct (Hld (cs2 ++ [SysfsCreateGroup sec_key_attr_group 0;
                           InputRegisterDevice (input_register_device_result K);
                           DevErr msg_unable_register_input]))
      as (Hg & Hq & Hp & Hev & Hie & Hlen).
    { by rewrite forallb_app, Hcs2. }
    match goal with
    | |- context [probe_fail3 _ _ ?d] =>
        assert (Hd : d = call (cs2 ++ [SysfsCreateGroup sec_key_attr_group 0;
                           InputRegisterDevice (input_register_device_result K);
                           DevErr msg_unable_register_input]) d1)
          by (unfold call; cbn; by rewrite <- !app_assoc)
    end.
    rewrite Hd. apply (probe_fail3_balanced s); try done. lia. }
  rewrite Hr. change (truthy 0) with false. cbv iota.
  split; [done|]. intros _.
  destruct (neutral_calls_held cs2 Hcs2) as [Hg2 Hq2].
  rewrite Hw.
  destruct (kobject_create_and_add_ok K) eqn:Hko; cbn [negb fst snd];
    [destruct (truthy (sysfs_create_group_result K gpio_keys_interface_group))|];
    cbn [sys calls enabled drv_enable drv_disable published call on_sys
         set_published fst snd];
    (split; [by rewrite Hs1, Hlines|]);
    (split;
     [intros g;
      rewrite !gpios_held_app, Hc1, Hg', Hlines, lines_of_buttons_buttons, Hg2,
        !gpios_held_cons, !gpios_held_nil; cbn [gpio_delta]; lia|]);
    (split;
     [intros q j;
      rewrite !irqs_held_app, Hc1, Hq', Hlines, lines_of_buttons_buttons, Hq2,
        !irqs_held_cons, !irqs_held_nil; cbn [irq_delta]; lia|]);
    (split; [done|]); (split; [done|]); (split; [done|]);
    (split; [done|]); (split; [done|]);
    repeat (apply elem_of_app;
            first [right; apply list_elem_of_here|left]).
Qed.


(** ** Evaluating every line *)

Lemma report_event_gpio_level (i : nat) (s : system) :
  gpio_level (gpio_keys_report_event i s) = gpio_level s.
Proof.
  destruct (ddata s !! i) as [bdata|] eqn:Hi.
  - destruct (report_event_cases i s bdata Hi)
      as [->|[(s2 & Hq & ->)|(s2 & Hq & ->)]]; [done| |].
    + by destruct Hq as (_ & _ & _ & _ & _ & -> & _).
    + destruct (report_input_frame i (button bdata)
                  (if type (button bdata) =? 0 then EV_KEY
                   else type (button bdata))
                  (logical_state (button bdata)
                     (gpio_get_value (gpio (button bdata)) s)) s2)
        as (_ & _ & _ & _ & _ & _ & _ & ->).
      by destruct Hq as (_ & _ & _ & _ & _ & -> & _).
  - unfold gpio_keys_report_event. by rewrite Hi.
Qed.

Lemma report_event_buttons (i : nat) (s : system) :
  button <$> ddata (gpio_keys_report_event i s) = button <$> ddata s.
Proof.
  destruct (ddata s !! i) as [bdata|] eqn:Hi.
  - destruct (report_event_general i s bdata Hi) as (_ & [->|(_ & ks & ->)]);
      [done|].
    apply list_eq. intros k. rewrite !list_lookup_fmap, list_lookup_alter.
    case_decide; [|done]. subst. by destruct (ddata s !! k).
  - unfold gpio_keys_report_event. by rewrite Hi.
Qed.

Lemma reads_of_lines_snoc (s : system) (l : list gpio_button_data)
    (b : gpio_button_data) :
  reads_of_lines s (l ++ [b])
  = reads_of_lines s l
    ++ [GpioGetValue (gpio (button b)) (gpio_get_value (gpio (button b)) s)].
Proof. unfold reads_of_lines. by rewrite map_app. Qed.

Lemma reads_of_lines_buttons (s s' : system) (l l' : list gpio_button_data) :
  button <$> l' = button <$> l → gpio_level s' = gpio_level s →
  reads_of_lines s' l' = reads_of_lines s l.
Proof.
  intros Hb Hl. unfold reads_of_lines, gpio_get_value. rewrite Hl.
  revert l' Hb. induction l as [|b l IH]; intros [|b' l'] Hb; try done.
  cbn in Hb. injection Hb as Hb1 Hb2. cbn. rewrite Hb1. f_equal. by apply IH.
Qed.

(** Evaluating the first [n] lines in turn reads each of them once, in
    order, at the levels found on entry. *)
Lemma report_lines_spec (n : nat) (s : system) :
  (n ≤ length (ddata s))%nat →
  let s' := foldl (λ s j, gpio_keys_report_event j s) s (seq 0 n) in
  evaluations (log s')
  = evaluations (log s) ++ reads_of_lines s (take n (ddata s))
  ∧ button <$> ddata s' = button <$> ddata s
  ∧ gpio_level s' = gpio_level s.
Proof.
  induction n as [|n IH]; intros Hn s'.
  - unfold s'. cbn. rewrite take_0. cbn. by rewrite app_nil_r.
  - destruct IH as (Hev & Hb & Hl); [lia|].
    unfold s'. rewrite seq_S, foldl_app. cbn [foldl plus].
    set (s1 := foldl (λ s j, gpio_keys_report_event j s) s (seq 0 n)) in *.
    assert (Hlook : ∃ b, ddata s !! n = Some b).
    { apply lookup_lt_is_Some. lia. }
    destruct Hlook as (b & Hbn).
    assert (Hb1 : ∃ b1, ddata s1 !! n = Some b1 ∧ button b1 = button b).
    { assert (H : (button <$> ddata s1) !! n = Some (button b))
        by (by rewrite Hb, list_lookup_fmap, Hbn).
      rewrite list_lookup_fmap in H.
      destruct (ddata s1 !! n) as [b1|]; [|done].
      exists b1. split; [done|]. by injection H. }
    destruct Hb1 as (b1 & Hb1 & Hbb1).
    destruct (report_event_general n s1 b1 Hb1) as (Hev1 & _).
    split; [|split].
    + rewrite Hev1, Hev, (take_S_r _ n b Hbn), reads_of_lines_snoc, Hbb1.
      rewrite <- app_assoc. do 3 f_equal. unfold gpio_get_value. by rewrite Hl.
    + by rewrite report_event_buttons.
    + by rewrite report_event_gpio_level.
Qed.


(** ** Removal *)

Lemma release_calls_snoc (i : nat) (bs : list gpio_keys_button)
    (b : gpio_keys_button) :
  release_calls i (bs ++ [b])
  = release_calls i bs
    ++ [FreeIrq (gpio_to_irq (gpio b)) (i + length bs);
        CancelWorkSync (i + length bs); GpioFree (gpio b)].
Proof.
  revert i. induction bs as [|x bs IH]; intros i; cbn.
  - by rewrite Nat.add_0_r.
  - rewrite IH. by replace (S i + length bs)%nat with (i + S (length bs))%nat
      by lia.
Qed.

Lemma remove_lines_calls (n : nat) (d : device) :
  (n ≤ length (ddata (sys d)))%nat →
  let d' := foldl (λ d j, release_line j d) d (seq 0 n) in
  calls d'
  = calls d ++ release_calls 0 (take n (button <$> ddata (sys d)))
  ∧ button <$> ddata (sys d') = button <$> ddata (sys d)
  ∧ (∀ k b0, (k < n)%nat → ddata (sys d) !! k = Some b0 →
       ∃ b, ddata (sys d') !! k = Some b ∧ work b = false
            ∧ (timer_debounce b0 ≠ 0 → timer b = None))
  ∧ (∀ k, (n ≤ k)%nat → ddata (sys d') !! k = ddata (sys d) !! k).
Proof.
  induction n as [|n IH]; intros Hn d'.
  - unfold d'. cbn. rewrite take_0. cbn. rewrite app_nil_r.
    repeat split; try done. intros k b0 Hk. lia.
  - destruct IH as (Hc & Hb & Hidle & Hrest); [lia|].
    unfold d'. rewrite seq_S, foldl_app. cbn [foldl plus].
    set (d1 := foldl (λ d j, release_line j d) d (seq 0 n)) in *.
    assert (Hlook : ∃ b, ddata (sys d) !! n = Some b).
    { apply lookup_lt_is_Some. lia. }
    destruct Hlook as (b & Hbn).
    assert (Hb1 : ddata (sys d1) !! n = Some b) by (by rewrite Hrest).
    destruct (release_line_spec n d1 b Hb1)
      as (Hc1 & Hbt & _ & _ & _ & _ & _ & _ & _ & Hline & Hother).
    split; [|split; [|split]].
    + assert (Hbb : (button <$> ddata (sys d)) !! n = Some (button b))
        by (by rewrite list_lookup_fmap, Hbn).
      rewrite Hc1, Hc, (take_S_r _ n _ Hbb), release_calls_snoc.
      rewrite length_take, length_fmap.
      replace (n `min` length (ddata (sys d)))%nat with n by lia.
      by rewrite <- app_assoc.
    + congruence.
    + intros k b0 Hk Hk0. destruct (decide (k = n)) as [->|Hne].
      * assert (b0 = b) as -> by congruence. done.
      * rewrite Hother by done. apply Hidle; [lia|done].
    + intros k Hk. rewrite Hother by lia. apply Hrest. lia.
Qed.

(** X20.  Removing the device returns 0 and makes exactly these calls: it
    disables runtime PM, removes the attribute group of the device, clears
    the wake-up capability, then for every line in order frees its
    interrupt, cancels its work and frees its GPIO, and finally unregisters
    the input device.  So every GPIO and interrupt loses one holder per line
    on it; afterwards no line has work queued, and no line that debounces in
    software has its timer armed.  Nothing is reported to the input core. *)
Theorem remove_releases_every_line (d : device) :
  let r := gpio_keys_remove d in
  fst r = 0
  ∧ calls (snd r)
    = calls d
      ++ [PmRuntimeDisable; SysfsRemoveGroup gpio_keys_attr_group;
          DeviceInitWakeup 0]
      ++ release_calls 0 (button <$> ddata (sys d))
      ++ [InputUnregisterDevice]
  ∧ (∀ g, gpios_held g (calls (snd r))
          = gpios_held g (calls d) - buttons_on g (button <$> ddata (sys d)))
  ∧ (∀ q j, irqs_held q j (calls (snd r))
            = irqs_held q j (calls d)
              - holds_irq q j (button <$> ddata (sys d)))
  ∧ (∀ k b0, ddata (sys d) !! k = Some b0 →
       ∃ b, ddata (sys (snd r)) !! k = Some b ∧ work b = false
            ∧ button b = button b0
            ∧ (timer_debounce b0 ≠ 0 → timer b = None))
  ∧ input_events (log (sys (snd r))) = input_events (log (sys d))
  ∧ evaluations (log (sys (snd r))) = evaluations (log (sys d)).
Proof.
  intros r. unfold r, gpio_keys_remove. cbv zeta.
  set (d0 := call [PmRuntimeDisable; SysfsRemoveGroup gpio_keys_attr_group;
                   DeviceInitWakeup 0] d).
  assert (Hs0 : sys d0 = sys d) by done.
  assert (Hc0 : calls d0 = calls d ++ [PmRuntimeDisable;
            SysfsRemoveGroup gpio_keys_attr_group; DeviceInitWakeup 0]) by done.
  destruct (remove_lines_spec (length (ddata (sys d0))) d0)
    as (Hg & Hq & _ & _ & _ & Hev & Hie); [done|].
  destruct (remove_lines_calls (length (ddata (sys d0))) d0)
    as (Hc & Hb & Hidle & _); [done|].
  set (d1 := foldl (λ d j, release_line j d) d0
               (seq 0 (length (ddata (sys d0))))) in *.
  rewrite take_ge in Hg, Hq, Hc by (by rewrite length_fmap).
  rewrite Hs0 in Hg, Hq, Hc, Hb, Hidle, Hev, Hie.
  cbn [fst snd call calls sys].
  split; [done|]. split; [by rewrite Hc, Hc0, <- !app_assoc|].
  split; [|split; [|split; [|split]]].
  - intros g. rewrite gpios_held_app, Hg, Hc0, gpios_held_app,
      !gpios_held_cons, !gpios_held_nil. cbn [gpio_delta]. lia.
  - intros q j. rewrite irqs_held_app, Hq, Hc0, irqs_held_app,
      !irqs_held_cons, !irqs_held_nil. cbn [irq_delta]. lia.
  - intros k b0 Hk.
    destruct (Hidle k b0) as (b & Hkb & Hw & Ht); [|done|].
    { by apply lookup_lt_Some in Hk. }
    exists b. repeat split; try done.
    assert (H : (button <$> ddata (sys d1)) !! k = Some (button b0))
      by (by rewrite Hb, list_lookup_fmap, Hk).
    rewrite list_lookup_fmap, Hkb in H. by injection H.
  - done.
  - done.
Qed.

(** X21.  When a probe has registered the device and the device is then
    removed, no GPIO and no interrupt stays held: every request of the probe
    is matched by a release of the removal, and no work stays queued. *)
Theorem probe_then_remove_balanced (K : kernel_results)
    (pdata : gpio_keys_platform_data) (s : system) :
  probe_registers K pdata = true →
  let d := snd (gpio_keys_probe K pdata s) in
  let r := gpio_keys_remove d in
  fst r = 0
  ∧ (∀ g, gpios_held g (calls d) = buttons_on g (buttons pdata))
  ∧ (∀ q j, irqs_held q j (calls d) = holds_irq q j (buttons pdata))
  ∧ (∀ g, gpios_held g (calls (snd r)) = 0)
  ∧ (∀ q j, irqs_held q j (calls (snd r)) = 0)
  ∧ ∀ k b, ddata (sys (snd r)) !! k = Some b → work b = false.
Proof.
  intros Hok d r.
  destruct (proj2 (probe_spec K pdata s) Hok) as (Hs & Hg & Hq & _).
  fold d in Hs, Hg, Hq.
  assert (Hb : button <$> ddata (sys d) = buttons pdata).
  { rewrite Hs. cbn [ddata input_sync emit].
    set (lines := lines_of_buttons K 0 (buttons pdata)).
    destruct (report_lines_spec (length lines) (set_ddata lines s))
      as (_ & Hb & _); [done|].
    cbn [ddata set_ddata] in Hb.
    change (for_each_button gpio_keys_report_event (set_ddata lines s))
      with (foldl (λ s j, gpio_keys_report_event j s)
              (set_ddata lines s) (seq 0 (length lines))).
    rewrite Hb. apply lines_of_buttons_buttons. }
  unfold r, gpio_keys_remove. cbv zeta.
  set (d0 := call [PmRuntimeDisable; SysfsRemoveGroup gpio_keys_attr_group;
                   DeviceInitWakeup 0] d).
  assert (Hs0 : sys d0 = sys d) by done.
  assert (Hc0 : calls d0 = calls d ++ [PmRuntimeDisable;
            SysfsRemoveGroup gpio_keys_attr_group; DeviceInitWakeup 0]) by done.
  destruct (remove_lines_spec (length (ddata (sys d0))) d0)
    as (Hg1 & Hq1 & _); [done|].
  destruct (remove_lines_calls (length (ddata (sys d0))) d0)
    as (_ & _ & Hidle & _); [done|].
  set (d1 := foldl (λ d j, release_line j d) d0
               (seq 0 (length (ddata (sys d0))))) in *.
  rewrite take_ge in Hg1, Hq1 by (by rewrite length_fmap).
  rewrite Hs0, Hb in Hg1, Hq1.
  cbn [fst snd call calls sys].
  split; [done|]. split; [done|]. split; [done|].
  split; [|split].
  - intros g. rewrite gpios_held_app, Hg1, Hc0, gpios_held_app, Hg,
      !gpios_held_cons, !gpios_held_nil. cbn [gpio_delta]. lia.
  - intros q j. rewrite irqs_held_app, Hq1, Hc0, irqs_held_app, Hq,
      !irqs_held_cons, !irqs_held_nil. cbn [irq_delta]. lia.
  - intros k b Hk.
    assert (Hlt : (k < length (ddata (sys d0)))%nat).
    { apply lookup_lt_Some in Hk.
      destruct (remove_lines_calls (length (ddata (sys d0))) d0)
        as (_ & Hbb & _); [done|]. fold d1 in Hbb.
      apply (f_equal length) in Hbb. rewrite !length_fmap in Hbb. lia. }
    destruct (lookup_lt_is_Some_2 _ _ Hlt) as (b0 & Hk0).
    destruct (Hidle k b0 Hlt Hk0) as (b' & Hk' & Hw & _). congruence.
Qed.

(** ** Suspend and resume *)

Lemma call_call (cs1 cs2 : list platform_call) (d : device) :
  call cs2 (call cs1 d) = call (cs1 ++ cs2) d.
Proof. unfold call. cbn. by rewrite app_assoc. Qed.

Lemma call_nil (d : device) : call [] d = d.
Proof. destruct d. unfold call. cbn. by rewrite app_nil_r. Qed.

Lemma wakeup_irqs_cons (b : gpio_button_data) (l : list gpio_button_data) :
  wakeup_irqs (b :: l)
  = (if truthy (wakeup (button b)) then [gpio_to_irq (gpio (button b))]
     else []) ++ wakeup_irqs l.
Proof.
  unfold wakeup_irqs. cbn [List.filter].
  by destruct (truthy (wakeup (button b))).
Qed.

Lemma wakeup_irqs_app (l1 l2 : list gpio_button_data) :
  wakeup_irqs (l1 ++ l2) = wakeup_irqs l1 ++ wakeup_irqs l2.
Proof.
  induction l1 as [|b l1 IH]; [done|].
  cbn [app]. by rewrite !wakeup_irqs_cons, IH, app_assoc.
Qed.

Lemma suspend_wake_calls (l : list gpio_button_data) (d : device) :
  foldl (λ d bdata,
           if truthy (wakeup (button bdata))
           then call [EnableIrqWake (gpio_to_irq (gpio (button bdata)))] d
           else d) d l
  = call (EnableIrqWake <$> wakeup_irqs l) d.
Proof.
  revert d. induction l as [|b l IH]; intros d.
  - cbn. by rewrite call_nil.
  - cbn [foldl]. rewrite IH, wakeup_irqs_cons.
    destruct (truthy (wakeup (button b))); [|done].
    by rewrite call_call.
Qed.

Lemma resume_lines_spec (may_wakeup : bool) (n : nat) (d : device) :
  (n ≤ length (ddata (sys d)))%nat →
  let d' := foldl (λ d j, resume_line may_wakeup j d) d (seq 0 n) in
  sys d' = foldl (λ s j, gpio_keys_report_event j s) (sys d) (seq 0 n)
  ∧ calls d'
    = calls d ++ (if may_wakeup
                  then DisableIrqWake <$> wakeup_irqs (take n (ddata (sys d)))
                  else [])
  ∧ enabled d' = enabled d
  ∧ enable_after_suspend d' = enable_after_suspend d
  ∧ drv_enable d' = drv_enable d
  ∧ drv_disable d' = drv_disable d
  ∧ published d' = published d.
Proof.
  induction n as [|n IH]; intros Hn d'.
  - unfold d'. cbn. rewrite take_0.
    destruct may_wakeup; cbn; by rewrite app_nil_r.
  - destruct IH as (Hs & Hc & He & Hea & Hde & Hdd & Hp); [lia|].
    unfold d'. rewrite !seq_S, !foldl_app. cbn [foldl plus].
    set (d1 := foldl (λ d j, resume_line may_wakeup j d) d (seq 0 n)) in *.
    destruct (report_lines_spec n (sys d)) as (_ & Hb & _); [lia|].
    rewrite <- Hs in Hb.
    assert (Hlook : ∃ b, ddata (sys d) !! n = Some b).
    { apply lookup_lt_is_Some. lia. }
    destruct Hlook as (b & Hbn).
    assert (Hb1 : ∃ b1, ddata (sys d1) !! n = Some b1 ∧ button b1 = button b).
    { assert (H : (button <$> ddata (sys d1)) !! n = Some (button b))
        by (by rewrite Hb, list_lookup_fmap, Hbn).
      rewrite list_lookup_fmap in H.
      destruct (ddata (sys d1) !! n) as [b1|]; [|done].
      exists b1. split; [done|]. by injection H. }
    destruct Hb1 as (b1 & Hb1 & Hbb1).
    unfold resume_line. rewrite Hb1, Hbb1, <- Hs.
    rewrite (take_S_r _ n b Hbn), wakeup_irqs_app, wakeup_irqs_cons.
    change (wakeup_irqs []) with (@nil Z). rewrite app_nil_r.
    destruct (truthy (wakeup (button b))), may_wakeup;
      cbn [andb sys calls enabled enable_after_suspend drv_enable drv_disable
           published on_sys call];
      repeat split; try done;
      rewrite Hc, ?fmap_app, ?app_nil_r; try done;
      by rewrite <- app_assoc.
Qed.

Lemma wake_calls_balanced (q : Z) (l : list Z) :
  wakes_enabled q (EnableIrqWake <$> l)
  + wakes_enabled q (DisableIrqWake <$> l) = 0.
Proof.
  unfold wakes_enabled, sum_calls.
  induction l as [|x l IH]; [done|]. cbn [fmap list_fmap foldr wake_delta].
  change (foldr (λ c n, wake_delta q c + n) 0 (EnableIrqWake <$> l))
    with (wakes_enabled q (EnableIrqWake <$> l)) in *.
  destruct (x =? q); cbn in *; lia.
Qed.

(** X22.  Suspending and then resuming, with the same answer from
    [device_may_wakeup], returns 0 twice and balances.  When the device may
    wake the system, suspend enables wake-up on the interrupts of the lines
    marked as wake-up sources, in order, and resume disables it on the same
    interrupts, so every interrupt ends with the wake-up count it had.  When
    it may not, suspend calls the [disable] callback exactly when the device
    is open and has one, and resume calls the [enable] callback exactly when
    the device was open at suspend and has one; the device stays open or
    closed as it was.  Suspend itself touches no line. *)
Theorem suspend_resume_balanced (may_wakeup : bool) (d : device) :
  let d1 := snd (gpio_keys_suspend may_wakeup d) in
  let d2 := snd (gpio_keys_resume may_wakeup d1) in
  fst (gpio_keys_suspend may_wakeup d) = 0
  ∧ fst (gpio_keys_resume may_wakeup d1) = 0
  ∧ sys d1 = sys d
  ∧ calls d1
    = calls d
      ++ (if may_wakeup then EnableIrqWake <$> wakeup_irqs (ddata (sys d))
          else if enabled d && drv_disable d then [PdataDisable] else [])
  ∧ calls d2
    = calls d1
      ++ (if may_wakeup then DisableIrqWake <$> wakeup_irqs (ddata (sys d))
          else if enabled d && drv_enable d then [PdataEnable] else [])
  ∧ (∀ q, wakes_enabled q (calls d2) = wakes_enabled q (calls d))
  ∧ enabled d2 = enabled d.
Proof.
  intros d1 d2.
  assert (H1 : fst (gpio_keys_suspend may_wakeup d) = 0
               ∧ sys d1 = sys d
               ∧ calls d1
                 = calls d
                   ++ (if may_wakeup
                       then EnableIrqWake <$> wakeup_irqs (ddata (sys d))
                       else if enabled d && drv_disable d
                            then [PdataDisable] else [])
               ∧ enabled d1 = enabled d
               ∧ enable_after_suspend d1
                 = (if may_wakeup then enable_after_suspend d else enabled d)
               ∧ drv_enable d1 = drv_enable d).
  { unfold d1, gpio_keys_suspend. destruct may_wakeup.
    - cbn [fst snd]. by rewrite suspend_wake_calls.
    - cbv zeta. cbn [enabled drv_disable set_enable_after_suspend].
      destruct (enabled d && drv_disable d); cbn; by rewrite ?app_nil_r. }
  destruct H1 as (Hr1 & Hs1 & Hc1 & He1 & Hea1 & Hde1).
  destruct (resume_lines_spec may_wakeup (length (ddata (sys d1))) d1)
    as (_ & Hc & He & Hea & Hde & _); [done|].
  rewrite take_ge in Hc by done.
  set (d3 := foldl (λ d j, resume_line may_wakeup j d) d1
               (seq 0 (length (ddata (sys d1))))) in *.
  rewrite Hs1 in Hc.
  assert (H2 : calls d2
    = calls d1
      ++ (if may_wakeup then DisableIrqWake <$> wakeup_irqs (ddata (sys d))
          else if enabled d && drv_enable d then [PdataEnable] else [])
    ∧ enabled d2 = enabled d).
  { unfold d2, gpio_keys_resume. cbv zeta. fold d3.
    rewrite Hea, Hde, Hea1, Hde1.
    destruct may_wakeup; cbn [negb andb snd calls enabled on_sys].
    - by rewrite Hc, He, He1.
    - destruct (enabled d && drv_enable d);
        cbn [calls enabled call]; by rewrite Hc, He, He1, ?app_nil_r. }
  destruct H2 as (Hc2 & He2).
  split; [done|]. split; [done|]. split; [done|]. split; [done|].
  split; [done|]. split; [|done].
  intros q. rewrite Hc2, Hc1, !wakes_enabled_app.
  destruct may_wakeup.
  - pose proof (wake_calls_balanced q (wakeup_irqs (ddata (sys d)))). lia.
  - destruct (enabled d && drv_disable d), (enabled d && drv_enable d);
      cbn; lia.
Qed.

(** X23.  Resuming evaluates every line once, in order, at the level found
    on its GPIO on entry, and ends with a sync on the input device; it keeps
    the buttons of the lines, and it acquires and releases no GPIO and no
    interrupt. *)
Theorem resume_reevaluates_lines (may_wakeup : bool) (d : device) :
  let d2 := snd (gpio_keys_resume may_wakeup d) in
  evaluations (log (sys d2))
  = evaluations (log (sys d)) ++ reads_of_lines (sys d) (ddata (sys d))
  ∧ (∃ l, log (sys d2) = l ++ [InputSync])
  ∧ button <$> ddata (sys d2) = button <$> ddata (sys d)
  ∧ (∀ g, gpios_held g (calls d2) = gpios_held g (calls d))
  ∧ (∀ q j, irqs_held q j (calls d2) = irqs_held q j (calls d)).
Proof.
  intros d2.
  destruct (resume_lines_spec may_wakeup (length (ddata (sys d))) d)
    as (Hs & Hc & _ & Hea & Hde & _); [done|].
  destruct (report_lines_spec (length (ddata (sys d))) (sys d))
    as (Hev & Hb & _); [done|].
  rewrite take_ge in Hev, Hc by done.
  unfold d2, gpio_keys_resume. cbv zeta.
  set (d3 := foldl (λ d j, resume_line may_wakeup j d) d
               (seq 0 (length (ddata (sys d))))) in *.
  rewrite <- Hs in Hev, Hb.
  assert (Hwake : ∀ l : list Z,
            forallb neutral_call (DisableIrqWake <$> l) = true)
    by (induction l; done).
  assert (Hheld : (∀ g, gpios_held g (calls d3) = gpios_held g (calls d))
                  ∧ (∀ q j, irqs_held q j (calls d3) = irqs_held q j (calls d))).
  { rewrite Hc. destruct may_wakeup.
    - destruct (neutral_calls_held _
                  (Hwake (wakeup_irqs (ddata (sys d))))) as [Hg Hq].
      split; [intros g; rewrite gpios_held_app, Hg; lia|].
      intros q j. rewrite irqs_held_app, Hq. lia.
    - by rewrite app_nil_r. }
  destruct Hheld as [Hg Hq].
  destruct (negb may_wakeup && enable_after_suspend d3 && drv_enable d3);
    cbn [snd sys calls on_sys call log ddata input_sync emit].
  - split; [by rewrite evaluations_app; cbn; rewrite app_nil_r|].
    split; [by eexists|]. split; [done|]. split.
    + intros g. rewrite gpios_held_app, Hg, gpios_held_cons, gpios_held_nil.
      cbn [gpio_delta]. lia.
    + intros q j. rewrite irqs_held_app, Hq, irqs_held_cons, irqs_held_nil.
      cbn [irq_delta]. lia.
  - split; [by rewrite evaluations_app; cbn; rewrite app_nil_r|].
    split; [by eexists|]. done.
Qed.

(** X24.  Opening the device marks it open before the [enable] callback
    runs, and stays so when the callback fails: the error is returned, yet a
    following suspend without wake-up still calls [disable].  Closing calls
    [disable] when there is one, marks the device closed and drops the
    runtime PM reference taken by the open; a suspend and resume of the
    closed device then call neither callback. *)
Theorem open_close_and_sleep (enable_result : Z) (d : device) :
  let o := gpio_keys_open enable_result d in
  let c := gpio_keys_close (snd o) in
  fst o = (if drv_enable d then enable_result else 0)
  ∧ enabled (snd o) = true
  ∧ calls (snd o)
    = calls d ++ PmRuntimeGetSync
                 :: (if drv_enable d then [PdataEnable] else [])
  ∧ calls (snd (gpio_keys_suspend false (snd o)))
    = calls (snd o) ++ (if drv_disable d then [PdataDisable] else [])
  ∧ enabled c = false
  ∧ calls c
    = calls (snd o)
      ++ (if drv_disable d then [PdataDisable] else []) ++ [PmRuntimePut]
  ∧ calls (snd (gpio_keys_resume false (snd (gpio_keys_suspend false c))))
    = calls c.
Proof.
  intros o c.
  assert (Ho : fst o = (if drv_enable d then enable_result else 0)
               ∧ enabled (snd o) = true
               ∧ calls (snd o)
                 = calls d ++ PmRuntimeGetSync
                      :: (if drv_enable d then [PdataEnable] else [])
               ∧ drv_disable (snd o) = drv_disable d
               ∧ drv_enable (snd o) = drv_enable d).
  { unfold o, gpio_keys_open. cbv zeta.
    cbn [drv_enable set_enabled call].
    destruct (drv_enable d) eqn:Hd; cbn; by rewrite ?Hd, <- ?app_assoc. }
  destruct Ho as (Hr & He & Hc & Hdd & Hde).
  assert (Hcl : enabled c = false
                ∧ calls c
                  = calls (snd o)
                    ++ (if drv_disable d then [PdataDisable] else [])
                    ++ [PmRuntimePut]
                ∧ drv_enable c = drv_enable d).
  { unfold c, gpio_keys_close. cbv zeta. rewrite Hdd.
    destruct (drv_disable d) eqn:Hd; cbn; by rewrite ?Hd, <- ?app_assoc. }
  destruct Hcl as (Hec & Hcc & Hdec).
  split; [done|]. split; [done|]. split; [done|]. split.
  { unfold gpio_keys_suspend. cbv zeta.
    cbn [enabled drv_disable set_enable_after_suspend]. rewrite He, Hdd.
    destruct (drv_disable d); cbn; by rewrite ?app_nil_r. }
  split; [done|]. split; [done|].
  set (d1 := snd (gpio_keys_suspend false c)).
  assert (H1 : calls d1 = calls c ∧ enable_after_suspend d1 = false
               ∧ sys d1 = sys c).
  { unfold d1, gpio_keys_suspend. cbv zeta.
    cbn [enabled drv_disable set_enable_after_suspend]. by rewrite Hec. }
  destruct H1 as (Hc1 & Hea1 & Hs1).
  destruct (resume_lines_spec false (length (ddata (sys d1))) d1)
    as (_ & Hc2 & _ & Hea2 & _); [done|].
  unfold gpio_keys_resume. cbv zeta.
  set (d3 := foldl (λ d j, resume_line false j d) d1
               (seq 0 (length (ddata (sys d1))))) in *.
  rewrite Hea2, Hea1. cbn [negb andb snd calls on_sys].
  by rewrite Hc2, app_nil_r.
Qed.

End driver.

(** ** The properties on the example board *)

Lemma example_consistent : consistent example_gpio_to_irq example_system.
Proof.
  split.
  - apply (bool_decide_unpack _). by vm_compute.
  - intros i bdata Hi.
    do 6 (destruct i as [|i]; [injection Hi as <-; by vm_compute|]).
    discriminate Hi.
Qed.

(** Enabling the volume-up line, which is enabled, changes nothing. *)
Lemma disable_enable_idempotent_witness :
  ddata example_system !! 0%nat
  = Some (example_line example_volup 30)
  ∧ gpio_keys_enable_button example_gpio_to_irq 0 example_system = example_system.
Proof.
  split; [reflexivity|].
  apply (disable_enable_idempotent example_gpio_to_irq 0 example_system
           (example_line example_volup 30)
           eq_refl); reflexivity.
Defined.

(** Writing [5,11] to [disabled_switches] is refused: switch 5 cannot be
    disabled. *)
Lemma store_rejects_non_disableable_witness :
  ddata example_system !! 3%nat
  = Some (example_line (example_button 5 40 EV_SW false 0) 30)
  ∧ test_bit 5 (bitmap_of [5; 11]) = true
  ∧ ∃ error, error ≠ 0
      ∧ gpio_keys_attr_store_helper example_gpio_to_irq true 0
          (bitmap_of [5; 11]) EV_SW example_system = (error, example_system)
      ∧ gpio_keys_store example_gpio_to_irq EV_SW true 0
          (bitmap_of [5; 11]) 5 example_system = (error, example_system)
      ∧ (true = true → 0 = 0 → error = - EINVAL).
Proof.
  split; [reflexivity|]. split; [reflexivity|].
  apply (store_rejects_non_disableable example_gpio_to_irq true 0
           (bitmap_of [5; 11]) EV_SW 5 example_system 3
           (example_line (example_button 5 40 EV_SW false 0) 30));
    reflexivity.
Defined.

(** Writing [11] to [disabled_switches] succeeds and disables switch 11. *)
Lemma store_applies_bitmap_witness :
  consistent example_gpio_to_irq example_system
  ∧ ∃ s', gpio_keys_attr_store_helper example_gpio_to_irq true 0
            (bitmap_of [11]) EV_SW example_system = (0, s')
          ∧ ∃ bdata', ddata s' !! 4%nat = Some bdata'
                      ∧ disabled bdata' = true
                      ∧ irq_masked (example_gpio_to_irq 41) s' = true
                      ∧ timer bdata' = None.
Proof.
  split; [exact example_consistent|].
  exists (snd (gpio_keys_attr_store_helper example_gpio_to_irq true 0
                 (bitmap_of [11]) EV_SW example_system)).
  assert (H : gpio_keys_attr_store_helper example_gpio_to_irq true 0
                (bitmap_of [11]) EV_SW example_system
              = (0, snd (gpio_keys_attr_store_helper example_gpio_to_irq true 0
                           (bitmap_of [11]) EV_SW example_system))).
  { apply injective_projections; [by vm_compute|reflexivity]. }
  split; [exact H|].
  destruct (store_applies_bitmap example_gpio_to_irq true 0 (bitmap_of [11])
              EV_SW example_system _ example_consistent H) as (_ & _ & Hlines).
  destruct (Hlines 4%nat (example_line (example_button 11 41 EV_SW true 0) 30)
              eq_refl) as (bdata' & Hl & _ & Hon & _).
  exists bdata'. split; [exact Hl|]. apply Hon; reflexivity.
Defined.

(** Writing [115,500] to [wakeup_keys]: volume up may wake the system, no
    other line may, and code 500, which no line has, is ignored. *)
Lemma wakeup_enable_sets_named_witness :
  wakeup_enable true 0 (bitmap_of [KEY_VOLUMEUP; 500]) 8 example_system
  = (8, set_ddata (wakeup_line (bitmap_of [KEY_VOLUMEUP; 500])
                     <$> ddata example_system) example_system)
  ∧ (λ d, wakeup (button d))
      <$> ddata (snd (wakeup_enable true 0 (bitmap_of [KEY_VOLUMEUP; 500]) 8
                        example_system))
    = [1; 0; 0; 0; 0; 0]
  ∧ wakeup_enable true 0 (bitmap_of [KEY_VOLUMEUP; 500]) 8 example_system
    = wakeup_enable true 0 (bitmap_of [KEY_VOLUMEUP]) 8 example_system.
Proof.
  destruct (wakeup_enable_sets_named 0 (bitmap_of [KEY_VOLUMEUP; 500]) 8
              example_system) as (Hcount & Hset & _ & _).
  destruct (wakeup_enable_sets_named 0 (bitmap_of [KEY_VOLUMEUP]) 8
              example_system) as (_ & _ & _ & Hsame & _).
  split; [|split].
  - apply injective_projections; [exact Hcount|apply Hset; reflexivity].
  - rewrite (Hset eq_refl). reflexivity.
  - apply Hsame. intros i b Hi.
    do 6 (destruct i as [|i]; [injection Hi as <-; reflexivity|]).
    discriminate Hi.
Defined.

(** C9 as stated fails when the bitmap cannot be allocated: the write
    returns [-ENOMEM], not the byte count. *)
Lemma wakeup_enable_can_fail :
  wakeup_enable false 0 (bitmap_of [KEY_VOLUMEUP]) 4 example_system
  = (- ENOMEM, example_system)
  ∧ - ENOMEM < 0 ∧ - ENOMEM ≠ 4.
Proof. by vm_compute. Qed.

(** The driver on the example board: volume up on GPIO 67, volume down on
    92, home on 91. *)
Local Abbreviation board_report_event := (gpio_keys_report_event 67 92 91 91).
Local Abbreviation board_evaluate :=
  (evaluate 67 92 91 91 example_gpio_to_irq example_msecs_to_jiffies).
Local Abbreviation board_step :=
  (step 67 92 91 91 example_gpio_to_irq example_msecs_to_jiffies).
Local Abbreviation board_run :=
  (run 67 92 91 91 example_gpio_to_irq example_msecs_to_jiffies).

(** Volume up tapped (released before the long-press work runs): one pulse
    of [KEY_VOLUMEUP]. *)
Lemma long_press_gesture_witness :
  logical_state example_volup 0 = 1
  ∧ logical_state example_volup 1 = 0
  ∧ volkey_engaged 0 example_volup example_system
  ∧ ∃ e, volkey_skip_track_work (wq (board_evaluate 0 67 0 example_system))
         = Some e
       ∧ e = 1300
       ∧ transport_calls
           (log (volkey_release_after 67 92 91 91 example_gpio_to_irq
                   example_msecs_to_jiffies 0 67 1 1250
                   (board_evaluate 0 67 0 example_system)))
         = [PonkeyRemapPowerKey KEY_POWER KEY_VOLUMEUP;
            PonkeyEmulator KEY_VOLUMEUP 1; PonkeyEmulator KEY_VOLUMEUP 0]
       ∧ transport_calls
           (log (volkey_release_after 67 92 91 91 example_gpio_to_irq
                   example_msecs_to_jiffies 0 67 1 1350
                   (board_evaluate 0 67 0 example_system)))
         = [PonkeyRemapPowerKey KEY_POWER KEY_NEXTSONG;
            PonkeyEmulator KEY_NEXTSONG 1; PonkeyEmulator KEY_NEXTSONG 0].
Proof.
  assert (Heng : volkey_engaged 0 example_volup example_system).
  { split; [eexists; split; reflexivity|repeat split; reflexivity]. }
  split; [reflexivity|]. split; [reflexivity|]. split; [exact Heng|].
  destruct (long_press_gesture 67 92 91 91 example_gpio_to_irq
              example_msecs_to_jiffies 0 example_volup 0 1 example_system
              eq_refl eq_refl) as [Hvol _].
  destruct Hvol as (e & He & Hfresh & Hshort & Hlong);
    [left; reflexivity|discriminate|exact Heng|reflexivity|].
  assert (Hval : e = 1300) by (apply Hfresh; right; reflexivity).
  exists e. split; [exact He|]. split; [exact Hval|]. split.
  - apply (Hshort 1250). rewrite Hval. reflexivity.
  - apply (Hlong 1350); rewrite ?Hval; discriminate.
Defined.

(** With a volume pulse in flight a further release of volume up is
    dropped, and with the on-demand injector busy a [press] only logs. *)
Lemma emulation_single_flight_per_path_witness :
  (volkey_do_volume_key_press_is_ongoing
     (volkey (board_evaluate 0 67 1 (board_evaluate 0 67 0 example_system)))
   = true
   ∧ transport_calls
       (log (board_report_event 0
               (board_evaluate 0 67 1 (board_evaluate 0 67 0 example_system))))
     = transport_calls
         (log (board_evaluate 0 67 1 (board_evaluate 0 67 0 example_system))))
  ∧ (emu_working (emu example_system_emu_working) = true
     ∧ gpio_keys_emulator_store EmuPress 5 example_system_emu_working
       = (5, pr_err msg_emulator_work_running example_system_emu_working)).
Proof.
  destruct (emulation_single_flight_per_path 67 92 91 91) as (Hvol & _ & Hemu).
  split.
  - split; [reflexivity|].
    apply (Hvol 0%nat
             (board_evaluate 0 67 1 (board_evaluate 0 67 0 example_system))
             (example_line example_volup 30));
      try reflexivity; [left; reflexivity|discriminate].
  - split; [reflexivity|]. apply Hemu. reflexivity.
Defined.

(** C3 as stated fails across paths: with the volume pulse queued and its
    flag set, a tap on the home key queues the home pulse as well, and the
    worker then issues both press/release pairs. *)
Lemma emulation_not_system_wide :
  volkey_do_volume_key_press_is_ongoing
    (volkey (board_evaluate 0 67 1 (board_evaluate 0 67 0 example_system)))
  = true
  ∧ volkey_do_volume_key_press_work
      (wq (board_evaluate 2 91 1
             (board_evaluate 2 91 0
                (board_evaluate 0 67 1 (board_evaluate 0 67 0 example_system)))))
    = true
  ∧ homekey_do_press_play_work
      (wq (board_evaluate 2 91 1
             (board_evaluate 2 91 0
                (board_evaluate 0 67 1 (board_evaluate 0 67 0 example_system)))))
    = true
  ∧ transport_calls
      (log (board_run [VolumeKeyPressWork; HomePressPlayWork]
              (board_evaluate 2 91 1
                 (board_evaluate 2 91 0
                    (board_evaluate 0 67 1
                       (board_evaluate 0 67 0 example_system))))))
    = [PonkeyRemapPowerKey KEY_POWER KEY_VOLUMEUP;
       PonkeyRemapPowerKey KEY_POWER 91;
       PonkeyEmulator KEY_VOLUMEUP 1; PonkeyEmulator KEY_VOLUMEUP 0;
       PonkeyEmulator 91 1; PonkeyEmulator 91 0].
Proof. by vm_compute. Qed.

(** Three edges within the 3-jiffy window on switch 5, an active-low line,
    then the level settles at 0: one evaluation, which reads 0 and reports
    the switch as on. *)
Lemma debounce_collapses_burst_witness :
  ddata example_system !! 3%nat
  = Some (example_line (example_button 5 40 EV_SW false 0) 30)
  ∧ within_window 3 1000 [(1001, 0); (1002, 1)]
  ∧ evaluations
      (log (board_run
              (burst 3 40 [(1000, 1); (1001, 0); (1002, 1)]
               ++ [Level 40 0; Tick 1005; Work 3]) example_system))
    = [GpioGetValue 40 0]
  ∧ input_events
      (log (board_run
              (burst 3 40 [(1000, 1); (1001, 0); (1002, 1)]
               ++ [Level 40 0; Tick 1005; Work 3]) example_system))
    = [InputEvent EV_SW 5 1].
Proof.
  assert (Hw : within_window 3 1000 [(1001, 0); (1002, 1)])
    by (vm_compute; intuition discriminate).
  split; [reflexivity|]. split; [exact Hw|].
  destruct (debounce_collapses_burst 67 92 91 91 example_gpio_to_irq
              example_msecs_to_jiffies 3 example_system
              (example_line (example_button 5 40 EV_SW false 0) 30)
              1000 1 [(1001, 0); (1002, 1)]
              0 1005 eq_refl) as (_ & _ & Hburst).
  destruct (Hburst ltac:(discriminate) eq_refl eq_refl eq_refl
              ltac:(discriminate) Hw ltac:(discriminate)
              ltac:(discriminate)) as (Hev & _ & Hrep).
  destruct (Hrep eq_refl eq_refl) as (_ & Hlow & _).
  split; [exact Hev|]. apply Hlow; [discriminate|reflexivity].
Defined.

(** With the remap features off, volume down is reported as itself. *)
Lemma report_event_bypass_witness :
  ddata example_system_emulator !! 1%nat = Some (example_line example_voldown 30)
  ∧ power_key_capture 67 92 (params example_system_emulator) 92 = false
  ∧ session_gate 67 92 91 (params example_system_emulator) 92 = false
  ∧ log (board_report_event 1 example_system_emulator)
    = [GpioGetValue 92 1; InputEvent EV_KEY KEY_VOLUMEDOWN 0; InputSync].
Proof.
  split; [reflexivity|]. split; [reflexivity|]. split; [reflexivity|].
  apply (report_event_bypass 67 92 91 91 1 example_system_emulator
           (example_line example_voldown 30)); reflexivity.
Defined.

(** C7 as stated fails in the power-key emulation mode: the gate is closed,
    yet the pressed volume-up line is not reported as [KEY_VOLUMEUP] but
    sent to the power-key emulator as [KEY_POWER]. *)
Lemma report_event_bypass_fails_in_emulator_mode :
  session_gate 67 92 91 (params example_system_emulator) 67 = false
  ∧ log (board_report_event 0 example_system_emulator)
    = [GpioGetValue 67 0; PonkeyEmulator KEY_POWER 1]
  ∧ input_events (log (board_report_event 0 example_system_emulator)) = [].
Proof. by vm_compute. Qed.

(** An evaluation of volume down leaves the selector at "down". *)
Lemma volkey_selector_follows_last_edge_witness :
  ddata example_system !! 1%nat = Some (example_line example_voldown 30)
  ∧ remap_gate (params example_system) = true
  ∧ volkey_gate (params example_system) = true
  ∧ volkey_emulate_key_nextsong (volkey (board_report_event 1 example_system))
    = false.
Proof.
  split; [reflexivity|]. split; [reflexivity|]. split; [reflexivity|].
  apply (volkey_selector_follows_last_edge 67 92 91 91 1 example_system
           (example_line example_voldown 30));
    try reflexivity; [right; reflexivity|discriminate].
Defined.

(** The absolute axis at rest: no report, no change of the lines. *)
Lemma abs_line_report_witness :
  ddata example_system !! 5%nat = Some (example_line example_abs 30)
  ∧ type example_abs = EV_ABS
  ∧ ddata (board_report_event 5 example_system) = ddata example_system
  ∧ input_events (log (board_report_event 5 example_system)) = [].
Proof.
  split; [reflexivity|]. split; [reflexivity|].
  destruct (abs_line_report 67 92 91 91 example_gpio_to_irq
              example_msecs_to_jiffies 5 example_system
              (example_line example_abs 30) eq_refl eq_refl)
    as (Hd & _ & Hz & _).
  split; [exact Hd|]. apply Hz. reflexivity.
Defined.

(** ** Further properties on the example board *)

Local Abbreviation board_probe := (gpio_keys_probe 67 92 91 91 example_gpio_to_irq).
Local Abbreviation board_remove := (gpio_keys_remove example_gpio_to_irq).

(** The example board with switch 11 disabled. *)
Local Abbreviation example_system_sw11_off :=
  (gpio_keys_disable_button example_gpio_to_irq 4 example_system).

(** The example board with an evaluation of the home key queued. *)
Local Abbreviation example_system_home_queued :=
  (board_run [Level 91 0; Irq 2] example_system).

Lemma example_sw11_off_consistent :
  consistent example_gpio_to_irq example_system_sw11_off.
Proof.
  split.
  - apply (bool_decide_unpack _). by vm_compute.
  - intros i bdata Hi.
    do 6 (destruct i as [|i]; [injection Hi as <-; by vm_compute|]).
    discriminate Hi.
Qed.

(** With switch 11 disabled, [disabled_switches] prints code 11; and of two
    switches with codes 20 and 3, [switches] prints 3 only, 20 being no code
    below [SW_CNT]. *)
Lemma show_helper_lists_lines_witness :
  (∃ bits,
     gpio_keys_attr_show_helper true EV_SW true example_system_sw11_off
     = inr bits
     ∧ Z.testbit bits 11 = true)
  ∧ gpio_keys_attr_show_helper true EV_SW false
      (set_ddata [example_line (example_button 20 40 EV_SW true 0) 30;
                  example_line (example_button 3 41 EV_SW true 0) 30]
         example_system)
    = inr (bitmap_of [3]).
Proof.
  split; [|reflexivity].
  destruct (show_helper_lists_lines 67 example_gpio_to_irq
              example_msecs_to_jiffies EV_SW true example_system_sw11_off
              (or_intror eq_refl)) as (_ & _ & bits & Hb & _ & Hbits).
  exists bits. split; [exact Hb|].
  apply (Hbits 11); [discriminate|]. split; [reflexivity|].
  exists (set_disabled true
            (example_line (example_button 11 41 EV_SW true 0) 30)).
  split; [|split; [reflexivity|split; reflexivity]].
  apply (list_elem_of_lookup_2 _ 4%nat). reflexivity.
Defined.

(** [switches] prints code 5, of the switch that cannot be disabled. *)
Lemma show_keys_lists_all_witness :
  ∃ all,
    gpio_keys_attr_show_helper true EV_SW false example_system = inr all
    ∧ Z.testbit all 5 = true.
Proof.
  destruct (show_keys_lists_all 67 example_gpio_to_irq
              example_msecs_to_jiffies EV_SW example_system
              (or_intror eq_refl))
    as (all & dis & Ha & _ & Hall & _).
  exists all. split; [exact Ha|].
  apply (Hall 3%nat (example_line (example_button 5 40 EV_SW false 0) 30));
    [reflexivity|reflexivity|split; [discriminate|reflexivity]].
Defined.

(** Writing [11] to [disabled_switches] and reading it back: code 11 is
    printed. *)
Lemma store_then_show_witness :
  fst (gpio_keys_attr_store_helper example_gpio_to_irq true 0
         (bitmap_of [11]) EV_SW example_system) = 0
  ∧ ∃ shown,
      gpio_keys_attr_show_helper true EV_SW true
        (snd (gpio_keys_attr_store_helper example_gpio_to_irq true 0
                (bitmap_of [11]) EV_SW example_system)) = inr shown
      ∧ Z.testbit shown 11 = true.
Proof.
  split; [reflexivity|].
  assert (H : gpio_keys_attr_store_helper example_gpio_to_irq true 0
                (bitmap_of [11]) EV_SW example_system
              = (0, snd (gpio_keys_attr_store_helper example_gpio_to_irq true 0
                           (bitmap_of [11]) EV_SW example_system))).
  { apply injective_projections; [by vm_compute|reflexivity]. }
  destruct (store_then_show 67 example_gpio_to_irq example_msecs_to_jiffies
              true 0 (bitmap_of [11]) EV_SW example_system _
              (or_intror eq_refl) H) as ((shown & Hs & Hbits) & _).
  exists shown. split; [exact Hs|].
  apply (Hbits 11); [discriminate|]. split; [reflexivity|].
  split; [reflexivity|].
  exists (example_line (example_button 11 41 EV_SW true 0) 30).
  split; [|split; [reflexivity|split; [reflexivity|discriminate]]].
  apply (list_elem_of_lookup_2 _ 4%nat). reflexivity.
Defined.

(** Writing [emu_keycode=115] and [press], then letting the worker run:
    one press and one release of volume up. *)
Lemma emulator_interface_pulse_witness :
  emu_working (emu example_system) = false
  ∧ input_events
      (log (run_gpio_keys_emulator_work
              (snd (gpio_keys_emulator_store EmuPress 5
                      (snd (gpio_keys_emulator_store
                              (EmuKeycode 1 KEY_VOLUMEUP) 15
                              example_system))))))
    = [InputEvent EV_KEY KEY_VOLUMEUP 1; InputEvent EV_KEY KEY_VOLUMEUP 0].
Proof.
  split; [reflexivity|].
  destruct (emulator_interface_pulse 1 KEY_VOLUMEUP 15 5 example_system)
    as (_ & _ & _ & Hpulse & _); [discriminate|reflexivity|].
  destruct Hpulse as (_ & _ & _ & _ & Hfound & _); [discriminate|].
  apply Hfound. exists (example_line example_volup 30).
  split; [|reflexivity]. apply (list_elem_of_lookup_2 _ 0%nat). reflexivity.
Defined.

(** In the power-key emulation mode the pressed volume-up line goes to the
    power-key emulator. *)
Lemma ponkey_mode_takes_line_witness :
  ddata example_system_emulator !! 0%nat
  = Some (example_line example_volup 30)
  ∧ power_key_capture 67 92 (params example_system_emulator) 67 = true
  ∧ log (board_report_event 0 example_system_emulator)
    = [GpioGetValue 67 0; PonkeyEmulator KEY_POWER 1].
Proof.
  split; [reflexivity|]. split; [reflexivity|].
  destruct (ponkey_mode_takes_line 67 92 91 91 0 example_system_emulator
              (example_line example_volup 30) eq_refl) as (Htaken & _).
  destruct Htaken as (Hlog & _); [reflexivity|]. exact Hlog.
Defined.

(** Switch 11, disabled: edges, ticks and work items on it lead to no read
    of GPIO 41. *)
Lemma disabled_line_is_silent_witness :
  ddata example_system_sw11_off !! 4%nat
  = Some (set_disabled true
            (example_line (example_button 11 41 EV_SW true 0) 30))
  ∧ reads_of 41
      (log (board_run [Level 41 0; Irq 4; Tick 1005; Work 4; Level 67 0;
                       Irq 0; Tick 1010; Work 0]
              example_system_sw11_off))
    = reads_of 41 (log example_system_sw11_off).
Proof.
  split; [reflexivity|].
  apply (disabled_line_is_silent 67 92 91 91 example_gpio_to_irq
           example_msecs_to_jiffies 4 example_system_sw11_off
           (set_disabled true
              (example_line (example_button 11 41 EV_SW true 0) 30))
           [Level 41 0; Irq 4; Tick 1005; Work 4; Level 67 0;
            Irq 0; Tick 1010; Work 0]
           example_sw11_off_consistent eq_refl eq_refl eq_refl).
Defined.

(** The home key with its evaluation queued, then disabled: the worker still
    reads GPIO 91. *)
Lemma queued_work_survives_disable_witness :
  ddata example_system_home_queued !! 2%nat
  = Some (set_work true (example_line example_home 0))
  ∧ evaluations
      (log (board_step (Work 2)
              (gpio_keys_disable_button example_gpio_to_irq 2
                 example_system_home_queued)))
    = [GpioGetValue 91 0].
Proof.
  split; [reflexivity|].
  apply (queued_work_survives_disable 67 92 91 91 example_gpio_to_irq
           example_msecs_to_jiffies 2 example_system_home_queued
           (set_work true (example_line example_home 0)) eq_refl eq_refl).
Defined.

(** A press and release of volume up leaves the board consistent. *)
Lemma events_keep_lines_consistent_witness :
  consistent example_gpio_to_irq example_system
  ∧ consistent example_gpio_to_irq
      (board_run [Level 67 0; Irq 0; Tick 1003; Work 0; Level 67 1; Irq 0;
                  Tick 1010; Work 0] example_system).
Proof.
  split; [exact example_consistent|].
  apply (events_keep_lines_consistent 67 92 91 91 example_gpio_to_irq
           example_msecs_to_jiffies
           [Level 67 0; Irq 0; Tick 1003; Work 0; Level 67 1; Irq 0;
            Tick 1010; Work 0] example_system example_consistent).
Defined.

(** A tap on volume up, with its pulse played: flags and work items still
    agree. *)
Lemma flags_mirror_works_invariant_witness :
  flags_mirror_works example_system
  ∧ flags_mirror_works
      (board_run [Level 67 0; Irq 0; Tick 1003; Work 0; Level 67 1; Irq 0;
                  Tick 1010; Work 0; VolumeKeyPressWork] example_system).
Proof.
  assert (H : flags_mirror_works example_system)
    by (repeat split; reflexivity).
  split; [exact H|].
  apply (flags_mirror_works_invariant 67 92 91 91 example_gpio_to_irq
           example_msecs_to_jiffies
           [Level 67 0; Irq 0; Tick 1003; Work 0; Level 67 1; Irq 0;
            Tick 1010; Work 0; VolumeKeyPressWork] example_system H).
Defined.

(** Three edges on the home key, which has no software debounce, before the
    worker runs: one evaluation, at the level then present. *)
Lemma immediate_line_coalesces_witness :
  ddata example_system !! 2%nat = Some (example_line example_home 0)
  ∧ irq_masked (example_gpio_to_irq 91) example_system = false
  ∧ evaluations
      (log (board_run
              (burst 2 91 [(1001, 0); (1002, 1); (1003, 0)]
               ++ [Level 91 1; Work 2]) example_system))
    = [GpioGetValue 91 1].
Proof.
  split; [reflexivity|]. split; [reflexivity|].
  apply (immediate_line_coalesces 67 92 91 91 example_gpio_to_irq
           example_msecs_to_jiffies 2 example_system
           (example_line example_home 0) 1001 0 [(1002, 1); (1003, 0)] 1
           eq_refl eq_refl eq_refl eq_refl).
Defined.



(** Probing and then removing the example board leaves no GPIO held. *)
Lemma probe_then_remove_balanced_witness :
  probe_registers example_gpio_to_irq example_kernel example_pdata = true
  ∧ ∀ g, gpios_held g
           (calls (snd (board_remove
                          (snd (board_probe example_kernel example_pdata
                                  example_system))))) = 0.
Proof.
  split; [reflexivity|].
  destruct (probe_then_remove_balanced 67 92 91 91 example_gpio_to_irq
              example_kernel example_pdata example_system eq_refl)
    as (_ & _ & _ & Hg & _).
  exact Hg.
Defined.

(** C1.  A key whose [type] is left 0 and that may not be disabled.  The
    driver reports it as an [EV_KEY] key, yet a write of its code to
    [disabled_keys] is not refused: the validation skips the line, and the
    write returns its byte count. *)
Lemma store_accepts_untyped_key :
  ddata example_system_untyped !! 0%nat
  = Some (example_line (example_button 30 50 0 false 0) 30)
  ∧ can_disable (example_button 30 50 0 false 0) = false
  ∧ input_events (log (board_report_event 0 example_system_untyped))
    = [InputEvent EV_KEY 30 1]
  ∧ test_bit 30 (bitmap_of [30]) = true
  ∧ gpio_keys_store_disabled_keys example_gpio_to_irq true 0
      (bitmap_of [30]) 3 example_system_untyped
    = (3, emit MutexUnlock (emit MutexLock example_system_untyped)).
Proof. by vm_compute. Qed.

(** C4.  A key whose [type] is left 0 and that may be disabled.  The driver
    reports it as an [EV_KEY] key, yet a successful write of its code to
    [disabled_keys] leaves it enabled, with its interrupt unmasked: the
    apply loop skips the line. *)
Lemma store_skips_untyped_key :
  ddata example_system_untyped !! 1%nat
  = Some (example_line (example_button 31 51 0 true 0) 30)
  ∧ can_disable (example_button 31 51 0 true 0) = true
  ∧ input_events (log (board_report_event 1 example_system_untyped))
    = [InputEvent EV_KEY 31 1]
  ∧ test_bit 31 (bitmap_of [31]) = true
  ∧ gpio_keys_attr_store_helper example_gpio_to_irq true 0
      (bitmap_of [31]) EV_KEY example_system_untyped
    = (0, emit MutexUnlock (emit MutexLock example_system_untyped))
  ∧ disabled (example_line (example_button 31 51 0 true 0) 30) = false
  ∧ irq_masked (example_gpio_to_irq 51)
      (snd (gpio_keys_attr_store_helper example_gpio_to_irq true 0
              (bitmap_of [31]) EV_KEY example_system_untyped)) = false.
Proof. by vm_compute. Qed.

(** C2 as stated fails where the code configured for a line is not the one
    its session emits.  On the example board the home key has code
    [KEY_HOME], and a tap on it pulses 91, the value of
    [HOME_KEY_CODINA_R0_5]; with code 200 on the volume-up line a tap on it
    pulses [KEY_VOLUMEUP].  In neither case is the line's code emitted. *)
Lemma long_press_pulse_ignores_line_code :
  (ddata example_system !! 2%nat = Some (example_line example_home 0)
   ∧ code example_home = KEY_HOME
   ∧ transport_calls
       (log (homekey_release_after 67 92 91 91 example_gpio_to_irq
               example_msecs_to_jiffies 2 91 1 1250
               (board_evaluate 2 91 0 example_system)))
     = [PonkeyRemapPowerKey KEY_POWER 91;
        PonkeyEmulator 91 1; PonkeyEmulator 91 0]
   ∧ KEY_HOME ≠ 91)
  ∧ (ddata example_system_recoded !! 0%nat
     = Some (example_line (example_button 200 67 EV_KEY true 0) 30)
     ∧ transport_calls
         (log (volkey_release_after 67 92 91 91 example_gpio_to_irq
                 example_msecs_to_jiffies 0 67 1 1250
                 (board_evaluate 0 67 0 example_system_recoded)))
       = [PonkeyRemapPowerKey KEY_POWER KEY_VOLUMEUP;
          PonkeyEmulator KEY_VOLUMEUP 1; PonkeyEmulator KEY_VOLUMEUP 0]
     ∧ KEY_VOLUMEUP ≠ 200).
Proof. by vm_compute. Qed.
